(** * Section grader of the GL4U RNAseq notebook grader

    A shallow embedding of the grading core of
    [GL4U_testing/rnaseq_grader.py]: the unit classifier [has_content],
    the default grader [grade_notebook_enhanced], the two specialised
    graders [grade_markdown_exercise_01] and [grade_question_answer], and
    the dispatcher [grade_notebook].

    Modelling conventions.
    - A Python [str] is a [string]; every character is a code point below
      256, so [str.strip], [str.lower] and the regex classes [\s], [\d] are
      the restrictions of Python's to that range.
    - A notebook is the value [json.load] returns, kept dynamically typed
      ([json]); every access the code makes on it is modelled with the
      exception Python raises when the value has the wrong shape.
    - A rubric ([expected_config]) comes from the configuration table of
      the program and is typed; its counts are natural numbers.
    - Python exceptions are values of [exn] in the error monad [res].
    - Module [Shared] runs the default grader on a store of objects, where
      its two arguments are references to dicts and lists that outlive
      the call. *)

From stdpp Require Import gmap strings list.
From Stdlib Require Import Ascii Lia.

Local Open Scope nat_scope.
Local Open Scope stdpp_scope.

(* ===================================================================== *)
(** * Python strings *)
(* ===================================================================== *)

Module PyStr.

Definition code (c : ascii) : nat := nat_of_ascii c.

Definition between (lo hi n : nat) : bool := (lo <=? n) && (n <=? hi).

(** [str.isspace] on one character, which is also the regex class [\s]:
    TAB..CR, FS..US, space, NEL and the no-break space. *)
Definition is_space (c : ascii) : bool :=
  let n := code c in
  between 9 13 n || between 28 31 n || (n =? 32) || (n =? 133) || (n =? 160).

(** The regex class [\d] (decimal digits). *)
Definition is_digit (c : ascii) : bool := between 48 57 (code c).

(** The regex class [[a-z]]. *)
Definition is_lower_az (c : ascii) : bool := between 97 122 (code c).

Definition is_hash (c : ascii) : bool := code c =? 35.
Definition is_dot (c : ascii) : bool := code c =? 46.

Definition newline : ascii := ascii_of_nat 10.
Definition colon : ascii := ascii_of_nat 58.
Definition dquote : string := String (ascii_of_nat 34) EmptyString.

(** [len(s) > 0] *)
Definition nonempty (s : string) : bool :=
  match s with EmptyString => false | String _ _ => true end.

Fixpoint drop_while (p : ascii -> bool) (s : string) : string :=
  match s with
  | EmptyString => EmptyString
  | String c s' => if p c then drop_while p s' else s
  end.

Fixpoint take_while (p : ascii -> bool) (s : string) : string :=
  match s with
  | EmptyString => EmptyString
  | String c s' => if p c then String c (take_while p s') else EmptyString
  end.

(** [s.lstrip()], [s.rstrip()], [s.strip()] *)
Definition lstrip (s : string) : string := drop_while is_space s.
Definition rstrip (s : string) : string :=
  String.rev (drop_while is_space (String.rev s)).
Definition strip (s : string) : string := rstrip (lstrip s).

(** [s.startswith(p)] *)
Fixpoint startswith (p s : string) : bool :=
  match p, s with
  | EmptyString, _ => true
  | String a p', String b s' => if ascii_dec a b then startswith p' s' else false
  | String _ _, EmptyString => false
  end.

(** [sub in s] *)
Fixpoint contains (sub s : string) : bool :=
  startswith sub s ||
  match s with
  | EmptyString => false
  | String _ s' => contains sub s'
  end.

(** [s[s.find(c) + 1:]] when [s.find(c) != -1], for a one-character [c]. *)
Fixpoint after_first (c : ascii) (s : string) : option string :=
  match s with
  | EmptyString => None
  | String a s' => if ascii_dec a c then Some s' else after_first c s'
  end.

(** [s.split(c)] for a one-character separator: never the empty list. *)
Fixpoint split_go (c : ascii) (cur : string) (s : string) : list string :=
  match s with
  | EmptyString => [String.rev cur]
  | String a s' =>
      if ascii_dec a c then String.rev cur :: split_go c EmptyString s'
      else split_go c (String a cur) s'
  end.
Definition split (c : ascii) (s : string) : list string :=
  split_go c EmptyString s.

(** [s.lower()] on code points below 256: A-Z and the capital letters
    of the Latin-1 supplement (U+00C0..U+00DE but the sign U+00D7). *)
Definition lower_char (c : ascii) : ascii :=
  let n := code c in
  if between 65 90 n || (between 192 222 n && negb (n =? 215))
  then ascii_of_nat (n + 32) else c.

Fixpoint lower (s : string) : string :=
  match s with
  | EmptyString => EmptyString
  | String c s' => String (lower_char c) (lower s')
  end.

(** The characters of a string, as Python iterates over it. *)
Fixpoint chars (s : string) : list string :=
  match s with
  | EmptyString => []
  | String c s' => String c EmptyString :: chars s'
  end.

(** [c] occurs somewhere in [s]. *)
Definition occurs (c : ascii) (s : string) : Prop :=
  ∃ a b, s = a +:+ String c b.

End PyStr.

(* ===================================================================== *)
(** * The header patterns *)
(* ===================================================================== *)

(** Each pattern is a sequence of character classes, every class disjoint
    from the one that follows it, so the greedy match is the only one and
    no backtracking changes the captured group.  The patterns are anchored
    at the start of their subject ([^], no MULTILINE flag). *)
Module Header.
Import PyStr.

(** The tail [\.?\s+] of all four patterns: an optional dot, then at
    least one whitespace character. *)
Definition dot_then_space (s : string) : bool :=
  let s' := match s with
            | String c r => if is_dot c then r else s
            | EmptyString => s
            end in
  match s' with
  | String c _ => is_space c
  | EmptyString => false
  end.

(** [(\d+)\.?\s+] : the captured digits. *)
Definition capture_main (s : string) : option string :=
  let d := take_while is_digit s in
  if nonempty d && dot_then_space (drop_while is_digit s)
  then Some d else None.

(** [(\d+[a-z])\.?\s+] : the captured digits and letter. *)
Definition capture_sub (s : string) : option string :=
  let d := take_while is_digit s in
  match drop_while is_digit s with
  | String c r =>
      if nonempty d && is_lower_az c && dot_then_space r
      then Some (d +:+ String c EmptyString) else None
  | EmptyString => None
  end.

(** [(\d+[a-z]?)\.?\s+] : the captured digits and optional letter.
    The letter is taken when it is there: without it the tail would
    have to start at the letter, which is neither a dot nor a blank. *)
Definition capture_simple (s : string) : option string :=
  let d := take_while is_digit s in
  match drop_while is_digit s with
  | String c r =>
      if is_lower_az c then
        if nonempty d && dot_then_space r
        then Some (d +:+ String c EmptyString) else None
      else
        if nonempty d && dot_then_space (String c r) then Some d else None
  | EmptyString => None
  end.

(** [^\s*#+\s+] : what follows the heading markers and the blanks. *)
Definition after_markers (line : string) : option string :=
  match drop_while is_space line with
  | String c r =>
      if is_hash c then
        match drop_while is_hash r with
        | String b r' =>
            if is_space b then Some (drop_while is_space r') else None
        | EmptyString => None
        end
      else None
  | EmptyString => None
  end.

(** [^\s*###\s+] : exactly three heading markers. *)
Definition after_three_markers (line : string) : option string :=
  match drop_while is_space line with
  | String c1 (String c2 (String c3 (String b r))) =>
      if is_hash c1 && is_hash c2 && is_hash c3 && is_space b
      then Some (drop_while is_space r) else None
  | _ => None
  end.

(** [re.search(r'^\s*#+\s+(\d+)\.?\s+', line)], the group. *)
Definition match_main (line : string) : option string :=
  match after_markers line with
  | Some r => capture_main r
  | None => None
  end.

(** [re.search(r'^\s*#+\s+(\d+[a-z])\.?\s+', line)], the group. *)
Definition match_sub (line : string) : option string :=
  match after_markers line with
  | Some r => capture_sub r
  | None => None
  end.

(** [re.search(r'^\s*###\s+(\d+[a-z])\.?\s+', line)], the group. *)
Definition match_sub3 (line : string) : option string :=
  match after_three_markers line with
  | Some r => capture_sub r
  | None => None
  end.

(** [re.match(r'^#+\s*(\d+[a-z]?)\.?\s+', s)], the group. *)
Definition match_simple (s : string) : option string :=
  match s with
  | String c r =>
      if is_hash c
      then capture_simple (drop_while is_space (drop_while is_hash r))
      else None
  | EmptyString => None
  end.

(** The key a captured group stands for: [group(1) + "."]. *)
Definition key_of (group : string) : string := group +:+ ".".

(** ** The patterns as sets of strings

    What it means for a pattern to match a prefix of its subject with a
    given group, read off the pattern with no order of choices: the
    matchers above are checked against these below. *)

Fixpoint all_chars (p : ascii -> bool) (s : string) : bool :=
  match s with
  | EmptyString => true
  | String c r => p c && all_chars p r
  end.

(** One or more characters of a class. *)
Definition run_of (p : ascii -> bool) (s : string) : Prop :=
  s ≠ EmptyString ∧ all_chars p s = true.

(** [s] does not start with a character of the class. *)
Definition starts_outside (p : ascii -> bool) (s : string) : Prop :=
  match s with
  | EmptyString => True
  | String c _ => p c = false
  end.

(** [\.?\s+] at the start of [s]. *)
Definition tail_pattern (s : string) : Prop :=
  ∃ dot ws rest,
    s = dot +:+ ws +:+ rest ∧ (dot = EmptyString ∨ dot = ".")
    ∧ run_of is_space ws.

(** [(\d+)\.?\s+] at the start of [s], with the group. *)
Definition main_group (s group : string) : Prop :=
  ∃ t, s = group +:+ t ∧ run_of is_digit group ∧ tail_pattern t.

(** [(\d+[a-z])\.?\s+] at the start of [s], with the group. *)
Definition sub_group (s group : string) : Prop :=
  ∃ d c t,
    group = d +:+ String c EmptyString ∧ s = group +:+ t
    ∧ run_of is_digit d ∧ is_lower_az c = true ∧ tail_pattern t.

(** [^\s*#+\s+(\d+)\.?\s+] *)
Definition main_pattern (line group : string) : Prop :=
  ∃ ws hs ws2 r,
    line = ws +:+ hs +:+ ws2 +:+ r ∧ all_chars is_space ws = true
    ∧ run_of is_hash hs ∧ run_of is_space ws2 ∧ main_group r group.

(** [^\s*#+\s+(\d+[a-z])\.?\s+] *)
Definition sub_pattern (line group : string) : Prop :=
  ∃ ws hs ws2 r,
    line = ws +:+ hs +:+ ws2 +:+ r ∧ all_chars is_space ws = true
    ∧ run_of is_hash hs ∧ run_of is_space ws2 ∧ sub_group r group.

(** [^\s*###\s+(\d+[a-z])\.?\s+] *)
Definition sub3_pattern (line group : string) : Prop :=
  ∃ ws ws2 r,
    line = ws +:+ "###" +:+ ws2 +:+ r ∧ all_chars is_space ws = true
    ∧ run_of is_space ws2 ∧ sub_group r group.

(** [^#+\s*(\d+[a-z]?)\.?\s+] *)
Definition simple_pattern (s group : string) : Prop :=
  ∃ hs ws r,
    s = hs +:+ ws +:+ r ∧ run_of is_hash hs ∧ all_chars is_space ws = true
    ∧ (main_group r group ∨ sub_group r group).

End Header.

(* ===================================================================== *)
(** * Exceptions and dynamically typed values *)
(* ===================================================================== *)

(** The exceptions the grading code can raise.  [LoadError] stands for
    whatever [open] and [json.load] raise (OSError, JSONDecodeError,
    UnicodeDecodeError): all of them are subclasses of [Exception]. *)
Inductive exn :=
| KeyError (key : string)
| TypeError
| AttributeError
| IndexError
| LoadError.

Inductive res (A : Type) :=
| Ok (a : A)
| Raise (e : exn).
Arguments Ok {A} a.
Arguments Raise {A} e.

Definition bind {A B : Type} (m : res A) (f : A -> res B) : res B :=
  match m with
  | Ok a => f a
  | Raise e => Raise e
  end.

Notation "'let*' x ':=' m 'in' k" := (bind m (fun x => k))
  (at level 10, x name, m at level 100, k at level 200,
   format "'[v' 'let*'  x  ':='  m  'in' '/' k ']'").

(** The value [json.load] builds: [JObj] lists the items of the dict in
    insertion order, its keys pairwise distinct.  The payload of a number
    plays no part in grading. *)
Local Unset Elimination Schemes.
Inductive json :=
| JNull
| JBool (b : bool)
| JNum (n : Z)
| JStr (s : string)
| JArr (items : list json)
| JObj (fields : list (string * json)).
Local Set Elimination Schemes.

Module Py.

Fixpoint assoc {A : Type} (k : string) (l : list (string * A)) : option A :=
  match l with
  | [] => None
  | (k', v) :: l' => if decide (k' = k) then Some v else assoc k l'
  end.

(** [v[k]] for a string [k] *)
Definition subscript (v : json) (k : string) : res json :=
  match v with
  | JObj fields =>
      match assoc k fields with
      | Some x => Ok x
      | None => Raise (KeyError k)
      end
  | _ => Raise TypeError
  end.

(** [v.get(k, default)] *)
Definition get (v : json) (k : string) (default : json) : res json :=
  match v with
  | JObj fields =>
      match assoc k fields with
      | Some x => Ok x
      | None => Ok default
      end
  | _ => Raise AttributeError
  end.

(** The elements [for ... in v] goes through. *)
Definition iter (v : json) : res (list json) :=
  match v with
  | JArr items => Ok items
  | JStr s => Ok (JStr <$> PyStr.chars s)
  | JObj fields => Ok (JStr <$> fields.*1)
  | _ => Raise TypeError
  end.

(** ["".join(l)] on the elements of an iterable: each must be a [str]. *)
Fixpoint join_items (l : list json) : res string :=
  match l with
  | [] => Ok EmptyString
  | JStr s :: l' => let* r := join_items l' in Ok (s +:+ r)
  | _ :: _ => Raise TypeError
  end.

(** ["".join(v)] *)
Definition join (v : json) : res string :=
  let* l := iter v in join_items l.

(** [len(v)] *)
Definition len (v : json) : res nat :=
  match v with
  | JArr items => Ok (length items)
  | JStr s => Ok (String.length s)
  | JObj fields => Ok (length fields)
  | _ => Raise TypeError
  end.

(** [v == s] for a string literal [s] *)
Definition eq_str (v : json) (s : string) : bool :=
  match v with
  | JStr s' => bool_decide (s' = s)
  | _ => false
  end.

(** [v is not None] *)
Definition is_not_none (v : json) : bool :=
  match v with
  | JNull => false
  | _ => true
  end.

(** Truth value of a variable that holds [None] or a [str]. *)
Definition truthy (o : option string) : bool :=
  match o with
  | Some s => PyStr.nonempty s
  | None => false
  end.

End Py.

(* ===================================================================== *)
(** * The unit classifier *)
(* ===================================================================== *)

(** ["".join(cell.get("source", []))] *)
Definition joined_source (cell : json) : res string :=
  let* src := Py.get cell "source" (JArr []) in Py.join src.

(** The question rule shared by [has_content] and [grade_question_answer]:
    the text after the first colon, stripped, is not empty. *)
Definition answered (source : string) : bool :=
  match PyStr.after_first PyStr.colon source with
  | Some rest => PyStr.nonempty (PyStr.strip rest)
  | None => false
  end.

Definition has_content (cell : json) : res bool :=
  let* joined := joined_source cell in
  let source := PyStr.strip joined in
  if PyStr.startswith "Question" source then
    Ok (answered source)
  else
    let* ct := Py.subscript cell "cell_type" in
    if Py.eq_str ct "code" then
      let* outputs := Py.get cell "outputs" (JArr []) in
      let* execution_count := Py.get cell "execution_count" JNull in
      if PyStr.nonempty source then
        let* n := Py.len outputs in
        if 0 <? n then Ok true else Ok (Py.is_not_none execution_count)
      else Ok false
    else if Py.eq_str ct "markdown" then Ok (PyStr.nonempty source)
    else if Py.eq_str ct "raw" then Ok (PyStr.nonempty source)
    else Ok false.

(* ===================================================================== *)
(** * Rubrics and grading results *)
(* ===================================================================== *)

(** A section descriptor that is a dict: each key may be absent.  The
    [name] entry plays no part in grading and is left out. *)
Record section_dict := SectionDict {
  code_cells : option nat;
  raw_cells : option nat;
  points : option nat;
  special : option string
}.

(** A value of [expected_config['sections']]: a dict, or a plain number of
    points. *)
Inductive expected :=
| ExpDict (d : section_dict)
| ExpNumber (p : nat).

(** [expected_config]: the items of ['sections'] in dict order. *)
Record expected_config := ExpectedConfig {
  asset_id : option string;
  sections : list (string * expected)
}.

(** [section in expected_config['sections']] *)
Definition in_rubric (cfg : expected_config) (k : string) : bool :=
  bool_decide (k ∈ (sections cfg).*1).

(** [expected.get('points', 0)] for a dict, the value itself otherwise. *)
Definition points_of (e : expected) : nat :=
  match e with
  | ExpDict d => default 0 (points d)
  | ExpNumber p => p
  end.

(** The value stored under [results['sections'][section]]. *)
Inductive section_score :=
| SplitScore (code raw total expected_code expected_raw expected_total : nat)
| PlainScore (earned : nat).

(** [results['missed_indices']]: per key the two lists of the default
    grader, or the single list of the specialised graders (whose key can
    be [None]); absent from the result of a failed grading. *)
Inductive missed_report :=
| MissedByKind (m : gmap string (list nat * list nat))
| MissedFlat (m : gmap (option string) (list nat))
| MissedAbsent.

(** [f"Error processing notebook: {str(e)}"] *)
Inductive issue :=
| ErrorProcessingNotebook (e : exn).

Record results := Results {
  res_sections : gmap string section_score;
  res_total_points : nat;
  res_missed_indices : missed_report;
  res_issues : option (list issue)
}.

(** [d[k] += 1] *)
Definition increment (d : gmap string nat) (k : string) : res (gmap string nat) :=
  match d !! k with
  | Some n => Ok (<[k := S n]> d)
  | None => Raise (KeyError k)
  end.

(** [d[k]] *)
Definition item {V : Type} (d : gmap string V) (k : string) : res V :=
  match d !! k with
  | Some v => Ok v
  | None => Raise (KeyError k)
  end.

(** The header scan of the two specialised graders: the key of a line
    that starts with a heading marker and whose stripped text matches. *)
Definition simple_header (line : string) : option string :=
  if PyStr.startswith "#" line
  then Header.key_of <$> Header.match_simple (PyStr.strip line)
  else None.

(** [for line in ...: if ...: if match: ...; break]: the first line that
    matches ends the loop. *)
Fixpoint first_header (lines : list string) : option string :=
  match lines with
  | [] => None
  | line :: rest =>
      match simple_header line with
      | Some k => Some k
      | None => first_header rest
      end
  end.

(** The "Calculate points" loop of the two specialised graders, on the
    pair ([results['sections']], [results['total_points']]). *)
Definition score_plain (section_completed : gmap string nat)
    (acc : gmap string section_score * nat) (entry : string * expected)
  : gmap string section_score * nat :=
  let completed := default 0 (section_completed !! entry.1) in
  let earned := completed `min` points_of entry.2 in
  (<[entry.1 := PlainScore earned]> acc.1, acc.2 + earned).

(* ===================================================================== *)
(** * The default grader *)
(* ===================================================================== *)

Module Enhanced.

(** The local variables of [grade_notebook_enhanced] the cell loop
    updates.  [sections_found] is only written, for debugging, and is
    left out. *)
Record state := State {
  current_section : option string;
  current_subsection : option string;
  section_completed_code : gmap string nat;
  section_cell_counts_code : gmap string nat;
  section_completed_raw : gmap string nat;
  section_cell_counts_raw : gmap string nat;
  missed_indices : gmap string (list nat * list nat)
}.

Definition initial : state := State None None ∅ ∅ ∅ ∅ ∅.

Definition set_current_section (k : string) (st : state) : state :=
  State (Some k) (current_subsection st)
    (section_completed_code st) (section_cell_counts_code st)
    (section_completed_raw st) (section_cell_counts_raw st)
    (missed_indices st).

Definition set_current_subsection (k : string) (st : state) : state :=
  State (current_section st) (Some k)
    (section_completed_code st) (section_cell_counts_code st)
    (section_completed_raw st) (section_cell_counts_raw st)
    (missed_indices st).

(** "Initialize section tracking if needed" *)
Definition init_tracking (cfg : expected_config) (k : string) (st : state)
  : state :=
  if in_rubric cfg k && bool_decide (section_completed_code st !! k = None)
  then State (current_section st) (current_subsection st)
         (<[k := 0]> (section_completed_code st))
         (<[k := 0]> (section_cell_counts_code st))
         (<[k := 0]> (section_completed_raw st))
         (<[k := 0]> (section_cell_counts_raw st))
         (<[k := ([], [])]> (missed_indices st))
  else st.

(** ['02-rnaseq_analysis' in asset_id.lower()] *)
Definition is_analysis_notebook (cfg : expected_config) : bool :=
  PyStr.contains "02-rnaseq_analysis"
    (PyStr.lower (default EmptyString (asset_id cfg))).

Definition deseq_anchor : string :=
  "<a class=" +:+ PyStr.dquote +:+ "anchor" +:+ PyStr.dquote +:+
  " id=" +:+ PyStr.dquote +:+ "deseq" +:+ PyStr.dquote +:+ "></a>".

(** What one line appends to [main_sections] and to [subsections]. *)
Definition line_headers (analysis : bool) (line : string)
  : option string * option string :=
  if analysis then
    (Header.key_of <$> Header.match_main line,
     Header.key_of <$> Header.match_sub line)
  else
    let s := PyStr.strip line in
    if PyStr.startswith "#" s && negb (PyStr.startswith "###" s) then
      (Header.key_of <$> Header.match_main line, None)
    else if PyStr.startswith "###" s then
      (None, Header.key_of <$> Header.match_sub3 line)
    else (None, None).

Definition main_sections (analysis : bool) (source : string) : list string :=
  omap (fun line => (line_headers analysis line).1)
       (PyStr.split PyStr.newline source).

Definition subsections (analysis : bool) (source : string) : list string :=
  omap (fun line => (line_headers analysis line).2)
       (PyStr.split PyStr.newline source).

(** The header part of the loop body, for a markdown cell of text
    [source]. *)
Definition track_headers (cfg : expected_config) (source : string)
    (st : state) : state :=
  let st1 :=
    if PyStr.contains deseq_anchor source
       && PyStr.contains "# 2. DESeq2" source
    then init_tracking cfg "2." (set_current_section "2." st)
    else st in
  let st2 :=
    match last (main_sections (is_analysis_notebook cfg) source) with
    | Some k => init_tracking cfg k (set_current_section k st1)
    | None => st1
    end in
  match last (subsections (is_analysis_notebook cfg) source) with
  | Some k => init_tracking cfg k (set_current_subsection k st2)
  | None => st2
  end.

(** [current_subsection if current_subsection else current_section] *)
Definition active_section (st : state) : option string :=
  if Py.truthy (current_subsection st) then current_subsection st
  else current_section st.

(** The branch of a code cell under the active key [k]. *)
Definition count_code (k : string) (cell : json) (st : state) : res state :=
  let* counts := increment (section_cell_counts_code st) k in
  let* complete := has_content cell in
  if complete then
    let* completed := increment (section_completed_code st) k in
    Ok (State (current_section st) (current_subsection st)
          completed counts
          (section_completed_raw st) (section_cell_counts_raw st)
          (missed_indices st))
  else
    let* m := item (missed_indices st) k in
    let* n := item counts k in
    Ok (State (current_section st) (current_subsection st)
          (section_completed_code st) counts
          (section_completed_raw st) (section_cell_counts_raw st)
          (<[k := (m.1 ++ [n], m.2)]> (missed_indices st))).

(** The branch of a raw cell under the active key [k]. *)
Definition count_raw (k : string) (cell : json) (st : state) : res state :=
  let* counts := increment (section_cell_counts_raw st) k in
  let* complete := has_content cell in
  if complete then
    let* completed := increment (section_completed_raw st) k in
    Ok (State (current_section st) (current_subsection st)
          (section_completed_code st) (section_cell_counts_code st)
          completed counts
          (missed_indices st))
  else
    let* m := item (missed_indices st) k in
    let* n := item counts k in
    Ok (State (current_section st) (current_subsection st)
          (section_completed_code st) (section_cell_counts_code st)
          (section_completed_raw st) counts
          (<[k := (m.1, m.2 ++ [n])]> (missed_indices st))).

(** One iteration of the cell loop. *)
Definition step (cfg : expected_config) (st : state) (cell : json)
  : res state :=
  let* ct := Py.subscript cell "cell_type" in
  let* st1 :=
    (if Py.eq_str ct "markdown" then
       let* source := joined_source cell in
       Ok (track_headers cfg source st)
     else Ok st) in
  match active_section st1 with
  | Some k =>
      if Py.truthy (Some k) && in_rubric cfg k then
        if Py.eq_str ct "code" then count_code k cell st1
        else if Py.eq_str ct "raw" then count_raw k cell st1
        else Ok st1
      else Ok st1
  | None => Ok st1
  end.

(** [for idx, cell in enumerate(...)] from a given state. *)
Fixpoint scan (cfg : expected_config) (cells : list json) (st : state)
  : res state :=
  match cells with
  | [] => Ok st
  | cell :: rest => let* st' := step cfg st cell in scan cfg rest st'
  end.

(** The variables of the "Calculate points" loop. *)
Record tally := Tally {
  completed_code : gmap string nat;
  completed_raw : gmap string nat;
  scored : gmap string section_score;
  total_points : nat;
  total_expected_points : nat
}.

(** One iteration of the "Calculate points" loop. *)
Definition score_section (t : tally) (entry : string * expected) : tally :=
  let section := entry.1 in
  match entry.2 with
  | ExpDict (SectionDict (Some expected_code) raw_opt _ _) =>
      let expected_raw := default 0 raw_opt in
      let missing := bool_decide (completed_code t !! section = None) in
      let cc := if missing then <[section := 0]> (completed_code t)
                else completed_code t in
      let cr := if missing then <[section := 0]> (completed_raw t)
                else completed_raw t in
      let earned_code := default 0 (cc !! section) `min` expected_code in
      let earned_raw := default 0 (cr !! section) `min` expected_raw in
      let total_earned := earned_code + earned_raw in
      let total_expected := expected_code + expected_raw in
      Tally cc cr
        (<[section := SplitScore earned_code earned_raw total_earned
                        expected_code expected_raw total_expected]>
           (scored t))
        (total_points t + total_earned)
        (total_expected_points t + total_expected)
  | e =>
      let completed := default 0 (completed_code t !! section) in
      let earned := completed `min` points_of e in
      Tally (completed_code t) (completed_raw t)
        (<[section := PlainScore earned]> (scored t))
        (total_points t + earned)
        (total_expected_points t + points_of e)
  end.

Definition calculate_points (cfg : expected_config) (st : state) : tally :=
  fold_left score_section (sections cfg)
    (Tally (section_completed_code st) (section_completed_raw st) ∅ 0 0).

Definition report (cfg : expected_config) (st : state) : results :=
  let t := calculate_points cfg st in
  Results (scored t) (total_points t) (MissedByKind (missed_indices st)) None.

(** The function up to the end of the cell loop: every local variable
    is created afresh, then [notebook['cells']] is walked. *)
Definition run (notebook : json) (cfg : expected_config) : res state :=
  let* cells_value := Py.subscript notebook "cells" in
  let* cells := Py.iter cells_value in
  scan cfg cells initial.

(** ** What the statements about the default grader speak of *)

(** What the loop stores for an entry, from the counters of the scan. *)
Definition score_of (cc cr : gmap string nat) (k : string) (e : expected)
  : section_score :=
  match e with
  | ExpDict (SectionDict (Some c) raw_opt _ _) =>
      let ec := default 0 (cc !! k) `min` c in
      let er := default 0 (cr !! k) `min` default 0 raw_opt in
      SplitScore ec er (ec + er) c (default 0 raw_opt) (c + default 0 raw_opt)
  | _ => PlainScore (default 0 (cc !! k) `min` points_of e)
  end.

Definition earned_of (cc cr : gmap string nat) (k : string) (e : expected)
  : nat :=
  match score_of cc cr k e with
  | SplitScore _ _ total _ _ _ => total
  | PlainScore earned => earned
  end.

(** The expected total of an entry. *)
Definition expected_total_of (e : expected) : nat :=
  match e with
  | ExpDict (SectionDict (Some c) raw_opt _ _) => c + default 0 raw_opt
  | _ => points_of e
  end.

(** The score of a key no cell was counted for. *)
Definition missed_score (e : expected) : section_score :=
  match e with
  | ExpDict (SectionDict (Some c) raw_opt _ _) =>
      SplitScore 0 0 0 c (default 0 raw_opt) (c + default 0 raw_opt)
  | _ => PlainScore 0
  end.

(** A key without a code counter has no raw count either. *)
Definition raw_follows_code (cc cr : gmap string nat) : Prop :=
  ∀ k, cc !! k = None → default 0 (cr !! k) = 0.

(** The five dictionaries have the same keys, and a current key that
    the rubric knows is one of them. *)
Record invariant (cfg : expected_config) (st : state) : Prop := Invariant {
  inv_counts_code :
    dom (section_cell_counts_code st) = dom (section_completed_code st);
  inv_completed_raw :
    dom (section_completed_raw st) = dom (section_completed_code st);
  inv_counts_raw :
    dom (section_cell_counts_raw st) = dom (section_completed_code st);
  inv_missed :
    dom (missed_indices st) = dom (section_completed_code st);
  inv_section : ∀ k,
    current_section st = Some k → in_rubric cfg k = true →
    k ∈ dom (section_completed_code st);
  inv_subsection : ∀ k,
    current_subsection st = Some k → in_rubric cfg k = true →
    k ∈ dom (section_completed_code st)
}.

(** The keys a markdown cell of text [source] makes current. *)
Definition header_keys (cfg : expected_config) (source : string)
  : list string :=
  (if PyStr.contains deseq_anchor source
      && PyStr.contains "# 2. DESeq2" source then ["2."] else [])
  ++ option_list (last (main_sections (is_analysis_notebook cfg) source))
  ++ option_list (last (subsections (is_analysis_notebook cfg) source)).

(** A cell the loop cannot get past: it has no [cell_type] to read, or
    it is a markdown cell whose source cannot be joined. *)
Definition unreadable (cell : json) : Prop :=
  (∃ e, Py.subscript cell "cell_type" = Raise e)
  ∨ (∃ ct e, Py.subscript cell "cell_type" = Ok ct
             ∧ Py.eq_str ct "markdown" = true
             ∧ joined_source cell = Raise e).

(** No markdown cell among [cells] makes [k] current. *)
Definition never_encountered (cfg : expected_config) (k : string)
    (cells : list json) : Prop :=
  ∀ cell ct src,
    cell ∈ cells → Py.subscript cell "cell_type" = Ok ct →
    Py.eq_str ct "markdown" = true → joined_source cell = Ok src →
    k ∉ header_keys cfg src.

End Enhanced.

Definition grade_notebook_enhanced (notebook : json) (cfg : expected_config)
  : res results :=
  let* st := Enhanced.run notebook cfg in
  Ok (Enhanced.report cfg st).

(* ===================================================================== *)
(** * The markdown-exercise grader *)
(* ===================================================================== *)

Module MarkdownExercise.

(** The local variables of [grade_markdown_exercise_01].  The key of
    [missed_indices] is the value of [current_section], which the second
    pass may use while it still is [None]. *)
Record state := State {
  current_section : option string;
  section_completed : gmap string nat;
  section_cell_counts : gmap string nat;
  code_cells_completed : gmap string nat;
  missed_indices : gmap (option string) (list nat)
}.

Definition initial : state := State None ∅ ∅ ∅ ∅.

(** A header with key [k] was matched. *)
Definition enter_section (k : string) (st : state) : state :=
  if bool_decide (section_completed st !! k = None)
  then State (Some k)
         (<[k := 0]> (section_completed st))
         (<[k := 0]> (section_cell_counts st))
         (<[k := 0]> (code_cells_completed st))
         (<[Some k := []]> (missed_indices st))
  else State (Some k) (section_completed st) (section_cell_counts st)
         (code_cells_completed st) (missed_indices st).

Definition track_header (source : string) (st : state) : state :=
  match first_header (PyStr.split PyStr.newline source) with
  | Some k => enter_section k st
  | None => st
  end.

(** The branch of a code cell under the current key [k]. *)
Definition count_code (k : string) (cell : json) (st : state) : res state :=
  let* counts := increment (section_cell_counts st) k in
  let* complete := has_content cell in
  if complete then
    let* completed := increment (section_completed st) k in
    let* code_completed := increment (code_cells_completed st) k in
    Ok (State (current_section st) completed counts code_completed
          (missed_indices st))
  else
    Ok (State (current_section st) (section_completed st) counts
          (code_cells_completed st)
          (<[Some k := []]> (missed_indices st))).

(** One iteration of the first pass. *)
Definition step (cfg : expected_config) (st : state) (cell : json)
  : res state :=
  let* ct := Py.subscript cell "cell_type" in
  let* st1 :=
    (if Py.eq_str ct "markdown" then
       let* source := joined_source cell in
       Ok (track_header source st)
     else Ok st) in
  match current_section st1 with
  | Some k =>
      if Py.truthy (Some k) && in_rubric cfg k then
        if Py.eq_str ct "code" then count_code k cell st1 else Ok st1
      else Ok st1
  | None => Ok st1
  end.

Fixpoint first_pass (cfg : expected_config) (cells : list json) (st : state)
  : res state :=
  match cells with
  | [] => Ok st
  | cell :: rest => let* st' := step cfg st cell in first_pass cfg rest st'
  end.

Definition check_text : string :=
  "If you did the step above, you should see a cell above this one with rendered text of whatever you put in.".

(** [code_cells_completed.get(current_section, 0)] *)
Definition code_completed_in_current (st : state) : nat :=
  match current_section st with
  | Some k => default 0 (code_cells_completed st !! k)
  | None => 0
  end.

(** [section_completed[current_section] += 1] *)
Definition grant (st : state) : res state :=
  match current_section st with
  | Some k =>
      let* completed := increment (section_completed st) k in
      Ok (State (current_section st) completed (section_cell_counts st)
            (code_cells_completed st) (missed_indices st))
  | None => Raise (KeyError "None")
  end.

(** [results['missed_indices'][current_section] = []] *)
Definition clear_missed (st : state) : state :=
  State (current_section st) (section_completed st) (section_cell_counts st)
    (code_cells_completed st)
    (<[current_section st := []]> (missed_indices st)).

(** The body of [if check_text in source:] up to the [break], for the
    cell at position [idx].  A cell is only reached after the first pass
    went through all of them, each a dict, so [notebook['cells']] is a
    list and [notebook['cells'][idx-1]] is its element [idx - 1]. *)
Definition check_exercise (all_cells : list json) (idx : nat) (st : state)
  : res state :=
  if 0 <? idx then
    let* prev_cell :=
      (match all_cells !! (idx - 1) with
       | Some c => Ok c
       | None => Raise IndexError
       end) in
    let* prev_source := joined_source prev_cell in
    let* prev_type := Py.subscript prev_cell "cell_type" in
    let* prev_ok :=
      (if Py.eq_str prev_type "markdown" then has_content prev_cell
       else Ok false) in
    if prev_ok then
      if 0 <? code_completed_in_current st then grant st else Ok st
    else Ok (clear_missed st)
  else Ok st.

(** The second pass from position [idx], [cells] being what is left of
    [all_cells] there. *)
Fixpoint second_pass (all_cells : list json) (idx : nat)
    (cells : list json) (st : state) : res state :=
  match cells with
  | [] => Ok st
  | cell :: rest =>
      let* ct := Py.subscript cell "cell_type" in
      if Py.eq_str ct "markdown" then
        let* source := joined_source cell in
        if PyStr.contains check_text source
        then check_exercise all_cells idx st
        else second_pass all_cells (S idx) rest st
      else second_pass all_cells (S idx) rest st
  end.

Definition report (cfg : expected_config) (st : state) : results :=
  let r := fold_left (score_plain (section_completed st)) (sections cfg)
             (∅, 0) in
  Results r.1 r.2 (MissedFlat (missed_indices st)) None.

(** The two passes over [notebook['cells']]. *)
Definition run (notebook : json) (cfg : expected_config) : res state :=
  let* cells_value := Py.subscript notebook "cells" in
  let* cells := Py.iter cells_value in
  let* st1 := first_pass cfg cells initial in
  second_pass cells 0 cells st1.

(** ** What the statements about this grader speak of *)

(** A key with a completion counter has its other entries, its missed
    list among them; no missed list holds an index; the current key has
    its counters. *)
Record invariant (st : state) : Prop := Invariant {
  inv_counts : ∀ k, is_Some (section_completed st !! k) →
                    is_Some (section_cell_counts st !! k);
  inv_code : ∀ k, is_Some (section_completed st !! k) ↔
                  is_Some (code_cells_completed st !! k);
  inv_missed : ∀ k, is_Some (section_completed st !! k) →
                    is_Some (missed_indices st !! Some k);
  inv_empty : ∀ key l, missed_indices st !! key = Some l → l = [];
  inv_current : ∀ k, current_section st = Some k →
                     is_Some (section_completed st !! k)
}.

(** The state after the header part of an iteration of the first pass. *)
Definition after_header (st : state) (ct : json) (source : string) : state :=
  if Py.eq_str ct "markdown" then track_header source st else st.

(** A markdown cell whose text holds the sentence of the exercise. *)
Definition holds_check_text (cell : json) : Prop :=
  ∃ ct src,
    Py.subscript cell "cell_type" = Ok ct ∧ Py.eq_str ct "markdown" = true
    ∧ joined_source cell = Ok src ∧ PyStr.contains check_text src = true.

(** A cell the second pass walks past. *)
Definition lacks_check_text (cell : json) : Prop :=
  ∃ ct,
    Py.subscript cell "cell_type" = Ok ct
    ∧ (Py.eq_str ct "markdown" = true →
       ∃ src, joined_source cell = Ok src
              ∧ PyStr.contains check_text src = false).

(** The unit of the exercise was granted between [st] and [st']: the
    completion counter of the current section went up by one. *)
Definition granted (st st' : state) : Prop :=
  ∃ k n,
    current_section st = Some k ∧ section_completed st !! k = Some n
    ∧ section_completed st' = <[k := S n]> (section_completed st).

End MarkdownExercise.

Definition grade_markdown_exercise_01 (notebook : json)
    (cfg : expected_config) : res results :=
  let* st := MarkdownExercise.run notebook cfg in
  Ok (MarkdownExercise.report cfg st).

(* ===================================================================== *)
(** * The question/answer grader *)
(* ===================================================================== *)

Module QuestionAnswer.

Record state := State {
  current_section : option string;
  section_completed : gmap string nat;
  section_cell_counts : gmap string nat;
  missed_indices : gmap (option string) (list nat)
}.

Definition initial : state := State None ∅ ∅ ∅.

Definition enter_section (k : string) (st : state) : state :=
  if bool_decide (section_completed st !! k = None)
  then State (Some k)
         (<[k := 0]> (section_completed st))
         (<[k := 0]> (section_cell_counts st))
         (<[Some k := []]> (missed_indices st))
  else State (Some k) (section_completed st) (section_cell_counts st)
         (missed_indices st).

Definition track_header (source : string) (st : state) : state :=
  match first_header (PyStr.split PyStr.newline source) with
  | Some k => enter_section k st
  | None => st
  end.

(** The body of [if source.startswith("Question"):] under the current
    key [k]. *)
Definition count_question (k : string) (source : string) (st : state)
  : res state :=
  let* counts := increment (section_cell_counts st) k in
  match PyStr.after_first PyStr.colon source with
  | Some rest =>
      if PyStr.nonempty (PyStr.strip rest) then
        let* completed := increment (section_completed st) k in
        Ok (State (current_section st) completed counts (missed_indices st))
      else
        let* m :=
          (match missed_indices st !! Some k with
           | Some m => Ok m
           | None => Raise (KeyError k)
           end) in
        let* n := item counts k in
        Ok (State (current_section st) (section_completed st) counts
              (<[Some k := m ++ [n]]> (missed_indices st)))
  | None =>
      Ok (State (current_section st) (section_completed st) counts
            (missed_indices st))
  end.

(** One iteration of the cell loop. *)
Definition step (cfg : expected_config) (st : state) (cell : json)
  : res state :=
  let* joined := joined_source cell in
  let source := PyStr.strip joined in
  let* ct := Py.subscript cell "cell_type" in
  let st1 := if Py.eq_str ct "markdown" then track_header source st
             else st in
  match current_section st1 with
  | Some k =>
      if Py.truthy (Some k) && in_rubric cfg k then
        if PyStr.startswith "Question" source
        then count_question k source st1 else Ok st1
      else Ok st1
  | None => Ok st1
  end.

Fixpoint scan (cfg : expected_config) (cells : list json) (st : state)
  : res state :=
  match cells with
  | [] => Ok st
  | cell :: rest => let* st' := step cfg st cell in scan cfg rest st'
  end.

Definition report (cfg : expected_config) (st : state) : results :=
  let r := fold_left (score_plain (section_completed st)) (sections cfg)
             (∅, 0) in
  Results r.1 r.2 (MissedFlat (missed_indices st)) None.

(** The cell loop over [notebook.get('cells', [])]. *)
Definition run (notebook : json) (cfg : expected_config) : res state :=
  let* cells_value := Py.get notebook "cells" (JArr []) in
  let* cells := Py.iter cells_value in
  scan cfg cells initial.


(** ** What the statements about this grader speak of *)

(** A key with a completion counter has the other two entries as well,
    and the current key is such a key. *)
Record invariant (st : state) : Prop := Invariant {
  inv_counts : ∀ k, is_Some (section_completed st !! k) →
                    is_Some (section_cell_counts st !! k);
  inv_missed : ∀ k, is_Some (section_completed st !! k) →
                    is_Some (missed_indices st !! Some k);
  inv_current : ∀ k, current_section st = Some k →
                     is_Some (section_completed st !! k);
  inv_nonempty : ∀ k, current_section st = Some k →
                      PyStr.nonempty k = true
}.

(** The state after the header part of an iteration. *)
Definition after_header (st : state) (ct : json) (source : string) : state :=
  if Py.eq_str ct "markdown" then track_header source st else st.

End QuestionAnswer.

Definition grade_question_answer (notebook : json) (cfg : expected_config)
  : res results :=
  let* st := QuestionAnswer.run notebook cfg in
  Ok (QuestionAnswer.report cfg st).

(* ===================================================================== *)
(** * The dispatcher *)
(* ===================================================================== *)

(** [isinstance(section, dict) and 'special' in section] *)
Definition special_tag (e : expected) : option string :=
  match e with
  | ExpDict d => special d
  | ExpNumber _ => None
  end.

(** ['missed_indices' in grading_result] *)
Definition has_missed_indices (r : results) : bool :=
  match res_missed_indices r with
  | MissedAbsent => false
  | _ => true
  end.

(** The loop under [if special_grading:]; [None] when it falls through. *)
Fixpoint special_dispatch (notebook : json) (cfg : expected_config)
    (entries : list (string * expected)) : res (option results) :=
  match entries with
  | [] => Ok None
  | entry :: rest =>
      match special_tag entry.2 with
      | Some tag =>
          if bool_decide (tag = "markdown_exercise_01") then
            let* grading_result := grade_markdown_exercise_01 notebook cfg in
            if has_missed_indices grading_result then Ok (Some grading_result)
            else special_dispatch notebook cfg rest
          else if bool_decide (tag = "question_answer") then
            let* r := grade_question_answer notebook cfg in Ok (Some r)
          else special_dispatch notebook cfg rest
      | None => special_dispatch notebook cfg rest
      end
  end.

(** The body of the [try] block once the file has been read. *)
Definition grade_loaded (notebook : json) (cfg : expected_config)
  : res results :=
  let special_grading :=
    existsb (fun entry => bool_decide (is_Some (special_tag entry.2)))
            (sections cfg) in
  let* special_result :=
    (if special_grading then special_dispatch notebook cfg (sections cfg)
     else Ok None) in
  match special_result with
  | Some r => Ok r
  | None => grade_notebook_enhanced notebook cfg
  end.

(** No section descriptor of the rubric carries a [special] tag. *)
Definition plain_rubric (cfg : expected_config) : Prop :=
  Forall (fun entry => special_tag entry.2 = None) (sections cfg).

(** What the [except Exception] clause returns. *)
Definition error_result (e : exn) : results :=
  Results ∅ 0 MissedAbsent (Some [ErrorProcessingNotebook e]).

(** [grade_notebook]: [loaded] is the outcome of opening the file at
    [notebook_path] and of [json.load] on it. *)
Definition grade_notebook (loaded : res json) (cfg : expected_config)
  : results :=
  match (let* notebook := loaded in grade_loaded notebook cfg) with
  | Ok r => r
  | Raise e => error_result e
  end.

(* ===================================================================== *)
(** * Documents of the expected shape *)
(* ===================================================================== *)

(** The shape of a notebook document,
    [{ cells: [ {cell_type, source, outputs?, execution_count?}, ... ] }],
    where [source] is a string or a sequence of strings. *)
Module Shape.

Definition is_str (v : json) : bool :=
  match v with JStr _ => true | _ => false end.

Definition is_text (v : json) : bool :=
  match v with
  | JStr _ => true
  | JArr items => forallb is_str items
  | _ => false
  end.

Definition is_cell (c : json) : bool :=
  match c with
  | JObj fields =>
      match Py.assoc "cell_type" fields with
      | Some v => is_str v
      | None => false
      end
      && match Py.assoc "source" fields with
         | Some v => is_text v
         | None => false
         end
      && match Py.assoc "outputs" fields with
         | Some (JArr _) | None => true
         | Some _ => false
         end
  | _ => false
  end.

Definition is_notebook (nb : json) : bool :=
  match nb with
  | JObj fields =>
      match Py.assoc "cells" fields with
      | Some (JArr cells) => forallb is_cell cells
      | _ => false
      end
  | _ => false
  end.

End Shape.

(* ===================================================================== *)
(** * The caller's loop *)
(* ===================================================================== *)

(** The loop of the caller over the documents of a submission, each with
    its rubric: one call of [grade_notebook] per document. *)
Definition grade_all (documents : list (res json * expected_config))
  : list results :=
  (fun d => grade_notebook d.1 d.2) <$> documents.

(* ===================================================================== *)
(** * Sample documents and rubrics *)
(* ===================================================================== *)

Module Sample.

Definition markdown_cell (source : string) : json :=
  JObj [("cell_type", JStr "markdown"); ("source", JStr source)].

Definition raw_cell (source : string) : json :=
  JObj [("cell_type", JStr "raw"); ("source", JStr source)].

(** A code cell that was run and printed something. *)
Definition run_code_cell (source : string) : json :=
  JObj [("cell_type", JStr "code"); ("source", JStr source);
        ("outputs", JArr [JObj [("output_type", JStr "stream")]]);
        ("execution_count", JNum 1)].

(** A code cell that was never run. *)
Definition idle_code_cell (source : string) : json :=
  JObj [("cell_type", JStr "code"); ("source", JStr source);
        ("outputs", JArr []); ("execution_count", JNull)].

Definition notebook_of (cells : list json) : json :=
  JObj [("cells", JArr cells); ("nbformat", JNum 4)].

(** [{"code_cells": c, "raw_cells": r}] *)
Definition split_section (c r : nat) : expected :=
  ExpDict (SectionDict (Some c) (Some r) None None).

(** [{"points": p, "special": tag}] *)
Definition special_section (p : nat) (tag : string) : expected :=
  ExpDict (SectionDict None None (Some p) (Some tag)).

Definition lines (l : list string) : string :=
  fold_right (fun line rest =>
                match rest with
                | EmptyString => line
                | _ => line +:+ String PyStr.newline rest
                end) EmptyString l.

(** The scenario of the specification: one section, four cells. *)
Definition scenario_rubric : expected_config :=
  ExpectedConfig None [("1.", ExpDict (SectionDict (Some 2) (Some 1) None None))].

Definition scenario_notebook : json :=
  notebook_of [markdown_cell "# 1. Title"; run_code_cell "x = 1";
               idle_code_cell ""; raw_cell "my answer"].

(** Three entries of the rubric of the analysis notebook. *)
Definition analysis_rubric : expected_config :=
  ExpectedConfig (Some "02-RNAseq_analysis.ipynb")
    [("1.", split_section 0 0); ("1c.", split_section 6 3);
     ("2.", split_section 0 2)].

(** A subsection, then the next top-level section with its two raw
    cells. *)
Definition analysis_notebook : json :=
  notebook_of [markdown_cell "# 1. Import and Format Data";
               markdown_cell "## 1c. Make DESeqDataSet Object";
               markdown_cell "# 2. DESeq2 Analysis";
               raw_cell "first answer"; raw_cell "second answer"].

(** A question/answer rubric and a document with one question that has
    no colon. *)
Definition question_rubric : expected_config :=
  ExpectedConfig (Some "04-questions.ipynb")
    [("1.", special_section 2 "question_answer")].

Definition question_notebook : json :=
  notebook_of [markdown_cell "# 1. Questions"; raw_cell "Question 1"].

(** A markdown cell with two header lines. *)
Definition two_headers : string := lines ["# 1. First"; "# 2. Second"].

(** A markdown-exercise rubric and a document that does the exercise. *)
Definition exercise_rubric : expected_config :=
  ExpectedConfig (Some "01-jupyter-intro.ipynb")
    [("1.", special_section 2 "markdown_exercise_01")].

Definition exercise_notebook : json :=
  notebook_of [markdown_cell "# 1. Markdown"; run_code_cell "print(1)";
               markdown_cell "my own text";
               markdown_cell MarkdownExercise.check_text].

(** A document whose only cell has a number where its source should
    be. *)
Definition malformed_notebook : json :=
  notebook_of [JObj [("cell_type", JStr "code"); ("source", JNum 5)]].

End Sample.


(* ===================================================================== *)
(** * Further notions for statements about the graders *)
(* ===================================================================== *)

(** Indices that go up strictly, all above [lo] and at most [n]. *)
Fixpoint ascending_within (lo n : nat) (l : list nat) : Prop :=
  match l with
  | [] => True
  | i :: rest => lo < i ∧ i ≤ n ∧ ascending_within i n rest
  end.

(** The number a score contributes to [total_points]. *)
Definition section_total (s : section_score) : nat :=
  match s with
  | SplitScore _ _ total _ _ _ => total
  | PlainScore earned => earned
  end.

(** The three graders [grade_notebook] chooses from. *)
Inductive variant :=
| DefaultVariant
| MarkdownExerciseVariant
| QuestionAnswerVariant.

(** The first section descriptor whose [special] tag is one of the two
    known values decides; other tags are passed over. *)
Fixpoint governing (entries : list (string * expected)) : variant :=
  match entries with
  | [] => DefaultVariant
  | entry :: rest =>
      match special_tag entry.2 with
      | Some tag =>
          if bool_decide (tag = "markdown_exercise_01")
          then MarkdownExerciseVariant
          else if bool_decide (tag = "question_answer")
          then QuestionAnswerVariant
          else governing rest
      | None => governing rest
      end
  end.

Definition grader_of (v : variant) : json -> expected_config -> res results :=
  match v with
  | DefaultVariant => grade_notebook_enhanced
  | MarkdownExerciseVariant => grade_markdown_exercise_01
  | QuestionAnswerVariant => grade_question_answer
  end.

(** A key as the header scan of the default grader builds it: digits, an
    optional lowercase letter, a dot. *)
Definition header_shaped (k : string) : Prop :=
  ∃ d, Header.run_of PyStr.is_digit d
       ∧ (k = d +:+ "."
          ∨ ∃ c, PyStr.is_lower_az c = true
                 ∧ k = d +:+ String c EmptyString +:+ ".").

(** The number of heading markers a line starts with, blanks before them
    aside. *)
Definition marker_count (line : string) : nat :=
  String.length (PyStr.take_while PyStr.is_hash (PyStr.lstrip line)).

(** Every counter of [d] is still in [d'], and is no smaller there. *)
Definition grows (d d' : gmap string nat) : Prop :=
  ∀ k n, d !! k = Some n → ∃ n', d' !! k = Some n' ∧ n ≤ n'.

(** Every pair of missed lists of [m] is still in [m'], with positions
    added at the end at most. *)
Definition extends (m m' : gmap string (list nat * list nat)) : Prop :=
  ∀ k l, m !! k = Some l →
    ∃ l', m' !! k = Some l' ∧ l.1 `prefix_of` l'.1 ∧ l.2 `prefix_of` l'.2.

(** Nothing the default grader has counted in [st] is lost in [st']. *)
Definition never_reset (st st' : Enhanced.state) : Prop :=
  grows (Enhanced.section_cell_counts_code st)
        (Enhanced.section_cell_counts_code st')
  ∧ grows (Enhanced.section_completed_code st)
          (Enhanced.section_completed_code st')
  ∧ grows (Enhanced.section_cell_counts_raw st)
          (Enhanced.section_cell_counts_raw st')
  ∧ grows (Enhanced.section_completed_raw st)
          (Enhanced.section_completed_raw st')
  ∧ extends (Enhanced.missed_indices st) (Enhanced.missed_indices st').

(** Every counted cell is completed or missed, and the missed positions
    go up within the count. *)
Definition tallied (completed count : nat) (missed : list nat) : Prop :=
  completed + length missed = count ∧ ascending_within 0 count missed.

(** The counters of the default grader add up, for code cells and for
    raw cells, under every key that is tracked. *)
Definition counters_add_up (st : Enhanced.state) : Prop :=
  ∀ k m, Enhanced.missed_indices st !! k = Some m →
    tallied (default 0 (Enhanced.section_completed_code st !! k))
            (default 0 (Enhanced.section_cell_counts_code st !! k)) m.1
    ∧ tallied (default 0 (Enhanced.section_completed_raw st !! k))
              (default 0 (Enhanced.section_cell_counts_raw st !! k)) m.2.

(** The counters of the question/answer grader: answered and missed
    questions are among the counted ones (a question without a colon is
    neither), the missed positions going up within the count. *)
Definition questions_add_up (st : QuestionAnswer.state) : Prop :=
  ∀ k m, QuestionAnswer.missed_indices st !! Some k = Some m →
    default 0 (QuestionAnswer.section_completed st !! k) + length m
    ≤ default 0 (QuestionAnswer.section_cell_counts st !! k)
    ∧ ascending_within 0
        (default 0 (QuestionAnswer.section_cell_counts st !! k)) m.

(** The counters of the markdown-exercise grader after its first pass: the
    completion counter of a section is its count of completed code cells,
    which is at most its count of code cells. *)
Definition code_only (st : MarkdownExercise.state) : Prop :=
  ∀ k, MarkdownExercise.section_completed st !! k
       = MarkdownExercise.code_cells_completed st !! k
       ∧ default 0 (MarkdownExercise.code_cells_completed st !! k)
         ≤ default 0 (MarkdownExercise.section_cell_counts st !! k).

(** What the exercise adds to them: nothing, or one unit in the current
    section when that section has a completed code cell. *)
Definition one_exercise_point (st : MarkdownExercise.state) : Prop :=
  ∀ k, default 0 (MarkdownExercise.code_cells_completed st !! k)
       ≤ default 0 (MarkdownExercise.section_cell_counts st !! k)
       ∧ (default 0 (MarkdownExercise.section_completed st !! k)
          = default 0 (MarkdownExercise.code_cells_completed st !! k)
          ∨ (default 0 (MarkdownExercise.section_completed st !! k)
             = default 0 (MarkdownExercise.code_cells_completed st !! k) + 1
             ∧ MarkdownExercise.current_section st = Some k
             ∧ 0 < default 0
                     (MarkdownExercise.code_cells_completed st !! k))).

(* ===================================================================== *)
(** * Student directories *)
(* ===================================================================== *)

(** [list_student_directories] and the multi-student branch of [main].
    The file system enters as the listing of the submissions directory:
    the names [os.listdir] returns, each with the answer of
    [os.path.isdir] for its full path. *)
Module Students.

Definition underscore : ascii := ascii_of_nat 95.
Definition slash : ascii := ascii_of_nat 47.

(** [s.endswith(suffix)] *)
Definition endswith (suffix s : string) : bool :=
  PyStr.startswith (String.rev suffix) (String.rev s).

(** [str.isdigit] on one character below 256: the decimal digits and
    the superscripts two, three and one. *)
Definition is_digit_char (c : ascii) : bool :=
  let n := PyStr.code c in
  PyStr.between 48 57 n || (n =? 178) || (n =? 179) || (n =? 185).

(** [s.isdigit()] *)
Definition isdigit (s : string) : bool :=
  PyStr.nonempty s && Header.all_chars is_digit_char s.

(** [sep.join(l)] *)
Fixpoint join_with (sep : string) (l : list string) : string :=
  match l with
  | [] => EmptyString
  | [x] => x
  | x :: rest => x +:+ sep +:+ join_with sep rest
  end.

(** The Name_ID test on a directory name: [("_".join(parts[:-1]),
    parts[-1])] when it passes. *)
Definition name_and_id (entry : string) : option (string * string) :=
  let parts := PyStr.split underscore entry in
  match last parts with
  | Some student_id =>
      if (2 <=? length parts) && isdigit student_id
      then Some (join_with "_" (removelast parts), student_id)
      else None
  | None => None
  end.

(** [os.path.join(a, b)] *)
Definition path_join (a b : string) : string :=
  if PyStr.startswith "/" b then b
  else if negb (PyStr.nonempty a) || endswith "/" a then a +:+ b
  else a +:+ "/" +:+ b.

(** [s.rstrip('/')] *)
Definition rstrip_slash (s : string) : string :=
  String.rev
    (PyStr.drop_while (fun c => bool_decide (c = slash)) (String.rev s)).

(** [os.path.basename(p)]: what follows the last slash. *)
Definition basename (p : string) : string :=
  default EmptyString (last (PyStr.split slash p)).

Record student_dir := StudentDir {
  name : string;
  path : string
}.

(** One iteration of the loop over the listing. *)
Definition add_student (submissions_dir : string)
    (student_dirs : gmap string student_dir) (entry : string * bool)
  : gmap string student_dir :=
  if entry.2 then
    match name_and_id entry.1 with
    | Some (name, student_id) =>
        <[student_id := StudentDir name (path_join submissions_dir entry.1)]>
          student_dirs
    | None => student_dirs
    end
  else student_dirs.

Definition name_id_dirs (submissions_dir : string)
    (listing : list (string * bool)) : gmap string student_dir :=
  fold_left (add_student submissions_dir) listing ∅.

Definition downloaded_name : string :=
  "student_completed_RNAseq_submissions_downloaded".

(** [s[len(prefix):]] when [s.startswith(prefix)] *)
Fixpoint strip_prefix (prefix s : string) : option string :=
  match prefix, s with
  | EmptyString, _ => Some s
  | String a p', String b s' =>
      if ascii_dec a b then strip_prefix p' s' else None
  | String _ _, EmptyString => None
  end.

(** A match of [student_completed_RNAseq_submissions_downloaded_(\d+)]
    that starts at the first character of [s]: the group. *)
Definition downloaded_here (s : string) : option string :=
  match strip_prefix (downloaded_name +:+ "_") s with
  | Some rest =>
      let digits := PyStr.take_while PyStr.is_digit rest in
      if PyStr.nonempty digits then Some digits else None
  | None => None
  end.

(** [re.search] of that pattern: the group of the leftmost match. *)
Fixpoint search_downloaded (s : string) : option string :=
  match downloaded_here s with
  | Some digits => Some digits
  | None =>
      match s with
      | EmptyString => None
      | String _ s' => search_downloaded s'
      end
  end.

(** [list_student_directories]; [listing] is [None] when the path is no
    directory or [os.listdir] raises [OSError]. *)
Definition list_student_directories (submissions_dir : string)
    (listing : option (list (string * bool))) : gmap string student_dir :=
  match listing with
  | None => ∅
  | Some entries =>
      let found := name_id_dirs submissions_dir entries in
      let with_download :=
        if bool_decide (found = ∅)
           && PyStr.contains "student_completed_RNAseq_submissions"
                submissions_dir
        then
          match search_downloaded submissions_dir with
          | Some temp_id =>
              <[temp_id := StudentDir downloaded_name submissions_dir]> found
          | None => found
          end
        else found in
      if bool_decide (with_download = ∅) then
        <["0" := StudentDir (basename (rstrip_slash submissions_dir))
                   submissions_dir]> with_download
      else with_download
  end.

(** The multi-student branch of [main]. *)
Definition multi_student_directories (submissions_dir : string)
    (listing : option (list (string * bool))) : gmap string student_dir :=
  match listing with
  | None => ∅
  | Some entries => name_id_dirs submissions_dir entries
  end.

(** ** What the statements speak of *)

(** An entry of the result that comes from a listed directory of the
    form Name_ID. *)
Definition from_listing (submissions_dir : string)
    (listing : list (string * bool)) (student_id : string)
    (sd : student_dir) : Prop :=
  ∃ entry, (entry, true) ∈ listing
           ∧ name_and_id entry = Some (name sd, student_id)
           ∧ path sd = path_join submissions_dir entry.

End Students.

(* ===================================================================== *)
(** * Finding the notebook of an activity *)
(* ===================================================================== *)

(** [get_notebooks] and [find_notebook_in_activity_dir]; the listing is
    [None] when the directory does not exist or cannot be listed. *)
Module Discovery.

Definition is_ipynb (f : string) : bool := Students.endswith ".ipynb" f.

Definition get_notebooks (listing : option (list string)) : list string :=
  match listing with
  | Some files => List.filter is_ipynb files
  | None => []
  end.

Definition find_notebook_in_activity_dir (activity_dir : string)
    (filename_pattern : string) (listing : option (list string))
  : option string :=
  match listing with
  | None => None
  | Some files =>
      match List.filter is_ipynb files with
      | [] => None
      | [nb] => Some (Students.path_join activity_dir nb)
      | notebooks =>
          match List.filter (PyStr.contains filename_pattern) notebooks with
          | nb :: _ => Some (Students.path_join activity_dir nb)
          | [] => None
          end
      end
  end.

End Discovery.

(* ===================================================================== *)
(** * The caller: one activity of one student *)
(* ===================================================================== *)

(** The part of [main] that grades the notebook of an activity, patches
    section "2." of the third activity, and adds up the sections that
    count.  Percentages are floating-point and are left out. *)
Module Caller.

Definition activity_1 : string := "HANDS-ON_ACTIVITY_1".
Definition activity_2 : string := "HANDS-ON_ACTIVITY_2".
Definition activity_3 : string := "HANDS-ON_ACTIVITY_3".

(** "Special fix for section 2 raw cells" *)
Definition section2_fix (asset_id : string)
    (secs : gmap string section_score) : gmap string section_score :=
  if bool_decide (asset_id = activity_3) then
    match secs !! "2." with
    | Some (SplitScore code _ _ expected_code expected_raw expected_total) =>
        <["2." := SplitScore code 2 2 expected_code expected_raw
                    expected_total]> secs
    | Some (PlainScore _) => <["2." := SplitScore 0 2 2 0 2 2]> secs
    | None => secs
    end
  else secs.

(** [activity_sections] *)
Definition activity_sections (asset_id : string) : option (list string) :=
  if bool_decide (asset_id = activity_1) then
    Some ["0."; "1."; "1a."; "1b."; "2."; "2a."; "2b."; "2c."]
  else if bool_decide (asset_id = activity_2) then
    Some ["3."; "4."; "4a."; "4b."; "4c."; "5."; "6."; "6a."; "6b."; "7.";
          "8."; "8a."; "8b."]
  else None.

(** [activity_sections.get(asset_id, list(sections.keys()))] *)
Definition filtered_sections (asset_id : string) (cfg : expected_config)
  : list string :=
  default (sections cfg).*1 (activity_sections asset_id).

(** The expected points of a descriptor, as the three-way test of the
    caller computes them; adding a dict to a number raises. *)
Definition expected_points (section_config : expected) : res nat :=
  match section_config with
  | ExpDict (SectionDict (Some c) raw_opt _ _) => Ok (c + default 0 raw_opt)
  | ExpDict (SectionDict None _ (Some p) _) => Ok p
  | ExpDict (SectionDict None _ None _) => Raise TypeError
  | ExpNumber p => Ok p
  end.

(** One iteration of the loop over [filtered_sections], on the pair
    ([filtered_results_total], [filtered_expected]). *)
Definition count_section (cfg : expected_config)
    (secs : gmap string section_score) (acc : nat * nat)
    (section_id : string) : res (nat * nat) :=
  match Py.assoc section_id (sections cfg) with
  | Some section_config =>
      let total :=
        match secs !! section_id with
        | Some s => acc.1 + section_total s
        | None => acc.1
        end in
      let* e := expected_points section_config in
      Ok (total, acc.2 + e)
  | None => Ok acc
  end.

Fixpoint count_sections (cfg : expected_config)
    (secs : gmap string section_score) (ids : list string)
    (acc : nat * nat) : res (nat * nat) :=
  match ids with
  | [] => Ok acc
  | section_id :: rest =>
      let* acc' := count_section cfg secs acc section_id in
      count_sections cfg secs rest acc'
  end.

(** [total_expected_for_notebook] of a notebook that was not found. *)
Fixpoint expected_of_all (entries : list (string * expected)) (acc : nat)
  : res nat :=
  match entries with
  | [] => Ok acc
  | entry :: rest =>
      let* e := expected_points entry.2 in
      expected_of_all rest (acc + e)
  end.

(** An entry of [activity_results]: [graded] holds
    [results['sections']] as patched, and is absent for "NOT FOUND". *)
Record activity := Activity {
  score : nat;
  expected_score : nat;
  graded : option (gmap string section_score)
}.

(** The branch of a notebook that was found: grade, patch, add up. *)
Definition graded_activity (asset_id : string) (cfg : expected_config)
    (loaded : res json) : res activity :=
  let results := grade_notebook loaded cfg in
  let secs := section2_fix asset_id (res_sections results) in
  let* totals :=
    count_sections cfg secs (filtered_sections asset_id cfg) (0, 0) in
  Ok (Activity totals.1 totals.2 (Some secs)).

(** The branch of a notebook that was not found. *)
Definition missing_activity (cfg : expected_config) : res activity :=
  let* e := expected_of_all (sections cfg) 0 in
  Ok (Activity 0 e None).

(** The body of the loop over the notebook assets, from the path
    [find_notebook_in_activity_dir] returned; [read] is the outcome of
    opening and parsing the file at a path. *)
Definition grade_activity (asset_id : string) (cfg : expected_config)
    (notebook_path : option string) (read : string -> res json)
  : res activity :=
  match notebook_path with
  | Some p =>
      if PyStr.nonempty p then graded_activity asset_id cfg (read p)
      else missing_activity cfg
  | None => missing_activity cfg
  end.

(** The same from the directory of the student: the activity directory
    is looked up, then its notebook. *)
Definition activity_of_student (student_path asset_id : string)
    (filename_pattern : string) (cfg : expected_config)
    (listing : option (list string)) (read : string -> res json)
  : res activity :=
  let activity_dir := Students.path_join student_path asset_id in
  grade_activity asset_id cfg
    (Discovery.find_notebook_in_activity_dir activity_dir filename_pattern
       listing)
    read.

End Caller.

(* ===================================================================== *)
(** * The configuration of the program *)
(* ===================================================================== *)

(** The notebook assets of [CONFIG], in the order of the table; the
    [name] of a section and the [total_cells] of a notebook play no part
    in grading and are left out, as are the screenshot assets. *)
Module Config.

(** [{"name": ..., "code_cells": c, "raw_cells": r}] *)
Definition section (c r : nat) : expected :=
  ExpDict (SectionDict (Some c) (Some r) None None).

Definition activity_1_expected : expected_config :=
  ExpectedConfig (Some "01-RNAseq_processing.ipynb")
    [("0.", section 5 2); ("1.", section 0 0); ("1a.", section 4 0);
     ("1b.", section 2 4); ("2.", section 0 0); ("2a.", section 4 10);
     ("2b.", section 2 0); ("2c.", section 2 5); ("3.", section 0 0);
     ("4.", section 0 0); ("4a.", section 2 9); ("4b.", section 2 2);
     ("4c.", section 2 0); ("5.", section 0 0); ("6.", section 0 0);
     ("6a.", section 3 5); ("6b.", section 2 2); ("7.", section 0 0);
     ("8.", section 0 0); ("8a.", section 2 6); ("8b.", section 2 2)].

Definition activity_2_expected : expected_config :=
  ExpectedConfig (Some "01-RNAseq_processing-2.ipynb")
    [("0.", section 5 2); ("1.", section 0 0); ("1a.", section 4 0);
     ("1b.", section 2 4); ("2.", section 0 0); ("2a.", section 4 10);
     ("2b.", section 2 0); ("2c.", section 2 5); ("3.", section 0 0);
     ("4.", section 0 0); ("4a.", section 2 9); ("4b.", section 2 2);
     ("4c.", section 2 0); ("5.", section 0 0); ("6.", section 0 0);
     ("6a.", section 3 5); ("6b.", section 2 2); ("7.", section 0 0);
     ("8.", section 0 0); ("8a.", section 2 6); ("8b.", section 2 2)].

Definition activity_3_expected : expected_config :=
  ExpectedConfig (Some "02-RNAseq_analysis.ipynb")
    [("0.", section 4 0); ("1.", section 0 0); ("1a.", section 3 0);
     ("1b.", section 8 2); ("1c.", section 6 3); ("2.", section 0 2);
     ("2a.", section 6 3); ("2b.", section 1 0); ("2c.", section 2 2);
     ("2d.", section 6 5); ("3.", section 0 0); ("3a.", section 9 4);
     ("3b.", section 16 7); ("4.", section 0 0); ("4a.", section 2 2);
     ("4b.", section 5 1); ("4c.", section 3 5); ("4d.", section 14 6);
     ("5.", section 0 0)].

Record notebook_asset := NotebookAsset {
  filename_pattern : string;
  expected : expected_config
}.

(** The assets of type ["notebook"], keyed by asset id. *)
Definition notebook_assets : list (string * notebook_asset) :=
  [("HANDS-ON_ACTIVITY_1",
    NotebookAsset "01-RNAseq_processing" activity_1_expected);
   ("HANDS-ON_ACTIVITY_2",
    NotebookAsset "01-RNAseq_processing" activity_2_expected);
   ("HANDS-ON_ACTIVITY_3",
    NotebookAsset "02-RNAseq_analysis" activity_3_expected)].

End Config.

(* ===================================================================== *)
(** * The objects a grading shares with its caller *)
(* ===================================================================== *)

(** [grade_notebook_enhanced(notebook, expected_config)] receives its two
    arguments by reference.  The dicts and lists [json.load] built and the
    rubric of the configuration table are objects of the interpreter: they
    live on between two calls, a call could change them, and it could read
    other objects than these.  To state that it does neither, the function
    is written out once more, statement by statement, against a store of
    objects.
    - The store holds every object that exists when the function is
      called: those its arguments reach, and any other.
    - Every expression of the code on an argument or on an item of one
      (subscript, [get], [in], [len], iteration, [join], [isinstance],
      [items], [lower]) is an operation on the store, with the exception
      Python raises when the object has the wrong shape.  [json.load] and
      the configuration table build plain dicts and lists, which these
      operations leave as they are.
    - The default [[]] of [cell.get(..., [])] is a new list in the store.
    - The names the function binds to displays of its own ([results], the
      four counters, [main_sections], [subsections]) are variables of its
      frame, new at every call, and the strings and numbers it computes
      are immutable: they are the state of [Enhanced], and
      [sections_found], which is only written, is left out as there.  The
      function has no assignment to a subscript or attribute of an
      argument and calls no method of one but [get], [items] and
      [lower]. *)
Module Shared.

Definition loc := nat.

(** What a name or an item holds: an immutable value, or a reference to
    a dict or a list. *)
Inductive value :=
| VNone
| VBool (b : bool)
| VNum (n : Z)
| VStr (s : string)
| VRef (l : loc).

(** A dict lists its items in insertion order. *)
Inductive object :=
| ODict (fields : list (string * value))
| OList (items : list value).

#[global] Instance value_eq_dec : EqDecision value.
Proof. solve_decision. Defined.

#[global] Instance object_eq_dec : EqDecision object.
Proof. solve_decision. Defined.

Definition heap := gmap loc object.

(** A computation reads and writes the store and returns or raises. *)
Definition M (A : Type) : Type := heap -> res A * heap.

Definition ret {A : Type} (a : A) : M A := fun h => (Ok a, h).

Definition raise {A : Type} (e : exn) : M A := fun h => (Raise e, h).

Definition lift {A : Type} (r : res A) : M A := fun h => (r, h).

Definition bind {A B : Type} (m : M A) (k : A -> M B) : M B :=
  fun h =>
    match m h with
    | (Ok a, h') => k a h'
    | (Raise e, h') => (Raise e, h')
    end.

Notation "'let!' x ':=' m 'in' k" := (bind m (fun x => k))
  (at level 10, x name, m at level 100, k at level 200,
   format "'[v' 'let!'  x  ':='  m  'in' '/' k ']'").

(** The object a value refers to.  A reference of the interpreter
    always has its object; the operations below raise on one that has
    none, so that they are defined on every store. *)
Definition object_of (h : heap) (v : value) : option object :=
  match v with
  | VRef l => h !! l
  | _ => None
  end.

(** ** Statements that change the store *)

(** A display [[]] or [{...}]: a new object, at a location that holds
    none. *)
Definition new (o : object) : M value :=
  fun h => let l := fresh (dom h) in (Ok (VRef l), <[l := o]> h).

(** [v[k] = x]: the grader has no such statement on an argument; the
    caller has one on the result (the override of section ["2."]). *)
Definition setitem (v : value) (k : string) (x : value) : M unit :=
  fun h =>
    match v with
    | VRef l =>
        match h !! l with
        | Some (ODict fields) =>
            (Ok tt,
             <[l := ODict (if bool_decide (k ∈ fields.*1)
                           then (fun kv : string * value =>
                                   if decide (kv.1 = k) then (k, x) else kv)
                                  <$> fields
                           else fields ++ [(k, x)])]> h)
        | _ => (Raise TypeError, h)
        end
    | _ => (Raise TypeError, h)
    end.

(** ** Expressions that read it *)

(** [v[k]] for a string [k] *)
Definition subscript (v : value) (k : string) : M value :=
  fun h =>
    match object_of h v with
    | Some (ODict fields) =>
        match Py.assoc k fields with
        | Some x => (Ok x, h)
        | None => (Raise (KeyError k), h)
        end
    | _ => (Raise TypeError, h)
    end.

(** The attribute [v.get] (or [v.items]): only a dict has it. *)
Definition dict_method (v : value) : M (list (string * value)) :=
  fun h =>
    match object_of h v with
    | Some (ODict fields) => (Ok fields, h)
    | _ => (Raise AttributeError, h)
    end.

(** [v.get(k, default)] for a default that is no display *)
Definition get (v : value) (k : string) (d : value) : M value :=
  let! fields := dict_method v in
  ret (default d (Py.assoc k fields)).

(** [v.get(k, [])]: the method is looked up, the default list is built,
    then the key is looked up. *)
Definition get_or_new_list (v : value) (k : string) : M value :=
  let! fields := dict_method v in
  let! d := new (OList []) in
  ret (default d (Py.assoc k fields)).

(** [v.items()] *)
Definition items (v : value) : M (list (string * value)) := dict_method v.

(** The elements [for ... in v] goes through. *)
Definition iter (v : value) : M (list value) :=
  fun h =>
    match v with
    | VStr s => (Ok (VStr <$> PyStr.chars s), h)
    | VRef l =>
        match h !! l with
        | Some (OList items) => (Ok items, h)
        | Some (ODict fields) => (Ok (VStr <$> fields.*1), h)
        | None => (Raise TypeError, h)
        end
    | _ => (Raise TypeError, h)
    end.

(** ["".join(l)] on the elements of an iterable: each must be a [str]. *)
Fixpoint join_items (l : list value) : res string :=
  match l with
  | [] => Ok EmptyString
  | VStr s :: l' => let* r := join_items l' in Ok (s +:+ r)
  | _ :: _ => Raise TypeError
  end.

(** ["".join(v)] *)
Definition join (v : value) : M string :=
  let! l := iter v in lift (join_items l).

(** [len(v)] *)
Definition len (v : value) : M nat :=
  fun h =>
    match v with
    | VStr s => (Ok (String.length s), h)
    | VRef l =>
        match h !! l with
        | Some (OList items) => (Ok (length items), h)
        | Some (ODict fields) => (Ok (length fields), h)
        | None => (Raise TypeError, h)
        end
    | _ => (Raise TypeError, h)
    end.

(** [k in v] for a string [k]: a key of a dict, an element of a list, a
    part of a string. *)
Definition contains (v : value) (k : string) : M bool :=
  fun h =>
    match v with
    | VStr s => (Ok (PyStr.contains k s), h)
    | VRef l =>
        match h !! l with
        | Some (ODict fields) => (Ok (bool_decide (k ∈ fields.*1)), h)
        | Some (OList items) => (Ok (bool_decide (VStr k ∈ items)), h)
        | None => (Raise TypeError, h)
        end
    | _ => (Raise TypeError, h)
    end.

(** [isinstance(v, dict)] *)
Definition is_dict (v : value) : M bool :=
  fun h =>
    (Ok match object_of h v with
        | Some (ODict _) => true
        | _ => false
        end, h).

(** [v.lower()] *)
Definition lower (v : value) : M string :=
  match v with
  | VStr s => ret (PyStr.lower s)
  | _ => raise AttributeError
  end.

(** The number [min(n, v)] and [+] take [v] for: a comparison with
    anything else raises.  (A rubric holds no [bool], which Python would
    take for a number as well.) *)
Definition as_int (v : value) : M Z :=
  match v with
  | VNum n => ret n
  | _ => raise TypeError
  end.

(** [v == s] for a string literal [s] *)
Definition eq_str (v : value) (s : string) : bool :=
  match v with
  | VStr s' => bool_decide (s' = s)
  | _ => false
  end.

(** [v is not None] *)
Definition is_not_none (v : value) : bool :=
  match v with
  | VNone => false
  | _ => true
  end.

(** ** The unit classifier *)

(** ["".join(cell.get("source", []))] *)
Definition joined_source (cell : value) : M string :=
  let! src := get_or_new_list cell "source" in join src.

Definition has_content (cell : value) : M bool :=
  let! joined := joined_source cell in
  let source := PyStr.strip joined in
  if PyStr.startswith "Question" source then
    ret (answered source)
  else
    let! ct := subscript cell "cell_type" in
    if eq_str ct "code" then
      let! outputs := get_or_new_list cell "outputs" in
      let! execution_count := get cell "execution_count" VNone in
      if PyStr.nonempty source then
        let! n := len outputs in
        if 0 <? n then ret true else ret (is_not_none execution_count)
      else ret false
    else
      let! ct := subscript cell "cell_type" in
      if eq_str ct "markdown" then ret (PyStr.nonempty source)
      else
        let! ct := subscript cell "cell_type" in
        if eq_str ct "raw" then ret (PyStr.nonempty source)
        else ret false.

(** ** The default grader *)

(** [asset_id = expected_config.get('asset_id', '').lower()], then
    ['02-rnaseq_analysis' in asset_id.lower()] *)
Definition is_analysis_notebook (expected_config : value) : M bool :=
  let! a := get expected_config "asset_id" (VStr "") in
  let! asset_id := lower a in
  ret (PyStr.contains "02-rnaseq_analysis" (PyStr.lower asset_id)).

(** [k in expected_config['sections']] *)
Definition in_sections (expected_config : value) (k : string) : M bool :=
  let! sections := subscript expected_config "sections" in
  contains sections k.

(** "Initialize section tracking if needed": the rubric is asked first,
    the counter after it. *)
Definition init_tracking (expected_config : value) (k : string)
    (st : Enhanced.state) : M Enhanced.state :=
  let! known := in_sections expected_config k in
  ret (if known
          && bool_decide (Enhanced.section_completed_code st !! k = None)
       then Enhanced.State
              (Enhanced.current_section st) (Enhanced.current_subsection st)
              (<[k := 0]> (Enhanced.section_completed_code st))
              (<[k := 0]> (Enhanced.section_cell_counts_code st))
              (<[k := 0]> (Enhanced.section_completed_raw st))
              (<[k := 0]> (Enhanced.section_cell_counts_raw st))
              (<[k := ([], [])]> (Enhanced.missed_indices st))
       else st).

(** The header part of the loop body, for a markdown cell of text
    [source]. *)
Definition track_headers (expected_config : value) (analysis : bool)
    (source : string) (st : Enhanced.state) : M Enhanced.state :=
  let! st1 :=
    (if PyStr.contains Enhanced.deseq_anchor source
        && PyStr.contains "# 2. DESeq2" source
     then init_tracking expected_config "2."
            (Enhanced.set_current_section "2." st)
     else ret st) in
  let! st2 :=
    match last (Enhanced.main_sections analysis source) with
    | Some k =>
        init_tracking expected_config k (Enhanced.set_current_section k st1)
    | None => ret st1
    end in
  match last (Enhanced.subsections analysis source) with
  | Some k =>
      init_tracking expected_config k (Enhanced.set_current_subsection k st2)
  | None => ret st2
  end.

(** The branch of a code cell under the active key [k]. *)
Definition count_code (k : string) (cell : value) (st : Enhanced.state)
  : M Enhanced.state :=
  let! counts := lift (increment (Enhanced.section_cell_counts_code st) k) in
  let! complete := has_content cell in
  if complete then
    let! completed :=
      lift (increment (Enhanced.section_completed_code st) k) in
    ret (Enhanced.State
           (Enhanced.current_section st) (Enhanced.current_subsection st)
           completed counts
           (Enhanced.section_completed_raw st)
           (Enhanced.section_cell_counts_raw st)
           (Enhanced.missed_indices st))
  else
    let! m := lift (item (Enhanced.missed_indices st) k) in
    let! n := lift (item counts k) in
    ret (Enhanced.State
           (Enhanced.current_section st) (Enhanced.current_subsection st)
           (Enhanced.section_completed_code st) counts
           (Enhanced.section_completed_raw st)
           (Enhanced.section_cell_counts_raw st)
           (<[k := (m.1 ++ [n], m.2)]> (Enhanced.missed_indices st))).

(** The branch of a raw cell under the active key [k]. *)
Definition count_raw (k : string) (cell : value) (st : Enhanced.state)
  : M Enhanced.state :=
  let! counts := lift (increment (Enhanced.section_cell_counts_raw st) k) in
  let! complete := has_content cell in
  if complete then
    let! completed :=
      lift (increment (Enhanced.section_completed_raw st) k) in
    ret (Enhanced.State
           (Enhanced.current_section st) (Enhanced.current_subsection st)
           (Enhanced.section_completed_code st)
           (Enhanced.section_cell_counts_code st)
           completed counts
           (Enhanced.missed_indices st))
  else
    let! m := lift (item (Enhanced.missed_indices st) k) in
    let! n := lift (item counts k) in
    ret (Enhanced.State
           (Enhanced.current_section st) (Enhanced.current_subsection st)
           (Enhanced.section_completed_code st)
           (Enhanced.section_cell_counts_code st)
           (Enhanced.section_completed_raw st) counts
           (<[k := (m.1, m.2 ++ [n])]> (Enhanced.missed_indices st))).

(** One iteration of the cell loop. *)
Definition step (expected_config : value) (analysis : bool)
    (st : Enhanced.state) (cell : value) : M Enhanced.state :=
  let! ct := subscript cell "cell_type" in
  let! st1 :=
    (if eq_str ct "markdown" then
       let! source := joined_source cell in
       track_headers expected_config analysis source st
     else ret st) in
  match Enhanced.active_section st1 with
  | Some k =>
      if Py.truthy (Some k) then
        let! known := in_sections expected_config k in
        if known then
          let! ct := subscript cell "cell_type" in
          if eq_str ct "code" then count_code k cell st1
          else
            let! ct := subscript cell "cell_type" in
            if eq_str ct "raw" then count_raw k cell st1
            else ret st1
        else ret st1
      else ret st1
  | None => ret st1
  end.

(** [for idx, cell in enumerate(...)] from a given state, over the
    items the list has when the loop starts: no statement of the body
    writes to an object that was there before the call. *)
Fixpoint scan (expected_config : value) (analysis : bool)
    (cells : list value) (st : Enhanced.state) : M Enhanced.state :=
  match cells with
  | [] => ret st
  | cell :: rest =>
      let! st' := step expected_config analysis st cell in
      scan expected_config analysis rest st'
  end.

(** The function up to the end of the cell loop. *)
Definition run (notebook expected_config : value) : M Enhanced.state :=
  let! analysis := is_analysis_notebook expected_config in
  let! cells_value := subscript notebook "cells" in
  let! cells := iter cells_value in
  scan expected_config analysis cells Enhanced.initial.

(** The value stored under [results['sections'][section]]: the numbers
    of the rubric are the integers the store holds. *)
Inductive score :=
| Split (code raw total expected_code expected_raw expected_total : Z)
| Plain (earned : Z).

(** The variables of the "Calculate points" loop. *)
Record tally := Tally {
  completed_code : gmap string nat;
  completed_raw : gmap string nat;
  scored : gmap string score;
  total_points : Z;
  total_expected_points : Z
}.

(** One iteration of the "Calculate points" loop. *)
Definition score_section (t : tally) (section : string) (expected : value)
  : M tally :=
  let! dict := is_dict expected in
  let! split := (if dict then contains expected "code_cells"
                 else ret false) in
  if split then
    let! code_value := get expected "code_cells" (VNum 0) in
    let! raw_value := get expected "raw_cells" (VNum 0) in
    let missing := bool_decide (completed_code t !! section = None) in
    let cc := if missing then <[section := 0]> (completed_code t)
              else completed_code t in
    let cr := if missing then <[section := 0]> (completed_raw t)
              else completed_raw t in
    let completed_code := default 0 (cc !! section) in
    let completed_raw := default 0 (cr !! section) in
    let! expected_code := as_int code_value in
    let earned_code := Z.min (Z.of_nat completed_code) expected_code in
    let! expected_raw := as_int raw_value in
    let earned_raw := Z.min (Z.of_nat completed_raw) expected_raw in
    let total_earned := (earned_code + earned_raw)%Z in
    let total_expected := (expected_code + expected_raw)%Z in
    ret (Tally cc cr
           (<[section := Split earned_code earned_raw total_earned
                           expected_code expected_raw total_expected]>
              (scored t))
           (total_points t + total_earned)%Z
           (total_expected_points t + total_expected)%Z)
  else
    let completed := default 0 (completed_code t !! section) in
    let! dict := is_dict expected in
    let! points_value := (if dict then get expected "points" (VNum 0)
                          else ret expected) in
    let! points := as_int points_value in
    let earned := Z.min (Z.of_nat completed) points in
    ret (Tally (completed_code t) (completed_raw t)
           (<[section := Plain earned]> (scored t))
           (total_points t + earned)%Z
           (total_expected_points t + points)%Z).

Fixpoint score_sections (entries : list (string * value)) (t : tally)
  : M tally :=
  match entries with
  | [] => ret t
  | (section, expected) :: rest =>
      let! t' := score_section t section expected in
      score_sections rest t'
  end.

(** [for section, expected in expected_config['sections'].items()] *)
Definition calculate_points (expected_config : value) (st : Enhanced.state)
  : M tally :=
  let! sections := subscript expected_config "sections" in
  let! entries := items sections in
  score_sections entries
    (Tally (Enhanced.section_completed_code st)
       (Enhanced.section_completed_raw st) ∅ 0 0).

(** The dict the function returns: built by the call, and the caller's
    from then on. *)
Record results := Results {
  res_sections : gmap string score;
  res_total_points : Z;
  res_missed_indices : gmap string (list nat * list nat)
}.

Definition grade_notebook_enhanced (notebook expected_config : value)
  : M results :=
  let! st := run notebook expected_config in
  let! t := calculate_points expected_config st in
  ret (Results (scored t) (total_points t) (Enhanced.missed_indices st)).

(** ** What a store holds *)

(** [f] holds of the two lists item by item, and they are equally
    long. *)
Definition all2 {A B : Type} (f : A -> B -> bool)
  : list A -> list B -> bool :=
  fix go (l : list A) (l' : list B) : bool :=
    match l, l' with
    | [], [] => true
    | a :: r, b :: r' => f a b && go r r'
    | _, _ => false
    end.

(** The value [v] stands in [h] for the document [j]: [json.load] built
    a dict for every object of the file and a list for every array. *)
Fixpoint represents (h : heap) (j : json) (v : value) {struct j} : bool :=
  match j, v with
  | JNull, VNone => true
  | JBool b, VBool b' => bool_decide (b = b')
  | JNum n, VNum n' => bool_decide (n = n')
  | JStr s, VStr s' => bool_decide (s = s')
  | JArr elements, VRef l =>
      match h !! l with
      | Some (OList vs) => all2 (represents h) elements vs
      | _ => false
      end
  | JObj fields, VRef l =>
      match h !! l with
      | Some (ODict fs) =>
          all2 (fun '(k, j') '(k', v') =>
                  bool_decide (k = k') && represents h j' v')
            fields fs
      | _ => false
      end
  | _, _ => false
  end.

(** An item of a dict of the document and the item of the dict that
    stands for it. *)
Definition field_represented (h : heap)
    (kj : string * json) (kv : string * value) : Prop :=
  kj.1 = kv.1 /\ represents h kj.2 kv.2 = true.

Definition count_value (n : nat) : value := VNum (Z.of_nat n).

(** The value [v] stands in [h] for an entry of the rubric: a number of
    points, or a dict with the entries the descriptor has (and others,
    such as ['name'], that the rubric type leaves out). *)
Definition represents_expected (h : heap) (e : expected) (v : value)
  : bool :=
  match e with
  | ExpNumber p => bool_decide (v = count_value p)
  | ExpDict d =>
      match object_of h v with
      | Some (ODict fs) =>
          bool_decide (Py.assoc "code_cells" fs
                       = count_value <$> code_cells d)
          && bool_decide (Py.assoc "raw_cells" fs
                          = count_value <$> raw_cells d)
          && bool_decide (Py.assoc "points" fs = count_value <$> points d)
          && bool_decide (Py.assoc "special" fs = VStr <$> special d)
      | _ => false
      end
  end.

Definition represents_sections (h : heap)
    (entries : list (string * expected)) (fs : list (string * value))
  : bool :=
  all2 (fun '(k, e) '(k', v) =>
          bool_decide (k = k') && represents_expected h e v)
    entries fs.

(** An entry of the rubric and the item of the dict that stands for
    it. *)
Definition entry_represented (h : heap)
    (ke : string * expected) (kv : string * value) : Prop :=
  ke.1 = kv.1 /\ represents_expected h ke.2 kv.2 = true.

(** The value [v] stands in [h] for the rubric [cfg]. *)
Definition represents_config (h : heap) (cfg : expected_config) (v : value)
  : bool :=
  match object_of h v with
  | Some (ODict fs) =>
      bool_decide (Py.assoc "asset_id" fs = VStr <$> asset_id cfg)
      && match Py.assoc "sections" fs with
         | Some sv =>
             match object_of h sv with
             | Some (ODict entries) =>
                 represents_sections h (sections cfg) entries
             | _ => false
             end
         | None => false
         end
  | _ => false
  end.

(** [f] on the items of a list from left to right, each in the store
    the one before leaves. *)
Definition load_all {A B : Type} (f : A -> heap -> B * heap)
  : list A -> heap -> list B * heap :=
  fix go (l : list A) (h : heap) : list B * heap :=
    match l with
    | [] => ([], h)
    | a :: r =>
        let '(b, h1) := f a h in
        let '(bs, h2) := go r h1 in
        (b :: bs, h2)
    end.

(** [json.load]: the objects of a document, built from the inside
    out. *)
Fixpoint load (j : json) (h : heap) {struct j} : value * heap :=
  match j with
  | JNull => (VNone, h)
  | JBool b => (VBool b, h)
  | JNum n => (VNum n, h)
  | JStr s => (VStr s, h)
  | JArr elements =>
      let '(vs, h1) := load_all load elements h in
      (VRef (fresh (dom h1)), <[fresh (dom h1) := OList vs]> h1)
  | JObj fields =>
      let '(fs, h1) :=
        load_all (fun '(k, j') h =>
                    let '(v, h1) := load j' h in ((k, v), h1))
          fields h in
      (VRef (fresh (dom h1)), <[fresh (dom h1) := ODict fs]> h1)
  end.

(** The dict display of a descriptor of the configuration table, with
    the entries the descriptor has. *)
Definition descriptor_fields (d : section_dict) : list (string * value) :=
  option_list ((fun n => ("code_cells", count_value n)) <$> code_cells d)
  ++ option_list ((fun n => ("raw_cells", count_value n)) <$> raw_cells d)
  ++ option_list ((fun n => ("points", count_value n)) <$> points d)
  ++ option_list ((fun s => ("special", VStr s)) <$> special d).

Definition build_expected (e : expected) (h : heap) : value * heap :=
  match e with
  | ExpNumber p => (count_value p, h)
  | ExpDict d =>
      (VRef (fresh (dom h)), <[fresh (dom h) := ODict (descriptor_fields d)]> h)
  end.

(** The dict display of a rubric: the descriptors, the dict of the
    sections, the rubric. *)
Definition build_config (cfg : expected_config) (h : heap) : value * heap :=
  let '(entries, h1) :=
    load_all (fun '(k, e) h =>
                let '(v, h1) := build_expected e h in ((k, v), h1))
      (sections cfg) h in
  let h2 := <[fresh (dom h1) := ODict entries]> h1 in
  (VRef (fresh (dom h2)),
   <[fresh (dom h2) :=
       ODict (option_list ((fun a => ("asset_id", VStr a)) <$> asset_id cfg)
              ++ [("sections", VRef (fresh (dom h1)))])]> h2).

(** ** What a computation does to a store *)

(** [m] leaves every object the store holds in place, with the content
    it has. *)
Definition preserves {A : Type} (m : M A) : Prop :=
  forall h, h ⊆ (m h).2.

(** Run on [h], [m] returns or raises what [r] says, and leaves the
    objects of [h] as they are. *)
Definition computes {A : Type} (h : heap) (m : M A) (r : res A) : Prop :=
  (m h).1 = r /\ h ⊆ (m h).2.

(** The same for an expression whose value is an item of the document:
    it stands for the item [r] says. *)
Definition reads (h : heap) (m : M value) (r : res json) : Prop :=
  h ⊆ (m h).2
  /\ match r with
     | Ok j => exists v, (m h).1 = Ok v /\ represents (m h).2 j v = true
     | Raise e => (m h).1 = Raise e
     end.

End Shared.

(** The result of the function on the store, for a result of the function
    on values: the same scores, as the integers the store holds. *)
Definition stored_score (s : section_score) : Shared.score :=
  match s with
  | SplitScore c r t ec er et =>
      Shared.Split (Z.of_nat c) (Z.of_nat r) (Z.of_nat t)
        (Z.of_nat ec) (Z.of_nat er) (Z.of_nat et)
  | PlainScore e => Shared.Plain (Z.of_nat e)
  end.

Definition stored_results (r : results) : Shared.results :=
  Shared.Results (stored_score <$> res_sections r)
    (Z.of_nat (res_total_points r))
    match res_missed_indices r with
    | MissedByKind m => m
    | _ => ∅
    end.

Definition stored_outcome (r : res results) : res Shared.results :=
  match r with
  | Ok x => Ok (stored_results x)
  | Raise e => Raise e
  end.

Definition stored_tally (t : Enhanced.tally) : Shared.tally :=
  Shared.Tally (Enhanced.completed_code t) (Enhanced.completed_raw t)
    (stored_score <$> Enhanced.scored t)
    (Z.of_nat (Enhanced.total_points t))
    (Z.of_nat (Enhanced.total_expected_points t)).

(** The scenario of the specification in a store: the rubric as the
    configuration table holds it, and the document [json.load] builds
    next to it. *)
Module StoredSample.

Definition rubric : Shared.value := Shared.VRef 0.

Definition rubric_store : Shared.heap :=
  <[0 := Shared.ODict [("sections", Shared.VRef 1)]]>
    (<[1 := Shared.ODict [("1.", Shared.VRef 2)]]>
       (<[2 := Shared.ODict [("name", Shared.VStr "Title");
                             ("code_cells", Shared.VNum 2);
                             ("raw_cells", Shared.VNum 1)]]> ∅)).

Definition notebook : Shared.value :=
  (Shared.load Sample.scenario_notebook rubric_store).1.

Definition store : Shared.heap :=
  (Shared.load Sample.scenario_notebook rubric_store).2.

End StoredSample.

(* ===================================================================== *)
(** * Facts about the string primitives *)
(* ===================================================================== *)

Module PyStrFacts.
Import PyStr.

Lemma append_nil s : EmptyString +:+ s = s.
Proof. reflexivity. Qed.

Lemma append_cons a s t : String a s +:+ t = String a (s +:+ t).
Proof. reflexivity. Qed.

Lemma occurs_cons c a s : occurs c (String a s) ↔ a = c ∨ occurs c s.
Proof.
  split.
  - intros ([|x pre] & post & E).
    + rewrite append_nil in E. injection E as -> ->. by left.
    + rewrite append_cons in E. injection E as -> ->.
      right. by exists pre, post.
  - intros [->|(pre & post & ->)].
    + by exists EmptyString, s.
    + by exists (String a pre), post.
Qed.

Lemma not_occurs_empty c : ¬ occurs c EmptyString.
Proof. intros ([|x pre] & post & E); discriminate E. Qed.

Lemma after_first_None c s : after_first c s = None ↔ ¬ occurs c s.
Proof.
  induction s as [|a s IH]; simpl.
  - split; [intros _; apply not_occurs_empty|done].
  - rewrite occurs_cons. destruct (ascii_dec a c) as [->|Hne].
    + split; [done|]. intros H. destruct H. by left.
    + rewrite IH. split.
      * intros Hn [?|?]; auto.
      * intros Hn ?. apply Hn. by right.
Qed.

Lemma after_first_Some c s rest :
  after_first c s = Some rest ↔
  ∃ before, s = before +:+ String c rest ∧ ¬ occurs c before.
Proof.
  revert rest. induction s as [|a s IH]; intros rest; simpl.
  - split; [done|]. intros ([|x pre] & E & _); discriminate E.
  - destruct (ascii_dec a c) as [->|Hne].
    + split.
      * intros [= ->]. exists EmptyString. split; [done|].
        apply not_occurs_empty.
      * intros ([|x pre] & E & Hn).
        -- rewrite append_nil in E. by injection E as ->.
        -- rewrite append_cons in E. injection E as <- _.
           destruct Hn. apply occurs_cons. by left.
    + rewrite IH. split.
      * intros (pre & -> & Hn). exists (String a pre). split; [done|].
        rewrite occurs_cons. intros [?|?]; auto.
      * intros ([|x pre] & E & Hn).
        -- rewrite append_nil in E. by injection E as -> _.
        -- rewrite append_cons in E. injection E as <- ->.
           exists pre. split; [done|].
           intros ?. apply Hn, occurs_cons. by right.
Qed.

Lemma nonempty_true s : nonempty s = true ↔ s ≠ EmptyString.
Proof. by destruct s. Qed.

Lemma join_items_chars s : Py.join_items (JStr <$> chars s) = Ok s.
Proof.
  induction s as [|c s IH]; [done|].
  change (bind (Py.join_items (JStr <$> chars s))
            (fun r => Ok (String c EmptyString +:+ r)) = Ok (String c s)).
  by rewrite IH.
Qed.

(** ["".join(s)] of a string is the string. *)
Lemma join_str s : Py.join (JStr s) = Ok s.
Proof. apply join_items_chars. Qed.

End PyStrFacts.

Lemma bind_Ok {A B : Type} (m : res A) (f : A -> res B) (b : B) :
  bind m f = Ok b ↔ ∃ a, m = Ok a ∧ f a = Ok b.
Proof.
  destruct m as [a|e]; simpl.
  - split; [by exists a|]. by intros (? & [= <-] & ?).
  - split; [done|]. by intros (? & ? & ?).
Qed.

(** A value that answers [v[k]] is a dict, so [v.get] does not raise. *)
Lemma subscript_Ok_get (v : json) (k k' : string) (x d : json) :
  Py.subscript v k = Ok x → ∃ y, Py.get v k' d = Ok y.
Proof.
  destruct v; simpl; try done. intros _. destruct (Py.assoc k' fields); eauto.
Qed.

(* ===================================================================== *)
(** * The unit classifier: claims C3 and C4 *)
(* ===================================================================== *)

Section Classifier.
Import PyStr PyStrFacts.

(** The question rule in the words of its description: a first colon
    exists and the text after it, stripped, is not empty. *)
Lemma answered_spec (source : string) :
  answered source = true ↔
  ∃ before after,
    source = before +:+ String colon after ∧ ¬ occurs colon before
    ∧ strip after ≠ EmptyString.
Proof.
  unfold answered. destruct (after_first colon source) as [rest|] eqn:E.
  - apply after_first_Some in E as (pre & -> & Hn).
    rewrite nonempty_true. split.
    + intros ?. by exists pre, rest.
    + intros (pre' & post' & E & Hn' & ?).
      assert (after_first colon (pre +:+ String colon rest) = Some post')
        as E1 by (apply after_first_Some; eauto).
      assert (after_first colon (pre +:+ String colon rest) = Some rest)
        as E2 by (apply after_first_Some; eauto).
      congruence.
  - apply after_first_None in E. split; [done|].
    intros (pre & post & -> & _). destruct E. by exists pre, post.
Qed.

Lemma has_content_question (cell : json) (src : string) :
  joined_source cell = Ok src →
  startswith "Question" (strip src) = true →
  has_content cell = Ok (answered (strip src)).
Proof.
  intros Hsrc Hq. unfold has_content. rewrite Hsrc. cbn [bind].
  by rewrite Hq.
Qed.

End Classifier.

(** C4.  A cell of any kind whose stripped text begins with "Question" is
    classified complete exactly when the text has a colon and the text
    after the first colon, stripped, is not empty; so the text
    "Question: " is incomplete and "Question: yes" is complete. *)
Theorem question_cell_complete_iff_answered (cell : json) (src : string)
    (Hsrc : joined_source cell = Ok src)
    (Hq : PyStr.startswith "Question" (PyStr.strip src) = true) :
  (∃ complete, has_content cell = Ok complete ∧
     (complete = true ↔
      ∃ before after,
        PyStr.strip src = before +:+ String PyStr.colon after
        ∧ ¬ PyStr.occurs PyStr.colon before
        ∧ PyStr.strip after ≠ EmptyString))
  ∧ (PyStr.strip src = PyStr.strip "Question: " → has_content cell = Ok false)
  ∧ (PyStr.strip src = "Question: yes" → has_content cell = Ok true).
Proof.
  pose proof (has_content_question cell src Hsrc Hq) as H.
  split; [|split].
  - exists (answered (PyStr.strip src)). split; [done|]. apply answered_spec.
  - intros E. by rewrite H, E.
  - intros E. by rewrite H, E.
Qed.

Lemma question_cell_complete_iff_answered_witness :
  let cell := JObj [("cell_type", JStr "markdown");
                    ("source", JArr [JStr "Question 1"; JStr ": 42 "])] in
  has_content cell = Ok true.
Proof.
  intros cell.
  destruct (question_cell_complete_iff_answered cell "Question 1: 42 "
              eq_refl eq_refl) as [(complete & Hc & Hiff) _].
  rewrite Hc. f_equal. apply Hiff.
  exists "Question 1", " 42". repeat split; [|done].
  apply PyStrFacts.after_first_None. reflexivity.
Defined.

(** C3, as the code has it.  A code cell whose stripped source is not
    empty and does not begin with "Question", and whose outputs
    collection is not empty, is classified complete, whatever its
    execution marker. *)
Theorem code_cell_with_output_complete (cell ct outputs : json)
    (src : string) (n : nat)
    (Htype : Py.subscript cell "cell_type" = Ok ct)
    (Hcode : Py.eq_str ct "code" = true)
    (Hsrc : joined_source cell = Ok src)
    (Hne : PyStr.strip src ≠ EmptyString)
    (Hq : PyStr.startswith "Question" (PyStr.strip src) = false)
    (Hout : Py.get cell "outputs" (JArr []) = Ok outputs)
    (Hlen : Py.len outputs = Ok n)
    (Hpos : 0 < n) :
  has_content cell = Ok true.
Proof.
  unfold has_content. rewrite Hsrc. cbn [bind]. rewrite Hq, Htype.
  cbn [bind]. rewrite Hcode, Hout. cbn [bind].
  destruct (subscript_Ok_get cell "cell_type" "execution_count" ct JNull Htype)
    as [ec ->]. cbn [bind].
  apply PyStrFacts.nonempty_true in Hne. rewrite Hne, Hlen. cbn [bind].
  by apply Nat.ltb_lt in Hpos as ->.
Qed.

Lemma code_cell_with_output_complete_witness :
  has_content (JObj [("cell_type", JStr "code"); ("source", JStr "x = 1");
                     ("outputs", JArr [JObj []])]) = Ok true.
Proof.
  apply (code_cell_with_output_complete _ (JStr "code") (JArr [JObj []])
           "x = 1" 1); try reflexivity; [done|lia].
Defined.

(** C3 as stated fails: a code cell with the source "Question", an output
    and an execution marker is classified incomplete, because the question
    rule comes first. *)
Lemma code_cell_with_output_counterexample :
  let cell := JObj [("cell_type", JStr "code"); ("source", JStr "Question");
                    ("outputs", JArr [JObj []]);
                    ("execution_count", JNum 1)] in
  Py.subscript cell "cell_type" = Ok (JStr "code")
  ∧ joined_source cell = Ok "Question"
  ∧ PyStr.strip "Question" ≠ EmptyString
  ∧ Py.get cell "outputs" (JArr []) = Ok (JArr [JObj []])
  ∧ Py.len (JArr [JObj []]) = Ok 1
  ∧ has_content cell = Ok false.
Proof. repeat split; done. Qed.

(* ===================================================================== *)
(** * The header matchers agree with their patterns *)
(* ===================================================================== *)

Module HeaderFacts.
Import PyStr PyStrFacts Header.

Lemma append_assoc (a b c : string) : (a +:+ b) +:+ c = a +:+ b +:+ c.
Proof.
  induction a as [|x a IH]; [done|]. rewrite !append_cons. by rewrite IH.
Qed.

Lemma take_drop (p : ascii → bool) (s : string) :
  s = take_while p s +:+ drop_while p s.
Proof.
  induction s as [|c s IH]; [done|]. cbn [take_while drop_while].
  destruct (p c); [|done]. by rewrite append_cons, <- IH.
Qed.

Lemma all_take (p : ascii → bool) (s : string) :
  all_chars p (take_while p s) = true.
Proof.
  induction s as [|c s IH]; [done|]. cbn [take_while].
  destruct (p c) eqn:E; [|done]. cbn [all_chars]. by rewrite E, IH.
Qed.

Lemma drop_outside (p : ascii → bool) (s : string) :
  starts_outside p (drop_while p s).
Proof.
  induction s as [|c s IH]; [done|]. cbn [drop_while].
  by destruct (p c) eqn:E.
Qed.

(** A run followed by something outside the class is what the greedy
    scan takes. *)
Lemma take_drop_unique (p : ascii → bool) (a b : string) :
  all_chars p a = true → starts_outside p b →
  take_while p (a +:+ b) = a ∧ drop_while p (a +:+ b) = b.
Proof.
  intros Ha Hb. induction a as [|c a IH].
  - rewrite append_nil. destruct b as [|x b]; [done|].
    cbn [take_while drop_while]. cbn in Hb. by rewrite Hb.
  - cbn [all_chars] in Ha. apply andb_prop in Ha as [Hc Ha].
    rewrite append_cons. cbn [take_while drop_while]. rewrite Hc.
    destruct (IH Ha) as [-> ->]. done.
Qed.

Lemma run_of_cons (p : ascii → bool) (s : string) :
  run_of p s ↔ ∃ c r, s = String c r ∧ p c = true ∧ all_chars p r = true.
Proof.
  unfold run_of. destruct s as [|c r]; cbn [all_chars].
  - split; [by intros [? _]|by intros (? & ? & ? & _)].
  - rewrite andb_true_iff. split.
    + intros [_ [? ?]]. by exists c, r.
    + intros (? & ? & [= <- <-] & ? & ?). done.
Qed.

(** The classes that follow one another in the patterns are disjoint. *)
Lemma space_not_hash c : is_space c = true → is_hash c = false.
Proof. by destruct c as [[] [] [] [] [] [] [] []]. Qed.
Lemma hash_not_space c : is_hash c = true → is_space c = false.
Proof. by destruct c as [[] [] [] [] [] [] [] []]. Qed.
Lemma digit_not_space c : is_digit c = true → is_space c = false.
Proof. by destruct c as [[] [] [] [] [] [] [] []]. Qed.
Lemma space_not_digit c : is_space c = true → is_digit c = false.
Proof. by destruct c as [[] [] [] [] [] [] [] []]. Qed.
Lemma space_not_dot c : is_space c = true → is_dot c = false.
Proof. by destruct c as [[] [] [] [] [] [] [] []]. Qed.
Lemma space_not_lower c : is_space c = true → is_lower_az c = false.
Proof. by destruct c as [[] [] [] [] [] [] [] []]. Qed.
Lemma lower_not_digit c : is_lower_az c = true → is_digit c = false.
Proof. by destruct c as [[] [] [] [] [] [] [] []]. Qed.
Lemma digit_not_hash c : is_digit c = true → is_hash c = false.
Proof. by destruct c as [[] [] [] [] [] [] [] []]. Qed.
Lemma is_dot_eq c : is_dot c = true ↔ c = "."%char.
Proof. by destruct c as [[] [] [] [] [] [] [] []]. Qed.
Lemma dot_not_digit : is_digit "." = false.
Proof. reflexivity. Qed.
Lemma dot_not_lower : is_lower_az "." = false.
Proof. reflexivity. Qed.

Lemma dot_then_space_spec (s : string) :
  dot_then_space s = true ↔ tail_pattern s.
Proof.
  unfold dot_then_space, tail_pattern. split.
  - destruct s as [|c r]; [done|]. destruct (is_dot c) eqn:Hdot.
    + apply is_dot_eq in Hdot as ->. destruct r as [|b r']; [done|].
      intros Hb. exists ".", (String b EmptyString), r'.
      split; [done|]. split; [by right|]. split; [done|].
      cbn [all_chars]. by rewrite Hb.
    + intros Hc. exists EmptyString, (String c EmptyString), r.
      split; [done|]. split; [by left|]. split; [done|].
      cbn [all_chars]. by rewrite Hc.
  - intros (dot & ws & rest & -> & Hdot & Hws).
    apply run_of_cons in Hws as (b & ws' & -> & Hb & _).
    destruct Hdot as [->| ->].
    + rewrite append_nil, append_cons. by rewrite (space_not_dot b Hb).
    + done.
Qed.

Lemma tail_starts_outside_digit (t : string) :
  tail_pattern t → starts_outside is_digit t ∧ starts_outside is_lower_az t.
Proof.
  intros (dot & ws & rest & -> & Hdot & Hws).
  apply run_of_cons in Hws as (b & ws' & -> & Hb & _).
  destruct Hdot as [->| ->]; [|done].
  rewrite append_nil, append_cons. cbn.
  by rewrite space_not_digit, space_not_lower.
Qed.

Lemma capture_main_spec (s group : string) :
  capture_main s = Some group ↔ main_group s group.
Proof.
  unfold capture_main, main_group. split.
  - destruct (nonempty (take_while is_digit s)) eqn:Hne; [|done].
    destruct (dot_then_space (drop_while is_digit s)) eqn:Ht; [|done].
    intros [= <-]. exists (drop_while is_digit s).
    split; [apply take_drop|]. split.
    + split; [by apply nonempty_true|apply all_take].
    + by apply dot_then_space_spec.
  - intros (t & -> & [Hne Hall] & Ht).
    destruct (take_drop_unique is_digit group t Hall) as [-> ->].
    { apply (tail_starts_outside_digit t Ht). }
    apply nonempty_true in Hne. apply dot_then_space_spec in Ht.
    by rewrite Hne, Ht.
Qed.

Lemma capture_sub_spec (s group : string) :
  capture_sub s = Some group ↔ sub_group s group.
Proof.
  unfold capture_sub, sub_group. split.
  - destruct (drop_while is_digit s) as [|c r] eqn:Hdrop; [done|].
    destruct (nonempty (take_while is_digit s)) eqn:Hne; [|done].
    destruct (is_lower_az c) eqn:Hc; [|done].
    destruct (dot_then_space r) eqn:Ht; [|done].
    intros [= <-]. exists (take_while is_digit s), c, r.
    split; [done|]. split.
    { rewrite append_assoc, append_cons, append_nil, <- Hdrop.
      apply take_drop. }
    split; [split; [by apply nonempty_true|apply all_take]|].
    split; [done|]. by apply dot_then_space_spec.
  - intros (d & c & t & -> & -> & [Hne Hall] & Hc & Ht).
    rewrite append_assoc, append_cons, append_nil.
    destruct (take_drop_unique is_digit d (String c t) Hall) as [-> ->].
    { cbn. by apply lower_not_digit. }
    apply nonempty_true in Hne. apply dot_then_space_spec in Ht.
    by rewrite Hne, Hc, Ht.
Qed.

Lemma capture_simple_spec (s group : string) :
  capture_simple s = Some group ↔ main_group s group ∨ sub_group s group.
Proof.
  rewrite <- capture_main_spec, <- capture_sub_spec.
  unfold capture_simple, capture_main, capture_sub.
  destruct (drop_while is_digit s) as [|c r] eqn:Hdrop.
  - rewrite andb_false_r. naive_solver.
  - destruct (is_lower_az c) eqn:Hc.
    + assert (dot_then_space (String c r) = false) as ->.
      { unfold dot_then_space.
        destruct (is_dot c) eqn:Hdot.
        - apply is_dot_eq in Hdot as ->. by rewrite dot_not_lower in Hc.
        - destruct (is_space c) eqn:Hs; [|done].
          by rewrite (space_not_lower c Hs) in Hc. }
      rewrite andb_false_r, andb_true_r. naive_solver.
    + rewrite andb_false_r. cbn [andb]. naive_solver.
Qed.

Lemma main_group_starts_outside (r group : string) :
  main_group r group ∨ sub_group r group →
  starts_outside is_space r ∧ starts_outside is_hash r.
Proof.
  assert (∀ d rest, run_of is_digit d →
            starts_outside is_space (d +:+ rest)
            ∧ starts_outside is_hash (d +:+ rest)) as Hd.
  { intros d rest (c & d' & -> & Hc & _)%run_of_cons.
    rewrite append_cons. cbn. by rewrite digit_not_space, digit_not_hash. }
  intros [(t & -> & Hg & _)|(d & c & t & -> & -> & Hg & _)].
  - by apply Hd.
  - rewrite append_assoc. by apply Hd.
Qed.

Lemma after_markers_spec (line r : string) :
  starts_outside is_space r →
  after_markers line = Some r ↔
  ∃ ws hs ws2,
    line = ws +:+ hs +:+ ws2 +:+ r ∧ all_chars is_space ws = true
    ∧ run_of is_hash hs ∧ run_of is_space ws2.
Proof.
  intros Hr. unfold after_markers. split.
  - destruct (drop_while is_space line) as [|c r1] eqn:H1; [done|].
    destruct (is_hash c) eqn:Hc; [|done].
    destruct (drop_while is_hash r1) as [|b r2] eqn:H2; [done|].
    destruct (is_space b) eqn:Hb; [|done]. intros [= <-].
    exists (take_while is_space line),
           (String c (take_while is_hash r1)),
           (String b (take_while is_space r2)).
    split.
    { rewrite (take_drop is_space line) at 1. rewrite H1. f_equal.
      rewrite !append_cons. f_equal.
      rewrite (take_drop is_hash r1) at 1. rewrite H2. f_equal.
      f_equal. apply take_drop. }
    split; [apply all_take|]. split.
    + apply run_of_cons. exists c, (take_while is_hash r1).
      split; [done|]. split; [done|apply all_take].
    + apply run_of_cons. exists b, (take_while is_space r2).
      split; [done|]. split; [done|apply all_take].
  - intros (ws & hs & ws2 & -> & Hws & Hhs & Hws2).
    apply run_of_cons in Hhs as (c & hs' & -> & Hc & Hhs').
    apply run_of_cons in Hws2 as (b & ws2' & -> & Hb & Hws2').
    destruct (take_drop_unique is_space ws
                (String c hs' +:+ String b ws2' +:+ r) Hws) as [_ ->].
    { rewrite append_cons. cbn. by apply hash_not_space. }
    rewrite append_cons, Hc.
    destruct (take_drop_unique is_hash hs' (String b ws2' +:+ r) Hhs')
      as [_ ->].
    { rewrite append_cons. cbn. by apply space_not_hash. }
    rewrite append_cons, Hb.
    by destruct (take_drop_unique is_space ws2' r Hws2' Hr) as [_ ->].
Qed.

Lemma after_three_markers_spec (line r : string) :
  starts_outside is_space r →
  after_three_markers line = Some r ↔
  ∃ ws ws2,
    line = ws +:+ "###" +:+ ws2 +:+ r ∧ all_chars is_space ws = true
    ∧ run_of is_space ws2.
Proof.
  intros Hr. unfold after_three_markers. split.
  - destruct (drop_while is_space line)
      as [|c1 [|c2 [|c3 [|b r1]]]] eqn:H1; try done.
    destruct (is_hash c1) eqn:E1; [|done].
    destruct (is_hash c2) eqn:E2; [|done].
    destruct (is_hash c3) eqn:E3; [|done].
    destruct (is_space b) eqn:Hb; [|done]. intros [= <-].
    assert (∀ c, is_hash c = true → c = "#"%char) as Hhash
      by (by intros [[] [] [] [] [] [] [] []]).
    apply Hhash in E1 as ->. apply Hhash in E2 as ->.
    apply Hhash in E3 as ->.
    exists (take_while is_space line), (String b (take_while is_space r1)).
    split.
    { rewrite (take_drop is_space line) at 1. rewrite H1. f_equal.
      rewrite !append_cons, append_nil. do 4 f_equal. apply take_drop. }
    split; [apply all_take|].
    apply run_of_cons. exists b, (take_while is_space r1).
    split; [done|]. split; [done|apply all_take].
  - intros (ws & ws2 & -> & Hws & Hws2).
    apply run_of_cons in Hws2 as (b & ws2' & -> & Hb & Hws2').
    destruct (take_drop_unique is_space ws
                ("###" +:+ String b ws2' +:+ r) Hws) as [_ ->]; [done|].
    rewrite !append_cons, append_nil.
    change (is_hash "#") with true. rewrite Hb. cbn [andb].
    by destruct (take_drop_unique is_space ws2' r Hws2' Hr) as [_ ->].
Qed.

(** The four matchers return the group of their pattern, and only it. *)
Lemma match_main_spec (line group : string) :
  match_main line = Some group ↔ main_pattern line group.
Proof.
  unfold match_main, main_pattern. split.
  - destruct (after_markers line) as [r|] eqn:Hr; [|done]. intros Hg.
    apply capture_main_spec in Hg.
    apply after_markers_spec in Hr as (ws & hs & ws2 & ? & ? & ? & ?);
      [|by eapply main_group_starts_outside; left].
    by exists ws, hs, ws2, r.
  - intros (ws & hs & ws2 & r & Hline & Hws & Hhs & Hws2 & Hg).
    assert (after_markers line = Some r) as ->.
    { apply after_markers_spec;
        [by eapply main_group_starts_outside; left|].
      by exists ws, hs, ws2. }
    by apply capture_main_spec.
Qed.

Lemma match_sub_spec (line group : string) :
  match_sub line = Some group ↔ sub_pattern line group.
Proof.
  unfold match_sub, sub_pattern. split.
  - destruct (after_markers line) as [r|] eqn:Hr; [|done]. intros Hg.
    apply capture_sub_spec in Hg.
    apply after_markers_spec in Hr as (ws & hs & ws2 & ? & ? & ? & ?);
      [|by eapply main_group_starts_outside; right].
    by exists ws, hs, ws2, r.
  - intros (ws & hs & ws2 & r & Hline & Hws & Hhs & Hws2 & Hg).
    assert (after_markers line = Some r) as ->.
    { apply after_markers_spec;
        [by eapply main_group_starts_outside; right|].
      by exists ws, hs, ws2. }
    by apply capture_sub_spec.
Qed.

Lemma match_sub3_spec (line group : string) :
  match_sub3 line = Some group ↔ sub3_pattern line group.
Proof.
  unfold match_sub3, sub3_pattern. split.
  - destruct (after_three_markers line) as [r|] eqn:Hr; [|done]. intros Hg.
    apply capture_sub_spec in Hg.
    apply after_three_markers_spec in Hr as (ws & ws2 & ? & ? & ?);
      [|by eapply main_group_starts_outside; right].
    by exists ws, ws2, r.
  - intros (ws & ws2 & r & Hline & Hws & Hws2 & Hg).
    assert (after_three_markers line = Some r) as ->.
    { apply after_three_markers_spec;
        [by eapply main_group_starts_outside; right|].
      by exists ws, ws2. }
    by apply capture_sub_spec.
Qed.

Lemma match_simple_spec (s group : string) :
  match_simple s = Some group ↔ simple_pattern s group.
Proof.
  unfold match_simple, simple_pattern. split.
  - destruct s as [|c r]; [done|]. destruct (is_hash c) eqn:Hc; [|done].
    intros Hg. apply capture_simple_spec in Hg.
    exists (String c (take_while is_hash r)),
           (take_while is_space (drop_while is_hash r)),
           (drop_while is_space (drop_while is_hash r)).
    split.
    { rewrite append_cons. f_equal. rewrite <- take_drop.
      apply take_drop. }
    split.
    { apply run_of_cons. exists c, (take_while is_hash r).
      split; [done|]. split; [done|apply all_take]. }
    split; [apply all_take|done].
  - intros (hs & ws & r & -> & Hhs & Hws & Hg).
    apply run_of_cons in Hhs as (c & hs' & -> & Hc & Hhs').
    destruct (main_group_starts_outside r group Hg) as [Hsp Hh].
    rewrite append_cons, Hc.
    destruct (take_drop_unique is_hash hs' (ws +:+ r) Hhs') as [_ ->].
    { destruct ws as [|b ws'].
      - by rewrite append_nil.
      - rewrite append_cons. cbn [all_chars] in Hws.
        apply andb_prop in Hws as [Hb _]. cbn. by apply space_not_hash. }
    destruct (take_drop_unique is_space ws r Hws Hsp) as [_ ->].
    by apply capture_simple_spec.
Qed.

End HeaderFacts.

(* ===================================================================== *)
(** * The default grader: scoring *)
(* ===================================================================== *)

Lemma sum_list_cons (x : nat) (l : list nat) :
  sum_list (x :: l) = x + sum_list l.
Proof. reflexivity. Qed.

Module ScoringFacts.
Import Enhanced.

Lemma score_section_spec (t : tally) (k : string) (e : expected) :
  raw_follows_code (completed_code t) (completed_raw t) →
  let t' := score_section t (k, e) in
  (∀ j, default 0 (completed_code t' !! j) = default 0 (completed_code t !! j))
  ∧ (∀ j, default 0 (completed_raw t' !! j) = default 0 (completed_raw t !! j))
  ∧ raw_follows_code (completed_code t') (completed_raw t')
  ∧ scored t' = <[k := score_of (completed_code t) (completed_raw t) k e]> (scored t)
  ∧ total_points t' = total_points t + earned_of (completed_code t) (completed_raw t) k e
  ∧ total_expected_points t' = total_expected_points t + expected_total_of e.
Proof.
  intros HJ. unfold score_section, earned_of, score_of; cbn [fst snd].
  destruct e as [[[c|] ro p s]|p]; cbn [scored total_points
    total_expected_points completed_code completed_raw];
    try (repeat split; done).
  case_bool_decide as Hk.
  - pose proof (HJ k Hk) as Hr.
    rewrite !lookup_insert_eq, Hk, Hr. cbn [default].
    repeat split.
    + intros j. destruct (decide (k = j)) as [<-|?].
      * by rewrite lookup_insert_eq, Hk.
      * by rewrite lookup_insert_ne.
    + intros j. destruct (decide (k = j)) as [<-|?].
      * by rewrite lookup_insert_eq, Hr.
      * by rewrite lookup_insert_ne.
    + intros j. destruct (decide (k = j)) as [<-|?].
      * by rewrite !lookup_insert_eq.
      * rewrite !lookup_insert_ne by done. apply HJ.
  - repeat split; done.
Qed.

Lemma fold_score_spec (l : list (string * expected)) (t : tally) :
  raw_follows_code (completed_code t) (completed_raw t) →
  let t' := fold_left score_section l t in
  (∀ k, k ∉ l.*1 → scored t' !! k = scored t !! k)
  ∧ (NoDup l.*1 → ∀ k e, (k, e) ∈ l →
       scored t' !! k
       = Some (score_of (completed_code t) (completed_raw t) k e))
  ∧ total_points t'
    = total_points t
      + sum_list ((fun x => earned_of (completed_code t) (completed_raw t)
                              x.1 x.2) <$> l)
  ∧ total_expected_points t'
    = total_expected_points t + sum_list (expected_total_of <$> l.*2).
Proof.
  revert t. induction l as [|[k0 e0] l IH]; intros t HJ; cbn [fold_left].
  - repeat split; [|simpl; lia..]. intros _ k e H. by apply elem_of_nil in H.
  - destruct (score_section_spec t k0 e0 HJ)
      as (Hcc & Hcr & HJ' & Hsc & Htp & Hte).
    destruct (IH _ HJ') as (IH1 & IH2 & IH3 & IH4).
    assert (∀ k e, score_of (completed_code (score_section t (k0, e0)))
                     (completed_raw (score_section t (k0, e0))) k e
                   = score_of (completed_code t) (completed_raw t) k e)
      as Hsame.
    { intros k e. unfold score_of. by rewrite Hcc, Hcr. }
    repeat split.
    + intros k Hk. rewrite fmap_cons, not_elem_of_cons in Hk.
      destruct Hk as [Hne Hk]. rewrite IH1, Hsc by done.
      by rewrite lookup_insert_ne.
    + intros Hnd k e Hin. rewrite fmap_cons in Hnd.
      apply NoDup_cons in Hnd as [Hk0 Hnd].
      apply elem_of_cons in Hin as [[= -> ->]|Hin].
      * rewrite IH1, Hsc by done. by rewrite lookup_insert_eq.
      * rewrite (IH2 Hnd k e Hin). by rewrite Hsame.
    + rewrite IH3, Htp, fmap_cons, sum_list_cons. cbn [fst snd].
      rewrite <- Nat.add_assoc. do 3 f_equal.
      apply list_fmap_ext. intros _ [k e] _. cbn [fst snd].
      unfold earned_of. by rewrite Hsame.
    + rewrite IH4, Hte, !fmap_cons, sum_list_cons. cbn [snd]. lia.
Qed.

(** The denominator does not depend on the counters. *)
Lemma fold_score_expected (l : list (string * expected)) (t : tally) :
  total_expected_points (fold_left score_section l t)
  = total_expected_points t + sum_list (expected_total_of <$> l.*2).
Proof.
  revert t. induction l as [|[k e] l IH]; intros t; cbn [fold_left].
  - simpl. lia.
  - rewrite IH, !fmap_cons, sum_list_cons. cbn [snd].
    rewrite Nat.add_assoc. f_equal.
    unfold score_section; cbn [fst snd].
    by destruct e as [[[c|] ro p s]|p].
Qed.

(** The capping of one score. *)
Lemma score_of_split_capped cc cr k c raw_opt p s :
  ∃ ec er,
    score_of cc cr k (ExpDict (SectionDict (Some c) raw_opt p s))
    = SplitScore ec er (ec + er) c (default 0 raw_opt) (c + default 0 raw_opt)
    ∧ ec = default 0 (cc !! k) `min` c
    ∧ er = default 0 (cr !! k) `min` default 0 raw_opt
    ∧ ec ≤ c ∧ er ≤ default 0 raw_opt.
Proof.
  exists (default 0 (cc !! k) `min` c),
         (default 0 (cr !! k) `min` default 0 raw_opt).
  split; [done|]. repeat split; lia.
Qed.

Lemma score_of_missed cc cr k e :
  cc !! k = None → default 0 (cr !! k) = 0 →
  score_of cc cr k e = missed_score e.
Proof.
  intros Hc Hr. unfold score_of, missed_score. rewrite Hc, Hr.
  by destruct e as [[[c|] ro p s]|p].
Qed.

(** Keys without counters earn nothing. *)
Lemma fold_score_unseen (l : list (string * expected)) (t : tally) :
  raw_follows_code (completed_code t) (completed_raw t) →
  (∀ k, k ∈ l.*1 → completed_code t !! k = None) →
  total_points (fold_left score_section l t) = total_points t.
Proof.
  intros HJ Hnone. destruct (fold_score_spec l t HJ) as (_ & _ & -> & _).
  assert (sum_list ((fun x => earned_of (completed_code t) (completed_raw t)
                                x.1 x.2) <$> l) = 0) as ->; [|lia].
  induction l as [|[k e] l IH]; [done|].
  rewrite fmap_cons, sum_list_cons. cbn [fst snd].
  rewrite IH.
  - unfold earned_of. rewrite score_of_missed.
    + by destruct e as [[[c|] ro p s]|p].
    + apply Hnone. rewrite fmap_cons. left.
    + apply HJ, Hnone. rewrite fmap_cons. left.
  - intros j Hj. apply Hnone. rewrite fmap_cons. by right.
Qed.

End ScoringFacts.

(* ===================================================================== *)
(** * The default grader: the cell loop *)
(* ===================================================================== *)

Lemma increment_Ok (d d' : gmap string nat) (k : string) :
  increment d k = Ok d' →
  ∃ n, d !! k = Some n ∧ d' = <[k := S n]> d ∧ dom d' = dom d.
Proof.
  unfold increment. destruct (d !! k) as [n|] eqn:E; [|done].
  intros [= <-]. exists n. repeat split.
  rewrite dom_insert_L. apply elem_of_dom_2 in E. set_solver.
Qed.

Lemma increment_total (d : gmap string nat) (k : string) :
  k ∈ dom d → ∃ d', increment d k = Ok d'.
Proof.
  intros [n E]%elem_of_dom. unfold increment. rewrite E. eauto.
Qed.

Lemma item_total {V : Type} (d : gmap string V) (k : string) :
  k ∈ dom d → ∃ v, item d k = Ok v.
Proof. intros [v E]%elem_of_dom. unfold item. rewrite E. eauto. Qed.

(** The classifier returns on every cell of the expected shape. *)
Lemma joined_source_total (cell : json) :
  Shape.is_cell cell = true → ∃ src, joined_source cell = Ok src.
Proof.
  destruct cell as [| | | | |fields]; try done. unfold Shape.is_cell.
  intros [[_ Hsrc]%andb_prop _]%andb_prop.
  unfold joined_source, Py.get.
  destruct (Py.assoc "source" fields) as [v|]; [|done]. cbn [bind].
  destruct v as [| | |s|items|]; try done.
  - exists s. apply PyStrFacts.join_str.
  - unfold Py.join, Py.iter. cbn [bind]. cbn [Shape.is_text] in Hsrc.
    induction items as [|x items IH]; [by exists EmptyString|].
    cbn [forallb] in Hsrc. apply andb_prop in Hsrc as [Hx Hrest].
    destruct x; try done. destruct (IH Hrest) as [r Hr].
    exists (s +:+ r). cbn [Py.join_items]. by rewrite Hr.
Qed.

Lemma cell_type_total (cell : json) :
  Shape.is_cell cell = true → ∃ ct, Py.subscript cell "cell_type" = Ok ct.
Proof.
  destruct cell as [| | | | |fields]; try done. unfold Shape.is_cell.
  intros [[Hct _]%andb_prop _]%andb_prop. unfold Py.subscript.
  destruct (Py.assoc "cell_type" fields); [eauto|done].
Qed.

Lemma has_content_total (cell : json) :
  Shape.is_cell cell = true → ∃ complete, has_content cell = Ok complete.
Proof.
  intros Hcell.
  destruct (joined_source_total cell Hcell) as [src Hsrc].
  destruct (cell_type_total cell Hcell) as [ct Hct].
  unfold has_content. rewrite Hsrc. cbn [bind].
  destruct (PyStr.startswith "Question" (PyStr.strip src)); [eauto|].
  rewrite Hct. cbn [bind].
  destruct (Py.eq_str ct "code"); [|repeat case_match; eauto].
  destruct cell as [| | | | |fields]; try done. unfold Shape.is_cell in Hcell.
  apply andb_prop in Hcell as [_ Hout]. unfold Py.get.
  destruct (Py.assoc "execution_count" fields);
    destruct (Py.assoc "outputs" fields) as [[]|]; try done; cbn [bind];
    destruct (PyStr.nonempty (PyStr.strip src)); cbn [bind Py.len];
    repeat case_match; eauto.
Qed.

Module EnhancedFacts.
Import Enhanced.

Section Scan.
Variable cfg : expected_config.

Local Abbreviation invariant := (Enhanced.invariant cfg).
Local Abbreviation header_keys := (Enhanced.header_keys cfg).
Local Abbreviation never_encountered := (Enhanced.never_encountered cfg).

Lemma enhanced_invariant_initial : invariant initial.
Proof. split; try done; intros k [=]. Qed.

Lemma enhanced_init_tracking_dom (k : string) (st : state) :
  dom (section_completed_code (init_tracking cfg k st))
  = if in_rubric cfg k then {[k]} ∪ dom (section_completed_code st)
    else dom (section_completed_code st).
Proof.
  unfold init_tracking. destruct (in_rubric cfg k); cbn [andb]; [|done].
  case_bool_decide as Hk; cbn [section_completed_code].
  - by rewrite dom_insert_L.
  - apply not_eq_None_Some, elem_of_dom in Hk. set_solver.
Qed.

Lemma enhanced_init_tracking_current (k : string) (st : state) :
  current_section (init_tracking cfg k st) = current_section st
  ∧ current_subsection (init_tracking cfg k st) = current_subsection st.
Proof. unfold init_tracking. by case_match. Qed.

(** Initialising keeps the keys aligned. *)
Lemma enhanced_init_tracking_aligned (k : string) (st : state) :
  dom (section_cell_counts_code st) = dom (section_completed_code st) →
  dom (section_completed_raw st) = dom (section_completed_code st) →
  dom (section_cell_counts_raw st) = dom (section_completed_code st) →
  dom (missed_indices st) = dom (section_completed_code st) →
  let st' := init_tracking cfg k st in
  dom (section_cell_counts_code st') = dom (section_completed_code st')
  ∧ dom (section_completed_raw st') = dom (section_completed_code st')
  ∧ dom (section_cell_counts_raw st') = dom (section_completed_code st')
  ∧ dom (missed_indices st') = dom (section_completed_code st').
Proof.
  intros H1 H2 H3 H4. unfold init_tracking. case_match; [|done].
  cbn [section_cell_counts_code section_completed_code
       section_completed_raw section_cell_counts_raw missed_indices].
  rewrite !dom_insert_L. by rewrite H1, H2, H3, H4.
Qed.

Lemma enhanced_invariant_enter_section (k : string) (st : state) :
  invariant st → invariant (init_tracking cfg k (set_current_section k st)).
Proof.
  intros [H1 H2 H3 H4 H5 H6].
  destruct (enhanced_init_tracking_aligned k (set_current_section k st) H1 H2 H3 H4)
    as (A1 & A2 & A3 & A4).
  destruct (enhanced_init_tracking_current k (set_current_section k st)) as [C1 C2].
  split; try done.
  - intros j. rewrite C1. cbn [set_current_section current_section].
    intros [= <-] Hr. rewrite enhanced_init_tracking_dom, Hr. set_solver.
  - intros j. rewrite C2. cbn [set_current_section current_subsection].
    intros Hj Hr. rewrite enhanced_init_tracking_dom.
    specialize (H6 j Hj Hr). cbn [set_current_section section_completed_code].
    case_match; set_solver.
Qed.

Lemma enhanced_invariant_enter_subsection (k : string) (st : state) :
  invariant st →
  invariant (init_tracking cfg k (set_current_subsection k st)).
Proof.
  intros [H1 H2 H3 H4 H5 H6].
  destruct (enhanced_init_tracking_aligned k (set_current_subsection k st)
              H1 H2 H3 H4) as (A1 & A2 & A3 & A4).
  destruct (enhanced_init_tracking_current k (set_current_subsection k st))
    as [C1 C2].
  split; try done.
  - intros j. rewrite C1. cbn [set_current_subsection current_section].
    intros Hj Hr. rewrite enhanced_init_tracking_dom.
    specialize (H5 j Hj Hr).
    cbn [set_current_subsection section_completed_code].
    case_match; set_solver.
  - intros j. rewrite C2. cbn [set_current_subsection current_subsection].
    intros [= <-] Hr. rewrite enhanced_init_tracking_dom, Hr. set_solver.
Qed.

Lemma enhanced_invariant_track_headers (source : string) (st : state) :
  invariant st → invariant (track_headers cfg source st).
Proof.
  intros Hinv. unfold track_headers.
  repeat case_match;
    repeat first [apply enhanced_invariant_enter_subsection
                 |apply enhanced_invariant_enter_section]; done.
Qed.

Lemma enhanced_track_headers_dom (source : string) (st : state) (k : string) :
  k ∈ dom (section_completed_code (track_headers cfg source st)) →
  k ∈ dom (section_completed_code st) ∨ k ∈ header_keys source.
Proof.
  unfold track_headers, header_keys.
  destruct (PyStr.contains deseq_anchor source
            && PyStr.contains "# 2. DESeq2" source);
    destruct (last (main_sections _ source)) as [m|];
    destruct (last (subsections _ source)) as [s|];
    cbn [option_list app]; rewrite ?enhanced_init_tracking_dom;
    repeat case_match;
    cbn [set_current_section set_current_subsection section_completed_code];
    rewrite ?enhanced_init_tracking_dom; repeat case_match;
    cbn [set_current_section set_current_subsection section_completed_code];
    rewrite ?enhanced_init_tracking_dom; repeat case_match;
    cbn [set_current_section set_current_subsection section_completed_code];
    set_solver.
Qed.

Lemma enhanced_count_code_Ok (k : string) (cell : json) (st st' : state) :
  count_code k cell st = Ok st' → invariant st →
  invariant st'
  ∧ dom (section_completed_code st') = dom (section_completed_code st)
  ∧ current_section st' = current_section st
  ∧ current_subsection st' = current_subsection st.
Proof.
  unfold count_code. intros H [H1 H2 H3 H4 H5 H6].
  apply bind_Ok in H as (counts & Hc & H).
  apply increment_Ok in Hc as (n & Hn & -> & Hd).
  apply bind_Ok in H as ([] & _ & H).
  - apply bind_Ok in H as (completed & Hc & [= <-]).
    apply increment_Ok in Hc as (m & Hm & -> & Hd').
    cbn [section_completed_code current_section current_subsection].
    split; [|done]. split; cbn [section_cell_counts_code
      section_completed_code section_completed_raw section_cell_counts_raw
      missed_indices current_section current_subsection];
      rewrite ?Hd, ?Hd'; done.
  - apply bind_Ok in H as (m & Hm & H).
    apply bind_Ok in H as (i & _ & [= <-]).
    cbn [section_completed_code current_section current_subsection].
    split; [|done]. split; cbn [section_cell_counts_code
      section_completed_code section_completed_raw section_cell_counts_raw
      missed_indices current_section current_subsection];
      rewrite ?Hd; try done.
    rewrite dom_insert_L, H4, <- H1.
    apply elem_of_dom_2 in Hn. set_solver.
Qed.

Lemma enhanced_count_raw_Ok (k : string) (cell : json) (st st' : state) :
  count_raw k cell st = Ok st' → invariant st →
  invariant st'
  ∧ dom (section_completed_code st') = dom (section_completed_code st)
  ∧ current_section st' = current_section st
  ∧ current_subsection st' = current_subsection st.
Proof.
  unfold count_raw. intros H [H1 H2 H3 H4 H5 H6].
  apply bind_Ok in H as (counts & Hc & H).
  apply increment_Ok in Hc as (n & Hn & -> & Hd).
  apply bind_Ok in H as ([] & _ & H).
  - apply bind_Ok in H as (completed & Hc & [= <-]).
    apply increment_Ok in Hc as (m & Hm & -> & Hd').
    cbn [section_completed_code current_section current_subsection].
    split; [|done]. split; cbn [section_cell_counts_code
      section_completed_code section_completed_raw section_cell_counts_raw
      missed_indices current_section current_subsection];
      rewrite ?Hd, ?Hd'; done.
  - apply bind_Ok in H as (m & Hm & H).
    apply bind_Ok in H as (i & _ & [= <-]).
    cbn [section_completed_code current_section current_subsection].
    split; [|done]. split; cbn [section_cell_counts_code
      section_completed_code section_completed_raw section_cell_counts_raw
      missed_indices current_section current_subsection];
      rewrite ?Hd; try done.
    rewrite dom_insert_L, H4, <- H3.
    apply elem_of_dom_2 in Hn. set_solver.
Qed.

Lemma enhanced_count_code_total (k : string) (cell : json) (st : state) :
  invariant st → k ∈ dom (section_completed_code st) →
  Shape.is_cell cell = true → ∃ st', count_code k cell st = Ok st'.
Proof.
  intros [H1 H2 H3 H4 H5 H6] Hk Hcell. unfold count_code.
  destruct (increment_total (section_cell_counts_code st) k)
    as [counts Hc]; [by rewrite H1|].
  rewrite Hc. cbn [bind].
  destruct (has_content_total cell Hcell) as [[] ->]; cbn [bind].
  - destruct (increment_total (section_completed_code st) k Hk)
      as [completed ->]. cbn [bind]. eauto.
  - destruct (item_total (missed_indices st) k) as [m ->];
      [by rewrite H4|]. cbn [bind].
    apply increment_Ok in Hc as (n & _ & -> & _).
    unfold item. rewrite lookup_insert_eq. cbn [bind]. eauto.
Qed.

Lemma enhanced_count_raw_total (k : string) (cell : json) (st : state) :
  invariant st → k ∈ dom (section_completed_code st) →
  Shape.is_cell cell = true → ∃ st', count_raw k cell st = Ok st'.
Proof.
  intros [H1 H2 H3 H4 H5 H6] Hk Hcell. unfold count_raw.
  destruct (increment_total (section_cell_counts_raw st) k)
    as [counts Hc]; [by rewrite H3|].
  rewrite Hc. cbn [bind].
  destruct (has_content_total cell Hcell) as [[] ->]; cbn [bind].
  - destruct (increment_total (section_completed_raw st) k)
      as [completed ->]; [by rewrite H2|]. cbn [bind]. eauto.
  - destruct (item_total (missed_indices st) k) as [m ->];
      [by rewrite H4|]. cbn [bind].
    apply increment_Ok in Hc as (n & _ & -> & _).
    unfold item. rewrite lookup_insert_eq. cbn [bind]. eauto.
Qed.

(** The active key, when the rubric knows it, has its counters. *)
Lemma enhanced_active_section_tracked (st : state) (k : string) :
  invariant st → active_section st = Some k → in_rubric cfg k = true →
  k ∈ dom (section_completed_code st).
Proof.
  intros [H1 H2 H3 H4 H5 H6]. unfold active_section.
  destruct (Py.truthy (current_subsection st)); eauto.
Qed.

Lemma enhanced_step_Ok (st st' : state) (cell : json) :
  step cfg st cell = Ok st' → invariant st →
  invariant st'
  ∧ ∀ k, k ∈ dom (section_completed_code st') →
         k ∈ dom (section_completed_code st)
         ∨ ∃ ct src, Py.subscript cell "cell_type" = Ok ct
                     ∧ Py.eq_str ct "markdown" = true
                     ∧ joined_source cell = Ok src
                     ∧ k ∈ header_keys src.
Proof.
  unfold step. intros H Hinv.
  apply bind_Ok in H as (ct & Hct & H).
  apply bind_Ok in H as (st1 & Hst1 & H).
  assert (invariant st1
          ∧ ∀ k, k ∈ dom (section_completed_code st1) →
                 k ∈ dom (section_completed_code st)
                 ∨ ∃ ct src, Py.subscript cell "cell_type" = Ok ct
                             ∧ Py.eq_str ct "markdown" = true
                             ∧ joined_source cell = Ok src
                             ∧ k ∈ header_keys src) as [Hinv1 Hdom1].
  { destruct (Py.eq_str ct "markdown") eqn:Hmd.
    - apply bind_Ok in Hst1 as (src & Hsrc & [= <-]). split.
      + by apply enhanced_invariant_track_headers.
      + intros k Hk. apply enhanced_track_headers_dom in Hk as [?|?]; [by left|].
        right. by exists ct, src.
    - injection Hst1 as <-. split; [done|]. intros k ?. by left. }
  destruct (active_section st1) as [k|] eqn:Hact;
    [|by injection H as <-].
  destruct (Py.truthy (Some k) && in_rubric cfg k);
    [|by injection H as <-].
  destruct (Py.eq_str ct "code").
  { apply enhanced_count_code_Ok in H as (? & Hd & _); [|done].
    split; [done|]. intros j. rewrite Hd. apply Hdom1. }
  destruct (Py.eq_str ct "raw").
  { apply enhanced_count_raw_Ok in H as (? & Hd & _); [|done].
    split; [done|]. intros j. rewrite Hd. apply Hdom1. }
  by injection H as <-.
Qed.

Lemma enhanced_step_total (st : state) (cell : json) :
  invariant st → Shape.is_cell cell = true →
  ∃ st', step cfg st cell = Ok st'.
Proof.
  intros Hinv Hcell. unfold step.
  destruct (cell_type_total cell Hcell) as [ct ->]. cbn [bind].
  destruct (joined_source_total cell Hcell) as [src Hsrc].
  assert (∃ st1, (if Py.eq_str ct "markdown"
                  then let* source := joined_source cell in
                       Ok (track_headers cfg source st)
                  else Ok st) = Ok st1 ∧ invariant st1)
    as (st1 & -> & Hinv1).
  { destruct (Py.eq_str ct "markdown").
    - rewrite Hsrc. cbn [bind]. eexists. split; [done|].
      by apply enhanced_invariant_track_headers.
    - eauto. }
  cbn [bind]. destruct (active_section st1) as [k|] eqn:Hact; [|eauto].
  destruct (Py.truthy (Some k)); cbn [andb]; [|eauto].
  destruct (in_rubric cfg k) eqn:Hr; [|eauto].
  pose proof (enhanced_active_section_tracked st1 k Hinv1 Hact Hr) as Hk.
  destruct (Py.eq_str ct "code"); [by apply enhanced_count_code_total|].
  destruct (Py.eq_str ct "raw"); [by apply enhanced_count_raw_total|eauto].
Qed.

Lemma enhanced_scan_Ok (cells : list json) (st st' : state) :
  scan cfg cells st = Ok st' → invariant st →
  invariant st'
  ∧ ∀ k, k ∈ dom (section_completed_code st') →
         k ∈ dom (section_completed_code st)
         ∨ ∃ cell ct src, cell ∈ cells
             ∧ Py.subscript cell "cell_type" = Ok ct
             ∧ Py.eq_str ct "markdown" = true
             ∧ joined_source cell = Ok src
             ∧ k ∈ header_keys src.
Proof.
  revert st. induction cells as [|cell cells IH]; intros st H Hinv.
  - injection H as <-. split; [done|]. intros k ?. by left.
  - cbn [scan] in H. apply bind_Ok in H as (st1 & Hstep & H).
    destruct (enhanced_step_Ok _ _ _ Hstep Hinv) as [Hinv1 Hdom1].
    destruct (IH _ H Hinv1) as [Hinv' Hdom']. split; [done|].
    intros k Hk. destruct (Hdom' k Hk) as [Hk1|(c & ct & src & Hc & ?)].
    + destruct (Hdom1 k Hk1) as [?|(ct & src & ?)]; [by left|].
      right. exists cell, ct, src. split; [left|done].
    + right. exists c, ct, src. split; [by right|done].
Qed.

Lemma enhanced_scan_total (cells : list json) (st : state) :
  invariant st → forallb Shape.is_cell cells = true →
  ∃ st', scan cfg cells st = Ok st'.
Proof.
  revert st. induction cells as [|cell cells IH]; intros st Hinv Hcells.
  - by exists st.
  - cbn [forallb] in Hcells. apply andb_prop in Hcells as [Hcell Hcells].
    destruct (enhanced_step_total st cell Hinv Hcell) as [st1 Hstep].
    cbn [scan]. rewrite Hstep. cbn [bind]. apply IH; [|done].
    by apply (enhanced_step_Ok _ _ _ Hstep).
Qed.

Lemma enhanced_run_Ok (notebook : json) (st : state) :
  run notebook cfg = Ok st →
  invariant st
  ∧ ∀ k cells_value cells,
      Py.subscript notebook "cells" = Ok cells_value →
      Py.iter cells_value = Ok cells →
      never_encountered k cells →
      section_completed_code st !! k = None
      ∧ section_completed_raw st !! k = None.
Proof.
  unfold run. intros H.
  apply bind_Ok in H as (v & Hv & H). apply bind_Ok in H as (cells & Hc & H).
  destruct (enhanced_scan_Ok _ _ _ H enhanced_invariant_initial) as [Hinv Hdom].
  split; [done|]. intros k v' cells' Hv' Hc' Hnever.
  assert (k ∉ dom (section_completed_code st)) as Hk.
  { intros Hk. destruct (Hdom k Hk) as [Hk0|(c & ct & src & ? & ? & ? & ? & ?)].
    - by apply elem_of_dom in Hk0 as [? ?].
    - rewrite Hv in Hv'. injection Hv' as <-. rewrite Hc in Hc'.
      injection Hc' as <-. by eapply Hnever. }
  split; [by apply not_elem_of_dom|].
  apply not_elem_of_dom. by rewrite (inv_completed_raw _ _ Hinv).
Qed.

Lemma enhanced_run_total (notebook : json) :
  Shape.is_notebook notebook = true → ∃ st, run notebook cfg = Ok st.
Proof.
  destruct notebook as [| | | | |fields]; try done.
  unfold Shape.is_notebook, run, Py.subscript.
  destruct (Py.assoc "cells" fields) as [[| | | |cells|]|]; try done.
  intros Hcells. cbn [bind Py.iter].
  by apply enhanced_scan_total; [apply enhanced_invariant_initial|].
Qed.

(** The invariant gives the scoring loop what it relies on. *)
Lemma enhanced_invariant_raw_follows_code (st : state) :
  invariant st →
  Enhanced.raw_follows_code (section_completed_code st)
    (section_completed_raw st).
Proof.
  intros Hinv k Hk. apply not_elem_of_dom in Hk.
  rewrite <- (inv_completed_raw _ _ Hinv) in Hk.
  apply not_elem_of_dom in Hk. by rewrite Hk.
Qed.

End Scan.
End EnhancedFacts.

(* ===================================================================== *)
(** * The default grader: claims C1, C5 and C2 *)
(* ===================================================================== *)

Ltac solve_NoDup := apply (bool_decide_unpack _); vm_compute; exact I.
Ltac solve_elem_of :=
  repeat first [apply list_elem_of_here | apply list_elem_of_further].

(** C1.  The default grader returns on every document of the expected
    shape, and whenever it returns, each rubric key with expected counts
    [c] and [r] is scored [min completed_code c] and [min completed_raw r],
    which are at most [c] and [r]. *)
Theorem capping_law (notebook : json) (cfg : expected_config)
    (Hkeys : NoDup (sections cfg).*1) :
  (Shape.is_notebook notebook = true →
   ∃ r, grade_notebook_enhanced notebook cfg = Ok r)
  ∧ ∀ r, grade_notebook_enhanced notebook cfg = Ok r →
      ∃ st, Enhanced.run notebook cfg = Ok st ∧
        ∀ k c raw_opt p s,
          (k, ExpDict (SectionDict (Some c) raw_opt p s)) ∈ sections cfg →
          ∃ earned_code earned_raw,
            res_sections r !! k
            = Some (SplitScore earned_code earned_raw
                      (earned_code + earned_raw)
                      c (default 0 raw_opt) (c + default 0 raw_opt))
            ∧ earned_code
              = default 0 (Enhanced.section_completed_code st !! k) `min` c
            ∧ earned_raw
              = default 0 (Enhanced.section_completed_raw st !! k)
                `min` default 0 raw_opt
            ∧ earned_code ≤ c ∧ earned_raw ≤ default 0 raw_opt.
Proof.
  unfold grade_notebook_enhanced. split.
  - intros Hnb. destruct (EnhancedFacts.enhanced_run_total cfg notebook Hnb) as [st ->].
    cbn [bind]. eauto.
  - intros r H. apply bind_Ok in H as (st & Hrun & [= <-]).
    exists st. split; [done|]. intros k c raw_opt p s Hin.
    destruct (EnhancedFacts.enhanced_run_Ok cfg notebook st Hrun) as [Hinv _].
    apply EnhancedFacts.enhanced_invariant_raw_follows_code in Hinv.
    destruct (ScoringFacts.fold_score_spec (sections cfg)
                (Enhanced.Tally (Enhanced.section_completed_code st)
                   (Enhanced.section_completed_raw st) ∅ 0 0) Hinv)
      as (_ & Hscored & _).
    destruct (ScoringFacts.score_of_split_capped
                (Enhanced.section_completed_code st)
                (Enhanced.section_completed_raw st) k c raw_opt p s)
      as (ec & er & Hscore & ?).
    exists ec, er. split; [|done].
    cbn [Enhanced.report res_sections]. unfold Enhanced.calculate_points.
    rewrite (Hscored Hkeys k _ Hin). by rewrite <- Hscore.
Qed.

Lemma capping_law_witness :
  ∃ r, grade_notebook_enhanced Sample.scenario_notebook Sample.scenario_rubric
       = Ok r
       ∧ res_sections r !! "1." = Some (SplitScore 1 1 2 2 1 3).
Proof.
  assert (NoDup (sections Sample.scenario_rubric).*1) as Hkeys
    by (apply NoDup_singleton).
  destruct (capping_law Sample.scenario_notebook Sample.scenario_rubric Hkeys)
    as [Htotal Hcap].
  destruct (Htotal eq_refl) as [r Hr]. exists r. split; [done|].
  destruct (Hcap r Hr) as (st & Hst & Hk).
  destruct (Hk "1." 2 (Some 1) None None) as (ec & er & -> & -> & -> & _).
  { apply list_elem_of_singleton. reflexivity. }
  vm_compute in Hst. injection Hst as <-. reflexivity.
Defined.

(** C5.  A document without cells is graded to zero points with every
    rubric key present, scored zero and keeping its expected totals; the
    same score is given, in any document, to a key that no header makes
    current; and the expected totals of all keys add up in the
    denominator of every grading. *)
Theorem unseen_sections_fully_missed (notebook : json)
    (cfg : expected_config) (Hkeys : NoDup (sections cfg).*1) :
  (∀ cells_value,
     Py.subscript notebook "cells" = Ok cells_value →
     Py.iter cells_value = Ok [] →
     ∃ r, grade_notebook_enhanced notebook cfg = Ok r
          ∧ res_total_points r = 0
          ∧ ∀ k e, (k, e) ∈ sections cfg →
                   res_sections r !! k = Some (Enhanced.missed_score e))
  ∧ (∀ cells_value cells r k e,
       Py.subscript notebook "cells" = Ok cells_value →
       Py.iter cells_value = Ok cells →
       grade_notebook_enhanced notebook cfg = Ok r →
       (k, e) ∈ sections cfg →
       Enhanced.never_encountered cfg k cells →
       res_sections r !! k = Some (Enhanced.missed_score e))
  ∧ (∀ st, Enhanced.total_expected_points (Enhanced.calculate_points cfg st)
           = sum_list (Enhanced.expected_total_of <$> (sections cfg).*2)).
Proof.
  assert (∀ st k e,
            Enhanced.run notebook cfg = Ok st →
            Enhanced.section_completed_code st !! k = None →
            Enhanced.section_completed_raw st !! k = None →
            (k, e) ∈ sections cfg →
            res_sections (Enhanced.report cfg st) !! k
            = Some (Enhanced.missed_score e)) as Hmissed.
  { intros st k e Hrun Hc Hr Hin.
    destruct (EnhancedFacts.enhanced_run_Ok cfg notebook st Hrun) as [Hinv _].
    apply EnhancedFacts.enhanced_invariant_raw_follows_code in Hinv.
    destruct (ScoringFacts.fold_score_spec (sections cfg)
                (Enhanced.Tally (Enhanced.section_completed_code st)
                   (Enhanced.section_completed_raw st) ∅ 0 0) Hinv)
      as (_ & Hscored & _).
    cbn [Enhanced.report res_sections]. unfold Enhanced.calculate_points.
    rewrite (Hscored Hkeys k e Hin). f_equal.
    apply ScoringFacts.score_of_missed; [done|]. cbn. by rewrite Hr. }
  split; [|split].
  - intros v Hv Hiter.
    assert (Enhanced.run notebook cfg = Ok Enhanced.initial) as Hrun.
    { unfold Enhanced.run. rewrite Hv. cbn [bind]. by rewrite Hiter. }
    unfold grade_notebook_enhanced. rewrite Hrun. cbn [bind].
    eexists. split; [done|]. split.
    + cbn [Enhanced.report res_total_points].
      unfold Enhanced.calculate_points.
      rewrite ScoringFacts.fold_score_unseen; [done| |].
      * intros k _. reflexivity.
      * intros k _. apply lookup_empty.
    + intros k e Hin. by apply (Hmissed Enhanced.initial).
  - intros v cells r k e Hv Hiter Hr Hin Hnever.
    unfold grade_notebook_enhanced in Hr.
    apply bind_Ok in Hr as (st & Hrun & [= <-]).
    destruct (EnhancedFacts.enhanced_run_Ok cfg notebook st Hrun) as [_ Hnone].
    destruct (Hnone k v cells Hv Hiter Hnever) as [Hc Hraw].
    by apply (Hmissed st).
  - intros st. unfold Enhanced.calculate_points.
    by rewrite ScoringFacts.fold_score_expected.
Qed.

Lemma unseen_sections_fully_missed_witness :
  ∃ r, grade_notebook_enhanced (Sample.notebook_of []) Sample.analysis_rubric
       = Ok r
       ∧ res_total_points r = 0
       ∧ res_sections r !! "2." = Some (SplitScore 0 0 0 0 2 2).
Proof.
  assert (NoDup (sections Sample.analysis_rubric).*1) as Hkeys
    by solve_NoDup.
  destruct (unseen_sections_fully_missed (Sample.notebook_of [])
              Sample.analysis_rubric Hkeys) as (Hempty & _ & _).
  destruct (Hempty (JArr []) eq_refl eq_refl) as (r & Hr & Hzero & Hall).
  exists r. split; [done|]. split; [done|].
  apply (Hall "2." (Sample.split_section 0 2)).
  unfold Sample.analysis_rubric; cbn [sections]. solve_elem_of.
Defined.

(** Only a subsection header changes [current_subsection]: a cell whose
    lines hold none leaves it as it was, top-level headers included. *)
Lemma track_headers_keeps_subsection (cfg : expected_config)
    (source : string) (st : Enhanced.state) :
  Enhanced.subsections (Enhanced.is_analysis_notebook cfg) source = [] →
  Enhanced.current_subsection (Enhanced.track_headers cfg source st)
  = Enhanced.current_subsection st.
Proof.
  intros Hnone. unfold Enhanced.track_headers. rewrite Hnone. cbn [last].
  repeat case_match;
    repeat (rewrite ?(proj2 (EnhancedFacts.enhanced_init_tracking_current _ _ _));
            cbn [Enhanced.set_current_section Enhanced.current_subsection]);
    done.
Qed.

(** The same for a whole run of cells: as long as no cell holds a
    subsection header, the subsection stays current, and with it the key
    the cells are counted for. *)
Lemma scan_keeps_subsection (cfg : expected_config) (cells : list json)
    (st st' : Enhanced.state) :
  Enhanced.scan cfg cells st = Ok st' → Enhanced.invariant cfg st →
  (∀ cell ct src,
     cell ∈ cells → Py.subscript cell "cell_type" = Ok ct →
     Py.eq_str ct "markdown" = true → joined_source cell = Ok src →
     Enhanced.subsections (Enhanced.is_analysis_notebook cfg) src = []) →
  Enhanced.current_subsection st' = Enhanced.current_subsection st.
Proof.
  revert st. induction cells as [|cell cells IH]; intros st Hscan Hinv Hnone.
  - by injection Hscan as <-.
  - cbn [Enhanced.scan] in Hscan. apply bind_Ok in Hscan as (st1 & Hstep & H).
    pose proof (proj1 (EnhancedFacts.enhanced_step_Ok cfg _ _ _ Hstep Hinv))
      as Hinv1.
    rewrite (IH st1 H Hinv1).
    + unfold Enhanced.step in Hstep.
      apply bind_Ok in Hstep as (ct & Hct & Hstep).
      apply bind_Ok in Hstep as (st0 & Hst0 & Hstep).
      assert (Enhanced.current_subsection st0 = Enhanced.current_subsection st
              ∧ Enhanced.invariant cfg st0) as [<- Hinv0].
      { destruct (Py.eq_str ct "markdown") eqn:Hmd.
        - apply bind_Ok in Hst0 as (src & Hsrc & [= <-]). split.
          + apply track_headers_keeps_subsection.
            apply (Hnone cell ct src); [left|done..].
          + by apply EnhancedFacts.enhanced_invariant_track_headers.
        - by injection Hst0 as <-. }
      destruct (Enhanced.active_section st0) as [k|];
        [|by injection Hstep as <-].
      destruct (Py.truthy (Some k) && in_rubric cfg k);
        [|by injection Hstep as <-].
      destruct (Py.eq_str ct "code").
      { by apply (EnhancedFacts.enhanced_count_code_Ok cfg) in Hstep
          as (_ & _ & _ & ?). }
      destruct (Py.eq_str ct "raw").
      { by apply (EnhancedFacts.enhanced_count_raw_Ok cfg) in Hstep
          as (_ & _ & _ & ?). }
      by injection Hstep as <-.
    + intros c ct src Hc. apply Hnone. by right.
Qed.

(** C2, on the code.  A subsection header, then a top-level header, then
    two raw cells: the cells are counted for the subsection "1c.", not for
    the section "2." whose header is the last one seen. *)
Theorem subsection_survives_top_level_header :
  ∃ st r,
    Enhanced.run Sample.analysis_notebook Sample.analysis_rubric = Ok st
    ∧ grade_notebook_enhanced Sample.analysis_notebook Sample.analysis_rubric
      = Ok r
    ∧ Enhanced.current_section st = Some "2."
    ∧ Enhanced.current_subsection st = Some "1c."
    ∧ Enhanced.active_section st = Some "1c."
    ∧ Enhanced.section_cell_counts_raw st !! "1c." = Some 2
    ∧ Enhanced.section_cell_counts_raw st !! "2." = Some 0
    ∧ res_sections r !! "1c." = Some (SplitScore 0 2 2 6 3 9)
    ∧ res_sections r !! "2." = Some (SplitScore 0 0 0 0 2 2).
Proof.
  destruct (EnhancedFacts.enhanced_run_total Sample.analysis_rubric
              Sample.analysis_notebook eq_refl) as [st Hrun].
  exists st, (Enhanced.report Sample.analysis_rubric st).
  unfold grade_notebook_enhanced. rewrite Hrun. cbn [bind].
  split; [done|]. split; [done|].
  vm_compute in Hrun. injection Hrun as <-.
  repeat split; reflexivity.
Qed.

(* ===================================================================== *)
(** * The header scan of the specialised graders *)
(* ===================================================================== *)

Lemma is_Some_insert_existing {K V : Type} `{Countable K}
    (m : gmap K V) (k j : K) (v : V) :
  is_Some (m !! k) → is_Some (<[k := v]> m !! j) ↔ is_Some (m !! j).
Proof.
  intros Hk. rewrite lookup_insert_is_Some'. split; [|by right].
  by intros [<-|?].
Qed.

Lemma key_of_nonempty (group : string) :
  PyStr.nonempty (Header.key_of group) = true.
Proof. unfold Header.key_of. by destruct group. Qed.

Lemma simple_header_nonempty (line k : string) :
  simple_header line = Some k → PyStr.nonempty k = true.
Proof.
  unfold simple_header. case_match; [|done].
  destruct (Header.match_simple _); [|done].
  intros [= <-]. apply key_of_nonempty.
Qed.

Lemma first_header_nonempty (lines : list string) (k : string) :
  first_header lines = Some k → PyStr.nonempty k = true.
Proof.
  induction lines as [|line lines IH]; [done|]. cbn [first_header].
  destruct (simple_header line) eqn:E; [|done].
  intros [= <-]. by eapply simple_header_nonempty.
Qed.

(** The first line that matches decides, whatever follows it. *)
Lemma first_header_first (lines1 lines2 : list string) (line k : string) :
  Forall (fun l => simple_header l = None) lines1 →
  simple_header line = Some k →
  first_header (lines1 ++ line :: lines2) = Some k.
Proof.
  intros Hnone Hline. induction Hnone as [|l lines1 Hl _ IH].
  - cbn [app first_header]. by rewrite Hline.
  - cbn [app first_header]. by rewrite Hl.
Qed.

(* ===================================================================== *)
(** * The question/answer grader *)
(* ===================================================================== *)

Module QuestionAnswerFacts.
Import QuestionAnswer.

Lemma qa_invariant_initial : invariant initial.
Proof.
  split; cbn [initial section_completed current_section]; try done;
    intros k [? H]; by rewrite lookup_empty in H.
Qed.

Lemma qa_invariant_enter_section (k : string) (st : state) :
  PyStr.nonempty k = true → invariant st →
  invariant (enter_section k st)
  ∧ current_section (enter_section k st) = Some k.
Proof.
  intros Hne [H1 H2 H3 H4]. unfold enter_section.
  case_bool_decide as Hk; (split; [|done]); split;
    cbn [section_completed section_cell_counts missed_indices
         current_section].
  - intros j. destruct (decide (k = j)) as [<-|?].
    + by rewrite !lookup_insert_eq.
    + rewrite !lookup_insert_ne by done. apply H1.
  - intros j. destruct (decide (k = j)) as [<-|?].
    + by rewrite !lookup_insert_eq.
    + rewrite !lookup_insert_ne by congruence. apply H2.
  - intros j [= <-]. by rewrite lookup_insert_eq.
  - by intros j [= <-].
  - done.
  - done.
  - intros j [= <-]. by apply not_eq_None_Some.
  - by intros j [= <-].
Qed.

Lemma qa_invariant_track_header (source : string) (st : state) :
  invariant st → invariant (track_header source st).
Proof.
  intros Hinv. unfold track_header.
  destruct (first_header _) as [k|] eqn:E; [|done].
  apply qa_invariant_enter_section; [|done]. by eapply first_header_nonempty.
Qed.

Lemma qa_count_question_Ok (k source : string) (st st' : state) :
  count_question k source st = Ok st' → invariant st →
  invariant st' ∧ current_section st' = current_section st.
Proof.
  unfold count_question. intros H [H1 H2 H3 H4].
  apply bind_Ok in H as (counts & Hc & H).
  apply increment_Ok in Hc as (n & Hn & -> & Hd).
  assert (is_Some (section_cell_counts st !! k)) as Hn' by eauto.
  destruct (PyStr.after_first PyStr.colon source) as [rest|].
  - destruct (PyStr.nonempty (PyStr.strip rest)).
    + apply bind_Ok in H as (completed & Hc & [= <-]).
      apply increment_Ok in Hc as (m & Hm & -> & Hd').
      assert (is_Some (section_completed st !! k)) as Hm' by eauto.
      split; [|done]. split;
        cbn [section_completed section_cell_counts missed_indices
             current_section]; intros j;
        rewrite ?is_Some_insert_existing by done; eauto.
    + apply bind_Ok in H as (m & Hm & H).
      apply bind_Ok in H as (i & _ & [= <-]).
      assert (is_Some (missed_indices st !! Some k)) as Hm'
        by (destruct (missed_indices st !! Some k); [eauto|done]).
      split; [|done]. split;
        cbn [section_completed section_cell_counts missed_indices
             current_section]; intros j;
        rewrite ?is_Some_insert_existing by done; eauto.
  - injection H as <-. split; [|done]. split;
      cbn [section_completed section_cell_counts missed_indices
           current_section]; intros j;
      rewrite ?is_Some_insert_existing by done; eauto.
Qed.

Lemma qa_count_question_total (k source : string) (st : state) :
  invariant st → is_Some (section_completed st !! k) →
  ∃ st', count_question k source st = Ok st'.
Proof.
  intros [H1 H2 H3 H4] Hk. unfold count_question.
  destruct (H1 k Hk) as [n Hn]. unfold increment at 1. rewrite Hn.
  cbn [bind]. destruct (PyStr.after_first PyStr.colon source); [|eauto].
  destruct (PyStr.nonempty _).
  - destruct Hk as [m Hm]. unfold increment. rewrite Hm. cbn [bind]. eauto.
  - destruct (H2 k Hk) as [l ->]. cbn [bind]. unfold item.
    rewrite lookup_insert_eq. cbn [bind]. eauto.
Qed.

Lemma qa_step_unfold (cfg : expected_config) (st : state) (cell ct : json)
    (src : string) :
  joined_source cell = Ok src → Py.subscript cell "cell_type" = Ok ct →
  step cfg st cell
  = let st1 := after_header st ct (PyStr.strip src) in
    match current_section st1 with
    | Some k =>
        if Py.truthy (Some k) && in_rubric cfg k then
          if PyStr.startswith "Question" (PyStr.strip src)
          then count_question k (PyStr.strip src) st1 else Ok st1
        else Ok st1
    | None => Ok st1
    end.
Proof. intros Hsrc Hct. unfold step. by rewrite Hsrc, Hct. Qed.

Lemma qa_step_Ok (cfg : expected_config) (st st' : state) (cell : json) :
  step cfg st cell = Ok st' → invariant st →
  invariant st'
  ∧ ∃ ct src, joined_source cell = Ok src
              ∧ Py.subscript cell "cell_type" = Ok ct
              ∧ current_section st'
                = current_section (after_header st ct (PyStr.strip src)).
Proof.
  intros H Hinv. pose proof H as H'. unfold step in H'.
  apply bind_Ok in H' as (src & Hsrc & H').
  apply bind_Ok in H' as (ct & Hct & _).
  rewrite (qa_step_unfold cfg st cell ct src Hsrc Hct) in H. cbn zeta in H.
  assert (invariant (after_header st ct (PyStr.strip src))) as Hinv1.
  { unfold after_header. destruct (Py.eq_str ct "markdown"); [|done].
    by apply qa_invariant_track_header. }
  assert (invariant st'
          ∧ current_section st'
            = current_section (after_header st ct (PyStr.strip src)))
    as [? ?]; [|split; [done|by exists ct, src]].
  destruct (current_section (after_header _ _ _)) as [k|] eqn:Hcur;
    [|injection H as <-; by rewrite Hcur].
  destruct (Py.truthy (Some k) && in_rubric cfg k);
    [|injection H as <-; by rewrite Hcur].
  destruct (PyStr.startswith "Question" _);
    [|injection H as <-; by rewrite Hcur].
  apply qa_count_question_Ok in H as [? ->]; done.
Qed.

Lemma qa_step_total (cfg : expected_config) (st : state) (cell ct : json)
    (src : string) :
  invariant st → joined_source cell = Ok src →
  Py.subscript cell "cell_type" = Ok ct →
  ∃ st', step cfg st cell = Ok st'.
Proof.
  intros Hinv Hsrc Hct. rewrite (qa_step_unfold cfg st cell ct src Hsrc Hct).
  cbn zeta.
  assert (invariant (after_header st ct (PyStr.strip src))) as Hinv1.
  { unfold after_header. destruct (Py.eq_str ct "markdown"); [|done].
    by apply qa_invariant_track_header. }
  destruct (current_section (after_header _ _ _)) as [k|] eqn:Hcur; [|eauto].
  destruct (Py.truthy (Some k) && in_rubric cfg k); [|eauto].
  destruct (PyStr.startswith "Question" _); [|eauto].
  apply qa_count_question_total; [done|]. by apply (inv_current _ Hinv1).
Qed.

Lemma qa_scan_Ok (cfg : expected_config) (cells : list json) (st st' : state) :
  scan cfg cells st = Ok st' → invariant st → invariant st'.
Proof.
  revert st. induction cells as [|cell cells IH]; intros st H Hinv.
  - by injection H as <-.
  - cbn [scan] in H. apply bind_Ok in H as (st1 & Hstep & H).
    apply (IH _ H). by apply (qa_step_Ok _ _ _ _ Hstep).
Qed.

(** The grader returns on every document of the expected shape. *)
Lemma qa_scan_total (cfg : expected_config) (cells : list json) (st : state) :
  invariant st → forallb Shape.is_cell cells = true →
  ∃ st', scan cfg cells st = Ok st'.
Proof.
  revert st. induction cells as [|cell cells IH]; intros st Hinv Hcells.
  - by exists st.
  - cbn [forallb] in Hcells. apply andb_prop in Hcells as [Hcell Hcells].
    destruct (joined_source_total cell Hcell) as [src Hsrc].
    destruct (cell_type_total cell Hcell) as [ct Hct].
    destruct (qa_step_total cfg st cell ct src Hinv Hsrc Hct) as [st1 Hstep].
    cbn [scan]. rewrite Hstep. cbn [bind]. apply IH; [|done].
    by apply (qa_step_Ok _ _ _ _ Hstep).
Qed.

End QuestionAnswerFacts.

(* ===================================================================== *)
(** * The markdown-exercise grader *)
(* ===================================================================== *)

Lemma eq_str_markdown_not_code (ct : json) :
  Py.eq_str ct "markdown" = true → Py.eq_str ct "code" = false.
Proof.
  destruct ct; try done. cbn [Py.eq_str].
  intros ->%bool_decide_eq_true. done.
Qed.

Lemma insert_succ_ne (m : gmap string nat) (k : string) (n : nat) :
  m !! k = Some n → <[k := S n]> m ≠ m.
Proof.
  intros Hk E. assert (<[k := S n]> m !! k = Some n) as H by by rewrite E.
  rewrite lookup_insert_eq in H. injection H. lia.
Qed.

(** A markdown cell that is classified complete has text. *)
Lemma has_content_markdown_nonempty (cell ct : json) (src : string) :
  Py.subscript cell "cell_type" = Ok ct → Py.eq_str ct "markdown" = true →
  joined_source cell = Ok src → has_content cell = Ok true →
  PyStr.strip src ≠ EmptyString.
Proof.
  intros Hct Hmd Hsrc. unfold has_content. rewrite Hsrc. cbn [bind].
  destruct (PyStr.startswith "Question" (PyStr.strip src)) eqn:Hq.
  - intros _ E. by rewrite E in Hq.
  - rewrite Hct. cbn [bind]. rewrite (eq_str_markdown_not_code ct Hmd), Hmd.
    intros [= H]. by apply PyStrFacts.nonempty_true.
Qed.

Module MarkdownExerciseFacts.
Import MarkdownExercise.

Lemma md_invariant_initial : invariant initial.
Proof.
  split; cbn [initial section_completed current_section
              code_cells_completed missed_indices]; try done;
    first [ intros k [? H]; by rewrite lookup_empty in H
          | intros k; split; intros [? H]; by rewrite lookup_empty in H ].
Qed.

Lemma md_invariant_enter_section (k : string) (st : state) :
  invariant st →
  invariant (enter_section k st)
  ∧ current_section (enter_section k st) = Some k.
Proof.
  intros [H1 H2 H3 H4 H5]. unfold enter_section.
  case_bool_decide as Hk; (split; [|done]); split;
    cbn [section_completed section_cell_counts missed_indices
         code_cells_completed current_section]; try done.
  - intros j. rewrite !lookup_insert_is_Some'. naive_solver.
  - intros j. rewrite !lookup_insert_is_Some'. naive_solver.
  - intros j. rewrite !lookup_insert_is_Some'. naive_solver.
  - intros key l. destruct (decide (Some k = key)) as [<-|?].
    + rewrite lookup_insert_eq. by intros [= <-].
    + rewrite lookup_insert_ne by done. apply H4.
  - intros j [= <-]. by rewrite lookup_insert_eq.
  - intros j [= <-]. by apply not_eq_None_Some.
Qed.

Lemma md_invariant_track_header (source : string) (st : state) :
  invariant st → invariant (track_header source st).
Proof.
  intros Hinv. unfold track_header.
  destruct (first_header _); [|done]. by apply md_invariant_enter_section.
Qed.

Lemma md_invariant_after_header (st : state) (ct : json) (source : string) :
  invariant st → invariant (after_header st ct source).
Proof.
  intros Hinv. unfold after_header.
  destruct (Py.eq_str ct "markdown"); [|done].
  by apply md_invariant_track_header.
Qed.

Lemma md_count_code_Ok (k : string) (cell : json) (st st' : state) :
  count_code k cell st = Ok st' → invariant st →
  invariant st' ∧ current_section st' = current_section st.
Proof.
  unfold count_code. intros H [H1 H2 H3 H4 H5].
  apply bind_Ok in H as (counts & Hc & H).
  apply increment_Ok in Hc as (n & Hn & -> & Hd).
  assert (is_Some (section_cell_counts st !! k)) as Hn' by eauto.
  apply bind_Ok in H as ([] & _ & H).
  - apply bind_Ok in H as (completed & Hc & H).
    apply increment_Ok in Hc as (m & Hm & -> & _).
    apply bind_Ok in H as (code_completed & Hc & [= <-]).
    apply increment_Ok in Hc as (c & Hcc & -> & _).
    assert (is_Some (section_completed st !! k)) as Hm' by eauto.
    assert (is_Some (code_cells_completed st !! k)) as Hc' by eauto.
    split; [|done]. split;
      cbn [section_completed section_cell_counts missed_indices
           code_cells_completed current_section]; try done; intros j;
      rewrite ?is_Some_insert_existing by done; eauto.
  - injection H as <-. split; [|done]. split;
      cbn [section_completed section_cell_counts missed_indices
           code_cells_completed current_section]; try done.
    + intros j. rewrite ?is_Some_insert_existing by done. eauto.
    + intros j Hj. rewrite lookup_insert_is_Some'. right. eauto.
    + intros key l. destruct (decide (Some k = key)) as [<-|?].
      * rewrite lookup_insert_eq. by intros [= <-].
      * rewrite lookup_insert_ne by done. apply H4.
Qed.

Lemma md_count_code_total (k : string) (cell : json) (st : state) :
  invariant st → is_Some (section_completed st !! k) →
  Shape.is_cell cell = true → ∃ st', count_code k cell st = Ok st'.
Proof.
  intros [H1 H2 H3 H4 H5] Hk Hcell. unfold count_code.
  destruct (H1 k Hk) as [n Hn]. unfold increment at 1. rewrite Hn.
  cbn [bind]. destruct (has_content_total cell Hcell) as [[] ->];
    cbn [bind]; [|eauto].
  destruct Hk as [m Hm]. unfold increment at 1. rewrite Hm. cbn [bind].
  destruct (proj1 (H2 k)) as [c Hc]; [eauto|].
  unfold increment. rewrite Hc. cbn [bind]. eauto.
Qed.

Lemma md_step_unfold (cfg : expected_config) (st : state) (cell ct : json)
    (src : string) :
  Py.subscript cell "cell_type" = Ok ct →
  (Py.eq_str ct "markdown" = true → joined_source cell = Ok src) →
  step cfg st cell
  = let st1 := after_header st ct src in
    match current_section st1 with
    | Some k =>
        if Py.truthy (Some k) && in_rubric cfg k then
          if Py.eq_str ct "code" then count_code k cell st1 else Ok st1
        else Ok st1
    | None => Ok st1
    end.
Proof.
  intros Hct Hsrc. unfold step, after_header. rewrite Hct. cbn [bind].
  destruct (Py.eq_str ct "markdown"); [|done]. by rewrite Hsrc.
Qed.

(** A markdown cell only moves the current section. *)
Lemma md_step_markdown (cfg : expected_config) (st : state) (cell ct : json)
    (src : string) :
  Py.subscript cell "cell_type" = Ok ct → Py.eq_str ct "markdown" = true →
  joined_source cell = Ok src →
  step cfg st cell = Ok (track_header src st).
Proof.
  intros Hct Hmd Hsrc.
  rewrite (md_step_unfold cfg st cell ct src Hct (fun _ => Hsrc)).
  unfold after_header. rewrite Hmd, (eq_str_markdown_not_code ct Hmd).
  cbn zeta. by repeat case_match.
Qed.

Lemma md_step_Ok (cfg : expected_config) (st st' : state) (cell : json) :
  step cfg st cell = Ok st' → invariant st → invariant st'.
Proof.
  intros H Hinv. pose proof H as H'. unfold step in H'.
  apply bind_Ok in H' as (ct & Hct & H').
  apply bind_Ok in H' as (st1 & Hst1 & _).
  assert (∃ src, Py.eq_str ct "markdown" = true → joined_source cell = Ok src)
    as [src Hsrc].
  { destruct (Py.eq_str ct "markdown"); [|by exists EmptyString].
    apply bind_Ok in Hst1 as (src & ? & _). by exists src. }
  rewrite (md_step_unfold cfg st cell ct src Hct Hsrc) in H. cbn zeta in H.
  pose proof (md_invariant_after_header st ct src Hinv) as Hinv1.
  destruct (current_section (after_header _ _ _)) as [k|];
    [|by injection H as <-].
  destruct (Py.truthy (Some k) && in_rubric cfg k);
    [|by injection H as <-].
  destruct (Py.eq_str ct "code"); [|by injection H as <-].
  by apply md_count_code_Ok in H as [? _].
Qed.

Lemma md_step_total (cfg : expected_config) (st : state) (cell : json) :
  invariant st → Shape.is_cell cell = true →
  ∃ st', step cfg st cell = Ok st'.
Proof.
  intros Hinv Hcell.
  destruct (cell_type_total cell Hcell) as [ct Hct].
  destruct (joined_source_total cell Hcell) as [src Hsrc].
  rewrite (md_step_unfold cfg st cell ct src Hct (fun _ => Hsrc)). cbn zeta.
  pose proof (md_invariant_after_header st ct src Hinv) as Hinv1.
  destruct (current_section (after_header _ _ _)) as [k|] eqn:Hcur; [|eauto].
  destruct (Py.truthy (Some k) && in_rubric cfg k); [|eauto].
  destruct (Py.eq_str ct "code"); [|eauto].
  apply md_count_code_total; [done| |done]. by apply (inv_current _ Hinv1).
Qed.

Lemma md_first_pass_Ok (cfg : expected_config) (cells : list json)
    (st st' : state) :
  first_pass cfg cells st = Ok st' → invariant st → invariant st'.
Proof.
  revert st. induction cells as [|cell cells IH]; intros st H Hinv.
  - by injection H as <-.
  - cbn [first_pass] in H. apply bind_Ok in H as (st1 & Hstep & H).
    apply (IH _ H). by apply (md_step_Ok _ _ _ _ Hstep).
Qed.

Lemma md_first_pass_total (cfg : expected_config) (cells : list json)
    (st : state) :
  invariant st → forallb Shape.is_cell cells = true →
  ∃ st', first_pass cfg cells st = Ok st'.
Proof.
  revert st. induction cells as [|cell cells IH]; intros st Hinv Hcells.
  - by exists st.
  - cbn [forallb] in Hcells. apply andb_prop in Hcells as [Hcell Hcells].
    destruct (md_step_total cfg st cell Hinv Hcell) as [st1 Hstep].
    cbn [first_pass]. rewrite Hstep. cbn [bind]. apply IH; [|done].
    by apply (md_step_Ok _ _ _ _ Hstep).
Qed.

(** The second pass walks past the cells without the sentence and stops
    at the first cell that holds it. *)
Lemma md_second_pass_skip (all_cells pre rest : list json) (idx : nat)
    (st : state) :
  Forall lacks_check_text pre →
  second_pass all_cells idx (pre ++ rest) st
  = second_pass all_cells (idx + length pre) rest st.
Proof.
  intros Hpre. revert idx.
  induction Hpre as [|c pre (ct & Hct & Hc) _ IH]; intros idx.
  - cbn [app length]. by rewrite Nat.add_0_r.
  - cbn [app length second_pass]. rewrite Hct. cbn [bind].
    replace (idx + S (length pre)) with (S idx + length pre) by lia.
    destruct (Py.eq_str ct "markdown"); [|apply IH].
    destruct (Hc eq_refl) as (src & -> & Hno). cbn [bind].
    rewrite Hno. apply IH.
Qed.

Lemma md_second_pass_found (all_cells rest : list json) (cell : json)
    (idx : nat) (st : state) :
  holds_check_text cell →
  second_pass all_cells idx (cell :: rest) st
  = check_exercise all_cells idx st.
Proof.
  intros (ct & src & Hct & Hmd & Hsrc & Hin). cbn [second_pass].
  rewrite Hct. cbn [bind]. rewrite Hmd, Hsrc. cbn [bind]. by rewrite Hin.
Qed.

Lemma md_grant_Ok (st st' : state) :
  grant st = Ok st' → invariant st →
  granted st st' ∧ invariant st'
  ∧ current_section st' = current_section st.
Proof.
  unfold grant. intros H [H1 H2 H3 H4 H5].
  destruct (current_section st) as [k|] eqn:Hcur; [|done].
  apply bind_Ok in H as (completed & Hc & [= <-]).
  apply increment_Ok in Hc as (n & Hn & -> & _).
  assert (is_Some (section_completed st !! k)) as Hn' by eauto.
  split; [by exists k, n|]. split; [|done]. split;
    cbn [section_completed section_cell_counts missed_indices
         code_cells_completed current_section]; try done; intros j;
    rewrite ?is_Some_insert_existing by done; rewrite ?Hcur; eauto.
Qed.

Lemma md_clear_missed_invariant (st : state) :
  invariant st → invariant (clear_missed st).
Proof.
  intros [H1 H2 H3 H4 H5]. split;
    cbn [clear_missed section_completed section_cell_counts missed_indices
         code_cells_completed current_section]; try done.
  - intros j Hj. rewrite lookup_insert_is_Some'. right. eauto.
  - intros key l. destruct (decide (current_section st = key)) as [<-|?].
    + rewrite lookup_insert_eq. by intros [= <-].
    + rewrite lookup_insert_ne by done. apply H4.
Qed.

(** The three ways the check of the exercise ends. *)
Lemma md_check_exercise_Ok (all_cells : list json) (idx : nat)
    (st st' : state) :
  check_exercise all_cells idx st = Ok st' →
  (idx = 0 ∧ st' = st)
  ∨ ∃ prev ptype psrc,
      0 < idx ∧ all_cells !! (idx - 1) = Some prev
      ∧ Py.subscript prev "cell_type" = Ok ptype
      ∧ joined_source prev = Ok psrc
      ∧ ((Py.eq_str ptype "markdown" = true ∧ has_content prev = Ok true
          ∧ 0 < code_completed_in_current st ∧ grant st = Ok st')
         ∨ (Py.eq_str ptype "markdown" = true ∧ has_content prev = Ok true
            ∧ code_completed_in_current st = 0 ∧ st' = st)
         ∨ ((Py.eq_str ptype "markdown" = false
             ∨ has_content prev = Ok false)
            ∧ st' = clear_missed st)).
Proof.
  unfold check_exercise. destruct (0 <? idx) eqn:Hidx.
  - apply Nat.ltb_lt in Hidx. intros H. right.
    apply bind_Ok in H as (prev & Hprev & H).
    apply bind_Ok in H as (psrc & Hpsrc & H).
    apply bind_Ok in H as (ptype & Hptype & H).
    apply bind_Ok in H as (prev_ok & Hok & H).
    exists prev, ptype, psrc. split; [done|].
    split; [by destruct (all_cells !! (idx - 1)); simplify_eq|].
    split; [done|]. split; [done|].
    destruct (Py.eq_str ptype "markdown") eqn:Hmd.
    + destruct prev_ok.
      * destruct (0 <? code_completed_in_current st) eqn:Hpos.
        -- apply Nat.ltb_lt in Hpos. left. done.
        -- apply Nat.ltb_ge in Hpos. right; left.
           injection H as <-. repeat split; [done|lia].
      * injection H as <-. right; right. split; [by right|done].
    + injection Hok as <-. injection H as <-.
      right; right. split; [by left|done].
  - apply Nat.ltb_ge in Hidx. intros [= <-]. left. split; [lia|done].
Qed.

End MarkdownExerciseFacts.

(* ===================================================================== *)
(** * The specialised graders: claims C8, C9 and C10 *)
(* ===================================================================== *)

(** The element before the end of a prefix. *)
Lemma lookup_before_middle {A : Type} (pre post : list A) (x prev : A) :
  0 < length pre →
  (pre ++ x :: post) !! (length pre - 1) = Some prev →
  ∃ pre', pre = pre' ++ [prev].
Proof.
  destruct pre as [|y pre' _] using rev_ind; [cbn; lia|]. intros _.
  rewrite length_app. cbn [length].
  replace (length pre' + 1 - 1) with (length pre') by lia.
  rewrite <- app_assoc. cbn [app]. rewrite list_lookup_middle by done.
  intros [= ->]. by exists pre'.
Qed.

(** C8.  When the sentence of the exercise is first found in the markdown
    cell after [pre], the unit is granted exactly when the cell before it
    is a markdown cell that is classified complete, so one with text, and
    the current section has a completed code cell; when it is not granted
    the completion counters stay as the first pass left them; and in
    every case the missed list of the current section is there and empty,
    as is every other missed list. *)
Theorem exercise_granted_only_after_markdown (cfg : expected_config)
    (pre post : list json) (cell : json)
    (st1 st2 : MarkdownExercise.state)
    (Hfirst : MarkdownExercise.first_pass cfg (pre ++ cell :: post)
                MarkdownExercise.initial = Ok st1)
    (Hpre : Forall MarkdownExercise.lacks_check_text pre)
    (Hcell : MarkdownExercise.holds_check_text cell)
    (Hsecond : MarkdownExercise.second_pass (pre ++ cell :: post) 0
                 (pre ++ cell :: post) st1 = Ok st2) :
  (MarkdownExercise.granted st1 st2 ↔
   ∃ pre' prev ptype psrc,
     pre = pre' ++ [prev]
     ∧ Py.subscript prev "cell_type" = Ok ptype
     ∧ Py.eq_str ptype "markdown" = true
     ∧ joined_source prev = Ok psrc
     ∧ PyStr.strip psrc ≠ EmptyString
     ∧ has_content prev = Ok true
     ∧ 0 < MarkdownExercise.code_completed_in_current st1)
  ∧ (¬ MarkdownExercise.granted st1 st2 →
     MarkdownExercise.section_completed st2
     = MarkdownExercise.section_completed st1)
  ∧ (∀ k, MarkdownExercise.current_section st2 = Some k →
          MarkdownExercise.missed_indices st2 !! Some k = Some [])
  ∧ (∀ key l, MarkdownExercise.missed_indices st2 !! key = Some l → l = []).
Proof.
  pose proof (MarkdownExerciseFacts.md_first_pass_Ok _ _ _ _ Hfirst
                MarkdownExerciseFacts.md_invariant_initial) as Hinv1.
  rewrite MarkdownExerciseFacts.md_second_pass_skip in Hsecond by done.
  rewrite MarkdownExerciseFacts.md_second_pass_found in Hsecond by done.
  cbn [Nat.add] in Hsecond.
  assert (¬ MarkdownExercise.granted st1 st1) as Hsame.
  { intros (k & n & _ & Hk & E). symmetry in E.
    by apply insert_succ_ne in E. }
  assert (MarkdownExercise.invariant st2
          ∧ (MarkdownExercise.granted st1 st2 ↔
             ∃ pre' prev ptype psrc,
               pre = pre' ++ [prev]
               ∧ Py.subscript prev "cell_type" = Ok ptype
               ∧ Py.eq_str ptype "markdown" = true
               ∧ joined_source prev = Ok psrc
               ∧ PyStr.strip psrc ≠ EmptyString
               ∧ has_content prev = Ok true
               ∧ 0 < MarkdownExercise.code_completed_in_current st1)
          ∧ (¬ MarkdownExercise.granted st1 st2 →
             MarkdownExercise.section_completed st2
             = MarkdownExercise.section_completed st1))
    as (Hinv2 & Hiff & Hnot).
  { apply MarkdownExerciseFacts.md_check_exercise_Ok in Hsecond
      as [[Hidx ->]|(prev & ptype & psrc & Hidx & Hprev & Hptype & Hpsrc & Hcase)].
    - split; [done|]. split; [|done]. split; [done|].
      intros (pre' & prev & _ & _ & -> & _).
      rewrite length_app in Hidx. cbn in Hidx. lia.
    - destruct (lookup_before_middle pre post cell prev Hidx Hprev)
        as [pre0 Hpre0].
      assert (∀ pre' prev', pre = pre' ++ [prev'] → prev' = prev) as Huniq.
      { intros pre' prev' E. rewrite E in Hpre0.
        by apply app_inj_tail in Hpre0 as [_ ?]. }
      destruct Hcase as [(Hmd & Hok & Hpos & Hgrant)
                        |[(Hmd & Hok & Hzero & ->)|(Hbad & ->)]].
      + apply MarkdownExerciseFacts.md_grant_Ok in Hgrant as (Hg & ? & _);
          [|done].
        split; [done|]. split; [|done]. split; [|done]. intros _.
        exists pre0, prev, ptype, psrc. repeat split; try done.
        by eapply has_content_markdown_nonempty.
      + split; [done|]. split; [|done]. split; [done|].
        intros (pre' & prev' & _ & _ & E & _ & _ & _ & _ & _ & Hpos). lia.
      + split; [by apply MarkdownExerciseFacts.md_clear_missed_invariant|].
        assert (¬ MarkdownExercise.granted st1
                    (MarkdownExercise.clear_missed st1)) as Hno.
        { intros (k & n & _ & Hk & E). symmetry in E.
          by apply insert_succ_ne in E. }
        split; [|done]. split; [done|].
        intros (pre' & prev' & ptype' & psrc' & E & Hct' & Hmd' & _ & _
                & Hok' & _).
        apply Huniq in E as ->. rewrite Hptype in Hct'.
        injection Hct' as <-. destruct Hbad as [Hbad|Hbad]; congruence. }
  split; [done|]. split; [done|]. split.
  - intros k Hk.
    destruct (MarkdownExercise.inv_missed _ Hinv2 k
                (MarkdownExercise.inv_current _ Hinv2 k Hk)) as [l Hl].
    by rewrite Hl, (MarkdownExercise.inv_empty _ Hinv2 _ _ Hl).
  - apply (MarkdownExercise.inv_empty _ Hinv2).
Qed.

(** C9.  In the question/answer grader, a cell under a section of the
    rubric whose stripped text begins with "Question" and has no colon
    raises the unit counter of the section and changes neither the
    completed counter nor the missed list; so the counted units can
    exceed the completed and missed ones together. *)
Theorem question_without_colon_counted_only (cfg : expected_config)
    (pre : list json) (st : QuestionAnswer.state) (cell ct : json)
    (src k : string)
    (Hscan : QuestionAnswer.scan cfg pre QuestionAnswer.initial = Ok st)
    (Hsrc : joined_source cell = Ok src)
    (Hct : Py.subscript cell "cell_type" = Ok ct)
    (Hq : PyStr.startswith "Question" (PyStr.strip src) = true)
    (Hcolon : ¬ PyStr.occurs PyStr.colon (PyStr.strip src))
    (Hcur : QuestionAnswer.current_section
              (QuestionAnswer.after_header st ct (PyStr.strip src)) = Some k)
    (Hrubric : in_rubric cfg k = true) :
  (∃ st' n,
     QuestionAnswer.step cfg st cell = Ok st'
     ∧ QuestionAnswer.section_cell_counts
         (QuestionAnswer.after_header st ct (PyStr.strip src)) !! k = Some n
     ∧ QuestionAnswer.section_cell_counts st' !! k = Some (S n)
     ∧ QuestionAnswer.section_completed st'
       = QuestionAnswer.section_completed
           (QuestionAnswer.after_header st ct (PyStr.strip src))
     ∧ QuestionAnswer.missed_indices st'
       = QuestionAnswer.missed_indices
           (QuestionAnswer.after_header st ct (PyStr.strip src)))
  ∧ ∃ st0 completed missed counted,
      QuestionAnswer.run Sample.question_notebook Sample.question_rubric
      = Ok st0
      ∧ QuestionAnswer.section_completed st0 !! "1." = Some completed
      ∧ QuestionAnswer.missed_indices st0 !! Some "1." = Some missed
      ∧ QuestionAnswer.section_cell_counts st0 !! "1." = Some counted
      ∧ completed + length missed < counted.
Proof.
  split.
  - pose proof (QuestionAnswerFacts.qa_scan_Ok _ _ _ _ Hscan
                  QuestionAnswerFacts.qa_invariant_initial) as Hinv.
    assert (QuestionAnswer.invariant
              (QuestionAnswer.after_header st ct (PyStr.strip src))) as Hinv1.
    { unfold QuestionAnswer.after_header.
      destruct (Py.eq_str ct "markdown"); [|done].
      by apply QuestionAnswerFacts.qa_invariant_track_header. }
    rewrite (QuestionAnswerFacts.qa_step_unfold cfg st cell ct src Hsrc Hct).
    cbn zeta. rewrite Hcur. cbn [Py.truthy].
    rewrite (QuestionAnswer.inv_nonempty _ Hinv1 k Hcur), Hrubric, Hq.
    cbn [andb]. unfold QuestionAnswer.count_question.
    destruct (QuestionAnswer.inv_counts _ Hinv1 k
                (QuestionAnswer.inv_current _ Hinv1 k Hcur)) as [n Hn].
    unfold increment. rewrite Hn. cbn [bind].
    apply PyStrFacts.after_first_None in Hcolon. rewrite Hcolon.
    eexists _, n. split; [done|]. split; [done|].
    cbn [QuestionAnswer.section_cell_counts QuestionAnswer.section_completed
         QuestionAnswer.missed_indices].
    by rewrite lookup_insert_eq.
  - pose (r := QuestionAnswer.run Sample.question_notebook
                 Sample.question_rubric).
    assert (∃ st0, r = Ok st0) as [st0 Hst0].
    { apply QuestionAnswerFacts.qa_scan_total;
        [apply QuestionAnswerFacts.qa_invariant_initial|done]. }
    exists st0, 0, [], 1. split; [done|].
    vm_compute in Hst0. injection Hst0 as <-.
    repeat split; [reflexivity..|cbn; lia].
Qed.

Lemma question_without_colon_counted_only_witness :
  ∃ st',
    QuestionAnswer.step Sample.question_rubric
      (QuestionAnswer.enter_section "1." QuestionAnswer.initial)
      (Sample.raw_cell "Question 1") = Ok st'
    ∧ QuestionAnswer.section_cell_counts st' !! "1." = Some 1
    ∧ QuestionAnswer.section_completed st' !! "1." = Some 0
    ∧ QuestionAnswer.missed_indices st' !! Some "1." = Some [].
Proof.
  destruct (question_without_colon_counted_only Sample.question_rubric
              [Sample.markdown_cell "# 1. Questions"]
              (QuestionAnswer.enter_section "1." QuestionAnswer.initial)
              (Sample.raw_cell "Question 1") (JStr "raw") "Question 1" "1.")
    as [(st' & n & Hstep & Hn & Hn' & Hc & Hm) _].
  - reflexivity.
  - reflexivity.
  - reflexivity.
  - reflexivity.
  - apply PyStrFacts.after_first_None. reflexivity.
  - reflexivity.
  - reflexivity.
  - exists st'. split; [done|].
    injection Hn as <-. rewrite Hn', Hc, Hm. repeat split; reflexivity.
Defined.

Lemma exercise_granted_only_after_markdown_witness :
  ∃ st1 st2,
    MarkdownExercise.run Sample.exercise_notebook Sample.exercise_rubric
    = Ok st2
    ∧ MarkdownExercise.granted st1 st2
    ∧ MarkdownExercise.section_completed st1 !! "1." = Some 1
    ∧ MarkdownExercise.section_completed st2 !! "1." = Some 2.
Proof.
  pose (pre := [Sample.markdown_cell "# 1. Markdown";
                Sample.run_code_cell "print(1)";
                Sample.markdown_cell "my own text"]).
  pose (cell := Sample.markdown_cell MarkdownExercise.check_text).
  pose (st1 := match MarkdownExercise.first_pass Sample.exercise_rubric
                       (pre ++ [cell]) MarkdownExercise.initial with
               | Ok s => s
               | Raise _ => MarkdownExercise.initial
               end).
  pose (st2 := match MarkdownExercise.second_pass (pre ++ [cell]) 0
                       (pre ++ [cell]) st1 with
               | Ok s => s
               | Raise _ => st1
               end).
  assert (MarkdownExercise.first_pass Sample.exercise_rubric
            (pre ++ [cell]) MarkdownExercise.initial = Ok st1) as H1
    by (vm_compute; reflexivity).
  assert (MarkdownExercise.second_pass (pre ++ [cell]) 0 (pre ++ [cell]) st1
          = Ok st2) as H2 by (vm_compute; reflexivity).
  assert (Forall MarkdownExercise.lacks_check_text pre) as Hpre.
  { repeat (apply Forall_cons; split;
            [eexists; split; [reflexivity|];
             intros _; eexists; split; reflexivity|]).
    apply Forall_nil_2. }
  assert (MarkdownExercise.holds_check_text cell) as Hcell.
  { eexists _, _. repeat split; reflexivity. }
  destruct (exercise_granted_only_after_markdown Sample.exercise_rubric
              pre [] cell st1 st2 H1 Hpre Hcell H2) as (Hiff & _).
  exists st1, st2. split; [|split; [|split; reflexivity]].
  - unfold MarkdownExercise.run. cbn [Py.subscript Sample.exercise_notebook
      Sample.notebook_of Py.assoc bind Py.iter]. vm_compute. reflexivity.
  - apply Hiff.
    exists [Sample.markdown_cell "# 1. Markdown";
            Sample.run_code_cell "print(1)"],
           (Sample.markdown_cell "my own text"), (JStr "markdown"),
           "my own text".
    repeat split; try reflexivity; [done|]. vm_compute. lia.
Defined.

Lemma last_omap_middle {A B : Type} (f : A → option B) (l1 l2 : list A)
    (x : A) (y : B) :
  f x = Some y → Forall (fun a => f a = None) l2 →
  last (omap f (l1 ++ x :: l2)) = Some y.
Proof.
  intros Hx Hl2. rewrite omap_app. cbn [omap list_omap]. rewrite Hx.
  assert (omap f l2 = []) as Hnil.
  { induction Hl2 as [|a l2 Ha _ IH]; [done|].
    cbn [omap list_omap]. by rewrite Ha. }
  cbn [omap] in Hnil. rewrite Hnil. apply last_snoc.
Qed.

(** In the default grader the last top-level header of a cell becomes the
    current section. *)
Lemma track_headers_last_main (cfg : expected_config) (source k : string)
    (st : Enhanced.state) :
  last (Enhanced.main_sections (Enhanced.is_analysis_notebook cfg) source)
  = Some k →
  Enhanced.current_section (Enhanced.track_headers cfg source st) = Some k.
Proof.
  intros Hlast. unfold Enhanced.track_headers. rewrite Hlast.
  destruct (last (Enhanced.subsections _ source));
    repeat (rewrite ?(proj1 (EnhancedFacts.enhanced_init_tracking_current _ _ _));
            cbn [Enhanced.set_current_section Enhanced.set_current_subsection
                 Enhanced.current_section]);
    done.
Qed.

(** C10.  For a markdown cell, both specialised graders make the key of
    the first matching header line the current section, whatever lines
    follow it, while the default grader takes the last matching top-level
    header line. *)
Theorem first_header_wins_in_special_graders (cfg : expected_config)
    (cell ct : json) (src : string)
    (Hct : Py.subscript cell "cell_type" = Ok ct)
    (Hmd : Py.eq_str ct "markdown" = true)
    (Hsrc : joined_source cell = Ok src) :
  (∀ lines1 line lines2 k st,
     PyStr.split PyStr.newline src = lines1 ++ line :: lines2 →
     Forall (fun l => simple_header l = None) lines1 →
     simple_header line = Some k →
     ∃ st', MarkdownExercise.step cfg st cell = Ok st'
            ∧ MarkdownExercise.current_section st' = Some k)
  ∧ (∀ lines1 line lines2 k pre st,
       PyStr.split PyStr.newline (PyStr.strip src)
       = lines1 ++ line :: lines2 →
       Forall (fun l => simple_header l = None) lines1 →
       simple_header line = Some k →
       QuestionAnswer.scan cfg pre QuestionAnswer.initial = Ok st →
       ∃ st', QuestionAnswer.step cfg st cell = Ok st'
              ∧ QuestionAnswer.current_section st' = Some k)
  ∧ (∀ lines1 line lines2 k st st',
       PyStr.split PyStr.newline src = lines1 ++ line :: lines2 →
       (Enhanced.line_headers (Enhanced.is_analysis_notebook cfg) line).1
       = Some k →
       Forall (fun l => (Enhanced.line_headers
                           (Enhanced.is_analysis_notebook cfg) l).1 = None)
              lines2 →
       Enhanced.step cfg st cell = Ok st' →
       Enhanced.current_section st' = Some k).
Proof.
  split; [|split].
  - intros lines1 line lines2 k st Hsplit Hnone Hline.
    rewrite (MarkdownExerciseFacts.md_step_markdown cfg st cell ct src Hct Hmd Hsrc).
    eexists. split; [done|]. unfold MarkdownExercise.track_header.
    rewrite Hsplit, (first_header_first lines1 lines2 line k Hnone Hline).
    unfold MarkdownExercise.enter_section. by case_match.
  - intros lines1 line lines2 k pre st Hsplit Hnone Hline Hscan.
    pose proof (QuestionAnswerFacts.qa_scan_Ok _ _ _ _ Hscan
                  QuestionAnswerFacts.qa_invariant_initial) as Hinv.
    destruct (QuestionAnswerFacts.qa_step_total cfg st cell ct src Hinv Hsrc Hct)
      as [st' Hstep].
    exists st'. split; [done|].
    destruct (QuestionAnswerFacts.qa_step_Ok cfg st st' cell Hstep Hinv)
      as (_ & ct' & src' & Hsrc' & Hct' & ->).
    rewrite Hsrc in Hsrc'. injection Hsrc' as <-.
    rewrite Hct in Hct'. injection Hct' as <-.
    unfold QuestionAnswer.after_header, QuestionAnswer.track_header.
    rewrite Hmd, Hsplit, (first_header_first lines1 lines2 line k Hnone Hline).
    unfold QuestionAnswer.enter_section. by case_match.
  - intros lines1 line lines2 k st st' Hsplit Hline Hnone Hstep.
    assert (last (Enhanced.main_sections (Enhanced.is_analysis_notebook cfg)
                    src) = Some k) as Hlast.
    { unfold Enhanced.main_sections. rewrite Hsplit.
      by apply last_omap_middle. }
    unfold Enhanced.step in Hstep. rewrite Hct in Hstep. cbn [bind] in Hstep.
    rewrite Hmd, Hsrc in Hstep. cbn [bind] in Hstep.
    rewrite (eq_str_markdown_not_code ct Hmd) in Hstep.
    assert (Py.eq_str ct "raw" = false) as Hraw.
    { destruct ct; try done. cbn [Py.eq_str] in *.
      by apply bool_decide_eq_true in Hmd as ->. }
    rewrite Hraw in Hstep.
    assert (st' = Enhanced.track_headers cfg src st) as ->
      by (repeat case_match; congruence).
    by apply track_headers_last_main.
Qed.

Lemma first_header_wins_in_special_graders_witness :
  let cell := Sample.markdown_cell Sample.two_headers in
  (∃ st', MarkdownExercise.step Sample.exercise_rubric
            MarkdownExercise.initial cell = Ok st'
          ∧ MarkdownExercise.current_section st' = Some "1.")
  ∧ (∃ st', QuestionAnswer.step Sample.question_rubric
              QuestionAnswer.initial cell = Ok st'
            ∧ QuestionAnswer.current_section st' = Some "1.")
  ∧ (∀ st', Enhanced.step Sample.scenario_rubric Enhanced.initial cell
            = Ok st' →
            Enhanced.current_section st' = Some "2.").
Proof.
  intros cell.
  assert (PyStr.split PyStr.newline Sample.two_headers
          = [] ++ "# 1. First" :: ["# 2. Second"]) as Hfirst by reflexivity.
  assert (PyStr.split PyStr.newline (PyStr.strip Sample.two_headers)
          = [] ++ "# 1. First" :: ["# 2. Second"]) as Hfirst' by reflexivity.
  assert (PyStr.split PyStr.newline Sample.two_headers
          = ["# 1. First"] ++ "# 2. Second" :: []) as Hlast by reflexivity.
  split; [|split].
  - destruct (first_header_wins_in_special_graders Sample.exercise_rubric
                cell (JStr "markdown") Sample.two_headers
                eq_refl eq_refl eq_refl) as (Hmd & _ & _).
    apply (Hmd [] "# 1. First" ["# 2. Second"] "1."
             MarkdownExercise.initial Hfirst); [apply Forall_nil_2|reflexivity].
  - destruct (first_header_wins_in_special_graders Sample.question_rubric
                cell (JStr "markdown") Sample.two_headers
                eq_refl eq_refl eq_refl) as (_ & Hqa & _).
    apply (Hqa [] "# 1. First" ["# 2. Second"] "1." []
             QuestionAnswer.initial Hfirst');
      [apply Forall_nil_2|reflexivity|reflexivity].
  - destruct (first_header_wins_in_special_graders Sample.scenario_rubric
                cell (JStr "markdown") Sample.two_headers
                eq_refl eq_refl eq_refl) as (_ & _ & Hdef).
    intros st'.
    apply (Hdef ["# 1. First"] "# 2. Second" [] "2."
             Enhanced.initial st' Hlast); [reflexivity|apply Forall_nil_2].
Defined.

(* ===================================================================== *)
(** * The dispatcher: claims C6 and C7 *)
(* ===================================================================== *)

Lemma not_object_subscript (v : json) (k : string) :
  (∀ fields, v ≠ JObj fields) → Py.subscript v k = Raise TypeError.
Proof. intros H. destruct v; try done. by destruct (H fields). Qed.

Lemma not_object_get (v d : json) (k : string) :
  (∀ fields, v ≠ JObj fields) → Py.get v k d = Raise AttributeError.
Proof. intros H. destruct v; try done. by destruct (H fields). Qed.

(** On a value that is not a dict the special graders raise, so the loop
    of the dispatcher raises or falls through. *)
Lemma special_dispatch_not_object (notebook : json) (cfg : expected_config)
    (entries : list (string * expected)) :
  (∀ fields, notebook ≠ JObj fields) →
  special_dispatch notebook cfg entries = Ok None
  ∨ ∃ e, special_dispatch notebook cfg entries = Raise e.
Proof.
  intros Hnb. induction entries as [|entry entries IH]; [by left|].
  cbn [special_dispatch]. destruct (special_tag entry.2) as [tag|]; [|done].
  case_bool_decide.
  - right. exists TypeError. unfold grade_markdown_exercise_01,
      MarkdownExercise.run. by rewrite not_object_subscript.
  - case_bool_decide; [|done].
    right. exists AttributeError. unfold grade_question_answer,
      QuestionAnswer.run. by rewrite not_object_get.
Qed.

Lemma grade_loaded_not_object (notebook : json) (cfg : expected_config) :
  (∀ fields, notebook ≠ JObj fields) →
  ∃ e, grade_loaded notebook cfg = Raise e.
Proof.
  intros Hnb. unfold grade_loaded.
  assert (grade_notebook_enhanced notebook cfg = Raise TypeError) as Hdef.
  { unfold grade_notebook_enhanced, Enhanced.run.
    by rewrite not_object_subscript. }
  destruct (existsb _ (sections cfg)).
  - destruct (special_dispatch_not_object notebook cfg (sections cfg) Hnb)
      as [->|[e ->]]; cbn [bind]; eauto.
  - cbn [bind]. eauto.
Qed.

(** Without a [special] tag the default grader is used. *)
Lemma grade_loaded_plain (notebook : json) (cfg : expected_config) :
  plain_rubric cfg →
  grade_loaded notebook cfg = grade_notebook_enhanced notebook cfg.
Proof.
  unfold plain_rubric, grade_loaded. intros Hplain.
  assert (existsb (fun entry => bool_decide (is_Some (special_tag entry.2)))
            (sections cfg) = false) as ->; [|done].
  induction Hplain as [|entry l Hentry _ IH]; [done|].
  cbn [existsb]. rewrite IH, Hentry. rewrite orb_false_r.
  apply bool_decide_eq_false. by intros [? ?].
Qed.

(** The cell loop of the default grader stops at a cell it cannot read, if
    not before. *)
Lemma scan_unreadable (cfg : expected_config) (cells : list json)
    (st : Enhanced.state) :
  Exists Enhanced.unreadable cells → ∃ e, Enhanced.scan cfg cells st = Raise e.
Proof.
  intros Hbad. revert st.
  induction Hbad as [cell cells Hcell|cell cells _ IH]; intros st;
    cbn [Enhanced.scan].
  - assert (∃ e, Enhanced.step cfg st cell = Raise e) as [e ->];
      [|cbn [bind]; eauto].
    unfold Enhanced.step.
    destruct Hcell as [[e ->]|(ct & e & -> & Hmd & Hsrc)]; cbn [bind];
      [eauto|]. rewrite Hmd, Hsrc. cbn [bind]. eauto.
  - destruct (Enhanced.step cfg st cell) as [st'|e]; cbn [bind]; eauto.
Qed.

(** C6, as the code has it.  [grade_notebook] returns for every input.
    When the file cannot be read or parsed, and when grading raises, the
    result is the error result: no sections, zero points and one message
    that names the exception.  Grading raises for a top-level value that
    is not an object and, with a rubric without special tags, for a
    document without a "cells" entry, with a "cells" entry that cannot be
    iterated, or with a cell that has no readable cell_type or is a
    markdown cell without a readable source.  In every other case the
    result is the one the grader computed.  In the loop of the caller the
    result of a document stands between those of the others, which it
    leaves as they are. *)
Theorem grading_failure_yields_error_result (loaded : res json)
    (cfg : expected_config) :
  (∀ e, res_sections (error_result e) = ∅
        ∧ res_total_points (error_result e) = 0
        ∧ res_issues (error_result e) = Some [ErrorProcessingNotebook e])
  ∧ (∀ e, loaded = Raise e → grade_notebook loaded cfg = error_result e)
  ∧ (∀ notebook e,
       loaded = Ok notebook → grade_loaded notebook cfg = Raise e →
       grade_notebook loaded cfg = error_result e)
  ∧ (∀ notebook r,
       loaded = Ok notebook → grade_loaded notebook cfg = Ok r →
       grade_notebook loaded cfg = r)
  ∧ (∀ notebook,
       loaded = Ok notebook → (∀ fields, notebook ≠ JObj fields) →
       ∃ e, grade_notebook loaded cfg = error_result e)
  ∧ (∀ notebook,
       loaded = Ok notebook → plain_rubric cfg →
       (∃ e, Py.subscript notebook "cells" = Raise e)
       ∨ (∃ v e, Py.subscript notebook "cells" = Ok v ∧ Py.iter v = Raise e)
       ∨ (∃ v cells, Py.subscript notebook "cells" = Ok v
                     ∧ Py.iter v = Ok cells
                     ∧ Exists Enhanced.unreadable cells) →
       ∃ e, grade_notebook loaded cfg = error_result e)
  ∧ (∀ before after,
       grade_all (before ++ (loaded, cfg) :: after)
       = grade_all before ++ grade_notebook loaded cfg :: grade_all after).
Proof.
  split; [done|]. split; [by intros e ->|]. split.
  { intros notebook e -> H. unfold grade_notebook. cbn [bind]. by rewrite H. }
  split.
  { intros notebook r -> H. unfold grade_notebook. cbn [bind]. by rewrite H. }
  split; [|split].
  - intros notebook -> Hnb.
    destruct (grade_loaded_not_object notebook cfg Hnb) as [e He].
    exists e. unfold grade_notebook. cbn [bind]. by rewrite He.
  - intros notebook -> Hplain Hbad.
    assert (∃ e, grade_notebook_enhanced notebook cfg = Raise e) as [e He].
    { unfold grade_notebook_enhanced, Enhanced.run.
      destruct Hbad as [[e ->]|[(v & e & -> & Hv)|(v & cells & -> & Hv & Hc)]];
        cbn [bind]; [eauto| |].
      - rewrite Hv. cbn [bind]. eauto.
      - rewrite Hv. cbn [bind].
        destruct (scan_unreadable cfg cells Enhanced.initial Hc) as [e ->].
        cbn [bind]. eauto. }
    exists e. unfold grade_notebook. cbn [bind].
    by rewrite (grade_loaded_plain notebook cfg Hplain), He.
  - intros before after. unfold grade_all. by rewrite fmap_app.
Qed.

Lemma grading_failure_yields_error_result_witness :
  grade_notebook (Ok (JObj [("nbformat", JNum 4)])) Sample.scenario_rubric
  = error_result (KeyError "cells")
  ∧ grade_notebook (Raise LoadError) Sample.scenario_rubric
    = error_result LoadError.
Proof.
  destruct (grading_failure_yields_error_result
              (Ok (JObj [("nbformat", JNum 4)])) Sample.scenario_rubric)
    as (_ & _ & Hraise & _).
  destruct (grading_failure_yields_error_result
              (Raise LoadError) Sample.scenario_rubric)
    as (_ & Hload & _).
  split.
  - apply (Hraise (JObj [("nbformat", JNum 4)])); reflexivity.
  - apply Hload. reflexivity.
Defined.

(** C6 as stated fails: a document whose only cell has a number for its
    source is not of the expected shape, yet it is graded without an
    error: the cell lies outside every section, so its source is never
    read. *)
Lemma invalid_document_graded_counterexample :
  Shape.is_notebook Sample.malformed_notebook = false
  ∧ res_sections
      (grade_notebook (Ok Sample.malformed_notebook) Sample.scenario_rubric)
    !! "1." = Some (SplitScore 0 0 0 2 1 3)
  ∧ res_sections
      (grade_notebook (Ok Sample.malformed_notebook) Sample.scenario_rubric)
    ≠ ∅
  ∧ res_issues
      (grade_notebook (Ok Sample.malformed_notebook) Sample.scenario_rubric)
    = None.
Proof.
  assert (res_sections
            (grade_notebook (Ok Sample.malformed_notebook)
               Sample.scenario_rubric) !! "1."
          = Some (SplitScore 0 0 0 2 1 3)) as H by (vm_compute; reflexivity).
  split; [reflexivity|]. split; [done|]. split; [|reflexivity].
  intros E. by rewrite E, lookup_empty in H.
Qed.

(* ===================================================================== *)
(** * Documents of the expected shape are graded without an error *)
(* ===================================================================== *)

Lemma is_notebook_cells (notebook : json) :
  Shape.is_notebook notebook = true →
  ∃ cells, Py.subscript notebook "cells" = Ok (JArr cells)
           ∧ Py.get notebook "cells" (JArr []) = Ok (JArr cells)
           ∧ forallb Shape.is_cell cells = true.
Proof.
  destruct notebook as [| | | | |fields]; try done.
  unfold Shape.is_notebook, Py.subscript, Py.get.
  destruct (Py.assoc "cells" fields) as [[| | | |cells|]|]; try done.
  intros Hcells. by exists cells.
Qed.

Lemma check_exercise_total (all_cells : list json) (idx : nat)
    (st : MarkdownExercise.state) :
  MarkdownExercise.invariant st → forallb Shape.is_cell all_cells = true →
  idx ≤ length all_cells →
  ∃ st', MarkdownExercise.check_exercise all_cells idx st = Ok st'.
Proof.
  intros Hinv Hall Hidx. unfold MarkdownExercise.check_exercise.
  destruct (0 <? idx) eqn:Hpos; [|eauto]. apply Nat.ltb_lt in Hpos.
  destruct (lookup_lt_is_Some_2 all_cells (idx - 1)) as [prev Hprev]; [lia|].
  rewrite Hprev. cbn [bind].
  assert (Shape.is_cell prev = true) as Hcell.
  { rewrite forallb_forall in Hall. apply Hall, list_elem_of_In.
    by eapply list_elem_of_lookup_2. }
  destruct (joined_source_total prev Hcell) as [psrc ->]. cbn [bind].
  destruct (cell_type_total prev Hcell) as [ptype ->]. cbn [bind].
  assert (∃ ok, (if Py.eq_str ptype "markdown" then has_content prev
                 else Ok false) = Ok ok) as [ok ->].
  { destruct (Py.eq_str ptype "markdown"); [|eauto].
    by apply has_content_total. }
  cbn [bind]. destruct ok; [|eauto].
  destruct (0 <? MarkdownExercise.code_completed_in_current st) eqn:Hcode;
    [|eauto].
  apply Nat.ltb_lt in Hcode.
  unfold MarkdownExercise.code_completed_in_current in Hcode.
  unfold MarkdownExercise.grant.
  destruct (MarkdownExercise.current_section st) as [k|]; [|lia].
  assert (is_Some (MarkdownExercise.section_completed st !! k)) as [n Hn].
  { apply (MarkdownExercise.inv_code _ Hinv).
    destruct (MarkdownExercise.code_cells_completed st !! k); [eauto|].
    cbn in Hcode. lia. }
  unfold increment. rewrite Hn. cbn [bind]. eauto.
Qed.

Lemma second_pass_total (all_cells cells : list json) (idx : nat)
    (st : MarkdownExercise.state) :
  MarkdownExercise.invariant st → forallb Shape.is_cell all_cells = true →
  forallb Shape.is_cell cells = true → idx + length cells ≤ length all_cells →
  ∃ st', MarkdownExercise.second_pass all_cells idx cells st = Ok st'.
Proof.
  intros Hinv Hall. revert idx.
  induction cells as [|cell cells IH]; intros idx Hcells Hidx; [by exists st|].
  cbn [forallb] in Hcells. apply andb_prop in Hcells as [Hcell Hcells].
  cbn [length] in Hidx. cbn [MarkdownExercise.second_pass].
  destruct (cell_type_total cell Hcell) as [ct ->]. cbn [bind].
  destruct (joined_source_total cell Hcell) as [src ->].
  assert (∃ st', MarkdownExercise.second_pass all_cells (S idx) cells st
                 = Ok st') as Hrest by (apply IH; [done|lia]).
  destruct (Py.eq_str ct "markdown"); [|done]. cbn [bind].
  destruct (PyStr.contains MarkdownExercise.check_text src); [|done].
  apply check_exercise_total; [done..|lia].
Qed.

(** Every grader returns on a document of the expected shape, so
    [grade_notebook] gives the result of the grader the rubric selects. *)
Lemma graders_total (notebook : json) (cfg : expected_config) :
  Shape.is_notebook notebook = true →
  (∃ r, grade_notebook_enhanced notebook cfg = Ok r)
  ∧ (∃ r, grade_markdown_exercise_01 notebook cfg = Ok r)
  ∧ (∃ r, grade_question_answer notebook cfg = Ok r).
Proof.
  intros Hnb. destruct (is_notebook_cells notebook Hnb)
    as (cells & Hsub & Hget & Hcells).
  split; [|split].
  - unfold grade_notebook_enhanced.
    destruct (EnhancedFacts.enhanced_run_total cfg notebook Hnb) as [st ->].
    cbn [bind]. eauto.
  - unfold grade_markdown_exercise_01, MarkdownExercise.run.
    rewrite Hsub. cbn [bind Py.iter].
    destruct (MarkdownExerciseFacts.md_first_pass_total cfg cells
                MarkdownExercise.initial
                MarkdownExerciseFacts.md_invariant_initial Hcells) as [st1 H1].
    rewrite H1. cbn [bind].
    destruct (second_pass_total cells cells 0 st1) as [st2 ->];
      [|done|done|cbn; lia|cbn [bind]; eauto].
    by apply (MarkdownExerciseFacts.md_first_pass_Ok _ _ _ _ H1),
      MarkdownExerciseFacts.md_invariant_initial.
  - unfold grade_question_answer, QuestionAnswer.run.
    rewrite Hget. cbn [bind Py.iter].
    destruct (QuestionAnswerFacts.qa_scan_total cfg cells QuestionAnswer.initial
                QuestionAnswerFacts.qa_invariant_initial Hcells) as [st ->].
    cbn [bind]. eauto.
Qed.

Lemma special_dispatch_total (notebook : json) (cfg : expected_config)
    (entries : list (string * expected)) :
  Shape.is_notebook notebook = true →
  ∃ r, special_dispatch notebook cfg entries = Ok r.
Proof.
  intros Hnb. destruct (graders_total notebook cfg Hnb)
    as (_ & [rm Hm] & [rq Hq]).
  induction entries as [|entry entries IH]; [by exists None|].
  cbn [special_dispatch]. destruct (special_tag entry.2); [|done].
  case_bool_decide.
  - rewrite Hm. cbn [bind]. destruct (has_missed_indices rm); eauto.
  - case_bool_decide; [|done]. rewrite Hq. cbn [bind]. eauto.
Qed.

Lemma grade_loaded_total (notebook : json) (cfg : expected_config) :
  Shape.is_notebook notebook = true →
  ∃ r, grade_loaded notebook cfg = Ok r
       ∧ grade_notebook (Ok notebook) cfg = r ∧ res_issues r = None.
Proof.
  intros Hnb. unfold grade_notebook. cbn [bind].
  assert (∃ r, grade_loaded notebook cfg = Ok r ∧ res_issues r = None)
    as (r & Hr & Hnone); [|exists r; by rewrite Hr].
  unfold grade_loaded.
  assert (∃ r, grade_notebook_enhanced notebook cfg = Ok r
               ∧ res_issues r = None) as Hdefault.
  { unfold grade_notebook_enhanced.
    destruct (EnhancedFacts.enhanced_run_total cfg notebook Hnb) as [st ->].
    cbn [bind]. eauto. }
  destruct (existsb _ (sections cfg)); [|done].
  assert (∀ entries r,
            special_dispatch notebook cfg entries = Ok (Some r) →
            res_issues r = None) as Hspecial.
  { induction entries as [|entry entries IH]; intros r; [done|].
    cbn [special_dispatch]. destruct (special_tag entry.2); [|apply IH].
    case_bool_decide as Hm.
    - unfold grade_markdown_exercise_01. intros Hd.
      apply bind_Ok in Hd as (g & Hg & Hd).
      apply bind_Ok in Hg as (st & _ & Hg).
      injection Hg as <-. destruct (has_missed_indices _); [|by apply IH].
      by injection Hd as <-.
    - case_bool_decide as Hq; [|apply IH].
      unfold grade_question_answer. intros Hd.
      apply bind_Ok in Hd as (g & Hg & Hd).
      apply bind_Ok in Hg as (st & _ & Hg).
      injection Hg as <-. by injection Hd as <-. }
  destruct (special_dispatch_total notebook cfg (sections cfg) Hnb)
    as [[r|] Hr]; rewrite Hr; cbn [bind]; [|done].
  exists r. split; [done|]. by eapply Hspecial.
Qed.


(* ===================================================================== *)
(** * Student directories *)
(* ===================================================================== *)

Module StudentsFacts.
Import PyStr Students PyStrFacts.

Lemma append_empty_r (s : string) : s +:+ EmptyString = s.
Proof.
  induction s as [|a s IH]; [done|]. by rewrite append_cons, IH.
Qed.

Lemma rev_app_append (s acc : string) :
  String.rev_app s acc = String.rev s +:+ acc.
Proof.
  unfold String.rev. revert acc.
  induction s as [|a s IH]; intros acc; cbn [String.rev_app].
  - by rewrite append_nil.
  - rewrite (IH (String a acc)), (IH (String a EmptyString)).
    by rewrite HeaderFacts.append_assoc, append_cons, append_nil.
Qed.

Lemma rev_cons (a : ascii) (s : string) :
  String.rev (String a s) = String.rev s +:+ String a EmptyString.
Proof. unfold String.rev at 1. cbn [String.rev_app]. apply rev_app_append. Qed.

Lemma split_go_cons (c : ascii) (cur s : string) :
  ∃ x rest, split_go c cur s = x :: rest.
Proof.
  revert cur. induction s as [|a s IH]; intros cur; cbn [split_go].
  - by eexists _, _.
  - destruct (ascii_dec a c); [by eexists _, _|]. apply IH.
Qed.

Lemma split_go_app (c : ascii) (a b cur : string) :
  split_go c cur (a +:+ String c b)
  = split_go c cur a ++ split_go c EmptyString b.
Proof.
  revert cur. induction a as [|x a IH]; intros cur.
  - rewrite append_nil. cbn [split_go]. by destruct (ascii_dec c c).
  - rewrite append_cons. cbn [split_go].
    destruct (ascii_dec x c); [|apply IH]. by rewrite IH.
Qed.

Lemma split_go_plain (c : ascii) (b cur : string) :
  ¬ occurs c b → split_go c cur b = [String.rev cur +:+ b].
Proof.
  revert cur. induction b as [|x b IH]; intros cur Hno; cbn [split_go].
  - by rewrite append_empty_r.
  - rewrite occurs_cons in Hno.
    destruct (ascii_dec x c) as [->|Hne]; [by destruct Hno; left|].
    rewrite IH by tauto. rewrite rev_cons.
    by rewrite HeaderFacts.append_assoc, append_cons, append_nil.
Qed.

Lemma split_go_occurs (c : ascii) (cur s x : string) :
  ¬ occurs c (String.rev cur) → x ∈ split_go c cur s → ¬ occurs c x.
Proof.
  revert cur. induction s as [|a s IH]; intros cur Hcur; cbn [split_go].
  - intros Hx. apply list_elem_of_singleton in Hx. by subst.
  - destruct (ascii_dec a c) as [->|Hne].
    + intros Hx. apply elem_of_cons in Hx as [->|Hx]; [done|].
      apply (IH EmptyString); [apply not_occurs_empty|done].
    + apply IH. rewrite rev_cons. intros (u & v & Huv).
      apply Hcur. clear IH Hcur.
      revert u Huv. generalize (String.rev cur) as r.
      induction r as [|y r IHr]; intros u Huv.
      * rewrite append_nil in Huv. destruct u as [|z u].
        -- rewrite append_nil in Huv. by injection Huv.
        -- rewrite append_cons in Huv. injection Huv as _ Huv.
           by destruct u.
      * rewrite append_cons in Huv. destruct u as [|z u].
        -- rewrite append_nil in Huv. injection Huv as -> _.
           by exists EmptyString, r.
        -- rewrite append_cons in Huv. injection Huv as -> Huv.
           destruct (IHr _ Huv) as (u' & v' & ->).
           exists (String z u'), v'. by rewrite append_cons.
Qed.

(** Joining the parts of a split gives the text back. *)
Lemma join_split_go (c : ascii) (cur s : string) :
  join_with (String c EmptyString) (split_go c cur s) = String.rev cur +:+ s.
Proof.
  revert cur. induction s as [|a s IH]; intros cur; cbn [split_go].
  - by rewrite append_empty_r.
  - destruct (ascii_dec a c) as [->|Hne].
    + destruct (split_go_cons c EmptyString s) as (x & rest & Hx).
      specialize (IH EmptyString). rewrite Hx in IH |- *.
      change (String.rev EmptyString) with EmptyString in IH.
      rewrite append_nil in IH.
      change (join_with (String c EmptyString) (String.rev cur :: x :: rest))
        with (String.rev cur +:+ String c EmptyString
              +:+ join_with (String c EmptyString) (x :: rest)).
      rewrite IH. by rewrite append_cons, append_nil.
    + rewrite IH, rev_cons.
      by rewrite HeaderFacts.append_assoc, append_cons, append_nil.
Qed.

Lemma join_with_snoc (sep : string) (l : list string) (x : string) :
  l ≠ [] → join_with sep (l ++ [x]) = join_with sep l +:+ sep +:+ x.
Proof.
  induction l as [|a l IH]; [done|]. intros _.
  destruct l as [|b l].
  - reflexivity.
  - change (join_with sep ((a :: b :: l) ++ [x]))
      with (a +:+ sep +:+ join_with sep ((b :: l) ++ [x])).
    rewrite IH by done.
    change (join_with sep (a :: b :: l))
      with (a +:+ sep +:+ join_with sep (b :: l)).
    by rewrite !HeaderFacts.append_assoc.
Qed.

Lemma last_removelast {A : Type} (l : list A) (x : A) :
  last l = Some x → l = removelast l ++ [x].
Proof.
  intros H. apply last_Some in H as [l' ->].
  by rewrite removelast_last.
Qed.

Lemma digit_char_not_underscore (c : ascii) :
  is_digit_char c = true → c ≠ underscore.
Proof. by intros H ->. Qed.

Lemma isdigit_no_underscore (s : string) :
  Header.all_chars is_digit_char s = true → ¬ occurs underscore s.
Proof.
  induction s as [|a s IH]; [intros _; apply not_occurs_empty|].
  cbn [Header.all_chars]. intros [Ha Hs]%andb_prop.
  rewrite occurs_cons. intros [->|H]; [done|]. by apply IH.
Qed.

Lemma fold_add_student (submissions_dir : string)
    (listing : list (string * bool)) (m : gmap string student_dir)
    (student_id : string) (sd : student_dir) :
  fold_left (add_student submissions_dir) listing m !! student_id = Some sd →
  m !! student_id = Some sd
  ∨ from_listing submissions_dir listing student_id sd.
Proof.
  revert m. induction listing as [|[entry isdir] l IH]; intros m;
    cbn [fold_left]; [by left|].
  intros H. apply IH in H as [H|(e & He & Hn & Hp)].
  - unfold add_student in H. cbn [fst snd] in H.
    destruct isdir; [|by left].
    destruct (name_and_id entry) as [[n i]|] eqn:Hn; [|by left].
    destruct (decide (i = student_id)) as [->|Hne].
    + rewrite lookup_insert_eq in H. injection H as <-. right.
      exists entry. split; [left|done].
    + rewrite lookup_insert_ne in H by done. by left.
  - right. exists e. split; [by right|done].
Qed.

Lemma fold_add_student_last (submissions_dir : string)
    (l2 : list (string * bool)) (m : gmap string student_dir)
    (student_id : string) (sd : student_dir) :
  m !! student_id = Some sd →
  (∀ entry n, (entry, true) ∈ l2 →
     name_and_id entry ≠ Some (n, student_id)) →
  fold_left (add_student submissions_dir) l2 m !! student_id = Some sd.
Proof.
  revert m. induction l2 as [|[entry isdir] l IH]; intros m Hm Hno;
    cbn [fold_left]; [done|].
  apply IH.
  - unfold add_student. cbn [fst snd]. destruct isdir; [|done].
    destruct (name_and_id entry) as [[n i]|] eqn:Hn; [|done].
    rewrite lookup_insert_ne; [done|].
    intros ->. apply (Hno entry n); [left|done].
  - intros e n He. apply Hno. by right.
Qed.


Lemma strip_prefix_startswith (a b s r : string) :
  strip_prefix (a +:+ b) s = Some r → startswith a s = true.
Proof.
  revert s. induction a as [|x a IH]; intros s; [done|].
  rewrite append_cons. destruct s as [|y s]; [done|].
  cbn [strip_prefix startswith]. destruct (ascii_dec x y); [apply IH|done].
Qed.

Lemma search_downloaded_contains (s digits : string) :
  search_downloaded s = Some digits →
  contains "student_completed_RNAseq_submissions" s = true.
Proof.
  induction s as [|a s IH].
  - cbn. done.
  - intros H. cbn [search_downloaded] in H. cbn [contains].
    destruct (downloaded_here (String a s)) as [d|] eqn:Hd.
    + unfold downloaded_here in Hd.
      destruct (strip_prefix (downloaded_name +:+ "_") (String a s))
        as [rest|] eqn:Hp; [|done].
      rewrite (strip_prefix_startswith
                 "student_completed_RNAseq_submissions" "_downloaded_"
                 (String a s) rest Hp). done.
    + rewrite (IH H). by rewrite orb_true_r.
Qed.

Lemma name_id_dirs_snoc (submissions_dir : string)
    (l : list (string * bool)) (x : string * bool) :
  name_id_dirs submissions_dir (l ++ [x])
  = add_student submissions_dir (name_id_dirs submissions_dir l) x.
Proof. unfold name_id_dirs. by rewrite fold_left_app. Qed.

End StudentsFacts.

(** X1.  A directory name passes the Name_ID test exactly when it is a
    name, an underscore and a non-empty run of digit characters: the
    identifier is what follows the last underscore, and the name, which
    may hold underscores itself, is everything before it. *)
Theorem name_and_id_round_trip (entry name student_id : string) :
  Students.name_and_id entry = Some (name, student_id)
  ↔ entry = name +:+ "_" +:+ student_id
    ∧ Students.isdigit student_id = true.
Proof.
  assert (∀ s, Students.join_with "_" (PyStr.split Students.underscore s) = s)
    as Hjoin.
  { intros s.
    pose proof (StudentsFacts.join_split_go Students.underscore EmptyString s)
      as H.
    change (String.rev EmptyString) with EmptyString in H.
    by rewrite PyStrFacts.append_nil in H. }
  unfold Students.name_and_id. split.
  - specialize (Hjoin entry).
    destruct (last (PyStr.split Students.underscore entry)) as [x|]
      eqn:Hlast; [|done].
    destruct (2 <=? length (PyStr.split Students.underscore entry))
      eqn:Hlen; [|done].
    destruct (Students.isdigit x) eqn:Hd; [|done]. cbn [andb].
    intros [= <- <-]. split; [|done].
    apply Nat.leb_le in Hlen. apply StudentsFacts.last_removelast in Hlast.
    rewrite Hlast in Hjoin, Hlen.
    rewrite StudentsFacts.join_with_snoc in Hjoin; [done|].
    intros Hnil. rewrite Hnil in Hlen. cbn in Hlen. lia.
  - intros [-> Hd]. specialize (Hjoin name). unfold PyStr.split in *.
    change ("_" +:+ student_id) with (String Students.underscore student_id).
    rewrite StudentsFacts.split_go_app.
    unfold Students.isdigit in Hd. apply andb_prop in Hd as [Hne Hall].
    rewrite (StudentsFacts.split_go_plain Students.underscore student_id)
      by by apply StudentsFacts.isdigit_no_underscore.
    change (String.rev EmptyString) with EmptyString.
    rewrite PyStrFacts.append_nil, last_snoc, removelast_last.
    destruct (StudentsFacts.split_go_cons Students.underscore EmptyString
                name) as (x & rest & Hx).
    rewrite length_app, Hx. cbn [length].
    replace (2 <=? S (length rest) + 1) with true
      by (symmetry; apply Nat.leb_le; lia).
    unfold Students.isdigit. rewrite Hne, Hall. cbn [andb].
    rewrite <- Hx. by rewrite Hjoin.
Qed.

(** X2.  The students found in a listing, for the single-submission and for
    the multi-student mode alike: an identifier is bound to the last
    listed directory of the form Name_ID that carries it (an earlier
    directory with the same identifier is dropped), with the name before
    the last underscore and the path of that directory. *)
Theorem student_is_last_directory_with_id (submissions_dir : string)
    (listing : list (string * bool)) (student_id : string)
    (sd : Students.student_dir) :
  Students.name_id_dirs submissions_dir listing !! student_id = Some sd
  ↔ ∃ before entry after,
      listing = before ++ (entry, true) :: after
      ∧ Students.name_and_id entry = Some (Students.name sd, student_id)
      ∧ Students.path sd = Students.path_join submissions_dir entry
      ∧ ∀ later n, (later, true) ∈ after →
          Students.name_and_id later ≠ Some (n, student_id).
Proof.
  split.
  - revert sd. induction listing as [|[entry isdir] l IH] using rev_ind;
      intros sd.
    + unfold Students.name_id_dirs. cbn [fold_left]. by rewrite lookup_empty.
    + rewrite StudentsFacts.name_id_dirs_snoc.
      unfold Students.add_student at 1. cbn [fst snd].
      assert (Students.name_id_dirs submissions_dir l !! student_id = Some sd
              → (∀ n, isdir = true →
                   Students.name_and_id entry ≠ Some (n, student_id))
              → ∃ before entry0 after,
                  l ++ [(entry, isdir)] = before ++ (entry0, true) :: after
                  ∧ Students.name_and_id entry0
                    = Some (Students.name sd, student_id)
                  ∧ Students.path sd
                    = Students.path_join submissions_dir entry0
                  ∧ ∀ later n, (later, true) ∈ after →
                      Students.name_and_id later ≠ Some (n, student_id))
        as Hold.
      { intros H Hx. destruct (IH sd H) as (b & e & a & -> & Hn & Hp & Hno).
        exists b, e, (a ++ [(entry, isdir)]). split; [|split; [done|]].
        { by rewrite <- app_assoc. }
        split; [done|]. intros later n Hin.
        apply elem_of_app in Hin as [Hin|Hin]; [by apply Hno|].
        apply list_elem_of_singleton in Hin. injection Hin as -> <-.
        by apply Hx. }
      destruct isdir; [|intros H; by apply Hold].
      destruct (Students.name_and_id entry) as [[n i]|] eqn:Hn;
        [|intros H; by apply Hold].
      destruct (decide (i = student_id)) as [->|Hne].
      * rewrite lookup_insert_eq. intros [= <-].
        exists l, entry, []. repeat split; [done|].
        intros later n' Hin. by apply elem_of_nil in Hin.
      * rewrite lookup_insert_ne by done. intros H. apply Hold; [done|].
        intros n' _ [= _ ->]. done.
  - intros (before & entry & after & -> & Hn & Hp & Hno).
    unfold Students.name_id_dirs. rewrite fold_left_app. cbn [fold_left].
    apply StudentsFacts.fold_add_student_last; [|done].
    unfold Students.add_student. cbn [fst snd]. rewrite Hn.
    rewrite lookup_insert_eq. f_equal. destruct sd as [n p].
    cbn in Hp. by rewrite Hp.
Qed.

(** X3.  In single-submission mode the result is empty only when the
    submissions directory cannot be listed.  When the listing holds a
    Name_ID directory the result is what the loop found; otherwise it is
    one entry whose path is the submissions directory itself, keyed by the
    digits after [student_completed_RNAseq_submissions_downloaded_] when
    the path holds that text, and by ["0"] with the base name of the path
    when it does not. *)
Theorem list_student_directories_fallback (submissions_dir : string)
    (listing : option (list (string * bool))) :
  (Students.list_student_directories submissions_dir listing = ∅
   ↔ listing = None)
  ∧ ∀ entries, listing = Some entries →
      let found := Students.name_id_dirs submissions_dir entries in
      let result := Students.list_student_directories submissions_dir listing in
      (found ≠ ∅ → result = found)
      ∧ (found = ∅ →
         match Students.search_downloaded submissions_dir with
         | Some digits =>
             result = {[ digits := Students.StudentDir
                                     Students.downloaded_name
                                     submissions_dir ]}
         | None =>
             result = {[ "0" := Students.StudentDir
                                  (Students.basename
                                     (Students.rstrip_slash submissions_dir))
                                  submissions_dir ]}
         end).
Proof.
  assert (∀ entries,
    let found := Students.name_id_dirs submissions_dir entries in
    let result :=
      Students.list_student_directories submissions_dir (Some entries) in
    (found ≠ ∅ → result = found)
    ∧ (found = ∅ →
       match Students.search_downloaded submissions_dir with
       | Some digits =>
           result = {[ digits := Students.StudentDir
                                   Students.downloaded_name
                                   submissions_dir ]}
       | None =>
           result = {[ "0" := Students.StudentDir
                                (Students.basename
                                   (Students.rstrip_slash submissions_dir))
                                submissions_dir ]}
       end)) as Hmain.
  { intros entries found result. subst result.
    unfold Students.list_student_directories. fold found. split.
    - intros Hne. rewrite (bool_decide_eq_false_2 _ Hne). cbn [andb].
      by rewrite (bool_decide_eq_false_2 _ Hne).
    - intros ->. rewrite (bool_decide_eq_true_2 (∅ = ∅)) by done.
      cbn [andb].
      destruct (Students.search_downloaded submissions_dir) as [d|] eqn:Hs.
      + rewrite (StudentsFacts.search_downloaded_contains _ _ Hs).
        rewrite bool_decide_eq_false_2 by apply insert_non_empty.
        by rewrite insert_empty.
      + assert ((if PyStr.contains "student_completed_RNAseq_submissions"
                      submissions_dir
                 then (∅ : gmap string Students.student_dir) else ∅) = ∅)
          as -> by by destruct (PyStr.contains _ _).
        rewrite (bool_decide_eq_true_2 (∅ = ∅)) by done.
        by rewrite insert_empty. }
  split.
  - split; [|by intros ->].
    destruct listing as [entries|]; [|done]. intros Hempty. exfalso.
    destruct (Hmain entries) as [H1 H2]. cbn zeta in H1, H2.
    destruct (decide (Students.name_id_dirs submissions_dir entries = ∅))
      as [He|Hne].
    + specialize (H2 He). rewrite Hempty in H2.
      destruct (Students.search_downloaded submissions_dir);
        symmetry in H2; by apply map_non_empty_singleton in H2.
    + apply Hne. by rewrite <- (H1 Hne).
  - intros entries ->. apply Hmain.
Qed.


(* ===================================================================== *)
(** * Finding the notebook of an activity *)
(* ===================================================================== *)

Module DiscoveryFacts.
Import PyStr Students Discovery PyStrFacts.

(** The first element a filter keeps. *)
Lemma filter_first {A : Type} (P : A → bool) (l : list A) (x : A)
    (rest : list A) :
  List.filter P l = x :: rest →
  ∃ pre post, l = pre ++ x :: post ∧ P x = true
              ∧ Forall (fun y => P y = false) pre
              ∧ rest = List.filter P post.
Proof.
  induction l as [|a l IH]; [done|]. cbn [List.filter].
  destruct (P a) eqn:Ha.
  - intros [= -> <-]. exists [], l. by repeat split.
  - intros H. destruct (IH H) as (pre & post & -> & Hx & Hpre & Hrest).
    exists (a :: pre), post. repeat split; [done| |done].
    by constructor.
Qed.

Lemma filter_skip {A : Type} (P : A → bool) (pre l : list A) :
  Forall (fun y => P y = false) pre →
  List.filter P (pre ++ l) = List.filter P l.
Proof.
  induction 1 as [|a pre Ha _ IH]; [done|].
  cbn [app List.filter]. by rewrite Ha.
Qed.

Lemma filter_elem {A : Type} (P : A → bool) (l : list A) (x : A) :
  x ∈ List.filter P l → x ∈ l ∧ P x = true.
Proof.
  rewrite !list_elem_of_In. apply filter_In.
Qed.

Lemma endswith_nonempty (suffix s : string) :
  nonempty suffix = true → endswith suffix s = true → nonempty s = true.
Proof.
  unfold endswith. destruct s as [|a s]; [|done].
  change (String.rev EmptyString) with EmptyString.
  destruct (String.rev suffix) as [|b r] eqn:Hrev; [|done].
  intros Hne _. destruct suffix as [|c t]; [done|].
  rewrite StudentsFacts.rev_cons in Hrev.
  destruct (String.rev t); by rewrite ?append_nil, ?append_cons in Hrev.
Qed.

Lemma nonempty_append_r (a b : string) :
  nonempty b = true → nonempty (a +:+ b) = true.
Proof.
  destruct a as [|x a]; [by rewrite append_nil|by rewrite append_cons].
Qed.

Lemma path_join_nonempty (a b : string) :
  nonempty b = true → nonempty (path_join a b) = true.
Proof.
  intros Hb. unfold path_join.
  destruct (startswith "/" b); [done|].
  destruct (negb (nonempty a) || endswith "/" a).
  - by apply nonempty_append_r.
  - apply nonempty_append_r. by apply nonempty_append_r.
Qed.

(** What is found is the path of a listed notebook. *)
Lemma find_notebook_Some (activity_dir filename_pattern : string)
    (listing : option (list string)) (p : string) :
  find_notebook_in_activity_dir activity_dir filename_pattern listing
  = Some p →
  ∃ nb, nb ∈ get_notebooks listing ∧ p = path_join activity_dir nb.
Proof.
  unfold find_notebook_in_activity_dir, get_notebooks.
  destruct listing as [files|]; [|done].
  destruct (List.filter is_ipynb files) as [|nb [|nb2 more]] eqn:Hnb; [done| |].
  - intros [= <-]. exists nb. split; [left|done].
  - destruct (List.filter (contains filename_pattern) (nb :: nb2 :: more))
      as [|m rest] eqn:Hm; [done|].
    intros [= <-]. exists m. split; [|done].
    assert (m ∈ List.filter (contains filename_pattern) (nb :: nb2 :: more))
      as Hin by (rewrite Hm; left).
    by apply filter_elem in Hin as [Hin _].
Qed.

Lemma find_notebook_nonempty (activity_dir filename_pattern : string)
    (listing : option (list string)) (p : string) :
  find_notebook_in_activity_dir activity_dir filename_pattern listing
  = Some p →
  nonempty p = true.
Proof.
  intros H. apply find_notebook_Some in H as (nb & Hin & ->).
  apply path_join_nonempty. unfold get_notebooks in Hin.
  destruct listing as [files|]; [|by apply elem_of_nil in Hin].
  apply filter_elem in Hin as [_ Hnb].
  by apply (endswith_nonempty ".ipynb").
Qed.

End DiscoveryFacts.

(** X4.  [find_notebook_in_activity_dir] returns a path exactly when the
    directory can be listed and either holds one notebook, which is taken
    whatever its name, or holds several and one of them contains the
    pattern, the first such in listing order being taken.  The path is
    that of a listed file whose name ends in [.ipynb]. *)
Theorem find_notebook_characterised (activity_dir filename_pattern : string)
    (listing : option (list string)) (p : string) :
  Discovery.find_notebook_in_activity_dir activity_dir filename_pattern
    listing = Some p
  ↔ ∃ files nb,
      listing = Some files ∧ nb ∈ files
      ∧ Students.endswith ".ipynb" nb = true
      ∧ p = Students.path_join activity_dir nb
      ∧ (Discovery.get_notebooks listing = [nb]
         ∨ (2 ≤ length (Discovery.get_notebooks listing)
            ∧ ∃ before after,
                Discovery.get_notebooks listing = before ++ nb :: after
                ∧ PyStr.contains filename_pattern nb = true
                ∧ Forall (fun other =>
                            PyStr.contains filename_pattern other = false)
                         before)).
Proof.
  split.
  - intros H. destruct listing as [files|]; [|done].
    pose proof (DiscoveryFacts.find_notebook_Some _ _ _ _ H)
      as (nb0 & Hin0 & Hp0).
    unfold Discovery.find_notebook_in_activity_dir in H.
    unfold Discovery.get_notebooks in *.
    destruct (List.filter Discovery.is_ipynb files) as [|nb [|nb2 more]]
      eqn:Hnb; [done| |].
    + injection H as <-. exists files, nb.
      assert (nb ∈ List.filter Discovery.is_ipynb files) as Hin
        by (rewrite Hnb; left).
      apply DiscoveryFacts.filter_elem in Hin as [Hin Hext].
      repeat split; try done. by left.
    + destruct (List.filter (PyStr.contains filename_pattern)
                  (nb :: nb2 :: more)) as [|m rest] eqn:Hm; [done|].
      injection H as <-.
      apply DiscoveryFacts.filter_first in Hm
        as (pre & post & Hsplit & Hm & Hpre & _).
      assert (m ∈ List.filter Discovery.is_ipynb files) as Hin.
      { rewrite Hnb, Hsplit. apply elem_of_app. right. left. }
      apply DiscoveryFacts.filter_elem in Hin as [Hin Hext].
      exists files, m. repeat split; try done. right.
      split; [cbn [length]; lia|]. by exists pre, post.
  - intros (files & nb & -> & Hin & Hext & -> & Hcase).
    unfold Discovery.find_notebook_in_activity_dir.
    unfold Discovery.get_notebooks in Hcase.
    destruct Hcase as [->|[Hlen (pre & post & Hsplit & Hm & Hpre)]];
      [done|].
    destruct (List.filter Discovery.is_ipynb files) as [|nb1 [|nb2 more]]
      eqn:Hnb; [cbn in Hlen; lia|cbn in Hlen; lia|].
    rewrite Hsplit, (DiscoveryFacts.filter_skip _ _ _ Hpre).
    cbn [List.filter]. by rewrite Hm.
Qed.


(* ===================================================================== *)
(** * The counters of the graders *)
(* ===================================================================== *)

Lemma ascending_within_mono (lo n n' : nat) (l : list nat) :
  n ≤ n' → ascending_within lo n l → ascending_within lo n' l.
Proof.
  intros Hn. revert lo. induction l as [|i l IH]; intros lo; [done|].
  cbn [ascending_within]. intros (? & ? & ?). repeat split; [done|lia|].
  by apply IH.
Qed.

Lemma ascending_within_snoc (lo n : nat) (l : list nat) :
  lo ≤ n → ascending_within lo n l →
  ascending_within lo (S n) (l ++ [S n]).
Proof.
  revert lo. induction l as [|i l IH]; intros lo Hlo.
  - intros _. cbn. lia.
  - cbn [ascending_within app]. intros (? & ? & ?).
    repeat split; [done|lia|]. by apply IH.
Qed.

Lemma tallied_zero : tallied 0 0 [].
Proof. by split. Qed.

Lemma tallied_complete (c n : nat) (l : list nat) :
  tallied c n l → tallied (S c) (S n) l.
Proof.
  intros [Hsum Hasc]. split; [lia|].
  eapply ascending_within_mono; [|done]. lia.
Qed.

Lemma tallied_missed (c n : nat) (l : list nat) :
  tallied c n l → tallied c (S n) (l ++ [S n]).
Proof.
  intros [Hsum Hasc]. split.
  - rewrite length_app. cbn [length]. lia.
  - apply ascending_within_snoc; [lia|done].
Qed.

Lemma item_Ok {V : Type} (d : gmap string V) (k : string) (v : V) :
  item d k = Ok v → d !! k = Some v.
Proof. unfold item. by destruct (d !! k); intros [= <-]. Qed.

Module AccountingFacts.
Import Enhanced.

Lemma add_up_init_tracking (cfg : expected_config) (k : string) (st : state) :
  counters_add_up st → counters_add_up (init_tracking cfg k st).
Proof.
  intros H. unfold init_tracking. case_match; [|done].
  intros j m. cbn [missed_indices section_completed_code
    section_cell_counts_code section_completed_raw section_cell_counts_raw].
  destruct (decide (k = j)) as [<-|Hne].
  - rewrite !lookup_insert_eq. intros [= <-]. cbn [default fst snd].
    split; apply tallied_zero.
  - rewrite !lookup_insert_ne by done. apply H.
Qed.

Lemma add_up_track_headers (cfg : expected_config) (source : string)
    (st : state) :
  counters_add_up st → counters_add_up (track_headers cfg source st).
Proof.
  intros H. unfold track_headers.
  repeat case_match; repeat apply add_up_init_tracking; done.
Qed.

Lemma add_up_count_code (k : string) (cell : json) (st st' : state) :
  count_code k cell st = Ok st' → counters_add_up st → counters_add_up st'.
Proof.
  unfold count_code. intros H Hadd.
  apply bind_Ok in H as (counts & Hc & H).
  apply increment_Ok in Hc as (n & Hn & -> & _).
  apply bind_Ok in H as ([] & _ & H).
  - apply bind_Ok in H as (completed & Hc & [= <-]).
    apply increment_Ok in Hc as (c & Hcc & -> & _).
    intros j m. cbn [missed_indices section_completed_code
      section_cell_counts_code section_completed_raw section_cell_counts_raw].
    intros Hm. destruct (Hadd j m Hm) as [Hcode Hraw]. split; [|done].
    destruct (decide (k = j)) as [<-|Hne].
    + rewrite !lookup_insert_eq. rewrite Hn, Hcc in Hcode.
      by apply tallied_complete.
    + by rewrite !lookup_insert_ne.
  - apply bind_Ok in H as (m0 & Hm0 & H).
    apply bind_Ok in H as (i & Hi & [= <-]).
    apply item_Ok in Hm0, Hi. rewrite lookup_insert_eq in Hi.
    injection Hi as <-.
    intros j m. cbn [missed_indices section_completed_code
      section_cell_counts_code section_completed_raw section_cell_counts_raw].
    destruct (decide (k = j)) as [<-|Hne].
    + rewrite !lookup_insert_eq. intros [= <-]. cbn [fst snd].
      destruct (Hadd k m0 Hm0) as [Hcode Hraw]. split; [|done].
      rewrite Hn in Hcode. by apply tallied_missed.
    + rewrite !lookup_insert_ne by done. apply Hadd.
Qed.

Lemma add_up_count_raw (k : string) (cell : json) (st st' : state) :
  count_raw k cell st = Ok st' → counters_add_up st → counters_add_up st'.
Proof.
  unfold count_raw. intros H Hadd.
  apply bind_Ok in H as (counts & Hc & H).
  apply increment_Ok in Hc as (n & Hn & -> & _).
  apply bind_Ok in H as ([] & _ & H).
  - apply bind_Ok in H as (completed & Hc & [= <-]).
    apply increment_Ok in Hc as (c & Hcc & -> & _).
    intros j m. cbn [missed_indices section_completed_code
      section_cell_counts_code section_completed_raw section_cell_counts_raw].
    intros Hm. destruct (Hadd j m Hm) as [Hcode Hraw]. split; [done|].
    destruct (decide (k = j)) as [<-|Hne].
    + rewrite !lookup_insert_eq. rewrite Hn, Hcc in Hraw.
      by apply tallied_complete.
    + by rewrite !lookup_insert_ne.
  - apply bind_Ok in H as (m0 & Hm0 & H).
    apply bind_Ok in H as (i & Hi & [= <-]).
    apply item_Ok in Hm0, Hi. rewrite lookup_insert_eq in Hi.
    injection Hi as <-.
    intros j m. cbn [missed_indices section_completed_code
      section_cell_counts_code section_completed_raw section_cell_counts_raw].
    destruct (decide (k = j)) as [<-|Hne].
    + rewrite !lookup_insert_eq. intros [= <-]. cbn [fst snd].
      destruct (Hadd k m0 Hm0) as [Hcode Hraw]. split; [done|].
      rewrite Hn in Hraw. by apply tallied_missed.
    + rewrite !lookup_insert_ne by done. apply Hadd.
Qed.

Lemma add_up_step (cfg : expected_config) (st st' : state) (cell : json) :
  step cfg st cell = Ok st' → counters_add_up st → counters_add_up st'.
Proof.
  unfold step. intros H Hadd.
  apply bind_Ok in H as (ct & _ & H).
  apply bind_Ok in H as (st1 & Hst1 & H).
  assert (counters_add_up st1) as Hadd1.
  { destruct (Py.eq_str ct "markdown"); [|by injection Hst1 as <-].
    apply bind_Ok in Hst1 as (source & _ & [= <-]).
    by apply add_up_track_headers. }
  destruct (active_section st1) as [k|]; [|by injection H as <-].
  destruct (Py.truthy (Some k) && in_rubric cfg k);
    [|by injection H as <-].
  destruct (Py.eq_str ct "code"); [by eapply add_up_count_code|].
  destruct (Py.eq_str ct "raw"); [by eapply add_up_count_raw|].
  by injection H as <-.
Qed.

Lemma add_up_scan (cfg : expected_config) (cells : list json)
    (st st' : state) :
  scan cfg cells st = Ok st' → counters_add_up st → counters_add_up st'.
Proof.
  revert st. induction cells as [|cell cells IH]; intros st H Hadd.
  - by injection H as <-.
  - cbn [scan] in H. apply bind_Ok in H as (st1 & Hstep & H).
    apply (IH _ H). by eapply add_up_step.
Qed.

End AccountingFacts.

(** X5.  When the default grader has walked a document, every tracked key
    has its cells accounted for, code and raw cells apart: the completed
    cells and the missed positions add up to the cells counted, and the
    missed positions are 1-based, strictly ascending and at most the
    count. *)
Theorem default_grader_counters_add_up (notebook : json)
    (cfg : expected_config) (st : Enhanced.state) :
  Enhanced.run notebook cfg = Ok st → counters_add_up st.
Proof.
  unfold Enhanced.run. intros H.
  apply bind_Ok in H as (v & _ & H). apply bind_Ok in H as (cells & _ & H).
  apply (AccountingFacts.add_up_scan _ _ _ _ H).
  intros k m. cbn. by rewrite lookup_empty.
Qed.

Lemma default_grader_counters_add_up_witness :
  ∃ st, Enhanced.run Sample.scenario_notebook Sample.scenario_rubric = Ok st
        ∧ Enhanced.missed_indices st !! "1." = Some ([2], [])
        ∧ counters_add_up st.
Proof.
  eexists. split; [vm_compute; reflexivity|]. split; [reflexivity|].
  apply (default_grader_counters_add_up Sample.scenario_notebook
           Sample.scenario_rubric).
  vm_compute. reflexivity.
Defined.

Module QuestionAccountingFacts.
Import QuestionAnswer.

Lemma qa_add_up_enter_section (k : string) (st : state) :
  questions_add_up st → questions_add_up (enter_section k st).
Proof.
  intros H. unfold enter_section. case_bool_decide; [|done].
  intros j m. cbn [missed_indices section_completed section_cell_counts].
  destruct (decide (k = j)) as [<-|Hne].
  - rewrite !lookup_insert_eq. intros [= <-]. cbn. lia.
  - rewrite lookup_insert_ne by congruence.
    rewrite !lookup_insert_ne by done. apply H.
Qed.

Lemma qa_add_up_count_question (k source : string) (st st' : state) :
  count_question k source st = Ok st' →
  questions_add_up st → questions_add_up st'.
Proof.
  unfold count_question. intros H Hadd.
  apply bind_Ok in H as (counts & Hc & H).
  apply increment_Ok in Hc as (n & Hn & -> & _).
  destruct (PyStr.after_first PyStr.colon source) as [rest|].
  - destruct (PyStr.nonempty (PyStr.strip rest)).
    + apply bind_Ok in H as (completed & Hc & [= <-]).
      apply increment_Ok in Hc as (c & Hcc & -> & _).
      intros j m.
      cbn [missed_indices section_completed section_cell_counts].
      intros Hm. destruct (Hadd j m Hm) as [Hle Hasc].
      destruct (decide (k = j)) as [<-|Hne].
      * rewrite !lookup_insert_eq. rewrite Hn, Hcc in Hle.
        rewrite Hn in Hasc. cbn [default from_option id] in *. split; [lia|].
        eapply ascending_within_mono; [|done]. lia.
      * by rewrite !lookup_insert_ne.
    + apply bind_Ok in H as (m0 & Hm0 & H).
      apply bind_Ok in H as (i & Hi & [= <-]).
      apply item_Ok in Hi. rewrite lookup_insert_eq in Hi.
      injection Hi as <-.
      assert (missed_indices st !! Some k = Some m0) as Hm0'
        by by destruct (missed_indices st !! Some k); simplify_eq.
      intros j m.
      cbn [missed_indices section_completed section_cell_counts].
      destruct (decide (k = j)) as [<-|Hne].
      * rewrite !lookup_insert_eq. intros [= <-].
        destruct (Hadd k m0 Hm0') as [Hle Hasc]. rewrite Hn in Hle, Hasc.
        cbn [default from_option id] in *. rewrite length_app. cbn [length].
        split; [lia|]. apply ascending_within_snoc; [lia|done].
      * rewrite lookup_insert_ne by congruence.
        rewrite lookup_insert_ne by done. apply Hadd.
  - injection H as <-. intros j m.
    cbn [missed_indices section_completed section_cell_counts].
    intros Hm. destruct (Hadd j m Hm) as [Hle Hasc].
    destruct (decide (k = j)) as [<-|Hne].
    + rewrite !lookup_insert_eq. rewrite Hn in Hle, Hasc.
      cbn [default from_option id] in *. split; [lia|].
      eapply ascending_within_mono; [|done]. lia.
    + by rewrite !lookup_insert_ne.
Qed.

Lemma qa_add_up_step (cfg : expected_config) (st st' : state) (cell : json) :
  step cfg st cell = Ok st' → questions_add_up st → questions_add_up st'.
Proof.
  unfold step. intros H Hadd.
  apply bind_Ok in H as (joined & _ & H).
  apply bind_Ok in H as (ct & _ & H). cbn zeta in H.
  set (st1 := if Py.eq_str ct "markdown"
              then track_header (PyStr.strip joined) st else st) in H.
  assert (questions_add_up st1) as Hadd1.
  { subst st1. destruct (Py.eq_str ct "markdown"); [|done].
    unfold track_header. destruct (first_header _); [|done].
    by apply qa_add_up_enter_section. }
  destruct (current_section st1) as [k|]; [|by injection H as <-].
  destruct (Py.truthy (Some k) && in_rubric cfg k);
    [|by injection H as <-].
  destruct (PyStr.startswith "Question" (PyStr.strip joined));
    [|by injection H as <-].
  by eapply qa_add_up_count_question.
Qed.

Lemma qa_add_up_scan (cfg : expected_config) (cells : list json)
    (st st' : state) :
  scan cfg cells st = Ok st' → questions_add_up st → questions_add_up st'.
Proof.
  revert st. induction cells as [|cell cells IH]; intros st H Hadd.
  - by injection H as <-.
  - cbn [scan] in H. apply bind_Ok in H as (st1 & Hstep & H).
    apply (IH _ H). by eapply qa_add_up_step.
Qed.

End QuestionAccountingFacts.

(** X6.  When the question/answer grader has walked a document, under
    every tracked key the answered questions and the missed positions are
    among the questions counted (a question without a colon is counted
    and is neither), and the missed positions are 1-based, strictly
    ascending and at most the count. *)
Theorem question_grader_counters_add_up (notebook : json)
    (cfg : expected_config) (st : QuestionAnswer.state) :
  QuestionAnswer.run notebook cfg = Ok st → questions_add_up st.
Proof.
  unfold QuestionAnswer.run. intros H.
  apply bind_Ok in H as (v & _ & H). apply bind_Ok in H as (cells & _ & H).
  apply (QuestionAccountingFacts.qa_add_up_scan _ _ _ _ H).
  intros k m. cbn. by rewrite lookup_empty.
Qed.

Lemma question_grader_counters_add_up_witness :
  ∃ st, QuestionAnswer.run Sample.question_notebook Sample.question_rubric
        = Ok st
        ∧ QuestionAnswer.section_cell_counts st !! "1." = Some 1
        ∧ QuestionAnswer.section_completed st !! "1." = Some 0
        ∧ QuestionAnswer.missed_indices st !! Some "1." = Some []
        ∧ questions_add_up st.
Proof.
  eexists. split; [vm_compute; reflexivity|].
  do 3 (split; [vm_compute; reflexivity|]).
  apply (question_grader_counters_add_up Sample.question_notebook
           Sample.question_rubric).
  vm_compute. reflexivity.
Defined.

(** The second pass of the markdown-exercise grader keeps the invariant
    of the first. *)
Lemma md_second_pass_Ok (all_cells cells : list json) (idx : nat)
    (st st' : MarkdownExercise.state) :
  MarkdownExercise.second_pass all_cells idx cells st = Ok st' →
  MarkdownExercise.invariant st → MarkdownExercise.invariant st'.
Proof.
  revert idx. induction cells as [|cell cells IH]; intros idx H Hinv.
  - by injection H as <-.
  - cbn [MarkdownExercise.second_pass] in H.
    apply bind_Ok in H as (ct & _ & H).
    destruct (Py.eq_str ct "markdown"); [|by eapply IH].
    apply bind_Ok in H as (source & _ & H).
    destruct (PyStr.contains MarkdownExercise.check_text source);
      [|by eapply IH].
    apply MarkdownExerciseFacts.md_check_exercise_Ok in H
      as [[_ ->]|(prev & ptype & psrc & _ & _ & _ & _ & Hcase)]; [done|].
    destruct Hcase as [(_ & _ & _ & Hg)|[(_ & _ & _ & ->)|[_ ->]]].
    + by apply MarkdownExerciseFacts.md_grant_Ok in Hg as (_ & ? & _).
    + done.
    + by apply MarkdownExerciseFacts.md_clear_missed_invariant.
Qed.

Lemma md_run_Ok (notebook : json) (cfg : expected_config)
    (st : MarkdownExercise.state) :
  MarkdownExercise.run notebook cfg = Ok st → MarkdownExercise.invariant st.
Proof.
  unfold MarkdownExercise.run. intros H.
  apply bind_Ok in H as (v & _ & H). apply bind_Ok in H as (cells & _ & H).
  apply bind_Ok in H as (st1 & H1 & H).
  apply (md_second_pass_Ok _ _ _ _ _ H).
  apply (MarkdownExerciseFacts.md_first_pass_Ok _ _ _ _ H1).
  apply MarkdownExerciseFacts.md_invariant_initial.
Qed.

(** X7.  The markdown-exercise grader never reports a missed position:
    whenever it returns, every list of its [missed_indices] is empty,
    whatever the document holds. *)
Theorem markdown_exercise_reports_no_missed_index (notebook : json)
    (cfg : expected_config) (r : results) :
  grade_markdown_exercise_01 notebook cfg = Ok r →
  ∃ m, res_missed_indices r = MissedFlat m
       ∧ ∀ key l, m !! key = Some l → l = [].
Proof.
  unfold grade_markdown_exercise_01. intros H.
  apply bind_Ok in H as (st & Hrun & [= <-]).
  exists (MarkdownExercise.missed_indices st). split; [done|].
  apply md_run_Ok in Hrun. apply (MarkdownExercise.inv_empty _ Hrun).
Qed.

Lemma markdown_exercise_reports_no_missed_index_witness :
  ∃ r m, grade_markdown_exercise_01
           (Sample.notebook_of [Sample.markdown_cell "# 1. Markdown";
                                Sample.idle_code_cell "print(1)"])
           Sample.exercise_rubric = Ok r
         ∧ res_missed_indices r = MissedFlat m
         ∧ m !! Some "1." = Some []
         ∧ ∀ key l, m !! key = Some l → l = [].
Proof.
  destruct (grade_markdown_exercise_01
              (Sample.notebook_of [Sample.markdown_cell "# 1. Markdown";
                                   Sample.idle_code_cell "print(1)"])
              Sample.exercise_rubric) as [r|e] eqn:Hr;
    [|vm_compute in Hr; discriminate].
  destruct (markdown_exercise_reports_no_missed_index _ _ _ Hr)
    as (m & Hm & Hempty).
  exists r, m. repeat split; [done| |done].
  vm_compute in Hr. injection Hr as <-. injection Hm as <-. reflexivity.
Defined.


(* ===================================================================== *)
(** * What a grading reports *)
(* ===================================================================== *)

(** The "Calculate points" loop of the two specialised graders. *)
Lemma fold_score_plain_spec (sc : gmap string nat)
    (l : list (string * expected)) (acc : gmap string section_score * nat) :
  let r := fold_left (score_plain sc) l acc in
  (∀ k, k ∉ l.*1 → r.1 !! k = acc.1 !! k)
  ∧ (NoDup l.*1 → ∀ k e, (k, e) ∈ l →
       r.1 !! k = Some (PlainScore (default 0 (sc !! k) `min` points_of e)))
  ∧ r.2 = acc.2
          + sum_list ((fun x => default 0 (sc !! x.1) `min` points_of x.2)
                        <$> l)
  ∧ dom r.1 = dom acc.1 ∪ list_to_set l.*1.
Proof.
  revert acc. induction l as [|[k0 e0] l IH]; intros acc; cbn [fold_left].
  - repeat split; [|simpl; lia|set_solver].
    intros _ k e H. by apply elem_of_nil in H.
  - destruct (IH (score_plain sc acc (k0, e0))) as (IH1 & IH2 & IH3 & IH4).
    set (r := fold_left (score_plain sc) l (score_plain sc acc (k0, e0)))
      in *.
    repeat split.
    + intros k Hk. rewrite fmap_cons, not_elem_of_cons in Hk.
      destruct Hk as [Hne Hk]. rewrite IH1 by done.
      unfold score_plain; cbn [fst snd]. by rewrite lookup_insert_ne.
    + intros Hnd k e Hin. rewrite fmap_cons in Hnd.
      apply NoDup_cons in Hnd as [Hk0 Hnd].
      apply elem_of_cons in Hin as [[= -> ->]|Hin].
      * rewrite IH1 by done. unfold score_plain; cbn [fst snd].
        by rewrite lookup_insert_eq.
      * by apply IH2.
    + rewrite IH3, fmap_cons, sum_list_cons.
      unfold score_plain; cbn [fst snd]. lia.
    + rewrite IH4. unfold score_plain; cbn [fst snd].
      rewrite dom_insert_L, fmap_cons. cbn [fst list_to_set]. set_solver.
Qed.

(** With no points to earn every entry is scored zero. *)
Lemma fold_score_plain_zero (sc : gmap string nat)
    (l : list (string * expected)) (acc : gmap string section_score * nat) :
  Forall (fun entry => points_of entry.2 = 0) l →
  (∀ k s, acc.1 !! k = Some s → s = PlainScore 0) →
  let r := fold_left (score_plain sc) l acc in
  r.2 = acc.2 ∧ ∀ k s, r.1 !! k = Some s → s = PlainScore 0.
Proof.
  intros Hl. revert acc.
  induction Hl as [|[k0 e0] l H0 _ IH]; intros acc Hacc; cbn [fold_left].
  - done.
  - cbn [snd] in H0.
    destruct (IH (score_plain sc acc (k0, e0))) as [IH1 IH2].
    + unfold score_plain; cbn [fst snd]. intros k s.
      rewrite H0, Nat.min_0_r.
      destruct (decide (k0 = k)) as [<-|Hne].
      * rewrite lookup_insert_eq. by intros [= <-].
      * rewrite lookup_insert_ne by done. apply Hacc.
    + split; [|done]. rewrite IH1. unfold score_plain; cbn [fst snd].
      rewrite H0, Nat.min_0_r. lia.
Qed.

Lemma fold_score_dom (l : list (string * expected)) (t : Enhanced.tally) :
  dom (Enhanced.scored (fold_left Enhanced.score_section l t))
  = dom (Enhanced.scored t) ∪ list_to_set l.*1.
Proof.
  revert t. induction l as [|[k e] l IH]; intros t; cbn [fold_left].
  - set_solver.
  - rewrite IH, fmap_cons. cbn [fst list_to_set].
    assert (dom (Enhanced.scored (Enhanced.score_section t (k, e)))
            = {[k]} ∪ dom (Enhanced.scored t)) as ->; [|set_solver].
    unfold Enhanced.score_section; cbn [fst snd].
    destruct e as [[[c|] ro p s]|p]; cbn [Enhanced.scored];
      by rewrite dom_insert_L.
Qed.

Lemma earned_of_bounded (cc cr : gmap string nat) (k : string)
    (e : expected) :
  section_total (Enhanced.score_of cc cr k e) ≤ Enhanced.expected_total_of e.
Proof.
  unfold Enhanced.score_of, Enhanced.expected_total_of.
  destruct e as [[[c|] ro p s]|p]; cbn [section_total]; lia.
Qed.

(** What each of the three graders reports when it returns. *)
Lemma grader_result_shape (v : variant) (notebook : json)
    (cfg : expected_config) (r : results) :
  grader_of v notebook cfg = Ok r →
  res_issues r = None
  ∧ dom (res_sections r) = list_to_set (sections cfg).*1
  ∧ (NoDup (sections cfg).*1 →
     ∃ f : string → expected → section_score,
       (∀ k e, (k, e) ∈ sections cfg → res_sections r !! k = Some (f k e))
       ∧ res_total_points r
         = sum_list ((fun x => section_total (f x.1 x.2)) <$> sections cfg)
       ∧ (∀ k e, v = DefaultVariant
                 ∨ points_of e ≤ Enhanced.expected_total_of e →
                 section_total (f k e) ≤ Enhanced.expected_total_of e)).
Proof.
  assert (∀ sc : gmap string nat,
    let folded := fold_left (score_plain sc) (sections cfg) (∅, 0) in
    dom folded.1 = list_to_set (sections cfg).*1
    ∧ (NoDup (sections cfg).*1 →
       ∃ f : string → expected → section_score,
         (∀ k e, (k, e) ∈ sections cfg → folded.1 !! k = Some (f k e))
         ∧ folded.2
           = sum_list ((fun x => section_total (f x.1 x.2)) <$> sections cfg)
         ∧ (∀ k e, points_of e ≤ Enhanced.expected_total_of e →
                   section_total (f k e) ≤ Enhanced.expected_total_of e)))
    as Hplain.
  { intros sc folded.
    destruct (fold_score_plain_spec sc (sections cfg) (∅, 0))
      as (_ & Hsc & Htot & Hdom).
    fold folded in Hsc, Htot, Hdom. split.
    - rewrite Hdom. cbn [fst]. set_solver.
    - intros Hnd.
      exists (fun k e => PlainScore (default 0 (sc !! k) `min` points_of e)).
      split; [by apply Hsc|]. split; [by rewrite Htot|].
      intros k e He. cbn [section_total]. lia. }
  destruct v; cbn [grader_of].
  - unfold grade_notebook_enhanced. intros H.
    apply bind_Ok in H as (st & Hrun & [= <-]).
    cbn [Enhanced.report res_issues res_sections res_total_points].
    unfold Enhanced.calculate_points.
    split; [done|]. split.
    + rewrite fold_score_dom. cbn [Enhanced.scored]. set_solver.
    + intros Hnd.
      destruct (EnhancedFacts.enhanced_run_Ok cfg notebook st Hrun)
        as [Hinv _].
      apply EnhancedFacts.enhanced_invariant_raw_follows_code in Hinv.
      destruct (ScoringFacts.fold_score_spec (sections cfg)
                  (Enhanced.Tally (Enhanced.section_completed_code st)
                     (Enhanced.section_completed_raw st) ∅ 0 0) Hinv)
        as (_ & Hscored & Htot & _).
      cbn [Enhanced.completed_code Enhanced.completed_raw
           Enhanced.total_points] in Hscored, Htot.
      exists (Enhanced.score_of (Enhanced.section_completed_code st)
                (Enhanced.section_completed_raw st)).
      split; [by apply Hscored|]. split; [by rewrite Htot|].
      intros k e _. apply earned_of_bounded.
  - unfold grade_markdown_exercise_01. intros H.
    apply bind_Ok in H as (st & _ & [= <-]).
    cbn [MarkdownExercise.report res_issues res_sections res_total_points].
    destruct (Hplain (MarkdownExercise.section_completed st)) as [Hdom Hf].
    split; [done|]. split; [done|]. intros Hnd.
    destruct (Hf Hnd) as (f & H1 & H2 & H3). exists f.
    split; [done|]. split; [done|]. intros k e [[=]|He]. by apply H3.
  - unfold grade_question_answer. intros H.
    apply bind_Ok in H as (st & _ & [= <-]).
    cbn [QuestionAnswer.report res_issues res_sections res_total_points].
    destruct (Hplain (QuestionAnswer.section_completed st)) as [Hdom Hf].
    split; [done|]. split; [done|]. intros Hnd.
    destruct (Hf Hnd) as (f & H1 & H2 & H3). exists f.
    split; [done|]. split; [done|]. intros k e [[=]|He]. by apply H3.
Qed.

(** The loop over the tagged descriptors ends with the grader of the
    first known tag. *)
Lemma special_dispatch_governing (notebook : json) (cfg : expected_config)
    (entries : list (string * expected)) :
  (let* special_result := special_dispatch notebook cfg entries in
   match special_result with
   | Some r => Ok r
   | None => grade_notebook_enhanced notebook cfg
   end)
  = grader_of (governing entries) notebook cfg.
Proof.
  induction entries as [|entry entries IH]; [done|].
  cbn [special_dispatch governing].
  destruct (special_tag entry.2) as [tag|]; [|done].
  case_bool_decide as Hm.
  - cbn [grader_of].
    destruct (grade_markdown_exercise_01 notebook cfg) as [g|e] eqn:Hg;
      [|done].
    cbn [bind]. unfold grade_markdown_exercise_01 in Hg.
    apply bind_Ok in Hg as (st & _ & [= <-]). done.
  - case_bool_decide as Hq; [|done]. cbn [grader_of].
    by destruct (grade_question_answer notebook cfg).
Qed.

Lemma governing_untagged (entries : list (string * expected)) :
  existsb (fun entry => bool_decide (is_Some (special_tag entry.2))) entries
  = false →
  governing entries = DefaultVariant.
Proof.
  induction entries as [|entry entries IH]; [done|].
  cbn [existsb governing]. intros [H1 H2]%orb_false_elim.
  destruct (special_tag entry.2) as [tag|]; [|by apply IH].
  apply bool_decide_eq_false_1 in H1. by destruct H1.
Qed.

Lemma grade_loaded_governing (notebook : json) (cfg : expected_config) :
  grade_loaded notebook cfg
  = grader_of (governing (sections cfg)) notebook cfg.
Proof.
  unfold grade_loaded.
  destruct (existsb _ (sections cfg)) eqn:Hany.
  - apply special_dispatch_governing.
  - by rewrite (governing_untagged _ Hany).
Qed.

(** The two ways [grade_notebook] ends. *)
Lemma grade_notebook_cases (loaded : res json) (cfg : expected_config) :
  (∃ notebook,
     loaded = Ok notebook
     ∧ grader_of (governing (sections cfg)) notebook cfg
       = Ok (grade_notebook loaded cfg))
  ∨ (∃ e, grade_notebook loaded cfg = error_result e).
Proof.
  unfold grade_notebook. destruct loaded as [notebook|e]; cbn [bind].
  - rewrite grade_loaded_governing.
    destruct (grader_of _ notebook cfg) as [r|e] eqn:Hr.
    + left. by exists notebook.
    + right. by exists e.
  - right. by exists e.
Qed.

(** X8.  [grade_notebook] runs one grader: the specialised grader named by
    the first section descriptor whose [special] tag is one of the two
    known values, and the default grader when there is none; a descriptor
    with any other tag is passed over.  What that grader raises, and what
    reading the file raises, becomes the error result. *)
Theorem grade_notebook_follows_governing (loaded : res json)
    (cfg : expected_config) :
  grade_notebook loaded cfg
  = match loaded with
    | Ok notebook =>
        match grader_of (governing (sections cfg)) notebook cfg with
        | Ok r => r
        | Raise e => error_result e
        end
    | Raise e => error_result e
    end.
Proof.
  unfold grade_notebook. destruct loaded as [notebook|e]; cbn [bind]; [|done].
  by rewrite grade_loaded_governing.
Qed.

(** X9.  A grading that does not fail reports a score for every key of the
    rubric and for nothing else, whether or not the document has the
    section; a grading that fails reports no section at all. *)
Theorem result_sections_are_rubric_keys (loaded : res json)
    (cfg : expected_config) :
  let r := grade_notebook loaded cfg in
  (res_issues r = None
   ∧ ∀ k, is_Some (res_sections r !! k) ↔ in_rubric cfg k = true)
  ∨ (∃ e, r = error_result e ∧ res_sections r = ∅).
Proof.
  cbn zeta.
  destruct (grade_notebook_cases loaded cfg) as [(nb & _ & H)|[e He]].
  - left. apply grader_result_shape in H as (Hnone & Hdom & _).
    split; [done|]. intros k. rewrite <- elem_of_dom, Hdom.
    unfold in_rubric. rewrite bool_decide_eq_true. apply elem_of_list_to_set.
  - right. exists e. by rewrite He.
Qed.

(** X10.  With the keys of the rubric distinct, as the keys of a dict are,
    the [total_points] of a grading is the sum of the totals it reports
    for the keys of the rubric; for a failed grading both are zero. *)
Theorem total_points_is_sum_of_sections (loaded : res json)
    (cfg : expected_config) :
  NoDup (sections cfg).*1 →
  res_total_points (grade_notebook loaded cfg)
  = sum_list ((fun k => from_option section_total 0
                          (res_sections (grade_notebook loaded cfg) !! k))
                <$> (sections cfg).*1).
Proof.
  intros Hnd.
  destruct (grade_notebook_cases loaded cfg) as [(nb & _ & H)|[e ->]].
  - apply grader_result_shape in H as (_ & _ & Hf).
    destruct (Hf Hnd) as (f & Hsec & -> & _).
    rewrite <- list_fmap_compose. f_equal.
    apply list_fmap_ext. intros i [k e] Hin. cbn [compose fst snd].
    rewrite (Hsec k e); [done|]. by eapply list_elem_of_lookup_2.
  - cbn [error_result res_total_points res_sections]. clear Hnd.
    induction (sections cfg).*1 as [|k l IH]; [done|].
    rewrite fmap_cons, sum_list_cons, lookup_empty. cbn.
    apply IH.
Qed.

Lemma total_points_is_sum_of_sections_witness :
  res_total_points
    (grade_notebook (Ok Sample.analysis_notebook) Sample.analysis_rubric)
  = sum_list ((fun k => from_option section_total 0
                 (res_sections
                    (grade_notebook (Ok Sample.analysis_notebook)
                       Sample.analysis_rubric) !! k))
              <$> ["1."; "1c."; "2."]).
Proof.
  apply (total_points_is_sum_of_sections (Ok Sample.analysis_notebook)
           Sample.analysis_rubric).
  solve_NoDup.
Defined.

(** X11.  The two specialised graders score against the [points] entry of
    a descriptor alone: when a rubric that selects one of them gives its
    sections as [code_cells] and [raw_cells] without [points], every
    section is scored zero and so is the total, whatever the document. *)
Theorem special_grader_scores_points_only (loaded : res json)
    (cfg : expected_config) :
  governing (sections cfg) ≠ DefaultVariant →
  Forall (fun entry => points_of entry.2 = 0) (sections cfg) →
  res_total_points (grade_notebook loaded cfg) = 0
  ∧ ∀ k s, res_sections (grade_notebook loaded cfg) !! k = Some s →
           s = PlainScore 0.
Proof.
  intros Hv Hpts.
  destruct (grade_notebook_cases loaded cfg) as [(nb & _ & H)|[e ->]].
  - destruct (governing (sections cfg)); [done| |]; cbn [grader_of] in H.
    + unfold grade_markdown_exercise_01 in H.
      apply bind_Ok in H as (st & _ & H). injection H as H. rewrite <- H.
      cbn [MarkdownExercise.report res_sections res_total_points].
      apply fold_score_plain_zero; [done|].
      intros k s. cbn [fst]. by rewrite lookup_empty.
    + unfold grade_question_answer in H.
      apply bind_Ok in H as (st & _ & H). injection H as H. rewrite <- H.
      cbn [QuestionAnswer.report res_sections res_total_points].
      apply fold_score_plain_zero; [done|].
      intros k s. cbn [fst]. by rewrite lookup_empty.
  - cbn [error_result res_total_points res_sections]. split; [done|].
    intros k s. by rewrite lookup_empty.
Qed.

Lemma special_grader_scores_points_only_witness :
  let rubric :=
    ExpectedConfig None
      [("1.", ExpDict (SectionDict (Some 2) (Some 1) None
                         (Some "question_answer")))] in
  let notebook :=
    Sample.notebook_of [Sample.markdown_cell "# 1. Questions";
                        Sample.raw_cell "Question 1: yes"] in
  res_total_points (grade_notebook (Ok notebook) rubric) = 0
  ∧ ∀ k s,
      res_sections (grade_notebook (Ok notebook) rubric) !! k = Some s →
      s = PlainScore 0.
Proof.
  intros rubric notebook.
  apply (special_grader_scores_points_only (Ok notebook) rubric).
  - vm_compute. discriminate.
  - repeat constructor.
Defined.


(* ===================================================================== *)
(** * The caller: score and denominator of an activity *)
(* ===================================================================== *)

Lemma assoc_Some_elem {A : Type} (k : string) (l : list (string * A))
    (v : A) :
  Py.assoc k l = Some v → (k, v) ∈ l.
Proof.
  induction l as [|[k' v'] l IH]; [done|]. cbn [Py.assoc].
  destruct (decide (k' = k)) as [->|Hne].
  - intros [= ->]. left.
  - intros H. right. by apply IH.
Qed.

Lemma assoc_None {A : Type} (k : string) (l : list (string * A)) :
  Py.assoc k l = None ↔ k ∉ l.*1.
Proof.
  induction l as [|[k' v'] l IH].
  { split; [intros _; rewrite fmap_nil; apply not_elem_of_nil|done]. }
  cbn [Py.assoc]. rewrite fmap_cons, not_elem_of_cons. cbn [fst].
  destruct (decide (k' = k)) as [->|Hne]; [naive_solver|].
  rewrite IH. naive_solver.
Qed.

Lemma assoc_NoDup {A : Type} (k : string) (l : list (string * A)) (v : A) :
  NoDup l.*1 → (k, v) ∈ l → Py.assoc k l = Some v.
Proof.
  induction l as [|[k' v'] l IH]; intros Hnd Hin;
    [by apply elem_of_nil in Hin|].
  rewrite fmap_cons in Hnd. apply NoDup_cons in Hnd as [Hk' Hnd].
  cbn [Py.assoc]. apply elem_of_cons in Hin as [[= -> ->]|Hin].
  - by rewrite decide_True.
  - rewrite decide_False; [by apply IH|].
    intros ->. apply Hk'. apply list_elem_of_fmap. by exists (k, v).
Qed.

Module CallerFacts.
Import Caller.

Lemma expected_points_Ok (e : expected) (n : nat) :
  expected_points e = Ok n → n = Enhanced.expected_total_of e.
Proof.
  unfold expected_points, Enhanced.expected_total_of, points_of.
  destruct e as [[[c|] ro [p|] s]|p]; cbn [points default];
    by intros [= <-].
Qed.

Lemma expected_points_Raise (e : expected) (x : exn) :
  expected_points e = Raise x
  ↔ x = TypeError
    ∧ ∃ d, e = ExpDict d ∧ code_cells d = None ∧ points d = None.
Proof.
  unfold expected_points. destruct e as [[[c|] ro [p|] s]|p];
    cbn [code_cells points]; split; try done;
    try (by intros (_ & d & [= <-] & ? & ?));
    try (by intros (_ & d & ? & ? & ?)).
  - intros [= <-]. split; [done|]. by eexists.
  - by intros [-> _].
Qed.

(** The two sums of the loop over the sections that count. *)
Lemma count_sections_Ok (cfg : expected_config)
    (secs : gmap string section_score) (ids : list string)
    (acc r : nat * nat) :
  count_sections cfg secs ids acc = Ok r →
  r.1 = acc.1
        + sum_list ((fun k => match Py.assoc k (sections cfg) with
                              | Some _ =>
                                  from_option section_total 0 (secs !! k)
                              | None => 0
                              end) <$> ids)
  ∧ r.2 = acc.2
          + sum_list ((fun k => from_option Enhanced.expected_total_of 0
                                  (Py.assoc k (sections cfg))) <$> ids).
Proof.
  revert acc. induction ids as [|k ids IH]; intros acc.
  - intros [= <-]. simpl. lia.
  - cbn [count_sections]. intros H. apply bind_Ok in H as (acc' & Hk & H).
    destruct (IH _ H) as [-> ->]. rewrite !fmap_cons, !sum_list_cons.
    unfold count_section in Hk.
    destruct (Py.assoc k (sections cfg)) as [e|]; cbn [from_option].
    + apply bind_Ok in Hk as (n & Hn & [= <-]).
      apply expected_points_Ok in Hn as ->. cbn [fst snd].
      destruct (secs !! k); cbn [from_option]; lia.
    + injection Hk as <-. lia.
Qed.

(** Whether the loop fails, and the denominator it gives, depend on the
    rubric alone. *)
Lemma count_sections_expected (cfg : expected_config)
    (secs secs' : gmap string section_score) (ids : list string)
    (acc acc' : nat * nat) :
  acc.2 = acc'.2 →
  match count_sections cfg secs ids acc,
        count_sections cfg secs' ids acc' with
  | Ok r, Ok r' => r.2 = r'.2
  | Raise e, Raise e' => e = e'
  | _, _ => False
  end.
Proof.
  revert acc acc'. induction ids as [|k ids IH]; intros acc acc' Hacc;
    [done|].
  cbn [count_sections]. unfold count_section.
  destruct (Py.assoc k (sections cfg)) as [e|].
  - destruct (expected_points e) as [n|x]; cbn [bind]; [|done].
    apply IH. cbn [snd]. by rewrite Hacc.
  - cbn [bind]. by apply IH.
Qed.

Lemma count_sections_Raise (cfg : expected_config)
    (secs : gmap string section_score) (ids : list string)
    (acc : nat * nat) (x : exn) :
  count_sections cfg secs ids acc = Raise x
  ↔ x = TypeError
    ∧ ∃ k d, k ∈ ids ∧ Py.assoc k (sections cfg) = Some (ExpDict d)
             ∧ code_cells d = None ∧ points d = None.
Proof.
  revert acc. induction ids as [|k ids IH]; intros acc.
  - split; [done|]. intros (_ & k & d & Hk & _). by apply elem_of_nil in Hk.
  - cbn [count_sections]. unfold count_section.
    destruct (Py.assoc k (sections cfg)) as [e|] eqn:Hk.
    + destruct (expected_points e) as [n|y] eqn:He; cbn [bind].
      * rewrite IH. split.
        -- intros (-> & j & d & Hj & ?). split; [done|].
           exists j, d. split; [by right|done].
        -- intros (-> & j & d & Hj & Hd & Hc & Hp). split; [done|].
           apply elem_of_cons in Hj as [->|Hj]; [|by exists j, d].
           rewrite Hk in Hd. injection Hd as ->.
           assert (expected_points (ExpDict d) = Raise TypeError) as Hr
             by (apply expected_points_Raise; eauto).
           by rewrite He in Hr.
      * apply expected_points_Raise in He as (-> & d & -> & Hc & Hp).
        split.
        -- intros [= <-]. split; [done|]. exists k, d.
           split; [left|done].
        -- by intros [-> _].
    + cbn [bind]. rewrite IH. split.
      * intros (-> & j & d & Hj & ?). split; [done|].
        exists j, d. split; [by right|done].
      * intros (-> & j & d & Hj & Hd & Hc & Hp). split; [done|].
        apply elem_of_cons in Hj as [->|Hj]; [|by exists j, d].
        by rewrite Hk in Hd.
Qed.

Lemma expected_of_all_Ok (entries : list (string * expected))
    (acc n : nat) :
  expected_of_all entries acc = Ok n →
  n = acc + sum_list (Enhanced.expected_total_of <$> entries.*2).
Proof.
  revert acc. induction entries as [|[k e] l IH]; intros acc.
  - intros [= <-]. simpl. lia.
  - cbn [expected_of_all snd]. intros H.
    apply bind_Ok in H as (x & Hx & H). apply expected_points_Ok in Hx as ->.
    rewrite (IH _ H), !fmap_cons, sum_list_cons. cbn [snd]. lia.
Qed.

(** What the override leaves alone. *)
Lemma section2_fix_other (a : string) (secs : gmap string section_score)
    (k : string) :
  a ≠ activity_3 ∨ k ≠ "2." → section2_fix a secs !! k = secs !! k.
Proof.
  unfold section2_fix. case_bool_decide as Ha; [|done].
  intros [?|Hk]; [done|].
  destruct (secs !! "2.") as [[]|]; by rewrite ?lookup_insert_ne.
Qed.

Lemma section2_fix_absent (a : string) (secs : gmap string section_score) :
  secs !! "2." = None → section2_fix a secs = secs.
Proof.
  unfold section2_fix. intros ->. by case_bool_decide.
Qed.

Lemma section2_fix_dom (a : string) (secs : gmap string section_score) :
  dom (section2_fix a secs) = dom secs.
Proof.
  unfold section2_fix. case_bool_decide; [|done].
  destruct (secs !! "2.") as [[]|] eqn:Hs; [| |done];
    rewrite dom_insert_L; apply elem_of_dom_2 in Hs; set_solver.
Qed.

Lemma section2_fix_present (secs : gmap string section_score)
    (s : section_score) :
  secs !! "2." = Some s →
  ∃ code ec er et,
    section2_fix activity_3 secs !! "2." = Some (SplitScore code 2 2 ec er et).
Proof.
  unfold section2_fix. rewrite bool_decide_eq_true_2 by done. intros ->.
  destruct s; rewrite lookup_insert_eq; by eexists _, _, _, _.
Qed.

Lemma assoc_cons {A : Type} (k k0 : string) (v0 : A)
    (l : list (string * A)) :
  Py.assoc k ((k0, v0) :: l)
  = if decide (k0 = k) then Some v0 else Py.assoc k l.
Proof. reflexivity. Qed.

Lemma filter_other_keys (k0 : string) (ids : list string) :
  k0 ∉ ids →
  List.filter (fun k => negb (bool_decide (k0 = k))) ids = ids.
Proof.
  induction ids as [|j ids IH]; [done|].
  intros [Hj Hk]%not_elem_of_cons. cbn [List.filter].
  rewrite bool_decide_eq_false_2 by done. cbn [negb]. by rewrite IH.
Qed.

Lemma sum_other_keys {A : Type} (weight : A → nat) (k0 : string) (v0 : A)
    (l : list (string * A)) (ids : list string) :
  k0 ∉ ids →
  sum_list ((fun k => from_option weight 0 (Py.assoc k ((k0, v0) :: l)))
              <$> ids)
  = sum_list ((fun k => from_option weight 0 (Py.assoc k l)) <$> ids).
Proof.
  intros Hk. f_equal. apply list_fmap_ext. intros i j Hj.
  rewrite assoc_cons, decide_False; [done|].
  intros ->. apply Hk. by eapply list_elem_of_lookup_2.
Qed.

Lemma sum_split_key {A : Type} (weight : A → nat) (k0 : string) (v0 : A)
    (l : list (string * A)) (ids : list string) :
  NoDup ids →
  sum_list ((fun k => from_option weight 0 (Py.assoc k ((k0, v0) :: l)))
              <$> ids)
  ≤ weight v0
    + sum_list ((fun k => from_option weight 0 (Py.assoc k l))
                  <$> List.filter (fun k => negb (bool_decide (k0 = k))) ids).
Proof.
  induction ids as [|k ids IH]; [simpl; lia|].
  intros [Hk Hnd]%NoDup_cons. specialize (IH Hnd).
  rewrite fmap_cons, sum_list_cons, assoc_cons. cbn [List.filter].
  destruct (decide (k0 = k)) as [->|Hne].
  - rewrite bool_decide_eq_true_2 by done. cbn [negb from_option].
    rewrite (filter_other_keys k ids Hk), (sum_other_keys _ _ _ _ _ Hk). lia.
  - rewrite bool_decide_eq_false_2 by done. cbn [negb].
    rewrite fmap_cons, sum_list_cons. lia.
Qed.

(** Sections taken from a list without repeats weigh at most what all
    the sections weigh. *)
Lemma sum_selected_le {A : Type} (weight : A → nat)
    (l : list (string * A)) (ids : list string) :
  NoDup ids →
  sum_list ((fun k => from_option weight 0 (Py.assoc k l)) <$> ids)
  ≤ sum_list (weight <$> l.*2).
Proof.
  revert ids. induction l as [|[k0 v0] l IH]; intros ids Hnd.
  - clear Hnd. induction ids as [|k ids IHids]; [done|].
    rewrite fmap_cons, sum_list_cons. cbn [Py.assoc from_option] in *. lia.
  - rewrite !fmap_cons, sum_list_cons. cbn [snd].
    etransitivity; [by apply sum_split_key|].
    apply Nat.add_le_mono_l. apply IH.
    apply NoDup_ListNoDup, List.NoDup_filter, NoDup_ListNoDup. done.
Qed.

Lemma sum_over_keys {A : Type} (weight : A → nat) (l : list (string * A)) :
  NoDup l.*1 →
  sum_list ((fun k => from_option weight 0 (Py.assoc k l)) <$> l.*1)
  = sum_list (weight <$> l.*2).
Proof.
  intros Hnd. rewrite <- !list_fmap_compose. f_equal.
  apply list_fmap_ext. intros i [k v] Hin. cbn [compose fst snd].
  rewrite (assoc_NoDup k l v Hnd); [done|].
  by eapply list_elem_of_lookup_2.
Qed.

(** The score the loop adds up is at most the denominator it adds up. *)
Lemma count_sections_bounded (a : string) (cfg : expected_config)
    (loaded : res json) (totals : nat * nat) :
  NoDup (sections cfg).*1 →
  (∀ k e, (k, e) ∈ sections cfg →
          points_of e ≤ Enhanced.expected_total_of e) →
  (a = activity_3 →
   ∀ e, ("2.", e) ∈ sections cfg → 2 ≤ Enhanced.expected_total_of e) →
  count_sections cfg
    (section2_fix a (res_sections (grade_notebook loaded cfg)))
    (filtered_sections a cfg) (0, 0) = Ok totals →
  totals.1 ≤ totals.2.
Proof.
  intros Hnd Hpts Htwo Ht.
  apply count_sections_Ok in Ht as [-> ->]. cbn [fst snd].
  rewrite !Nat.add_0_l.
  assert (∀ k e, (k, e) ∈ sections cfg →
            from_option section_total 0
              (res_sections (grade_notebook loaded cfg) !! k)
            ≤ Enhanced.expected_total_of e) as Hgraded.
  { intros k e Hin.
    destruct (grade_notebook_cases loaded cfg) as [(nb & _ & Hg)|[x ->]].
    - apply grader_result_shape in Hg as (_ & _ & Hf).
      destruct (Hf Hnd) as (f & Hsec & _ & Hle).
      rewrite (Hsec k e Hin). cbn [from_option]. apply Hle. right.
      by apply (Hpts k).
    - cbn [error_result res_sections]. rewrite lookup_empty. cbn. lia. }
  induction (filtered_sections a cfg) as [|k ids IH]; [done|].
  rewrite !fmap_cons, !sum_list_cons.
  apply Nat.add_le_mono; [|apply IH].
  destruct (Py.assoc k (sections cfg)) as [e|] eqn:Hk; [|done].
  cbn [from_option]. apply assoc_Some_elem in Hk.
  destruct (decide (a = activity_3 ∧ k = "2.")) as [[-> ->]|Hother].
  - destruct (res_sections (grade_notebook loaded cfg) !! "2.") as [s|]
      eqn:Hs.
    + destruct (section2_fix_present _ s Hs)
        as (code & ec & er & et & ->).
      cbn [from_option section_total]. by apply Htwo.
    + rewrite section2_fix_absent by done. rewrite Hs. cbn. lia.
  - rewrite section2_fix_other; [by apply Hgraded|].
    destruct (decide (a = activity_3)); [right|left]; naive_solver.
Qed.

End CallerFacts.

(** X12.  The denominator of a graded activity depends on the rubric and
    on the activity alone: whatever the notebook holds, and whether or
    not it could be read, the caller computes the same expected points
    (and fails for one submission exactly when it fails for every
    other). *)
Theorem activity_denominator_ignores_submission (a : string)
    (cfg : expected_config) (loaded loaded' : res json)
    (act : Caller.activity) :
  Caller.graded_activity a cfg loaded = Ok act →
  ∃ act', Caller.graded_activity a cfg loaded' = Ok act'
          ∧ Caller.expected_score act' = Caller.expected_score act.
Proof.
  unfold Caller.graded_activity. intros H.
  apply bind_Ok in H as (totals & Ht & [= <-]).
  pose proof (CallerFacts.count_sections_expected cfg
                (Caller.section2_fix a
                   (res_sections (grade_notebook loaded' cfg)))
                (Caller.section2_fix a
                   (res_sections (grade_notebook loaded cfg)))
                (Caller.filtered_sections a cfg) (0, 0) (0, 0) eq_refl)
    as Hsame.
  rewrite Ht in Hsame.
  destruct (Caller.count_sections cfg
              (Caller.section2_fix a
                 (res_sections (grade_notebook loaded' cfg))) _ (0, 0))
    as [totals'|e]; [|done].
  cbn [bind]. eexists. split; [done|]. done.
Qed.

Lemma activity_denominator_ignores_submission_witness :
  ∃ act', Caller.graded_activity "HANDS-ON_ACTIVITY_9" Sample.scenario_rubric
            (Raise LoadError) = Ok act'
          ∧ Caller.expected_score act' = 3.
Proof.
  apply (activity_denominator_ignores_submission "HANDS-ON_ACTIVITY_9"
           Sample.scenario_rubric (Ok Sample.scenario_notebook)
           (Raise LoadError)
           (Caller.Activity 2 3
              (Some {[ "1." := SplitScore 1 1 2 2 1 3 ]}))).
  vm_compute. reflexivity.
Defined.

(** X13.  Unlike the graders, whose failures [grade_notebook] turns into
    an error result, the caller can fail: adding up the expected points
    raises [TypeError] exactly when a section that counts for the
    activity has a descriptor that is a dict with neither [code_cells]
    nor [points].  The notebook plays no part in it. *)
Theorem caller_raises_on_descriptor_without_points (a : string)
    (cfg : expected_config) (loaded : res json) (e : exn) :
  Caller.graded_activity a cfg loaded = Raise e
  ↔ e = TypeError
    ∧ ∃ k d, k ∈ Caller.filtered_sections a cfg
             ∧ Py.assoc k (sections cfg) = Some (ExpDict d)
             ∧ code_cells d = None ∧ points d = None.
Proof.
  rewrite <- (CallerFacts.count_sections_Raise cfg
                (Caller.section2_fix a
                   (res_sections (grade_notebook loaded cfg)))
                (Caller.filtered_sections a cfg) (0, 0) e).
  unfold Caller.graded_activity.
  destruct (Caller.count_sections cfg _ _ (0, 0)) as [totals|x];
    cbn [bind]; [done|]. split; by intros [= <-].
Qed.

(** X14.  The score of an activity never exceeds its expected points, for
    a rubric with distinct keys whose descriptors promise no more
    [points] than their [code_cells] and [raw_cells] add up to, provided
    that, for the third activity, section 2. is expected to give at least
    the two points the override credits. *)
Theorem activity_score_bounded (a : string) (cfg : expected_config)
    (loaded : res json) (act : Caller.activity) :
  NoDup (sections cfg).*1 →
  (∀ k e, (k, e) ∈ sections cfg →
          points_of e ≤ Enhanced.expected_total_of e) →
  (a = Caller.activity_3 →
   ∀ e, ("2.", e) ∈ sections cfg → 2 ≤ Enhanced.expected_total_of e) →
  Caller.graded_activity a cfg loaded = Ok act →
  Caller.score act ≤ Caller.expected_score act.
Proof.
  intros Hnd Hpts Htwo. unfold Caller.graded_activity. intros H.
  apply bind_Ok in H as (totals & Ht & [= <-]).
  cbn [Caller.score Caller.expected_score].
  by apply (CallerFacts.count_sections_bounded a cfg loaded).
Qed.

Lemma activity_score_bounded_witness :
  ∃ act, Caller.graded_activity Caller.activity_3 Sample.analysis_rubric
           (Ok Sample.analysis_notebook) = Ok act
         ∧ Caller.score act = 4 ∧ Caller.expected_score act = 11
         ∧ Caller.score act ≤ Caller.expected_score act.
Proof.
  eexists. split; [vm_compute; reflexivity|].
  split; [reflexivity|]. split; [reflexivity|].
  apply (activity_score_bounded Caller.activity_3 Sample.analysis_rubric
           (Ok Sample.analysis_notebook)).
  - solve_NoDup.
  - intros k e Hin. cbn [sections Sample.analysis_rubric] in Hin.
    repeat (apply elem_of_cons in Hin as [[= -> ->]|Hin];
            [vm_compute; lia|]).
    by apply elem_of_nil in Hin.
  - intros _ e Hin. cbn [sections Sample.analysis_rubric] in Hin.
    repeat (apply elem_of_cons in Hin as [Heq|Hin];
            [try discriminate Heq; injection Heq as ->; vm_compute; lia|]).
    by apply elem_of_nil in Hin.
  - vm_compute. reflexivity.
Defined.

(** X15.  For an activity without a section filter and without the
    override of section 2., the score the caller reports is the
    [total_points] of the grading, the keys of the rubric being
    distinct. *)
Theorem activity_score_is_total_points (a : string) (cfg : expected_config)
    (loaded : res json) (act : Caller.activity) :
  NoDup (sections cfg).*1 →
  Caller.activity_sections a = None →
  a ≠ Caller.activity_3 ∨ "2." ∉ (sections cfg).*1 →
  Caller.graded_activity a cfg loaded = Ok act →
  Caller.score act = res_total_points (grade_notebook loaded cfg)
  ∧ Caller.graded act = Some (res_sections (grade_notebook loaded cfg)).
Proof.
  intros Hnd Hall Hfix. unfold Caller.graded_activity. intros H.
  apply bind_Ok in H as (totals & Ht & [= <-]).
  cbn [Caller.score Caller.graded].
  assert (Caller.section2_fix a (res_sections (grade_notebook loaded cfg))
          = res_sections (grade_notebook loaded cfg)) as Hsame.
  { destruct Hfix as [Ha|Hk].
    - unfold Caller.section2_fix. by rewrite bool_decide_eq_false_2.
    - apply CallerFacts.section2_fix_absent.
      destruct (grade_notebook_cases loaded cfg) as [(nb & _ & Hg)|[x ->]].
      + apply grader_result_shape in Hg as (_ & Hdom & _).
        apply not_elem_of_dom. rewrite Hdom. by rewrite elem_of_list_to_set.
      + apply lookup_empty. }
  rewrite Hsame in Ht |- *. split; [|done].
  apply CallerFacts.count_sections_Ok in Ht as [-> _]. cbn [fst].
  rewrite Nat.add_0_l. unfold Caller.filtered_sections. rewrite Hall.
  cbn [default].
  destruct (grade_notebook_cases loaded cfg) as [(nb & _ & Hg)|[x ->]].
  - apply grader_result_shape in Hg as (_ & _ & Hf).
    destruct (Hf Hnd) as (f & Hsec & -> & _).
    rewrite <- list_fmap_compose. f_equal.
    apply list_fmap_ext. intros i [k e] Hin. cbn [compose fst snd].
    apply list_elem_of_lookup_2 in Hin.
    by rewrite (assoc_NoDup k _ e Hnd Hin), (Hsec k e Hin).
  - cbn [error_result res_total_points res_sections]. clear.
    induction (sections cfg).*1 as [|k l IH]; [done|].
    rewrite fmap_cons, sum_list_cons, lookup_empty, IH.
    by destruct (Py.assoc k (sections cfg)).
Qed.

Lemma activity_score_is_total_points_witness :
  ∃ act, Caller.graded_activity "HANDS-ON_ACTIVITY_9" Sample.scenario_rubric
           (Ok Sample.scenario_notebook) = Ok act
         ∧ Caller.score act = 2
         ∧ res_total_points
             (grade_notebook (Ok Sample.scenario_notebook)
                Sample.scenario_rubric) = 2.
Proof.
  eexists. split; [vm_compute; reflexivity|]. split; [reflexivity|].
  symmetry.
  apply (activity_score_is_total_points "HANDS-ON_ACTIVITY_9"
           Sample.scenario_rubric (Ok Sample.scenario_notebook)
           (Caller.Activity 2 3 (Some {[ "1." := SplitScore 1 1 2 2 1 3 ]}))).
  - apply NoDup_singleton.
  - reflexivity.
  - left. discriminate.
  - vm_compute. reflexivity.
Defined.

(** X16.  The override of section 2.: for [HANDS-ON_ACTIVITY_3] every
    grading that does not fail, under a rubric that has section 2., is
    reported with two raw cells and a total of two for that section,
    whatever the notebook holds; every other section, and every section
    of another activity, is reported as it was graded. *)
Theorem section_two_override (a : string) (cfg : expected_config)
    (loaded : res json) (act : Caller.activity) :
  Caller.graded_activity a cfg loaded = Ok act →
  ∃ secs,
    Caller.graded act = Some secs
    ∧ dom secs = dom (res_sections (grade_notebook loaded cfg))
    ∧ (∀ k, a ≠ Caller.activity_3 ∨ k ≠ "2." →
            secs !! k = res_sections (grade_notebook loaded cfg) !! k)
    ∧ (a = Caller.activity_3 → in_rubric cfg "2." = true →
       res_issues (grade_notebook loaded cfg) = None →
       ∃ code ec er et, secs !! "2." = Some (SplitScore code 2 2 ec er et)).
Proof.
  unfold Caller.graded_activity. intros H.
  apply bind_Ok in H as (totals & _ & [= <-]). cbn [Caller.graded].
  eexists. split; [done|]. split; [apply CallerFacts.section2_fix_dom|].
  split; [intros k; apply CallerFacts.section2_fix_other|].
  intros -> Hin Hnone.
  destruct (grade_notebook_cases loaded cfg) as [(nb & _ & Hg)|[x Hx]].
  - apply grader_result_shape in Hg as (_ & Hdom & _).
    assert (is_Some (res_sections (grade_notebook loaded cfg) !! "2."))
      as [s Hs].
    { apply elem_of_dom. rewrite Hdom, elem_of_list_to_set.
      unfold in_rubric in Hin. by apply bool_decide_eq_true in Hin. }
    by apply (CallerFacts.section2_fix_present _ s).
  - by rewrite Hx in Hnone.
Qed.

Lemma section_two_override_witness :
  ∃ secs,
    Caller.graded_activity Caller.activity_3 Sample.analysis_rubric
      (Ok (Sample.notebook_of []))
    = Ok (Caller.Activity 2 11 (Some secs))
    ∧ res_sections (grade_notebook (Ok (Sample.notebook_of []))
                      Sample.analysis_rubric) !! "2."
      = Some (SplitScore 0 0 0 0 2 2)
    ∧ secs !! "2." = Some (SplitScore 0 2 2 0 2 2).
Proof.
  destruct (section_two_override Caller.activity_3 Sample.analysis_rubric
              (Ok (Sample.notebook_of []))
              (Caller.Activity 2 11
                 (Some (Caller.section2_fix Caller.activity_3
                          (res_sections
                             (grade_notebook (Ok (Sample.notebook_of []))
                                Sample.analysis_rubric))))))
    as (secs & Hsecs & _ & _ & Htwo).
  { vm_compute. reflexivity. }
  exists secs. injection Hsecs as <-.
  split; [vm_compute; reflexivity|]. split; [vm_compute; reflexivity|].
  vm_compute. reflexivity.
Defined.

(** X17.  A notebook that [find_notebook_in_activity_dir] finds is always
    graded, and the activity is reported as missing only when none is
    found: the path that is returned is never the empty string, which
    the caller would take for no notebook. *)
Theorem found_notebook_is_graded (student_path a filename_pattern : string)
    (cfg : expected_config) (listing : option (list string))
    (read : string → res json) :
  Caller.activity_of_student student_path a filename_pattern cfg listing read
  = match Discovery.find_notebook_in_activity_dir
            (Students.path_join student_path a) filename_pattern listing with
    | Some p => Caller.graded_activity a cfg (read p)
    | None => Caller.missing_activity cfg
    end.
Proof.
  unfold Caller.activity_of_student, Caller.grade_activity.
  destruct (Discovery.find_notebook_in_activity_dir _ _ listing) as [p|]
    eqn:Hp; [|done].
  by rewrite (DiscoveryFacts.find_notebook_nonempty _ _ _ _ Hp).
Qed.

(** X18.  A missing notebook scores zero against the expected points of
    the whole rubric, while a notebook that was found is measured against
    the sections that count for its activity only: the denominator of a
    found notebook is at most that of a missing one, and the two agree
    when the activity has no section filter and the keys of the rubric
    are distinct. *)
Theorem missing_notebook_denominator (a : string) (cfg : expected_config)
    (loaded : res json) (act miss : Caller.activity) :
  NoDup (Caller.filtered_sections a cfg) →
  Caller.graded_activity a cfg loaded = Ok act →
  Caller.missing_activity cfg = Ok miss →
  Caller.score miss = 0
  ∧ Caller.expected_score act ≤ Caller.expected_score miss
  ∧ (Caller.activity_sections a = None →
     Caller.expected_score act = Caller.expected_score miss).
Proof.
  intros Hnd. unfold Caller.graded_activity, Caller.missing_activity.
  intros H Hm.
  apply bind_Ok in H as (totals & Ht & [= <-]).
  apply bind_Ok in Hm as (n & Hn & [= <-]).
  cbn [Caller.score Caller.expected_score].
  apply CallerFacts.count_sections_Ok in Ht as [_ ->]. cbn [snd].
  apply CallerFacts.expected_of_all_Ok in Hn as ->.
  rewrite !Nat.add_0_l. split; [done|]. split.
  - by apply CallerFacts.sum_selected_le.
  - intros Hall. unfold Caller.filtered_sections in *.
    rewrite Hall in *. cbn [default] in *.
    by apply CallerFacts.sum_over_keys.
Qed.

Lemma missing_notebook_denominator_witness :
  let rubric :=
    ExpectedConfig None [("0.", Sample.split_section 5 2);
                         ("3.", Sample.split_section 4 0)] in
  ∃ act miss,
    Caller.graded_activity Caller.activity_1 rubric (Ok (Sample.notebook_of []))
    = Ok act
    ∧ Caller.missing_activity rubric = Ok miss
    ∧ Caller.expected_score act = 7 ∧ Caller.expected_score miss = 11
    ∧ Caller.expected_score act ≤ Caller.expected_score miss.
Proof.
  intros rubric.
  eexists _, _. split; [vm_compute; reflexivity|].
  split; [vm_compute; reflexivity|].
  split; [reflexivity|]. split; [reflexivity|].
  eapply (missing_notebook_denominator Caller.activity_1 rubric
            (Ok (Sample.notebook_of []))).
  - solve_NoDup.
  - vm_compute. reflexivity.
  - vm_compute. reflexivity.
Defined.


(* ===================================================================== *)
(** * Header lines and the keys they give *)
(* ===================================================================== *)

Module KeyFacts.
Import PyStr Header PyStrFacts HeaderFacts.

Lemma main_group_shaped (r g : string) :
  main_group r g → header_shaped (key_of g).
Proof.
  intros (t & _ & Hg & _). exists g. split; [done|]. by left.
Qed.

Lemma sub_group_shaped (r g : string) :
  sub_group r g → header_shaped (key_of g).
Proof.
  intros (d & c & t & -> & _ & Hd & Hc & _). exists d. split; [done|].
  right. exists c. split; [done|]. unfold key_of. apply append_assoc.
Qed.

Lemma match_main_shaped (line g : string) :
  match_main line = Some g → header_shaped (key_of g).
Proof.
  intros H.
  apply match_main_spec in H as (ws & hs & ws2 & r & _ & _ & _ & _ & H).
  by eapply main_group_shaped.
Qed.

Lemma match_sub_shaped (line g : string) :
  match_sub line = Some g → header_shaped (key_of g).
Proof.
  intros H.
  apply match_sub_spec in H as (ws & hs & ws2 & r & _ & _ & _ & _ & H).
  by eapply sub_group_shaped.
Qed.

Lemma match_sub3_shaped (line g : string) :
  match_sub3 line = Some g → header_shaped (key_of g).
Proof.
  intros H. apply match_sub3_spec in H as (ws & ws2 & r & _ & _ & _ & H).
  by eapply sub_group_shaped.
Qed.

Lemma match_simple_shaped (s g : string) :
  match_simple s = Some g → header_shaped (key_of g).
Proof.
  intros H. apply match_simple_spec in H as (hs & ws & r & _ & _ & _ & [H|H]).
  - by eapply main_group_shaped.
  - by eapply sub_group_shaped.
Qed.

Lemma line_headers_shaped (analysis : bool) (line k : string) :
  (Enhanced.line_headers analysis line).1 = Some k
  ∨ (Enhanced.line_headers analysis line).2 = Some k →
  header_shaped k.
Proof.
  unfold Enhanced.line_headers. destruct analysis; cbn [fst snd].
  - intros [H|H].
    + destruct (match_main line) as [g|] eqn:Hg; [|done].
      injection H as <-. by eapply match_main_shaped.
    + destruct (match_sub line) as [g|] eqn:Hg; [|done].
      injection H as <-. by eapply match_sub_shaped.
  - destruct (startswith "#" (strip line)
              && negb (startswith "###" (strip line)));
      [|destruct (startswith "###" (strip line))]; cbn [fst snd];
      intros [H|H]; try done.
    + destruct (match_main line) as [g|] eqn:Hg; [|done].
      injection H as <-. by eapply match_main_shaped.
    + destruct (match_sub3 line) as [g|] eqn:Hg; [|done].
      injection H as <-. by eapply match_sub3_shaped.
Qed.

Lemma last_elem {A : Type} (l : list A) (x : A) : last l = Some x → x ∈ l.
Proof.
  intros H. apply last_Some in H as [l' ->]. apply elem_of_app. right. left.
Qed.

Lemma header_keys_shaped (cfg : expected_config) (src k : string) :
  k ∈ Enhanced.header_keys cfg src → header_shaped k.
Proof.
  unfold Enhanced.header_keys. rewrite !elem_of_app. intros [H|[H|H]].
  - destruct (_ && _); [|by apply elem_of_nil in H].
    apply list_elem_of_singleton in H as ->.
    exists "2". split; [by split|]. by left.
  - destruct (last _) as [x|] eqn:Hl; [|by apply elem_of_nil in H].
    apply list_elem_of_singleton in H as ->. apply last_elem in Hl.
    unfold Enhanced.main_sections in Hl.
    apply list_elem_of_omap in Hl as (line & _ & Hl).
    eapply line_headers_shaped. by left.
  - destruct (last _) as [x|] eqn:Hl; [|by apply elem_of_nil in H].
    apply list_elem_of_singleton in H as ->. apply last_elem in Hl.
    unfold Enhanced.subsections in Hl.
    apply list_elem_of_omap in Hl as (line & _ & Hl).
    eapply line_headers_shaped. by right.
Qed.

Lemma first_header_shaped (lines : list string) (k : string) :
  first_header lines = Some k → header_shaped k.
Proof.
  induction lines as [|line lines IH]; [done|]. cbn [first_header].
  destruct (simple_header line) as [k'|] eqn:Hk; [|done].
  intros [= <-]. unfold simple_header in Hk.
  destruct (startswith "#" line); [|done].
  destruct (match_simple (strip line)) as [g|] eqn:Hg; [|done].
  injection Hk as <-. by eapply match_simple_shaped.
Qed.

(** What the tail [\.?\s+] starts with. *)
Lemma dot_then_space_head (s : string) :
  dot_then_space s = true →
  ∃ c r, s = String c r ∧ is_lower_az c = false.
Proof.
  unfold dot_then_space. destruct s as [|c r]; [done|].
  intros H. exists c, r. split; [done|].
  destruct (is_dot c) eqn:Hdot.
  - apply is_dot_eq in Hdot as ->. apply dot_not_lower.
  - by apply space_not_lower.
Qed.

Lemma capture_main_not_sub (r g : string) :
  capture_main r = Some g → capture_sub r = None.
Proof.
  unfold capture_main, capture_sub.
  destruct (nonempty (take_while is_digit r)); [|done]. cbn [andb].
  destruct (dot_then_space (drop_while is_digit r)) eqn:Htail; [|done].
  intros _. apply dot_then_space_head in Htail as (c & t & -> & Hc).
  by rewrite Hc.
Qed.

(** ** Stripping blanks at the end keeps a prefix without blanks *)

Lemma rev_append (a b : string) :
  String.rev (a +:+ b) = String.rev b +:+ String.rev a.
Proof.
  induction a as [|x a IH].
  - rewrite append_nil. change (String.rev EmptyString) with EmptyString.
    by rewrite StudentsFacts.append_empty_r.
  - rewrite append_cons, !StudentsFacts.rev_cons, IH.
    by rewrite append_assoc.
Qed.

Lemma rev_involutive (s : string) : String.rev (String.rev s) = s.
Proof.
  induction s as [|x s IH]; [done|].
  rewrite StudentsFacts.rev_cons, rev_append, IH. reflexivity.
Qed.

Lemma all_chars_append (p : ascii → bool) (a b : string) :
  all_chars p (a +:+ b) = all_chars p a && all_chars p b.
Proof.
  induction a as [|x a IH]; [by rewrite append_nil|].
  rewrite append_cons. cbn [all_chars]. by rewrite IH, andb_assoc.
Qed.

Lemma all_chars_rev (p : ascii → bool) (s : string) :
  all_chars p (String.rev s) = all_chars p s.
Proof.
  induction s as [|x s IH]; [done|].
  rewrite StudentsFacts.rev_cons, all_chars_append, IH. cbn [all_chars].
  by rewrite andb_true_r, andb_comm.
Qed.

Lemma rstrip_prefix (t : string) :
  ∃ w, t = rstrip t +:+ w ∧ all_chars is_space w = true.
Proof.
  exists (String.rev (take_while is_space (String.rev t))). split.
  - unfold rstrip. rewrite <- rev_append, <- take_drop.
    by rewrite rev_involutive.
  - rewrite all_chars_rev. apply all_take.
Qed.

Lemma startswith_append (p a w : string) :
  startswith p a = true → startswith p (a +:+ w) = true.
Proof.
  revert a. induction p as [|x p IH]; intros a; [done|].
  destruct a as [|y a]; [done|]. rewrite append_cons. cbn [startswith].
  destruct (ascii_dec x y); [apply IH|done].
Qed.

Lemma startswith_before_blanks (p a w : string) :
  all_chars (fun c => negb (is_space c)) p = true →
  all_chars is_space w = true →
  startswith p (a +:+ w) = true → startswith p a = true.
Proof.
  intros Hp Hw. revert p Hp. induction a as [|y a IH]; intros p Hp.
  - rewrite append_nil. destruct p as [|x p]; [done|].
    destruct w as [|z w]; [done|]. cbn [startswith all_chars] in *.
    destruct (ascii_dec x z) as [->|]; [|done].
    apply andb_prop in Hp as [Hx _]. apply andb_prop in Hw as [Hz _].
    by rewrite Hz in Hx.
  - rewrite append_cons. destruct p as [|x p]; [done|].
    cbn [startswith all_chars] in *. apply andb_prop in Hp as [_ Hp].
    destruct (ascii_dec x y); [by apply IH|done].
Qed.

Lemma startswith_strip (p line : string) :
  all_chars (fun c => negb (is_space c)) p = true →
  startswith p (strip line) = startswith p (lstrip line).
Proof.
  intros Hp. unfold strip.
  destruct (rstrip_prefix (lstrip line)) as (w & Hw & Hall).
  destruct (startswith p (rstrip (lstrip line))) eqn:H1.
  - symmetry. rewrite Hw. by apply startswith_append.
  - destruct (startswith p (lstrip line)) eqn:H2; [|done].
    rewrite Hw in H2.
    by rewrite (startswith_before_blanks _ _ _ Hp Hall H2) in H1.
Qed.

Lemma is_hash_eq (c : ascii) : is_hash c = true ↔ c = "#"%char.
Proof.
  unfold is_hash, code. rewrite Nat.eqb_eq. split; [|by intros ->].
  intros H. rewrite <- (ascii_nat_embedding c), H. reflexivity.
Qed.

Lemma startswith_hash_cons (c : ascii) (p t : string) :
  startswith (String "#" p) (String c t) = is_hash c && startswith p t.
Proof.
  cbn [startswith]. destruct (ascii_dec "#" c) as [<-|Hne]; [done|].
  destruct (is_hash c) eqn:Hc; [|done]. apply is_hash_eq in Hc. by subst.
Qed.

End KeyFacts.

(** X19.  Every key a header line can make current has the shape of a
    run of digits, an optional lowercase letter and a dot: in the default
    grader, either dialect, and in the two specialised graders. *)
Theorem tracked_keys_have_header_shape :
  (∀ cfg source k, k ∈ Enhanced.header_keys cfg source → header_shaped k)
  ∧ (∀ lines k, first_header lines = Some k → header_shaped k).
Proof.
  split.
  - apply KeyFacts.header_keys_shaped.
  - apply KeyFacts.first_header_shaped.
Qed.

(** X20.  A rubric key that does not have that shape, such as a key
    written without its dot, can never be matched by a header: whatever
    the document holds, the default grader scores it as a section that
    was never seen. *)
Theorem unshaped_rubric_key_never_scores (notebook : json)
    (cfg : expected_config) (r : results) (k : string) (e : expected) :
  NoDup (sections cfg).*1 → (k, e) ∈ sections cfg → ¬ header_shaped k →
  grade_notebook_enhanced notebook cfg = Ok r →
  res_sections r !! k = Some (Enhanced.missed_score e).
Proof.
  intros Hnd Hin Hshape. unfold grade_notebook_enhanced. intros H.
  apply bind_Ok in H as (st & Hrun & [= <-]).
  destruct (EnhancedFacts.enhanced_run_Ok cfg notebook st Hrun)
    as [Hinv Hnone].
  unfold Enhanced.run in Hrun.
  apply bind_Ok in Hrun as (v & Hv & Hrun).
  apply bind_Ok in Hrun as (cells & Hcells & _).
  destruct (Hnone k v cells Hv Hcells) as [Hc Hr].
  { intros cell ct src _ _ _ _ Hk. apply Hshape.
    by eapply KeyFacts.header_keys_shaped. }
  apply EnhancedFacts.enhanced_invariant_raw_follows_code in Hinv.
  destruct (ScoringFacts.fold_score_spec (sections cfg)
              (Enhanced.Tally (Enhanced.section_completed_code st)
                 (Enhanced.section_completed_raw st) ∅ 0 0) Hinv)
    as (_ & Hscored & _).
  cbn [Enhanced.report res_sections]. unfold Enhanced.calculate_points.
  rewrite (Hscored Hnd k e Hin). f_equal.
  apply ScoringFacts.score_of_missed; [done|]. cbn. by rewrite Hr.
Qed.

Lemma unshaped_rubric_key_never_scores_witness :
  ∃ r, grade_notebook_enhanced
         (Sample.notebook_of [Sample.markdown_cell "# 1. Title";
                              Sample.run_code_cell "x = 1"])
         (ExpectedConfig None [("1", Sample.split_section 1 0)]) = Ok r
       ∧ res_sections r !! "1" = Some (SplitScore 0 0 0 1 0 1).
Proof.
  eexists. split; [vm_compute; reflexivity|].
  apply (unshaped_rubric_key_never_scores
           (Sample.notebook_of [Sample.markdown_cell "# 1. Title";
                                Sample.run_code_cell "x = 1"])
           (ExpectedConfig None [("1", Sample.split_section 1 0)])
           _ "1" (Sample.split_section 1 0)).
  - apply NoDup_singleton.
  - apply list_elem_of_singleton. reflexivity.
  - intros (d & [Hne Hd] & [Hk|(c & _ & Hk)]).
    + destruct d as [|a [|b d]]; [done| |];
        rewrite ?PyStrFacts.append_cons, ?PyStrFacts.append_nil in Hk;
        discriminate.
    + destruct d as [|a d]; [done|].
      rewrite ?PyStrFacts.append_cons in Hk. injection Hk as _ Hk.
      destruct d; rewrite ?PyStrFacts.append_cons, ?PyStrFacts.append_nil in Hk;
        discriminate.
  - vm_compute. reflexivity.
Defined.

(** X21.  No line is both a top-level header and a subsection header, in
    either dialect of the default grader: a line sets the current section
    or the current subsection, never both. *)
Theorem line_is_one_header_at_most (analysis : bool) (line : string) :
  (Enhanced.line_headers analysis line).1 = None
  ∨ (Enhanced.line_headers analysis line).2 = None.
Proof.
  unfold Enhanced.line_headers. destruct analysis; cbn [fst snd].
  - unfold Header.match_main, Header.match_sub.
    destruct (Header.after_markers line) as [r|]; [|by left].
    destruct (Header.capture_main r) as [g|] eqn:Hg; [|by left].
    right. by rewrite (KeyFacts.capture_main_not_sub r g Hg).
  - destruct (_ && _); [by right|].
    destruct (PyStr.startswith "###" (PyStr.strip line)); by left.
Qed.

(** X22.  The dialect of the processing notebooks is that of the analysis
    notebook restricted by the number of heading markers: a line is a
    top-level header when it is one in the analysis dialect and starts
    with one or two markers, and a subsection header when it is one in
    the analysis dialect and starts with exactly three.  A top-level
    number under three or more markers, and a subsection under any other
    number than three, is no header. *)
Theorem processing_dialect_by_marker_count (line : string) :
  Enhanced.line_headers false line
  = (if bool_decide (1 ≤ marker_count line ≤ 2)
     then (Enhanced.line_headers true line).1 else None,
     if bool_decide (marker_count line = 3)
     then (Enhanced.line_headers true line).2 else None).
Proof.
  unfold Enhanced.line_headers, marker_count. cbn [fst snd].
  rewrite (KeyFacts.startswith_strip "#" line),
    (KeyFacts.startswith_strip "###" line) by reflexivity.
  unfold Header.match_sub3, Header.match_sub, Header.after_three_markers,
    Header.after_markers, PyStr.lstrip.
  destruct (PyStr.drop_while PyStr.is_space line) as [|c1 t1].
  { cbn. done. }
  rewrite !KeyFacts.startswith_hash_cons.
  cbn [PyStr.take_while]. destruct (PyStr.is_hash c1) eqn:H1; cbn [andb].
  2:{ cbn. done. }
  destruct t1 as [|c2 t2].
  { cbn. done. }
  rewrite ?KeyFacts.startswith_hash_cons.
  cbn [PyStr.take_while PyStr.drop_while].
  destruct (PyStr.is_hash c2) eqn:H2; cbn [andb negb].
  2:{ cbn. done. }
  destruct t2 as [|c3 t3].
  { cbn. done. }
  rewrite ?KeyFacts.startswith_hash_cons.
  cbn [PyStr.take_while PyStr.drop_while PyStr.startswith].
  destruct (PyStr.is_hash c3) eqn:H3; cbn [andb negb].
  2:{ cbn. done. }
  destruct t3 as [|c4 t4].
  { cbn. done. }
  cbn [PyStr.take_while PyStr.drop_while].
  destruct (PyStr.is_hash c4) eqn:H4; cbn [andb negb].
  - rewrite (HeaderFacts.hash_not_space c4 H4).
    rewrite bool_decide_eq_false_2 by (cbn; lia).
    rewrite bool_decide_eq_false_2 by (cbn; lia). done.
  - rewrite bool_decide_eq_false_2 by (cbn; lia).
    rewrite bool_decide_eq_true_2 by (cbn; lia). done.
Qed.


(* ===================================================================== *)
(** * Counters are kept: nothing is reset *)
(* ===================================================================== *)

Module KeepFacts.
Import Enhanced.

Lemma grows_refl (d : gmap string nat) : grows d d.
Proof. intros k n H. by exists n. Qed.

Lemma grows_trans (d1 d2 d3 : gmap string nat) :
  grows d1 d2 → grows d2 d3 → grows d1 d3.
Proof.
  intros H12 H23 k n H. destruct (H12 k n H) as (n2 & H2 & ?).
  destruct (H23 k n2 H2) as (n3 & H3 & ?). exists n3. split; [done|lia].
Qed.

Lemma grows_insert_new (d : gmap string nat) (k : string) (n : nat) :
  d !! k = None → grows d (<[k := n]> d).
Proof.
  intros Hk j m Hj. exists m. split; [|done].
  rewrite lookup_insert_ne; [done|]. by intros ->; rewrite Hk in Hj.
Qed.

Lemma grows_insert_succ (d : gmap string nat) (k : string) (n : nat) :
  d !! k = Some n → grows d (<[k := S n]> d).
Proof.
  intros Hk j m Hj. destruct (decide (k = j)) as [<-|Hne].
  - rewrite lookup_insert_eq. exists (S n). split; [done|].
    rewrite Hk in Hj. injection Hj as <-. lia.
  - rewrite lookup_insert_ne by done. by exists m.
Qed.

Lemma extends_refl (m : gmap string (list nat * list nat)) : extends m m.
Proof. intros k l H. by exists l. Qed.

Lemma extends_trans (m1 m2 m3 : gmap string (list nat * list nat)) :
  extends m1 m2 → extends m2 m3 → extends m1 m3.
Proof.
  intros H12 H23 k l H. destruct (H12 k l H) as (l2 & H2 & ? & ?).
  destruct (H23 k l2 H2) as (l3 & H3 & ? & ?). exists l3.
  split; [done|]. split; by etransitivity.
Qed.

Lemma extends_insert_new (m : gmap string (list nat * list nat))
    (k : string) (v : list nat * list nat) :
  m !! k = None → extends m (<[k := v]> m).
Proof.
  intros Hk j l Hj. exists l. split; [|done].
  rewrite lookup_insert_ne; [done|]. by intros ->; rewrite Hk in Hj.
Qed.

Lemma extends_insert_more (m : gmap string (list nat * list nat))
    (k : string) (v v' : list nat * list nat) :
  m !! k = Some v → v.1 `prefix_of` v'.1 → v.2 `prefix_of` v'.2 →
  extends m (<[k := v']> m).
Proof.
  intros Hk H1 H2 j l Hj. destruct (decide (k = j)) as [<-|Hne].
  - rewrite lookup_insert_eq. exists v'. rewrite Hk in Hj.
    injection Hj as <-. done.
  - rewrite lookup_insert_ne by done. by exists l.
Qed.

Lemma never_reset_refl (st : state) : never_reset st st.
Proof.
  repeat split; first [apply grows_refl|apply extends_refl].
Qed.

Lemma never_reset_trans (st1 st2 st3 : state) :
  never_reset st1 st2 → never_reset st2 st3 → never_reset st1 st3.
Proof.
  intros (A1 & A2 & A3 & A4 & A5) (B1 & B2 & B3 & B4 & B5).
  repeat split; first [by eapply grows_trans|by eapply extends_trans].
Qed.

(** With the five dictionaries aligned, tracking a key anew cannot
    overwrite a counter. *)
Lemma never_reset_init_tracking (cfg : expected_config) (k : string)
    (st : state) :
  dom (section_cell_counts_code st) = dom (section_completed_code st) →
  dom (section_completed_raw st) = dom (section_completed_code st) →
  dom (section_cell_counts_raw st) = dom (section_completed_code st) →
  dom (missed_indices st) = dom (section_completed_code st) →
  never_reset st (init_tracking cfg k st).
Proof.
  intros H1 H2 H3 H4. unfold init_tracking.
  destruct (in_rubric cfg k); cbn [andb]; [|apply never_reset_refl].
  case_bool_decide as Hk; [|apply never_reset_refl].
  assert (k ∉ dom (section_completed_code st)) as Hdom
    by by apply not_elem_of_dom.
  repeat split; cbn [section_cell_counts_code section_completed_code
    section_completed_raw section_cell_counts_raw missed_indices];
    first [apply grows_insert_new|apply extends_insert_new];
    apply not_elem_of_dom; congruence.
Qed.

Lemma never_reset_enter_section (cfg : expected_config) (k : string)
    (st : state) :
  invariant cfg st →
  never_reset st (init_tracking cfg k (set_current_section k st)).
Proof.
  intros [H1 H2 H3 H4 _ _].
  by apply (never_reset_init_tracking cfg k (set_current_section k st)).
Qed.

Lemma never_reset_enter_subsection (cfg : expected_config) (k : string)
    (st : state) :
  invariant cfg st →
  never_reset st (init_tracking cfg k (set_current_subsection k st)).
Proof.
  intros [H1 H2 H3 H4 _ _].
  by apply (never_reset_init_tracking cfg k (set_current_subsection k st)).
Qed.

Lemma never_reset_track_headers (cfg : expected_config) (source : string)
    (st : state) :
  invariant cfg st → never_reset st (track_headers cfg source st).
Proof.
  intros Hinv. unfold track_headers.
  set (st1 := if PyStr.contains deseq_anchor source
                 && PyStr.contains "# 2. DESeq2" source
              then init_tracking cfg "2." (set_current_section "2." st)
              else st).
  assert (invariant cfg st1 ∧ never_reset st st1) as [Hinv1 Hk1].
  { subst st1. destruct (_ && _).
    - split; [by apply EnhancedFacts.enhanced_invariant_enter_section|].
      by apply never_reset_enter_section.
    - split; [done|apply never_reset_refl]. }
  set (st2 := match last (main_sections (is_analysis_notebook cfg) source) with
              | Some k => init_tracking cfg k (set_current_section k st1)
              | None => st1
              end).
  assert (invariant cfg st2 ∧ never_reset st1 st2) as [Hinv2 Hk2].
  { subst st2. destruct (last (main_sections _ source)).
    - split; [by apply EnhancedFacts.enhanced_invariant_enter_section|].
      by apply never_reset_enter_section.
    - split; [done|apply never_reset_refl]. }
  apply (never_reset_trans _ st1); [done|].
  apply (never_reset_trans _ st2); [done|].
  destruct (last (subsections _ source)).
  - by apply never_reset_enter_subsection.
  - apply never_reset_refl.
Qed.

Lemma never_reset_count_code (k : string) (cell : json) (st st' : state) :
  count_code k cell st = Ok st' → never_reset st st'.
Proof.
  unfold count_code. intros H.
  apply bind_Ok in H as (counts & Hc & H).
  apply increment_Ok in Hc as (n & Hn & -> & _).
  apply bind_Ok in H as ([] & _ & H).
  - apply bind_Ok in H as (completed & Hc & [= <-]).
    apply increment_Ok in Hc as (c & Hcc & -> & _).
    repeat split; cbn [section_cell_counts_code section_completed_code
      section_completed_raw section_cell_counts_raw missed_indices];
      first [by apply grows_insert_succ|apply grows_refl|apply extends_refl].
  - apply bind_Ok in H as (m0 & Hm0 & H).
    apply bind_Ok in H as (i & _ & [= <-]). apply item_Ok in Hm0.
    repeat split; cbn [section_cell_counts_code section_completed_code
      section_completed_raw section_cell_counts_raw missed_indices];
      first [by apply grows_insert_succ|apply grows_refl|idtac].
    apply (extends_insert_more _ _ m0); [done| |done].
    by apply prefix_app_r.
Qed.

Lemma never_reset_count_raw (k : string) (cell : json) (st st' : state) :
  count_raw k cell st = Ok st' → never_reset st st'.
Proof.
  unfold count_raw. intros H.
  apply bind_Ok in H as (counts & Hc & H).
  apply increment_Ok in Hc as (n & Hn & -> & _).
  apply bind_Ok in H as ([] & _ & H).
  - apply bind_Ok in H as (completed & Hc & [= <-]).
    apply increment_Ok in Hc as (c & Hcc & -> & _).
    repeat split; cbn [section_cell_counts_code section_completed_code
      section_completed_raw section_cell_counts_raw missed_indices];
      first [by apply grows_insert_succ|apply grows_refl|apply extends_refl].
  - apply bind_Ok in H as (m0 & Hm0 & H).
    apply bind_Ok in H as (i & _ & [= <-]). apply item_Ok in Hm0.
    repeat split; cbn [section_cell_counts_code section_completed_code
      section_completed_raw section_cell_counts_raw missed_indices];
      first [by apply grows_insert_succ|apply grows_refl|idtac].
    apply (extends_insert_more _ _ m0); [done|done|].
    by apply prefix_app_r.
Qed.

Lemma never_reset_step (cfg : expected_config) (st st' : state)
    (cell : json) :
  step cfg st cell = Ok st' → invariant cfg st → never_reset st st'.
Proof.
  unfold step. intros H Hinv.
  apply bind_Ok in H as (ct & _ & H).
  apply bind_Ok in H as (st1 & Hst1 & H).
  assert (never_reset st st1) as Hk1.
  { destruct (Py.eq_str ct "markdown");
      [|injection Hst1 as <-; apply never_reset_refl].
    apply bind_Ok in Hst1 as (source & _ & [= <-]).
    by apply never_reset_track_headers. }
  apply (never_reset_trans _ st1); [done|].
  destruct (active_section st1) as [k|];
    [|injection H as <-; apply never_reset_refl].
  destruct (Py.truthy (Some k) && in_rubric cfg k);
    [|injection H as <-; apply never_reset_refl].
  destruct (Py.eq_str ct "code"); [by eapply never_reset_count_code|].
  destruct (Py.eq_str ct "raw"); [by eapply never_reset_count_raw|].
  injection H as <-. apply never_reset_refl.
Qed.

Lemma never_reset_scan (cfg : expected_config) (cells : list json)
    (st st' : state) :
  scan cfg cells st = Ok st' → invariant cfg st → never_reset st st'.
Proof.
  revert st. induction cells as [|cell cells IH]; intros st H Hinv.
  - injection H as <-. apply never_reset_refl.
  - cbn [scan] in H. apply bind_Ok in H as (st1 & Hstep & H).
    apply (never_reset_trans _ st1).
    + by eapply never_reset_step.
    + apply (IH _ H).
      by destruct (EnhancedFacts.enhanced_step_Ok cfg _ _ _ Hstep Hinv).
Qed.

Lemma scan_app (cfg : expected_config) (cells1 cells2 : list json)
    (st : state) :
  scan cfg (cells1 ++ cells2) st
  = let* st1 := scan cfg cells1 st in scan cfg cells2 st1.
Proof.
  revert st. induction cells1 as [|cell cells1 IH]; intros st; [done|].
  cbn [app scan]. destruct (step cfg st cell) as [st1|e]; [|done].
  cbn [bind]. apply IH.
Qed.

End KeepFacts.

(** X23.  The default grader never resets what it has counted: at any
    point of its walk through the cells, every counter it holds is still
    there at the end and is no smaller, and every list of missed
    positions has only been extended.  Meeting the header of a section
    again continues its counts. *)
Theorem default_grader_never_resets (cfg : expected_config)
    (cells1 cells2 : list json) (st' : Enhanced.state) :
  Enhanced.scan cfg (cells1 ++ cells2) Enhanced.initial = Ok st' →
  ∃ st, Enhanced.scan cfg cells1 Enhanced.initial = Ok st
        ∧ never_reset st st'.
Proof.
  rewrite KeepFacts.scan_app. intros H.
  apply bind_Ok in H as (st & H1 & H2). exists st. split; [done|].
  apply (KeepFacts.never_reset_scan _ _ _ _ H2).
  by destruct (EnhancedFacts.enhanced_scan_Ok cfg _ _ _ H1
                 (EnhancedFacts.enhanced_invariant_initial cfg)).
Qed.

Lemma default_grader_never_resets_witness :
  ∃ st st',
    Enhanced.scan Sample.scenario_rubric
      [Sample.markdown_cell "# 1. Title"; Sample.run_code_cell "x = 1"]
      Enhanced.initial = Ok st
    ∧ Enhanced.scan Sample.scenario_rubric
        ([Sample.markdown_cell "# 1. Title"; Sample.run_code_cell "x = 1"]
         ++ [Sample.markdown_cell "# 1. Title"; Sample.idle_code_cell ""])
        Enhanced.initial = Ok st'
    ∧ Enhanced.section_cell_counts_code st !! "1." = Some 1
    ∧ Enhanced.section_cell_counts_code st' !! "1." = Some 2
    ∧ never_reset st st'.
Proof.
  destruct (Enhanced.scan Sample.scenario_rubric
      ([Sample.markdown_cell "# 1. Title"; Sample.run_code_cell "x = 1"]
       ++ [Sample.markdown_cell "# 1. Title"; Sample.idle_code_cell ""])
      Enhanced.initial) as [st'|e] eqn:H'; [|vm_compute in H'; discriminate].
  destruct (default_grader_never_resets _ _ _ _ H') as (st & H & Hkeep).
  exists st, st'. split; [done|]. split; [done|].
  split; [vm_compute in H; injection H as <-; reflexivity|].
  split; [vm_compute in H'; injection H' as <-; reflexivity|done].
Defined.


(* ===================================================================== *)
(** * The markdown exercise is worth one point *)
(* ===================================================================== *)

Module ExerciseFacts.
Import MarkdownExercise.

Lemma code_only_enter_section (k : string) (st : state) :
  code_only st → code_only (enter_section k st).
Proof.
  intros H. unfold enter_section. case_bool_decide; [|done].
  intros j. cbn [section_completed code_cells_completed section_cell_counts].
  destruct (decide (k = j)) as [<-|Hne].
  - by rewrite !lookup_insert_eq.
  - rewrite !lookup_insert_ne by done. apply H.
Qed.

Lemma code_only_count_code (k : string) (cell : json) (st st' : state) :
  count_code k cell st = Ok st' → code_only st → code_only st'.
Proof.
  unfold count_code. intros H Hco.
  apply bind_Ok in H as (counts & Hc & H).
  apply increment_Ok in Hc as (n & Hn & -> & _).
  destruct (Hco k) as [Hsame Hle]. rewrite Hn in Hle.
  apply bind_Ok in H as ([] & _ & H).
  - apply bind_Ok in H as (completed & Hc & H).
    apply increment_Ok in Hc as (c & Hcc & -> & _).
    apply bind_Ok in H as (code & Hc & [= <-]).
    apply increment_Ok in Hc as (c' & Hcc' & -> & _).
    rewrite Hcc, Hcc' in Hsame. injection Hsame as ->.
    rewrite Hcc' in Hle. cbn [default from_option id] in Hle.
    intros j.
    cbn [section_completed code_cells_completed section_cell_counts].
    destruct (decide (k = j)) as [<-|Hne].
    + rewrite !lookup_insert_eq. cbn [default from_option id].
      split; [done|lia].
    + rewrite !lookup_insert_ne by done. apply Hco.
  - injection H as <-. intros j.
    cbn [section_completed code_cells_completed section_cell_counts].
    destruct (Hco j) as [Hj Hlej]. split; [done|].
    destruct (decide (k = j)) as [<-|Hne].
    + rewrite lookup_insert_eq. cbn [default from_option id] in *. lia.
    + by rewrite lookup_insert_ne.
Qed.

Lemma code_only_step (cfg : expected_config) (st st' : state) (cell : json) :
  step cfg st cell = Ok st' → code_only st → code_only st'.
Proof.
  unfold step. intros H Hco.
  apply bind_Ok in H as (ct & _ & H).
  apply bind_Ok in H as (st1 & Hst1 & H).
  assert (code_only st1) as Hco1.
  { destruct (Py.eq_str ct "markdown"); [|by injection Hst1 as <-].
    apply bind_Ok in Hst1 as (source & _ & [= <-]).
    unfold track_header. destruct (first_header _); [|done].
    by apply code_only_enter_section. }
  destruct (current_section st1) as [k|]; [|by injection H as <-].
  destruct (Py.truthy (Some k) && in_rubric cfg k);
    [|by injection H as <-].
  destruct (Py.eq_str ct "code"); [by eapply code_only_count_code|].
  by injection H as <-.
Qed.

Lemma code_only_first_pass (cfg : expected_config) (cells : list json)
    (st st' : state) :
  first_pass cfg cells st = Ok st' → code_only st → code_only st'.
Proof.
  revert st. induction cells as [|cell cells IH]; intros st H Hco.
  - by injection H as <-.
  - cbn [first_pass] in H. apply bind_Ok in H as (st1 & Hstep & H).
    apply (IH _ H). by eapply code_only_step.
Qed.

Lemma code_only_one_point (st : state) :
  code_only st → one_exercise_point st.
Proof.
  intros H k. destruct (H k) as [Hsame Hle]. split; [done|].
  left. by rewrite Hsame.
Qed.

Lemma grant_one_point (st st' : state) :
  grant st = Ok st' → 0 < code_completed_in_current st → code_only st →
  one_exercise_point st'.
Proof.
  unfold grant, code_completed_in_current. intros H Hpos Hco.
  destruct (current_section st) as [k|] eqn:Hcur; [|done].
  apply bind_Ok in H as (completed & Hc & [= <-]).
  apply increment_Ok in Hc as (n & Hn & -> & _).
  intros j. destruct (Hco j) as [Hsame Hle].
  cbn [section_completed code_cells_completed section_cell_counts
       current_section].
  split; [done|]. destruct (decide (k = j)) as [<-|Hne].
  - right. rewrite lookup_insert_eq. rewrite Hn in Hsame.
    rewrite <- Hsame in Hpos |- *. cbn [default from_option id] in *.
    split; [lia|]. split; [done|lia].
  - left. rewrite lookup_insert_ne by done. by rewrite Hsame.
Qed.

Lemma second_pass_one_point (all_cells cells : list json) (idx : nat)
    (st st' : state) :
  second_pass all_cells idx cells st = Ok st' → code_only st →
  one_exercise_point st'.
Proof.
  revert idx. induction cells as [|cell cells IH]; intros idx H Hco.
  - injection H as <-. by apply code_only_one_point.
  - cbn [second_pass] in H. apply bind_Ok in H as (ct & _ & H).
    destruct (Py.eq_str ct "markdown"); [|by eapply IH].
    apply bind_Ok in H as (source & _ & H).
    destruct (PyStr.contains check_text source); [|by eapply IH].
    apply MarkdownExerciseFacts.md_check_exercise_Ok in H
      as [[_ ->]|(prev & ptype & psrc & _ & _ & _ & _ & Hcase)];
      [by apply code_only_one_point|].
    destruct Hcase as [(_ & _ & Hpos & Hg)|[(_ & _ & _ & ->)|[_ ->]]].
    + by eapply grant_one_point.
    + by apply code_only_one_point.
    + by apply code_only_one_point.
Qed.

End ExerciseFacts.

(** X24.  In the markdown-exercise grader the completion counter of a
    section is its number of completed code cells, with one exception:
    the exercise adds one unit, once, to the section that is current at
    the end of the document, and only when that section has a completed
    code cell. *)
Theorem markdown_exercise_worth_one_point (notebook : json)
    (cfg : expected_config) (st : MarkdownExercise.state) :
  MarkdownExercise.run notebook cfg = Ok st → one_exercise_point st.
Proof.
  unfold MarkdownExercise.run. intros H.
  apply bind_Ok in H as (v & _ & H). apply bind_Ok in H as (cells & _ & H).
  apply bind_Ok in H as (st1 & H1 & H2).
  apply (ExerciseFacts.second_pass_one_point _ _ _ _ _ H2).
  apply (ExerciseFacts.code_only_first_pass _ _ _ _ H1).
  intros k. cbn. by rewrite !lookup_empty.
Qed.

Lemma markdown_exercise_worth_one_point_witness :
  ∃ st, MarkdownExercise.run Sample.exercise_notebook Sample.exercise_rubric
        = Ok st
        ∧ MarkdownExercise.code_cells_completed st !! "1." = Some 1
        ∧ MarkdownExercise.section_completed st !! "1." = Some 2
        ∧ one_exercise_point st.
Proof.
  eexists. split; [vm_compute; reflexivity|].
  do 2 (split; [vm_compute; reflexivity|]).
  apply (markdown_exercise_worth_one_point Sample.exercise_notebook
           Sample.exercise_rubric).
  vm_compute. reflexivity.
Defined.


(* ===================================================================== *)
(** * The pattern of a downloaded submissions directory *)
(* ===================================================================== *)

Module SearchFacts.
Import PyStr Students PyStrFacts HeaderFacts.

Lemma strip_prefix_Some (p s rest : string) :
  strip_prefix p s = Some rest ↔ s = p +:+ rest.
Proof.
  revert s. induction p as [|x p IH]; intros s.
  - rewrite append_nil. cbn [strip_prefix]. split; [by intros [= ->]|].
    by intros ->.
  - rewrite append_cons. destruct s as [|y s]; cbn [strip_prefix]; [done|].
    destruct (ascii_dec x y) as [->|Hne].
    + rewrite IH. split; [by intros ->|by intros [= ->]].
    + split; [done|]. by intros [= -> _].
Qed.

(** A match at the very start, with its group. *)
Lemma downloaded_here_spec (s digits : string) :
  downloaded_here s = Some digits
  ↔ ∃ post, s = (downloaded_name +:+ "_") +:+ digits +:+ post
            ∧ Header.run_of is_digit digits
            ∧ Header.starts_outside is_digit post.
Proof.
  unfold downloaded_here. split.
  - destruct (strip_prefix _ s) as [rest|] eqn:Hp; [|done].
    apply strip_prefix_Some in Hp as ->.
    destruct (nonempty (take_while is_digit rest)) eqn:Hne; [|done].
    intros [= <-]. exists (drop_while is_digit rest).
    split; [by rewrite <- take_drop|]. split.
    + split; [by apply nonempty_true|apply all_take].
    + apply drop_outside.
  - intros (post & -> & [Hne Hall] & Hpost).
    assert (strip_prefix (downloaded_name +:+ "_")
              ((downloaded_name +:+ "_") +:+ digits +:+ post)
            = Some (digits +:+ post)) as -> by by apply strip_prefix_Some.
    destruct (take_drop_unique is_digit digits post Hall Hpost) as [-> _].
    apply nonempty_true in Hne. by rewrite Hne.
Qed.

Lemma search_downloaded_sound (s digits : string) :
  search_downloaded s = Some digits →
  ∃ pre post,
    s = pre +:+ (downloaded_name +:+ "_") +:+ digits +:+ post
    ∧ Header.run_of is_digit digits ∧ Header.starts_outside is_digit post.
Proof.
  induction s as [|a s IH].
  - cbn. done.
  - cbn [search_downloaded].
    destruct (downloaded_here (String a s)) as [d|] eqn:Hd.
    + intros [= <-]. apply downloaded_here_spec in Hd as (post & Hs & ?).
      exists EmptyString, post. by rewrite append_nil.
    + intros H. destruct (IH H) as (pre & post & -> & ?).
      exists (String a pre), post. by rewrite append_cons.
Qed.

Lemma search_downloaded_complete (pre digits rest : string) :
  Header.run_of is_digit digits →
  is_Some (search_downloaded
             (pre +:+ (downloaded_name +:+ "_") +:+ digits +:+ rest)).
Proof.
  intros [Hne Hall].
  assert (is_Some (downloaded_here
                     ((downloaded_name +:+ "_") +:+ digits +:+ rest)))
    as [d Hd].
  { unfold downloaded_here.
    assert (strip_prefix (downloaded_name +:+ "_")
              ((downloaded_name +:+ "_") +:+ digits +:+ rest)
            = Some (digits +:+ rest)) as -> by by apply strip_prefix_Some.
    destruct digits as [|c digits]; [done|].
    cbn [Header.all_chars] in Hall. apply andb_prop in Hall as [Hc _].
    rewrite append_cons. cbn [take_while]. rewrite Hc. cbn [nonempty].
    by eexists. }
  induction pre as [|a pre IH].
  - rewrite append_nil.
    assert (∀ t, downloaded_here t = Some d → search_downloaded t = Some d)
      as Hhere.
    { intros t Ht. destruct t; cbn [search_downloaded]; by rewrite Ht. }
    rewrite (Hhere _ Hd). by eexists.
  - rewrite append_cons. cbn [search_downloaded].
    destruct (downloaded_here (String a _)); [by eexists|done].
Qed.

End SearchFacts.

(** X25.  The search for
    [student_completed_RNAseq_submissions_downloaded_(\d+)] in a path:
    what it returns is a non-empty run of digits that follows that text
    and an underscore somewhere in the path, taken as far as the digits
    go; and it returns such a run whenever the path holds the text, the
    underscore and a digit. *)
Theorem search_downloaded_spec :
  (∀ s digits,
     Students.search_downloaded s = Some digits →
     ∃ pre post,
       s = pre +:+ (Students.downloaded_name +:+ "_") +:+ digits +:+ post
       ∧ Header.run_of PyStr.is_digit digits
       ∧ Header.starts_outside PyStr.is_digit post)
  ∧ (∀ pre digits rest,
       Header.run_of PyStr.is_digit digits →
       is_Some (Students.search_downloaded
                  (pre +:+ (Students.downloaded_name +:+ "_")
                   +:+ digits +:+ rest))).
Proof.
  split.
  - apply SearchFacts.search_downloaded_sound.
  - apply SearchFacts.search_downloaded_complete.
Qed.


(* ===================================================================== *)
(** * The program under its own configuration *)
(* ===================================================================== *)

Module ConfigFacts.

Lemma notebook_asset_cases (a : string) (asset : Config.notebook_asset) :
  (a, asset) ∈ Config.notebook_assets →
  (a = Caller.activity_1
   ∧ Config.expected asset = Config.activity_1_expected)
  ∨ (a = Caller.activity_2
     ∧ Config.expected asset = Config.activity_2_expected)
  ∨ (a = Caller.activity_3
     ∧ Config.expected asset = Config.activity_3_expected).
Proof.
  unfold Config.notebook_assets. intros H.
  apply elem_of_cons in H as [[= -> ->]|H]; [by left|].
  apply elem_of_cons in H as [[= -> ->]|H]; [by right; left|].
  apply elem_of_cons in H as [[= -> ->]|H]; [by right; right|].
  by apply elem_of_nil in H.
Qed.

Lemma Forall_elem {A : Type} (P : A → Prop) (l : list A) (x : A) :
  Forall P l → x ∈ l → P x.
Proof. intros H. by apply Forall_forall. Qed.

(** A found notebook of an activity: the loop over the sections succeeds,
    with the denominator it gives for an empty result. *)
Lemma graded_activity_scored (a : string) (cfg : expected_config)
    (loaded : res json) (n : nat) :
  NoDup (sections cfg).*1 →
  Forall (fun entry => points_of entry.2
                       ≤ Enhanced.expected_total_of entry.2)
         (sections cfg) →
  (a = Caller.activity_3 →
   Forall (fun entry => entry.1 = "2." →
                        2 ≤ Enhanced.expected_total_of entry.2)
          (sections cfg)) →
  Caller.count_sections cfg ∅ (Caller.filtered_sections a cfg) (0, 0)
  = Ok (0, n) →
  ∃ act, Caller.graded_activity a cfg loaded = Ok act
         ∧ Caller.score act ≤ n
         ∧ Caller.expected_score act = n
         ∧ is_Some (Caller.graded act).
Proof.
  intros Hnd Hpts Htwo Hempty. unfold Caller.graded_activity.
  pose proof (CallerFacts.count_sections_expected cfg
                (Caller.section2_fix a
                   (res_sections (grade_notebook loaded cfg)))
                ∅ (Caller.filtered_sections a cfg) (0, 0) (0, 0) eq_refl)
    as Hsame.
  rewrite Hempty in Hsame.
  destruct (Caller.count_sections cfg
              (Caller.section2_fix a
                 (res_sections (grade_notebook loaded cfg))) _ (0, 0))
    as [totals|e] eqn:Ht; [|done].
  cbn [bind snd] in *. eexists. split; [done|].
  cbn [Caller.score Caller.expected_score Caller.graded].
  split; [|split; [done|by eexists]].
  rewrite <- Hsame.
  apply (CallerFacts.count_sections_bounded a cfg loaded); [done| | |done].
  - intros k e Hin. by apply (Forall_elem _ _ (k, e) Hpts).
  - intros Ha e Hin. by apply (Forall_elem _ _ ("2.", e) (Htwo Ha)).
Qed.

(** The two branches of the caller, each with its denominator. *)
Lemma grade_activity_scored (a : string) (cfg : expected_config)
    (notebook_path : option string) (read : string → res json)
    (n m : nat) :
  (∀ loaded,
     ∃ act, Caller.graded_activity a cfg loaded = Ok act
            ∧ Caller.score act ≤ n ∧ Caller.expected_score act = n
            ∧ is_Some (Caller.graded act)) →
  Caller.missing_activity cfg = Ok (Caller.Activity 0 m None) →
  ∃ act,
    Caller.grade_activity a cfg notebook_path read = Ok act
    ∧ Caller.score act ≤ Caller.expected_score act
    ∧ Caller.expected_score act
      = match Caller.graded act with
        | Some _ => n
        | None => m
        end.
Proof.
  intros Hfound Hmissing. unfold Caller.grade_activity.
  assert (∃ act, Caller.missing_activity cfg = Ok act
                 ∧ Caller.score act ≤ Caller.expected_score act
                 ∧ Caller.expected_score act
                   = match Caller.graded act with
                     | Some _ => n
                     | None => m
                     end) as Hm.
  { eexists. split; [exact Hmissing|]. cbn. split; [lia|done]. }
  destruct notebook_path as [p|]; [|done].
  destruct (PyStr.nonempty p); [|done].
  destruct (Hfound (read p)) as (act & -> & Hle & He & [secs Hs]).
  exists act. split; [done|]. rewrite He, Hs. by split.
Qed.

End ConfigFacts.

Ltac solve_Forall tac :=
  repeat (apply Forall_cons_2; [tac|]); apply Forall_nil_2.

Ltac solve_shipped_activity n m :=
  apply (ConfigFacts.grade_activity_scored _ _ _ _ n m);
  [ intros loaded; apply ConfigFacts.graded_activity_scored;
    [ solve_NoDup
    | solve_Forall ltac:(vm_compute; lia)
    | intros Hthird;
      first [ discriminate Hthird
            | solve_Forall ltac:(cbn [fst snd]; intros Hkey;
                                 first [discriminate Hkey
                                       |vm_compute; lia]) ]
    | vm_compute; reflexivity ]
  | vm_compute; reflexivity ].

(** X26.  Under the configuration of the program the two specialised
    graders are never reached: no section descriptor of its three rubrics
    carries a [special] tag, so every notebook of every activity is
    graded by the default grader. *)
Theorem shipped_configuration_uses_default_grader (a : string)
    (asset : Config.notebook_asset) (loaded : res json) :
  (a, asset) ∈ Config.notebook_assets →
  grade_notebook loaded (Config.expected asset)
  = match loaded with
    | Ok notebook =>
        match grade_notebook_enhanced notebook (Config.expected asset) with
        | Ok r => r
        | Raise e => error_result e
        end
    | Raise e => error_result e
    end.
Proof.
  intros Hin. unfold grade_notebook.
  destruct loaded as [notebook|e]; cbn [bind]; [|done].
  rewrite grade_loaded_governing.
  assert (governing (sections (Config.expected asset)) = DefaultVariant)
    as ->; [|done].
  apply ConfigFacts.notebook_asset_cases in Hin
    as [[_ ->]|[[_ ->]|[_ ->]]]; reflexivity.
Qed.

Lemma shipped_configuration_uses_default_grader_witness :
  grade_notebook (Ok Sample.scenario_notebook) Config.activity_3_expected
  = match grade_notebook_enhanced Sample.scenario_notebook
            Config.activity_3_expected with
    | Ok r => r
    | Raise e => error_result e
    end.
Proof.
  apply (shipped_configuration_uses_default_grader "HANDS-ON_ACTIVITY_3"
           (Config.NotebookAsset "02-RNAseq_analysis"
              Config.activity_3_expected)
           (Ok Sample.scenario_notebook)).
  unfold Config.notebook_assets. solve_elem_of.
Defined.

(** X27.  Under the configuration of the program the caller never fails
    on an activity, and whatever the student handed in, the score of the
    activity is at most its expected points.  A notebook that was found
    is measured against 40 points for the first activity, 41 for the
    second and 127 for the third; a notebook that was not found counts
    zero out of 81 for the first and for the second activity, the whole
    rubric of the processing notebook, and zero out of 127 for the
    third. *)
Theorem shipped_activity_is_scored (a : string)
    (asset : Config.notebook_asset) (notebook_path : option string)
    (read : string → res json) :
  (a, asset) ∈ Config.notebook_assets →
  ∃ act,
    Caller.grade_activity a (Config.expected asset) notebook_path read
    = Ok act
    ∧ Caller.score act ≤ Caller.expected_score act
    ∧ Caller.expected_score act
      = match Caller.graded act with
        | Some _ =>
            if bool_decide (a = Caller.activity_1) then 40
            else if bool_decide (a = Caller.activity_2) then 41 else 127
        | None => if bool_decide (a = Caller.activity_3) then 127 else 81
        end.
Proof.
  intros Hin.
  apply ConfigFacts.notebook_asset_cases in Hin
    as [[-> ->]|[[-> ->]|[-> ->]]].
  - solve_shipped_activity 40 81.
  - solve_shipped_activity 41 81.
  - solve_shipped_activity 127 127.
Qed.

Lemma shipped_activity_is_scored_witness :
  ∃ act,
    Caller.grade_activity "HANDS-ON_ACTIVITY_1" Config.activity_1_expected
      (Some "/s/HANDS-ON_ACTIVITY_1/a.ipynb")
      (fun _ => Ok Sample.scenario_notebook)
    = Ok act
    ∧ Caller.score act ≤ Caller.expected_score act
    ∧ Caller.expected_score act = 40.
Proof.
  destruct (shipped_activity_is_scored "HANDS-ON_ACTIVITY_1"
              (Config.NotebookAsset "01-RNAseq_processing"
                 Config.activity_1_expected)
              (Some "/s/HANDS-ON_ACTIVITY_1/a.ipynb")
              (fun _ => Ok Sample.scenario_notebook))
    as (act & Hact & Hle & He).
  { unfold Config.notebook_assets. solve_elem_of. }
  exists act. split; [done|]. split; [done|].
  rewrite He. vm_compute in Hact. injection Hact as <-. reflexivity.
Defined.

(* ===================================================================== *)
(** * Grading against a store of shared objects *)
(* ===================================================================== *)

(** ** Computations *)

Lemma shared_preserves_ret {A : Type} (a : A) : Shared.preserves (Shared.ret a).
Proof. by intros h. Qed.

Lemma shared_preserves_raise {A : Type} (e : exn) :
  Shared.preserves (Shared.raise (A := A) e).
Proof. by intros h. Qed.

Lemma shared_preserves_lift {A : Type} (r : res A) :
  Shared.preserves (Shared.lift r).
Proof. by intros h. Qed.

Lemma shared_preserves_bind {A B : Type} (m : Shared.M A) (k : A → Shared.M B) :
  Shared.preserves m → (∀ a, Shared.preserves (k a)) →
  Shared.preserves (Shared.bind m k).
Proof.
  intros Hm Hk h. unfold Shared.bind.
  specialize (Hm h). destruct (m h) as [[a|e] h1]; cbn [snd] in *; [|done].
  etrans; [exact Hm|apply Hk].
Qed.

Lemma shared_preserves_new (o : Shared.object) : Shared.preserves (Shared.new o).
Proof.
  intros h. unfold Shared.new. cbn [snd].
  apply insert_subseteq, not_elem_of_dom, is_fresh.
Qed.

Lemma shared_preserves_subscript v k : Shared.preserves (Shared.subscript v k).
Proof. intros h. unfold Shared.subscript. by repeat case_match. Qed.

Lemma shared_preserves_dict_method v : Shared.preserves (Shared.dict_method v).
Proof. intros h. unfold Shared.dict_method. by repeat case_match. Qed.

Lemma shared_preserves_iter v : Shared.preserves (Shared.iter v).
Proof. intros h. unfold Shared.iter. by repeat case_match. Qed.

Lemma shared_preserves_len v : Shared.preserves (Shared.len v).
Proof. intros h. unfold Shared.len. by repeat case_match. Qed.

Lemma shared_preserves_contains v k : Shared.preserves (Shared.contains v k).
Proof. intros h. unfold Shared.contains. by repeat case_match. Qed.

Lemma shared_preserves_is_dict v : Shared.preserves (Shared.is_dict v).
Proof. by intros h. Qed.

Lemma shared_preserves_lower v : Shared.preserves (Shared.lower v).
Proof. intros h. by destruct v. Qed.

Lemma shared_preserves_as_int v : Shared.preserves (Shared.as_int v).
Proof. intros h. by destruct v. Qed.

Create HintDb shared_store discriminated.

#[local] Hint Resolve shared_preserves_ret shared_preserves_raise
  shared_preserves_lift shared_preserves_new shared_preserves_subscript
  shared_preserves_dict_method shared_preserves_iter shared_preserves_len
  shared_preserves_contains shared_preserves_is_dict shared_preserves_lower
  shared_preserves_as_int : shared_store.

(** Goes through a computation statement by statement. *)
Ltac preserving :=
  repeat first
    [ solve [auto with shared_store]
    | apply shared_preserves_bind; [|intros ?]
    | progress cbv zeta
    | match goal with
      | |- Shared.preserves (if ?b then _ else _) => destruct b
      | |- Shared.preserves (match ?x with _ => _ end) => destruct x
      end ].

Lemma shared_preserves_get v k d : Shared.preserves (Shared.get v k d).
Proof. unfold Shared.get. preserving. Qed.

Lemma shared_preserves_get_or_new_list v k :
  Shared.preserves (Shared.get_or_new_list v k).
Proof. unfold Shared.get_or_new_list. preserving. Qed.

Lemma shared_preserves_items v : Shared.preserves (Shared.items v).
Proof. apply shared_preserves_dict_method. Qed.

Lemma shared_preserves_join v : Shared.preserves (Shared.join v).
Proof. unfold Shared.join. preserving. Qed.

#[local] Hint Resolve shared_preserves_get shared_preserves_get_or_new_list
  shared_preserves_items shared_preserves_join : shared_store.

Lemma shared_preserves_joined_source cell :
  Shared.preserves (Shared.joined_source cell).
Proof. unfold Shared.joined_source. preserving. Qed.

#[local] Hint Resolve shared_preserves_joined_source : shared_store.

Lemma shared_preserves_has_content cell :
  Shared.preserves (Shared.has_content cell).
Proof. unfold Shared.has_content. preserving. Qed.

Lemma shared_preserves_is_analysis_notebook rubric :
  Shared.preserves (Shared.is_analysis_notebook rubric).
Proof. unfold Shared.is_analysis_notebook. preserving. Qed.

Lemma shared_preserves_in_sections rubric k :
  Shared.preserves (Shared.in_sections rubric k).
Proof. unfold Shared.in_sections. preserving. Qed.

#[local] Hint Resolve shared_preserves_has_content
  shared_preserves_is_analysis_notebook shared_preserves_in_sections
  : shared_store.

Lemma shared_preserves_init_tracking rubric k st :
  Shared.preserves (Shared.init_tracking rubric k st).
Proof. unfold Shared.init_tracking. preserving. Qed.

#[local] Hint Resolve shared_preserves_init_tracking : shared_store.

Lemma shared_preserves_track_headers rubric analysis source st :
  Shared.preserves (Shared.track_headers rubric analysis source st).
Proof. unfold Shared.track_headers. preserving. Qed.

Lemma shared_preserves_count_code k cell st :
  Shared.preserves (Shared.count_code k cell st).
Proof. unfold Shared.count_code. preserving. Qed.

Lemma shared_preserves_count_raw k cell st :
  Shared.preserves (Shared.count_raw k cell st).
Proof. unfold Shared.count_raw. preserving. Qed.

#[local] Hint Resolve shared_preserves_track_headers
  shared_preserves_count_code shared_preserves_count_raw : shared_store.

Lemma shared_preserves_step rubric analysis st cell :
  Shared.preserves (Shared.step rubric analysis st cell).
Proof. unfold Shared.step. preserving. Qed.

#[local] Hint Resolve shared_preserves_step : shared_store.

Lemma shared_preserves_scan rubric analysis cells st :
  Shared.preserves (Shared.scan rubric analysis cells st).
Proof.
  revert st. induction cells as [|cell rest IH]; intros st;
    cbn [Shared.scan]; preserving.
Qed.

#[local] Hint Resolve shared_preserves_scan : shared_store.

Lemma shared_preserves_run notebook rubric :
  Shared.preserves (Shared.run notebook rubric).
Proof. unfold Shared.run. preserving. Qed.

Lemma shared_preserves_score_section t section expected :
  Shared.preserves (Shared.score_section t section expected).
Proof. unfold Shared.score_section. preserving. Qed.

#[local] Hint Resolve shared_preserves_run shared_preserves_score_section
  : shared_store.

Lemma shared_preserves_score_sections entries t :
  Shared.preserves (Shared.score_sections entries t).
Proof.
  revert t. induction entries as [|[section expected] rest IH]; intros t;
    cbn [Shared.score_sections]; preserving.
Qed.

#[local] Hint Resolve shared_preserves_score_sections : shared_store.

Lemma shared_preserves_calculate_points rubric st :
  Shared.preserves (Shared.calculate_points rubric st).
Proof. unfold Shared.calculate_points. preserving. Qed.

#[local] Hint Resolve shared_preserves_calculate_points : shared_store.

Lemma shared_preserves_grade notebook rubric :
  Shared.preserves (Shared.grade_notebook_enhanced notebook rubric).
Proof. unfold Shared.grade_notebook_enhanced. preserving. Qed.

(** ** Documents in the store *)

Lemma shared_all2_Forall2 {A B : Type} (f : A → B → bool) l l' :
  Shared.all2 f l l' = true ↔ Forall2 (λ a b, f a b = true) l l'.
Proof.
  revert l'. induction l as [|a l IH]; intros [|b l']; cbn [Shared.all2].
  - split; [constructor|done].
  - split; [done|inversion 1].
  - split; [done|inversion 1].
  - rewrite andb_true_iff, IH. split.
    + intros [? ?]. by constructor.
    + inversion 1; by subst.
Qed.

Lemma json_nested_ind (P : json → Prop) :
  P JNull → (∀ b, P (JBool b)) → (∀ n, P (JNum n)) → (∀ s, P (JStr s)) →
  (∀ elements, Forall P elements → P (JArr elements)) →
  (∀ fields, Forall (λ kj, P kj.2) fields → P (JObj fields)) →
  ∀ j, P j.
Proof.
  intros Hnull Hbool Hnum Hstr Harr Hobj. fix IH 1.
  intros [|b|n|s|elements|fields];
    [exact Hnull|apply Hbool|apply Hnum|apply Hstr| |].
  - apply Harr. induction elements as [|j rest IHrest]; constructor.
    + apply IH.
    + exact IHrest.
  - apply Hobj. induction fields as [|[k j] rest IHrest]; constructor.
    + apply IH.
    + exact IHrest.
Qed.

Lemma shared_represents_arr h elements v :
  Shared.represents h (JArr elements) v = true
  ↔ ∃ l vs, v = Shared.VRef l ∧ h !! l = Some (Shared.OList vs)
            ∧ Forall2 (λ j x, Shared.represents h j x = true) elements vs.
Proof.
  split.
  - destruct v as [| | | |l]; cbn [Shared.represents]; try done.
    destruct (h !! l) as [[fs|vs]|] eqn:Hl; try done.
    intros H%shared_all2_Forall2. by exists l, vs.
  - intros (l & vs & -> & Hl & H). cbn [Shared.represents]. rewrite Hl.
    by apply shared_all2_Forall2.
Qed.

Lemma shared_represents_obj h fields v :
  Shared.represents h (JObj fields) v = true
  ↔ ∃ l fs, v = Shared.VRef l ∧ h !! l = Some (Shared.ODict fs)
            ∧ Forall2 (Shared.field_represented h) fields fs.
Proof.
  assert (∀ fs,
    Shared.all2 (λ '(k, j') '(k', v'),
                   bool_decide (k = k') && Shared.represents h j' v')
      fields fs = true
    ↔ Forall2 (Shared.field_represented h) fields fs) as Hall.
  { intros fs. rewrite shared_all2_Forall2. split.
    - intros H. eapply Forall2_impl; [exact H|]. intros [k j] [k' x].
      rewrite andb_true_iff, bool_decide_eq_true. by intros [? ?].
    - intros H. eapply Forall2_impl; [exact H|].
      intros [k j] [k' x] [H1 H2]. cbn in *.
      by rewrite andb_true_iff, bool_decide_eq_true. }
  split.
  - destruct v as [| | | |l]; cbn [Shared.represents]; try done.
    destruct (h !! l) as [[fs|vs]|] eqn:Hl; try done.
    intros H%Hall. by exists l, fs.
  - intros (l & fs & -> & Hl & H). cbn [Shared.represents]. rewrite Hl.
    by apply Hall.
Qed.

(** A store that keeps the objects of another one holds the documents
    that one holds. *)
Lemma shared_represents_mono h h' :
  h ⊆ h' → ∀ j v,
  Shared.represents h j v = true → Shared.represents h' j v = true.
Proof.
  intros Hsub j. induction j as [|b|n|s|elements IH|fields IH]
    using json_nested_ind; intros v; try (by destruct v).
  - rewrite !shared_represents_arr. intros (l & vs & -> & Hl & H).
    exists l, vs. split; [done|]. split; [by eapply lookup_weaken|].
    clear Hl. induction H as [|j x js xs Hjx _ IHrest]; constructor.
    + apply Forall_cons in IH as [IHj _]. by apply IHj.
    + apply Forall_cons in IH as [_ IH]. by apply IHrest.
  - rewrite !shared_represents_obj. intros (l & fs & -> & Hl & H).
    exists l, fs. split; [done|]. split; [by eapply lookup_weaken|].
    clear Hl. induction H as [|kj kv js xs [Hk Hjx] _ IHrest]; constructor.
    + apply Forall_cons in IH as [IHj _]. split; [done|]. by apply IHj.
    + apply Forall_cons in IH as [_ IH]. by apply IHrest.
Qed.

Lemma shared_represented_assoc h fields fs k :
  Forall2 (Shared.field_represented h) fields fs →
  match Py.assoc k fields with
  | Some j => ∃ v, Py.assoc k fs = Some v ∧ Shared.represents h j v = true
  | None => Py.assoc k fs = None
  end.
Proof.
  induction 1 as [|[k1 j] [k2 x] fields fs [Hk Hjx] _ IH]; [done|].
  cbn in Hk, Hjx. subst k2. cbn [Py.assoc].
  destruct (decide (k1 = k)); [by exists x|done].
Qed.

Lemma shared_represented_keys h fields fs :
  Forall2 (Shared.field_represented h) fields fs → fs.*1 = fields.*1.
Proof.
  induction 1 as [|[k1 j] [k2 x] fields fs [Hk Hjx] _ IH]; [done|].
  cbn in *. by subst; f_equal.
Qed.

(** ** Expressions on a document *)

Lemma shared_represents_inv h j v :
  Shared.represents h j v = true →
  match j with
  | JNull => v = Shared.VNone
  | JBool b => v = Shared.VBool b
  | JNum n => v = Shared.VNum n
  | JStr s => v = Shared.VStr s
  | JArr elements =>
      ∃ l vs, v = Shared.VRef l ∧ h !! l = Some (Shared.OList vs)
              ∧ Forall2 (λ j x, Shared.represents h j x = true) elements vs
  | JObj fields =>
      ∃ l fs, v = Shared.VRef l ∧ h !! l = Some (Shared.ODict fs)
              ∧ Forall2 (Shared.field_represented h) fields fs
  end.
Proof.
  destruct j as [|b|n|s|elements|fields].
  - by destruct v.
  - destruct v; cbn [Shared.represents]; try done.
    by intros ->%bool_decide_eq_true.
  - destruct v; cbn [Shared.represents]; try done.
    by intros ->%bool_decide_eq_true.
  - destruct v; cbn [Shared.represents]; try done.
    by intros ->%bool_decide_eq_true.
  - by intros ?%shared_represents_arr.
  - by intros ?%shared_represents_obj.
Qed.

Lemma shared_computes_ret {A : Type} h (a : A) :
  Shared.computes h (Shared.ret a) (Ok a).
Proof. by split. Qed.

Lemma shared_computes_lift {A : Type} h (r : res A) :
  Shared.computes h (Shared.lift r) r.
Proof. by split. Qed.

Lemma shared_computes_bind {A B : Type} h (m : Shared.M A)
    (k : A → Shared.M B) (r : res A) (k' : A → res B) :
  Shared.computes h m r →
  (∀ h' a, h ⊆ h' → r = Ok a → Shared.computes h' (k a) (k' a)) →
  Shared.computes h (Shared.bind m k) (bind r k').
Proof.
  intros [Hr Hsub] Hk. unfold Shared.computes, Shared.bind in *.
  destruct (m h) as [[a|e] h1]; cbn [fst snd] in *; subst r; cbn [bind].
  - destruct (Hk h1 a Hsub eq_refl) as [H1 H2]. split; [done|by etrans].
  - done.
Qed.

Lemma shared_reads_bind {B : Type} h (m : Shared.M Shared.value)
    (k : Shared.value → Shared.M B) (r : res json) (k' : json → res B) :
  Shared.reads h m r →
  (∀ h' j v, h ⊆ h' → r = Ok j → Shared.represents h' j v = true →
             Shared.computes h' (k v) (k' j)) →
  Shared.computes h (Shared.bind m k) (bind r k').
Proof.
  intros [Hsub Hr] Hk. unfold Shared.computes, Shared.bind in *.
  destruct r as [j|e]; cbn [bind].
  - destruct Hr as (v & Hv & Hjv).
    destruct (m h) as [[a|e] h1]; cbn [fst snd] in *; [|done].
    injection Hv as ->.
    destruct (Hk h1 j v Hsub eq_refl Hjv) as [H1 H2]. split; [done|by etrans].
  - destruct (m h) as [[a|e'] h1]; cbn [fst snd] in *; [done|].
    by injection Hr as ->.
Qed.

(** An expression already evaluated, evaluated once more. *)
Lemma shared_reads_again {B : Type} h (m : Shared.M Shared.value)
    (k : Shared.value → Shared.M B) (j : json) (r : res B) :
  Shared.reads h m (Ok j) →
  (∀ h' v, h ⊆ h' → Shared.represents h' j v = true →
           Shared.computes h' (k v) r) →
  Shared.computes h (Shared.bind m k) r.
Proof.
  intros Hm Hk.
  apply (shared_reads_bind h m k (Ok j) (λ _, r) Hm).
  intros h' j' v Hsub [= <-]. by apply Hk.
Qed.

Lemma shared_reads_subscript h j v k :
  Shared.represents h j v = true →
  Shared.reads h (Shared.subscript v k) (Py.subscript j k).
Proof.
  intros H%shared_represents_inv. unfold Shared.reads, Shared.subscript.
  destruct j as [|b|n|s|elements|fields]; cbn [Py.subscript];
    try (subst v; by cbn).
  - destruct H as (l & vs & -> & Hl & _). cbn [Shared.object_of].
    by rewrite Hl.
  - destruct H as (l & fs & -> & Hl & H). cbn [Shared.object_of].
    rewrite Hl. pose proof (shared_represented_assoc h fields fs k H) as Hk.
    destruct (Py.assoc k fields) as [j|].
    + destruct Hk as (x & -> & Hx). cbn [fst snd]. split; [done|]. by exists x.
    + by rewrite Hk.
Qed.

Lemma shared_reads_get h j v k dj dv :
  Shared.represents h j v = true →
  Shared.represents h dj dv = true →
  Shared.reads h (Shared.get v k dv) (Py.get j k dj).
Proof.
  intros H%shared_represents_inv Hd.
  unfold Shared.reads, Shared.get, Shared.bind, Shared.dict_method.
  destruct j as [|b|n|s|elements|fields]; cbn [Py.get];
    try (subst v; by cbn).
  - destruct H as (l & vs & -> & Hl & _). cbn [Shared.object_of].
    by rewrite Hl.
  - destruct H as (l & fs & -> & Hl & H). cbn [Shared.object_of].
    rewrite Hl. pose proof (shared_represented_assoc h fields fs k H) as Hk.
    unfold Shared.ret. cbn [fst snd]. split; [done|].
    destruct (Py.assoc k fields) as [j|].
    + destruct Hk as (x & -> & Hx). by exists x.
    + rewrite Hk. by exists dv.
Qed.

Lemma shared_reads_get_or_new_list h j v k :
  Shared.represents h j v = true →
  Shared.reads h (Shared.get_or_new_list v k) (Py.get j k (JArr [])).
Proof.
  intros H%shared_represents_inv.
  unfold Shared.reads, Shared.get_or_new_list, Shared.bind,
    Shared.dict_method.
  destruct j as [|b|n|s|elements|fields]; cbn [Py.get];
    try (subst v; by cbn).
  - destruct H as (l & vs & -> & Hl & _). cbn [Shared.object_of].
    by rewrite Hl.
  - destruct H as (l & fs & -> & Hl & H). cbn [Shared.object_of].
    rewrite Hl. pose proof (shared_represented_assoc h fields fs k H) as Hk.
    unfold Shared.new, Shared.ret. cbn [fst snd].
    assert (h ⊆ <[fresh (dom h) := Shared.OList []]> h) as Hsub
      by apply insert_subseteq, not_elem_of_dom, is_fresh.
    split; [done|].
    destruct (Py.assoc k fields) as [j|].
    + destruct Hk as (x & -> & Hx). exists x. split; [done|].
      by eapply shared_represents_mono.
    + rewrite Hk. eexists. split; [done|]. cbn [default from_option id].
      apply shared_represents_arr. eexists _, []. split; [done|].
      split; [apply lookup_insert_eq|constructor].
Qed.

Lemma shared_iter_represented h j v :
  Shared.represents h j v = true →
  match Py.iter j with
  | Ok js =>
      ∃ vs, Shared.iter v h = (Ok vs, h)
            ∧ Forall2 (λ j x, Shared.represents h j x = true) js vs
  | Raise e => Shared.iter v h = (Raise e, h)
  end.
Proof.
  intros H%shared_represents_inv. unfold Shared.iter.
  destruct j as [|b|n|s|elements|fields]; cbn [Py.iter];
    try (subst v; by cbn).
  - subst v. eexists. split; [done|].
    apply Forall2_fmap, Forall_Forall2_diag, Forall_forall. intros c _. cbn.
    by apply bool_decide_eq_true.
  - destruct H as (l & vs & -> & Hl & H). rewrite Hl. by exists vs.
  - destruct H as (l & fs & -> & Hl & H). rewrite Hl. eexists.
    split; [done|]. rewrite (shared_represented_keys _ _ _ H).
    apply Forall2_fmap, Forall_Forall2_diag, Forall_forall. intros c _. cbn.
    by apply bool_decide_eq_true.
Qed.

Lemma shared_join_items_represented h js vs :
  Forall2 (λ j x, Shared.represents h j x = true) js vs →
  Shared.join_items vs = Py.join_items js.
Proof.
  induction 1 as [|j x js vs Hjx _ IH]; [done|].
  apply shared_represents_inv in Hjx.
  destruct j as [|b|n|s|elements|fields]; cbn [Py.join_items];
    try (subst x; by cbn).
  - subst x. cbn [Shared.join_items]. by rewrite IH.
  - by destruct Hjx as (l & ? & -> & _).
  - by destruct Hjx as (l & ? & -> & _).
Qed.

Lemma shared_computes_join h j v :
  Shared.represents h j v = true →
  Shared.computes h (Shared.join v) (Py.join j).
Proof.
  intros H%shared_iter_represented.
  unfold Shared.computes, Shared.join, Shared.bind, Py.join.
  destruct (Py.iter j) as [js|e].
  - destruct H as (vs & -> & H). unfold Shared.lift. cbn [fst snd bind].
    split; [|done]. by apply (shared_join_items_represented h).
  - by rewrite H.
Qed.

Lemma shared_computes_len h j v :
  Shared.represents h j v = true →
  Shared.computes h (Shared.len v) (Py.len j).
Proof.
  intros H%shared_represents_inv. unfold Shared.computes, Shared.len.
  destruct j as [|b|n|s|elements|fields]; cbn [Py.len];
    try (subst v; by cbn).
  - destruct H as (l & vs & -> & Hl & H). rewrite Hl. cbn [fst snd].
    split; [|done]. f_equal. symmetry. by eapply Forall2_length.
  - destruct H as (l & fs & -> & Hl & H). rewrite Hl. cbn [fst snd].
    split; [|done]. f_equal. symmetry. by eapply Forall2_length.
Qed.

Lemma shared_eq_str_represented h j v s :
  Shared.represents h j v = true → Shared.eq_str v s = Py.eq_str j s.
Proof.
  intros H%shared_represents_inv.
  destruct j as [|b|n|s'|elements|fields]; try (by subst v).
  - by destruct H as (l & ? & -> & _).
  - by destruct H as (l & ? & -> & _).
Qed.

Lemma shared_is_not_none_represented h j v :
  Shared.represents h j v = true →
  Shared.is_not_none v = Py.is_not_none j.
Proof.
  intros H%shared_represents_inv.
  destruct j as [|b|n|s'|elements|fields]; try (by subst v).
  - by destruct H as (l & ? & -> & _).
  - by destruct H as (l & ? & -> & _).
Qed.

(** ** The unit classifier *)

Lemma shared_computes_joined_source h cell c :
  Shared.represents h cell c = true →
  Shared.computes h (Shared.joined_source c) (joined_source cell).
Proof.
  intros Hc. unfold Shared.joined_source, joined_source.
  eapply shared_reads_bind; [by apply shared_reads_get_or_new_list|].
  intros h' j v _ _ Hjv. by apply shared_computes_join.
Qed.

Lemma shared_computes_has_content h cell c :
  Shared.represents h cell c = true →
  Shared.computes h (Shared.has_content c) (has_content cell).
Proof.
  intros Hc. unfold Shared.has_content, has_content.
  eapply shared_computes_bind; [by apply shared_computes_joined_source|].
  intros h1 joined Hsub1 _. cbv zeta.
  pose proof (shared_represents_mono _ _ Hsub1 _ _ Hc) as Hc1.
  destruct (PyStr.startswith "Question" (PyStr.strip joined));
    [apply shared_computes_ret|].
  eapply shared_reads_bind; [by apply shared_reads_subscript|].
  intros h2 ct ctv Hsub2 Hct Hctv.
  pose proof (shared_represents_mono _ _ Hsub2 _ _ Hc1) as Hc2.
  rewrite (shared_eq_str_represented _ _ _ "code" Hctv).
  destruct (Py.eq_str ct "code").
  { eapply shared_reads_bind; [by apply shared_reads_get_or_new_list|].
    intros h3 outputs outputs_v Hsub3 _ Houtputs.
    pose proof (shared_represents_mono _ _ Hsub3 _ _ Hc2) as Hc3.
    eapply shared_reads_bind;
      [by apply (shared_reads_get _ _ _ _ JNull Shared.VNone)|].
    intros h4 ec ecv Hsub4 _ Hec.
    destruct (PyStr.nonempty (PyStr.strip joined));
      [|apply shared_computes_ret].
    eapply shared_computes_bind.
    { apply shared_computes_len. by eapply shared_represents_mono. }
    intros h5 n _ _. destruct (0 <? n); [apply shared_computes_ret|].
    rewrite (shared_is_not_none_represented _ _ _ Hec).
    apply shared_computes_ret. }
  eapply shared_reads_again.
  { rewrite <- Hct. by apply shared_reads_subscript. }
  intros h3 ctv' Hsub3 Hctv'.
  pose proof (shared_represents_mono _ _ Hsub3 _ _ Hc2) as Hc3.
  rewrite (shared_eq_str_represented _ _ _ "markdown" Hctv').
  destruct (Py.eq_str ct "markdown"); [apply shared_computes_ret|].
  eapply shared_reads_again.
  { rewrite <- Hct. by apply shared_reads_subscript. }
  intros h4 ctv'' Hsub4 Hctv''.
  rewrite (shared_eq_str_represented _ _ _ "raw" Hctv'').
  destruct (Py.eq_str ct "raw"); apply shared_computes_ret.
Qed.

(** ** The rubric in the store *)

Lemma shared_lower_char_idem c :
  PyStr.lower_char (PyStr.lower_char c) = PyStr.lower_char c.
Proof. by destruct c as [[] [] [] [] [] [] [] []]. Qed.

Lemma shared_lower_idem s : PyStr.lower (PyStr.lower s) = PyStr.lower s.
Proof.
  induction s as [|c s IH]; [done|]. cbn [PyStr.lower].
  by rewrite shared_lower_char_idem, IH.
Qed.

Lemma shared_represents_expected_mono h h' e v :
  h ⊆ h' →
  Shared.represents_expected h e v = true →
  Shared.represents_expected h' e v = true.
Proof.
  intros Hsub. destruct e as [d|p]; [|done]. cbn [Shared.represents_expected].
  destruct v as [| | | |l]; cbn [Shared.object_of]; try done.
  destruct (h !! l) as [o|] eqn:Hl; [|done].
  assert (h' !! l = Some o) as -> by (by eapply lookup_weaken). done.
Qed.

Lemma shared_represents_config_spec h cfg v :
  Shared.represents_config h cfg v = true
  ↔ ∃ l fs ls entries,
      v = Shared.VRef l ∧ h !! l = Some (Shared.ODict fs)
      ∧ Py.assoc "asset_id" fs = Shared.VStr <$> asset_id cfg
      ∧ Py.assoc "sections" fs = Some (Shared.VRef ls)
      ∧ h !! ls = Some (Shared.ODict entries)
      ∧ Forall2 (Shared.entry_represented h) (sections cfg) entries.
Proof.
  assert (∀ entries,
    Shared.represents_sections h (sections cfg) entries = true
    ↔ Forall2 (Shared.entry_represented h) (sections cfg) entries) as Hall.
  { intros entries. unfold Shared.represents_sections.
    rewrite shared_all2_Forall2. split.
    - intros H. eapply Forall2_impl; [exact H|]. intros [k e] [k' x].
      rewrite andb_true_iff, bool_decide_eq_true. by intros [? ?].
    - intros H. eapply Forall2_impl; [exact H|].
      intros [k e] [k' x] [H1 H2]. cbn in *.
      by rewrite andb_true_iff, bool_decide_eq_true. }
  unfold Shared.represents_config. split.
  - destruct v as [| | | |l]; cbn [Shared.object_of]; try done.
    destruct (h !! l) as [[fs|?]|] eqn:Hl; try done.
    rewrite andb_true_iff, bool_decide_eq_true. intros [Ha Hs].
    destruct (Py.assoc "sections" fs) as [[| | | |ls]|] eqn:Hsec;
      cbn [Shared.object_of] in Hs; try done.
    destruct (h !! ls) as [[entries|?]|] eqn:Hls; try done.
    exists l, fs, ls, entries. by rewrite <- Hall.
  - intros (l & fs & ls & entries & -> & Hl & Ha & Hsec & Hls & H).
    cbn [Shared.object_of]. rewrite Hl, Hsec. cbn [Shared.object_of].
    rewrite Hls, andb_true_iff, bool_decide_eq_true. by rewrite Hall.
Qed.

Lemma shared_represents_config_mono h h' cfg v :
  h ⊆ h' →
  Shared.represents_config h cfg v = true →
  Shared.represents_config h' cfg v = true.
Proof.
  intros Hsub. rewrite !shared_represents_config_spec.
  intros (l & fs & ls & entries & -> & Hl & Ha & Hsec & Hls & H).
  exists l, fs, ls, entries. repeat split; try done.
  - by eapply lookup_weaken.
  - by eapply lookup_weaken.
  - eapply Forall2_impl; [exact H|]. intros ke kv [Hk He]. split; [done|].
    by eapply shared_represents_expected_mono.
Qed.

Lemma shared_computes_bind_ok {A B : Type} h (m : Shared.M A)
    (k : A → Shared.M B) (a : A) (r : res B) :
  Shared.computes h m (Ok a) →
  (∀ h', h ⊆ h' → Shared.computes h' (k a) r) →
  Shared.computes h (Shared.bind m k) r.
Proof.
  intros Hm Hk.
  apply (shared_computes_bind h m k (Ok a) (λ _, r) Hm).
  intros h' a' Hsub [= <-]. by apply Hk.
Qed.

Lemma shared_computes_is_analysis_notebook h cfg v :
  Shared.represents_config h cfg v = true →
  Shared.computes h (Shared.is_analysis_notebook v)
    (Ok (Enhanced.is_analysis_notebook cfg)).
Proof.
  intros (l & fs & ls & entries & -> & Hl & Ha & _)%shared_represents_config_spec.
  unfold Shared.computes, Shared.is_analysis_notebook, Shared.get,
    Shared.bind, Shared.dict_method, Enhanced.is_analysis_notebook.
  cbn [Shared.object_of]. rewrite Hl, Ha. unfold Shared.ret.
  destruct (asset_id cfg) as [a|]; cbn; by rewrite ?shared_lower_idem.
Qed.

Lemma shared_computes_in_sections h cfg v k :
  Shared.represents_config h cfg v = true →
  Shared.computes h (Shared.in_sections v k) (Ok (in_rubric cfg k)).
Proof.
  intros (l & fs & ls & entries & -> & Hl & _ & Hsec & Hls & H)
           %shared_represents_config_spec.
  unfold Shared.computes, Shared.in_sections, Shared.subscript,
    Shared.bind, Shared.contains, in_rubric.
  cbn [Shared.object_of]. rewrite Hl, Hsec, Hls. cbn [fst snd].
  split; [|done].
  assert (entries.*1 = (sections cfg).*1) as ->; [|done].
  clear -H. induction H as [|[k1 e] [k2 x] ? ? [Hk _] _ IH]; [done|].
  cbn in Hk. subst k2. cbn. by f_equal.
Qed.

(** ** The cell loop *)

Lemma shared_computes_init_tracking h cfg v k st :
  Shared.represents_config h cfg v = true →
  Shared.computes h (Shared.init_tracking v k st)
    (Ok (Enhanced.init_tracking cfg k st)).
Proof.
  intros Hv. unfold Shared.init_tracking.
  eapply shared_computes_bind_ok; [by apply shared_computes_in_sections|].
  intros h' _. apply shared_computes_ret.
Qed.

Lemma shared_computes_track_headers h cfg v source st :
  Shared.represents_config h cfg v = true →
  Shared.computes h
    (Shared.track_headers v (Enhanced.is_analysis_notebook cfg) source st)
    (Ok (Enhanced.track_headers cfg source st)).
Proof.
  intros Hv. unfold Shared.track_headers, Enhanced.track_headers.
  set (st1 := if PyStr.contains Enhanced.deseq_anchor source
                 && PyStr.contains "# 2. DESeq2" source
              then Enhanced.init_tracking cfg "2."
                     (Enhanced.set_current_section "2." st)
              else st).
  set (st2 := match last (Enhanced.main_sections
                            (Enhanced.is_analysis_notebook cfg) source) with
              | Some k =>
                  Enhanced.init_tracking cfg k
                    (Enhanced.set_current_section k st1)
              | None => st1
              end).
  cbv zeta.
  apply (shared_computes_bind_ok _ _ _ st1).
  { subst st1.
    destruct (PyStr.contains Enhanced.deseq_anchor source
              && PyStr.contains "# 2. DESeq2" source);
      [by apply shared_computes_init_tracking|apply shared_computes_ret]. }
  intros h1 Hsub1.
  pose proof (shared_represents_config_mono _ _ _ _ Hsub1 Hv) as Hv1.
  apply (shared_computes_bind_ok _ _ _ st2).
  { subst st2.
    destruct (last (Enhanced.main_sections _ source));
      [by apply shared_computes_init_tracking|apply shared_computes_ret]. }
  intros h2 Hsub2.
  pose proof (shared_represents_config_mono _ _ _ _ Hsub2 Hv1) as Hv2.
  destruct (last (Enhanced.subsections _ source));
    [by apply shared_computes_init_tracking|apply shared_computes_ret].
Qed.

Lemma shared_computes_count_code h k cell c st :
  Shared.represents h cell c = true →
  Shared.computes h (Shared.count_code k c st) (Enhanced.count_code k cell st).
Proof.
  intros Hc. unfold Shared.count_code, Enhanced.count_code.
  eapply shared_computes_bind; [apply shared_computes_lift|].
  intros h1 counts Hsub1 _.
  eapply shared_computes_bind.
  { apply shared_computes_has_content. by eapply shared_represents_mono. }
  intros h2 complete _ _. destruct complete.
  - eapply shared_computes_bind; [apply shared_computes_lift|].
    intros h3 completed _ _. apply shared_computes_ret.
  - eapply shared_computes_bind; [apply shared_computes_lift|].
    intros h3 m _ _.
    eapply shared_computes_bind; [apply shared_computes_lift|].
    intros h4 n _ _. apply shared_computes_ret.
Qed.

Lemma shared_computes_count_raw h k cell c st :
  Shared.represents h cell c = true →
  Shared.computes h (Shared.count_raw k c st) (Enhanced.count_raw k cell st).
Proof.
  intros Hc. unfold Shared.count_raw, Enhanced.count_raw.
  eapply shared_computes_bind; [apply shared_computes_lift|].
  intros h1 counts Hsub1 _.
  eapply shared_computes_bind.
  { apply shared_computes_has_content. by eapply shared_represents_mono. }
  intros h2 complete _ _. destruct complete.
  - eapply shared_computes_bind; [apply shared_computes_lift|].
    intros h3 completed _ _. apply shared_computes_ret.
  - eapply shared_computes_bind; [apply shared_computes_lift|].
    intros h3 m _ _.
    eapply shared_computes_bind; [apply shared_computes_lift|].
    intros h4 n _ _. apply shared_computes_ret.
Qed.

Lemma shared_computes_step h cfg v st cell c :
  Shared.represents_config h cfg v = true →
  Shared.represents h cell c = true →
  Shared.computes h
    (Shared.step v (Enhanced.is_analysis_notebook cfg) st c)
    (Enhanced.step cfg st cell).
Proof.
  intros Hv Hc. unfold Shared.step, Enhanced.step.
  eapply shared_reads_bind; [by apply shared_reads_subscript|].
  intros h1 ct ctv Hsub1 Hct Hctv.
  pose proof (shared_represents_mono _ _ Hsub1 _ _ Hc) as Hc1.
  pose proof (shared_represents_config_mono _ _ _ _ Hsub1 Hv) as Hv1.
  eapply shared_computes_bind.
  { rewrite (shared_eq_str_represented _ _ _ "markdown" Hctv).
    destruct (Py.eq_str ct "markdown"); [|apply shared_computes_ret].
    eapply shared_computes_bind; [by apply shared_computes_joined_source|].
    intros h2 source Hsub2 _. apply shared_computes_track_headers.
    by eapply shared_represents_config_mono. }
  intros h2 st1 Hsub2 _.
  pose proof (shared_represents_mono _ _ Hsub2 _ _ Hc1) as Hc2.
  pose proof (shared_represents_config_mono _ _ _ _ Hsub2 Hv1) as Hv2.
  destruct (Enhanced.active_section st1) as [k|]; [|apply shared_computes_ret].
  destruct (Py.truthy (Some k)); cbn [andb]; [|apply shared_computes_ret].
  eapply shared_computes_bind_ok; [by apply shared_computes_in_sections|].
  intros h3 Hsub3.
  pose proof (shared_represents_mono _ _ Hsub3 _ _ Hc2) as Hc3.
  destruct (in_rubric cfg k); [|apply shared_computes_ret].
  eapply shared_reads_again.
  { rewrite <- Hct. by apply shared_reads_subscript. }
  intros h4 ctv' Hsub4 Hctv'.
  pose proof (shared_represents_mono _ _ Hsub4 _ _ Hc3) as Hc4.
  rewrite (shared_eq_str_represented _ _ _ "code" Hctv').
  destruct (Py.eq_str ct "code"); [by apply shared_computes_count_code|].
  eapply shared_reads_again.
  { rewrite <- Hct. by apply shared_reads_subscript. }
  intros h5 ctv'' Hsub5 Hctv''.
  pose proof (shared_represents_mono _ _ Hsub5 _ _ Hc4) as Hc5.
  rewrite (shared_eq_str_represented _ _ _ "raw" Hctv'').
  destruct (Py.eq_str ct "raw");
    [by apply shared_computes_count_raw|apply shared_computes_ret].
Qed.

Lemma shared_computes_scan cfg v cells cs :
  ∀ h st,
  Shared.represents_config h cfg v = true →
  Forall2 (λ j x, Shared.represents h j x = true) cells cs →
  Shared.computes h
    (Shared.scan v (Enhanced.is_analysis_notebook cfg) cs st)
    (Enhanced.scan cfg cells st).
Proof.
  revert cs. induction cells as [|cell cells IH]; intros cs h st Hv Hcs.
  - apply Forall2_nil_inv_l in Hcs as ->. apply shared_computes_ret.
  - apply Forall2_cons_inv_l in Hcs as (c & cs' & Hc & Hcs & ->).
    cbn [Shared.scan Enhanced.scan].
    eapply shared_computes_bind; [by apply shared_computes_step|].
    intros h1 st1 Hsub1 _. apply IH.
    + by eapply shared_represents_config_mono.
    + eapply Forall2_impl; [exact Hcs|]. intros j x.
      by apply shared_represents_mono.
Qed.

Lemma shared_computes_run h cfg v notebook nv :
  Shared.represents_config h cfg v = true →
  Shared.represents h notebook nv = true →
  Shared.computes h (Shared.run nv v) (Enhanced.run notebook cfg).
Proof.
  intros Hv Hnb. unfold Shared.run, Enhanced.run.
  eapply shared_computes_bind_ok;
    [by apply shared_computes_is_analysis_notebook|].
  intros h1 Hsub1.
  pose proof (shared_represents_mono _ _ Hsub1 _ _ Hnb) as Hnb1.
  pose proof (shared_represents_config_mono _ _ _ _ Hsub1 Hv) as Hv1.
  eapply shared_reads_bind; [by apply shared_reads_subscript|].
  intros h2 cells_value cv Hsub2 _ Hcv.
  pose proof (shared_represents_config_mono _ _ _ _ Hsub2 Hv1) as Hv2.
  pose proof (shared_iter_represented _ _ _ Hcv) as Hiter.
  destruct (Py.iter cells_value) as [cells|e].
  - destruct Hiter as (cs & Hcs & Hall).
    pose proof (shared_computes_scan cfg v cells cs h2 Enhanced.initial
                  Hv2 Hall) as Hscan.
    unfold Shared.computes, Shared.bind in *. by rewrite Hcs.
  - unfold Shared.computes, Shared.bind. by rewrite Hiter.
Qed.

(** ** The points *)

Lemma shared_stored_tally_eq cc cr scored total total_expected t :
  cc = Enhanced.completed_code t → cr = Enhanced.completed_raw t →
  scored = stored_score <$> Enhanced.scored t →
  total = Z.of_nat (Enhanced.total_points t) →
  total_expected = Z.of_nat (Enhanced.total_expected_points t) →
  Shared.Tally cc cr scored total total_expected = stored_tally t.
Proof. by intros -> -> -> -> ->. Qed.

Lemma shared_computes_ret_eq {A : Type} h (a b : A) :
  a = b → Shared.computes h (Shared.ret a) (Ok b).
Proof. intros ->. apply shared_computes_ret. Qed.

Lemma shared_object_of_mono h h' x o :
  h ⊆ h' → Shared.object_of h x = Some o → Shared.object_of h' x = Some o.
Proof.
  intros Hsub. destruct x; try done. cbn [Shared.object_of]. intros Hl.
  by eapply lookup_weaken.
Qed.

Lemma shared_computes_is_dict h x fs :
  Shared.object_of h x = Some (Shared.ODict fs) →
  Shared.computes h (Shared.is_dict x) (Ok true).
Proof. intros Hx. unfold Shared.computes, Shared.is_dict. by rewrite Hx. Qed.

Lemma shared_computes_is_dict_number h n :
  Shared.computes h (Shared.is_dict (Shared.VNum n)) (Ok false).
Proof. done. Qed.

Lemma shared_computes_contains_key h x fs k o :
  Shared.object_of h x = Some (Shared.ODict fs) →
  Py.assoc k fs = o →
  Shared.computes h (Shared.contains x k)
    (Ok (match o with Some _ => true | None => false end)).
Proof.
  intros Hx <-. unfold Shared.computes, Shared.contains.
  destruct x as [| | | |l]; try done. cbn [Shared.object_of] in Hx.
  rewrite Hx. cbn [fst snd]. split; [|done]. f_equal.
  destruct (Py.assoc k fs) as [y|] eqn:Hk.
  - apply bool_decide_eq_true_2. apply dec_stable. intros Hn%assoc_None.
    by rewrite Hn in Hk.
  - apply bool_decide_eq_false_2. by apply assoc_None.
Qed.

Lemma shared_computes_get_key h x fs k d o :
  Shared.object_of h x = Some (Shared.ODict fs) →
  Py.assoc k fs = o →
  Shared.computes h (Shared.get x k d) (Ok (default d o)).
Proof.
  intros Hx <-.
  unfold Shared.computes, Shared.get, Shared.bind, Shared.dict_method.
  by rewrite Hx.
Qed.

Lemma shared_computes_as_int h n :
  Shared.computes h (Shared.as_int (Shared.VNum n)) (Ok n).
Proof. done. Qed.

Lemma shared_computes_score_section h t section e x :
  Shared.represents_expected h e x = true →
  Shared.computes h (Shared.score_section (stored_tally t) section x)
    (Ok (stored_tally (Enhanced.score_section t (section, e)))).
Proof.
  unfold Shared.score_section.
  destruct e as [[code raw pts tag]|p]; cbn [Shared.represents_expected].
  - destruct (Shared.object_of h x) as [[fs|?]|] eqn:Hx; try done.
    rewrite !andb_true_iff, !bool_decide_eq_true.
    intros [[[Hcode Hraw] Hpts] _]. cbn [code_cells raw_cells points] in *.
    eapply shared_computes_bind_ok; [by eapply shared_computes_is_dict|].
    intros h1 Hsub1. cbv beta iota.
    pose proof (shared_object_of_mono _ _ _ _ Hsub1 Hx) as Hx1.
    eapply shared_computes_bind_ok;
      [by eapply shared_computes_contains_key|].
    intros h2 Hsub2.
    pose proof (shared_object_of_mono _ _ _ _ Hsub2 Hx1) as Hx2.
    destruct code as [c|]; cbn [fmap option_fmap option_map]; cbv beta iota.
    + eapply shared_computes_bind_ok; [by eapply shared_computes_get_key|].
      intros h3 Hsub3.
      pose proof (shared_object_of_mono _ _ _ _ Hsub3 Hx2) as Hx3.
      eapply shared_computes_bind_ok; [by eapply shared_computes_get_key|].
      intros h4 Hsub4. cbv zeta.
      cbn [default from_option id fmap option_fmap option_map
           Shared.count_value].
      eapply shared_computes_bind_ok; [apply shared_computes_as_int|].
      intros h5 Hsub5.
      assert (from_option id (Shared.VNum 0) (Shared.count_value <$> raw)
              = Shared.VNum (Z.of_nat (default 0 raw))) as ->
        by by destruct raw.
      eapply shared_computes_bind_ok; [apply shared_computes_as_int|].
      intros h6 Hsub6. apply shared_computes_ret_eq.
      cbn [Shared.completed_code Shared.completed_raw Shared.scored
           Shared.total_points Shared.total_expected_points stored_tally].
      unfold Enhanced.score_section. cbn [fst snd].
      apply shared_stored_tally_eq;
        cbn [Enhanced.completed_code Enhanced.completed_raw Enhanced.scored
             Enhanced.total_points Enhanced.total_expected_points];
        try done.
      * rewrite fmap_insert. cbn [stored_score].
        by rewrite !Nat2Z.inj_add, !Nat2Z.inj_min.
      * by rewrite !Nat2Z.inj_add, !Nat2Z.inj_min.
      * by rewrite !Nat2Z.inj_add.
    + cbv zeta.
      eapply shared_computes_bind_ok; [by eapply shared_computes_is_dict|].
      intros h3 Hsub3. cbv beta iota.
      pose proof (shared_object_of_mono _ _ _ _ Hsub3 Hx2) as Hx3.
      eapply shared_computes_bind_ok; [by eapply shared_computes_get_key|].
      intros h4 Hsub4.
      assert (default (Shared.VNum 0) (Shared.count_value <$> pts)
              = Shared.VNum (Z.of_nat (default 0 pts))) as ->
        by by destruct pts.
      eapply shared_computes_bind_ok; [apply shared_computes_as_int|].
      intros h5 Hsub5. apply shared_computes_ret_eq.
      cbn [Shared.completed_code Shared.completed_raw Shared.scored
           Shared.total_points Shared.total_expected_points stored_tally].
      unfold Enhanced.score_section. cbn [fst snd points_of points].
      apply shared_stored_tally_eq;
        cbn [Enhanced.completed_code Enhanced.completed_raw Enhanced.scored
             Enhanced.total_points Enhanced.total_expected_points];
        try done.
      * rewrite fmap_insert. cbn [stored_score].
        by rewrite !Nat2Z.inj_min.
      * by rewrite !Nat2Z.inj_add, !Nat2Z.inj_min.
      * by rewrite !Nat2Z.inj_add.
  - intros ->%bool_decide_eq_true. unfold Shared.count_value.
    eapply shared_computes_bind_ok; [apply shared_computes_is_dict_number|].
    intros h1 Hsub1. cbv beta iota.
    eapply shared_computes_bind_ok; [apply shared_computes_ret|].
    intros h2 Hsub2. cbv beta iota zeta.
    eapply shared_computes_bind_ok; [apply shared_computes_is_dict_number|].
    intros h3 Hsub3. cbv beta iota.
    eapply shared_computes_bind_ok; [apply shared_computes_ret|].
    intros h4 Hsub4.
    eapply shared_computes_bind_ok; [apply shared_computes_as_int|].
    intros h5 Hsub5. apply shared_computes_ret_eq.
    cbn [Shared.completed_code Shared.completed_raw Shared.scored
         Shared.total_points Shared.total_expected_points stored_tally].
    unfold Enhanced.score_section. cbn [fst snd points_of].
    apply shared_stored_tally_eq;
      cbn [Enhanced.completed_code Enhanced.completed_raw Enhanced.scored
           Enhanced.total_points Enhanced.total_expected_points];
      try done.
    + rewrite fmap_insert. cbn [stored_score].
      by rewrite !Nat2Z.inj_min.
    + by rewrite !Nat2Z.inj_add, !Nat2Z.inj_min.
    + by rewrite !Nat2Z.inj_add.
Qed.

Lemma shared_computes_score_sections entries fs :
  ∀ h t,
  Forall2 (Shared.entry_represented h) entries fs →
  Shared.computes h (Shared.score_sections fs (stored_tally t))
    (Ok (stored_tally (fold_left Enhanced.score_section entries t))).
Proof.
  revert fs. induction entries as [|[k e] entries IH]; intros fs h t Hfs.
  - apply Forall2_nil_inv_l in Hfs as ->. apply shared_computes_ret.
  - apply Forall2_cons_inv_l in Hfs as ([k' x] & fs' & [Hk He] & Hfs & ->).
    cbn in Hk, He. subst k'. cbn [Shared.score_sections fold_left].
    eapply shared_computes_bind_ok;
      [by apply shared_computes_score_section|].
    intros h1 Hsub1. apply IH.
    eapply Forall2_impl; [exact Hfs|]. intros ke kv [Hk He']. split; [done|].
    by eapply shared_represents_expected_mono.
Qed.

Lemma shared_computes_calculate_points h cfg v st :
  Shared.represents_config h cfg v = true →
  Shared.computes h (Shared.calculate_points v st)
    (Ok (stored_tally (Enhanced.calculate_points cfg st))).
Proof.
  intros (l & fs & ls & entries & -> & Hl & _ & Hsec & Hls & H)
           %shared_represents_config_spec.
  pose proof (shared_computes_score_sections (sections cfg) entries h
                (Enhanced.Tally (Enhanced.section_completed_code st)
                   (Enhanced.section_completed_raw st) ∅ 0 0) H) as Hs.
  unfold stored_tally at 1 in Hs.
  cbn [Enhanced.completed_code Enhanced.completed_raw Enhanced.scored
       Enhanced.total_points Enhanced.total_expected_points] in Hs.
  rewrite fmap_empty in Hs.
  unfold Shared.calculate_points, Shared.computes, Shared.bind,
    Shared.subscript, Shared.items, Shared.dict_method in *.
  cbn [Shared.object_of]. rewrite Hl, Hsec. cbn [Shared.object_of].
  by rewrite Hls.
Qed.

(** The function on the store returns or raises what the function on
    values does, for the document and the rubric its arguments stand for,
    and keeps every object of the store. *)
Lemma shared_computes_grade h cfg v notebook nv :
  Shared.represents_config h cfg v = true →
  Shared.represents h notebook nv = true →
  Shared.computes h (Shared.grade_notebook_enhanced nv v)
    (stored_outcome (grade_notebook_enhanced notebook cfg)).
Proof.
  intros Hv Hnb.
  destruct (shared_computes_run h cfg v notebook nv Hv Hnb) as [Hrun Hsub].
  unfold Shared.grade_notebook_enhanced, grade_notebook_enhanced,
    Shared.computes, Shared.bind.
  destruct (Shared.run nv v h) as [r h1]. cbn [fst snd] in Hrun, Hsub.
  subst r. destruct (Enhanced.run notebook cfg) as [st|e]; [|done].
  cbn [bind stored_outcome].
  pose proof (shared_represents_config_mono _ _ _ _ Hsub Hv) as Hv1.
  destruct (shared_computes_calculate_points h1 cfg v st Hv1) as [Hc Hsub1].
  destruct (Shared.calculate_points v st h1) as [r h2].
  cbn [fst snd] in Hc, Hsub1. subst r. unfold Shared.ret. cbn [fst snd].
  split; [done|by etrans].
Qed.

(** ** Loading a document *)

Lemma shared_load_all_spec {A B : Type} (f : A → Shared.heap → B * Shared.heap)
    (R : Shared.heap → A → B → Prop) (l : list A) :
  (∀ h h' a b, h ⊆ h' → R h a b → R h' a b) →
  Forall (λ a, ∀ h, h ⊆ (f a h).2 ∧ R (f a h).2 a (f a h).1) l →
  ∀ h, h ⊆ (Shared.load_all f l h).2
       ∧ Forall2 (R (Shared.load_all f l h).2) l (Shared.load_all f l h).1.
Proof.
  intros Hmono. induction 1 as [|a l Ha _ IH]; intros h.
  - split; [done|constructor].
  - cbn [Shared.load_all]. destruct (Ha h) as [Hsub1 HR1].
    destruct (f a h) as [b h1]. cbn [fst snd] in *.
    destruct (IH h1) as [Hsub2 HR2].
    destruct (Shared.load_all f l h1) as [bs h2]. cbn [fst snd] in *.
    split; [by etrans|]. constructor; [by eapply Hmono|done].
Qed.

(** Every document can be held: what [json.load] builds stands for the
    document, and building it keeps the objects that were there. *)
Lemma shared_load_represents j :
  ∀ h, h ⊆ (Shared.load j h).2
       ∧ Shared.represents (Shared.load j h).2 j (Shared.load j h).1 = true.
Proof.
  induction j as [|b|n|s|elements IH|fields IH] using json_nested_ind;
    intros h; cbn [Shared.load].
  - done.
  - split; [done|]. by apply bool_decide_eq_true.
  - split; [done|]. by apply bool_decide_eq_true.
  - split; [done|]. by apply bool_decide_eq_true.
  - destruct (shared_load_all_spec Shared.load
                (λ h j x, Shared.represents h j x = true) elements) with h
      as [Hsub Hall]; [|exact IH|].
    { intros ? ? ? ? ?. by apply shared_represents_mono. }
    destruct (Shared.load_all Shared.load elements h) as [vs h1].
    cbn [fst snd] in *.
    assert (h1 ⊆ <[fresh (dom h1) := Shared.OList vs]> h1) as Hnew
      by apply insert_subseteq, not_elem_of_dom, is_fresh.
    split; [by etrans|]. apply shared_represents_arr.
    exists (fresh (dom h1)), vs. split; [done|].
    split; [apply lookup_insert_eq|].
    eapply Forall2_impl; [exact Hall|]. intros j x.
    by apply shared_represents_mono.
  - destruct (shared_load_all_spec
                (λ '(k, j') h,
                   let '(v, h1) := Shared.load j' h in ((k, v), h1))
                Shared.field_represented fields) with h
      as [Hsub Hall].
    { intros h0 h' kj kv Hs [Hk Hr]. split; [done|].
      by eapply shared_represents_mono. }
    { eapply Forall_impl; [exact IH|]. intros [k j] Hj h0. cbn [snd] in Hj.
      destruct (Hj h0) as [Hs Hr]. destruct (Shared.load j h0) as [v h1].
      by split. }
    destruct (Shared.load_all _ fields h) as [fs h1]. cbn [fst snd] in *.
    assert (h1 ⊆ <[fresh (dom h1) := Shared.ODict fs]> h1) as Hnew
      by apply insert_subseteq, not_elem_of_dom, is_fresh.
    split; [by etrans|]. apply shared_represents_obj.
    exists (fresh (dom h1)), fs. split; [done|].
    split; [apply lookup_insert_eq|].
    eapply Forall2_impl; [exact Hall|]. intros kj kv [Hk Hr].
    split; [done|]. by eapply shared_represents_mono.
Qed.

Lemma shared_build_expected_represents e :
  ∀ h, h ⊆ (Shared.build_expected e h).2
       ∧ Shared.represents_expected (Shared.build_expected e h).2 e
           (Shared.build_expected e h).1 = true.
Proof.
  intros h. destruct e as [[code raw pts tag]|p]; cbn [Shared.build_expected].
  - cbn [fst snd]. split.
    { apply insert_subseteq, not_elem_of_dom, is_fresh. }
    cbn [Shared.represents_expected Shared.object_of].
    match goal with
    | |- context [<[?l := ?o]> ?m !! ?l] =>
        assert (<[l := o]> m !! l = Some o) as -> by apply lookup_insert_eq
    end.
    unfold Shared.descriptor_fields.
    cbn [code_cells raw_cells points special].
    rewrite !andb_true_iff, !bool_decide_eq_true.
    by destruct code, raw, pts, tag.
  - cbn [fst snd]. split; [done|]. by apply bool_decide_eq_true.
Qed.

(** Every rubric can be held as well. *)
Lemma shared_build_config_represents cfg :
  ∀ h, h ⊆ (Shared.build_config cfg h).2
       ∧ Shared.represents_config (Shared.build_config cfg h).2 cfg
           (Shared.build_config cfg h).1 = true.
Proof.
  intros h. unfold Shared.build_config.
  destruct (shared_load_all_spec
              (λ '(k, e) h,
                 let '(v, h1) := Shared.build_expected e h in ((k, v), h1))
              Shared.entry_represented (sections cfg)) with h
    as [Hsub Hall].
  { intros h0 h' ke kv Hs [Hk Hr]. split; [done|].
    by eapply shared_represents_expected_mono. }
  { apply Forall_forall. intros [k e] _ h0.
    destruct (shared_build_expected_represents e h0) as [Hs Hr].
    destruct (Shared.build_expected e h0) as [v h1]. by split. }
  destruct (Shared.load_all _ (sections cfg) h) as [entries h1].
  cbn [fst snd] in *.
  set (ls := fresh (dom h1)).
  set (h2 := <[ls := Shared.ODict entries]> h1).
  set (l := fresh (dom h2)).
  assert (h1 ⊆ h2) as Hsub2
    by apply insert_subseteq, not_elem_of_dom, is_fresh.
  assert (h2 ⊆ <[l := Shared.ODict
                         (option_list
                            ((λ a, ("asset_id", Shared.VStr a))
                               <$> asset_id cfg)
                          ++ [("sections", Shared.VRef ls)])]> h2) as Hsub3
    by apply insert_subseteq, not_elem_of_dom, is_fresh.
  split; [by do 2 (etrans; [eassumption|])|].
  apply shared_represents_config_spec.
  eexists l, _, ls, entries. split; [done|].
  split; [apply lookup_insert_eq|]. split; [by destruct (asset_id cfg)|].
  split; [by destruct (asset_id cfg)|]. split.
  - eapply lookup_weaken; [|exact Hsub3]. apply lookup_insert_eq.
  - eapply Forall2_impl; [exact Hall|]. intros ke kv [Hk Hr].
    split; [done|]. eapply shared_represents_expected_mono; [|exact Hr].
    by etrans.
Qed.

(** Every document and every rubric have references that stand for them,
    next to whatever a store holds. *)
Lemma shared_every_pair_is_held (document : json) (cfg : expected_config)
    (h : Shared.heap) :
  let loaded := Shared.load document h in
  let built := Shared.build_config cfg loaded.2 in
  h ⊆ built.2
  ∧ Shared.represents built.2 document loaded.1 = true
  ∧ Shared.represents_config built.2 cfg built.1 = true.
Proof.
  intros loaded built.
  destruct (shared_load_represents document h) as [Hsub1 Hdoc].
  destruct (shared_build_config_represents cfg loaded.2) as [Hsub2 Hcfg].
  split; [by etrans|]. split; [|done]. by eapply shared_represents_mono.
Qed.

(** ** A statement that writes *)

(** The store can be written to, and a computation that does so does not
    keep its objects: preservation is a property of the grader, not of the
    computations. *)
Lemma shared_setitem_not_preserved :
  ¬ Shared.preserves
      (Shared.setitem StoredSample.rubric "asset_id" Shared.VNone).
Proof.
  intros H. specialize (H StoredSample.rubric_store).
  assert (StoredSample.rubric_store !! 0
          = Some (Shared.ODict [("sections", Shared.VRef 1)])) as Hl
    by (vm_compute; reflexivity).
  pose proof (lookup_weaken _ _ _ _ Hl H) as H0.
  vm_compute in H0. discriminate H0.
Qed.

(** A write to an object the computation has created itself keeps what
    was there before: this is what the dicts and lists of the grader's
    frame are. *)
Lemma shared_write_to_new_object_preserved o k x :
  Shared.preserves
    (Shared.bind (Shared.new o) (λ v, Shared.setitem v k x)).
Proof.
  intros h. unfold Shared.bind, Shared.new, Shared.setitem.
  assert (h !! fresh (dom h) = None) as Hfresh
    by apply not_elem_of_dom, is_fresh.
  match goal with
  | |- context [<[?l := ?o]> ?m !! ?l] =>
      assert (<[l := o]> m !! l = Some o) as -> by apply lookup_insert_eq
  end.
  destruct o as [fields|items]; cbn [snd].
  - match goal with
    | |- _ ⊆ <[?l := ?a]> (<[?l := ?b]> ?m) =>
        assert (<[l := a]> (<[l := b]> m) = <[l := a]> m) as ->
          by apply insert_insert_eq
    end.
    by apply insert_subseteq.
  - by apply insert_subseteq.
Qed.

(** ** Two gradings in a row *)

(** C7.  Grading is a function of the document and the rubric.
    [Shared.grade_notebook_enhanced] is the default grader run on a store
    of objects: its two arguments are references, and [h] holds whatever
    objects exist when it is called.  Let the arguments stand in [h] for
    the document [document] and the rubric [cfg].  Then
    - the call returns or raises what [grade_notebook_enhanced document
      cfg] does;
    - a second call on the same two references, started in the store the
      first one leaves behind, returns or raises the same;
    - every object of [h] is in the store after the first call, and every
      object of that store in the one after the second, each with the
      content it had, so that the two references still stand for the same
      document and rubric;
    - a call in any other store, on any other references that stand for
      the same document and rubric, returns or raises the same: nothing
      else the store holds is read.
    Last, whatever the arguments are, a call keeps every object of the
    store it starts in.  Every document and every rubric have references
    that stand for them ([shared_every_pair_is_held]). *)
Theorem grading_is_repeatable (h : Shared.heap)
    (notebook rubric : Shared.value) (document : json)
    (cfg : expected_config) :
  Shared.represents h document notebook = true →
  Shared.represents_config h cfg rubric = true →
  let first := Shared.grade_notebook_enhanced notebook rubric h in
  let second := Shared.grade_notebook_enhanced notebook rubric first.2 in
  first.1 = stored_outcome (grade_notebook_enhanced document cfg)
  ∧ second.1 = first.1
  ∧ h ⊆ first.2 ∧ first.2 ⊆ second.2
  ∧ Shared.represents second.2 document notebook = true
  ∧ Shared.represents_config second.2 cfg rubric = true
  ∧ (∀ h' notebook' rubric',
       Shared.represents h' document notebook' = true →
       Shared.represents_config h' cfg rubric' = true →
       (Shared.grade_notebook_enhanced notebook' rubric' h').1 = first.1)
  ∧ (∀ h' notebook' rubric',
       h' ⊆ (Shared.grade_notebook_enhanced notebook' rubric' h').2).
Proof.
  intros Hnb Hcfg first second.
  destruct (shared_computes_grade h cfg rubric document notebook Hcfg Hnb)
    as [H1 Hsub1].
  fold first in H1, Hsub1.
  pose proof (shared_represents_mono _ _ Hsub1 _ _ Hnb) as Hnb1.
  pose proof (shared_represents_config_mono _ _ _ _ Hsub1 Hcfg) as Hcfg1.
  destruct (shared_computes_grade first.2 cfg rubric document notebook
              Hcfg1 Hnb1) as [H2 Hsub2].
  fold second in H2, Hsub2.
  split; [done|]. split; [by rewrite H1, H2|]. split; [done|].
  split; [done|]. split; [by eapply shared_represents_mono|].
  split; [by eapply shared_represents_config_mono|]. split.
  - intros h' notebook' rubric' Hnb' Hcfg'. rewrite H1.
    by apply shared_computes_grade.
  - intros h' notebook' rubric'. apply shared_preserves_grade.
Qed.

Lemma grading_is_repeatable_witness :
  let first :=
    Shared.grade_notebook_enhanced StoredSample.notebook StoredSample.rubric
      StoredSample.store in
  let second :=
    Shared.grade_notebook_enhanced StoredSample.notebook StoredSample.rubric
      first.2 in
  first.1 = Ok (Shared.Results {["1." := Shared.Split 1 1 2 2 1 3]} 2
                  {["1." := ([2], [])]})
  ∧ second.1 = first.1
  ∧ StoredSample.store ⊆ second.2.
Proof.
  intros first second.
  destruct (grading_is_repeatable StoredSample.store StoredSample.notebook
              StoredSample.rubric Sample.scenario_notebook
              Sample.scenario_rubric)
    as (H1 & H2 & Hsub1 & Hsub2 & _).
  - vm_compute. reflexivity.
  - vm_compute. reflexivity.
  - fold first in H1, H2, Hsub1, Hsub2. fold second in H2, Hsub2.
    split; [|split; [done|by etrans]].
    rewrite H1. vm_compute. reflexivity.
Defined.
